(* ===== verification/_CoqProject ===== *)
-Q . S2P
Prelude.v
Prog.v
GoStrings.v
K8s.v
Effects.v
Utils.v
ApiServer.v
SpecSync.v
SecretSync.v
StatusHistory.v
StatusEvents.v
StatusSync.v
TemplateObjects.v
TemplateActions.v
TemplateSync.v
TemplatePanics.v
TemplatePending.v
TemplateFinalizer.v
GatekeeperSync.v
Uninstall.v
Options.v
Managers.v
HealthProxy.v
EventCache.v
Startup.v
StartupPlan.v
System.v
