(* ===== verification/Prelude.v ===== *)
(** * Verification of the governance policy framework addon

    The addon runs on a managed cluster of Open Cluster Management.  Its controllers are Go
    functions that Kubernetes calls, again and again, with the name of an object:

    - spec-sync ([controllers/specsync]) copies policies from the hub to the managed cluster;
    - secret-sync ([controllers/secretsync]) copies the key the policies are encrypted with;
    - template-sync ([controllers/templatesync]) turns the templates in a policy into objects on the
      managed cluster, in the order the dependencies ask for, and cleans up after them;
    - status-sync ([controllers/statussync]) collects compliance events into the status of a policy
      and copies the status to the hub;
    - gatekeeper-sync ([controllers/gatekeepersync]) relays the audit results of Gatekeeper
      constraints as compliance events;
    - the uninstall watcher ([controllers/uninstall]) sets a flag that makes the others stand still,
      and the uninstall command deletes all policies.

    They meet in the policies themselves, in the events one sends and another reads, in two channels
    (spec-sync asks status-sync for a look and the other way round), and in the uninstall flag.

    ** How the program is modelled

    A Go function without calls is a Rocq function.  A function that calls a server, a watcher, a
    channel, a counter, the clock or a shared variable is a program of [Prog]: a tree whose nodes are
    the calls, in the order of the source, and whose branches are what the code does with each
    answer.  [Panic] is a run-time panic; [defer] runs on return and on panic.  [Effects] lists the
    calls.  A program is run in an environment, a function from its state and a call to a new state
    and an answer.  There are three kinds of theorems:

    - for every environment, so for servers that fail, lag or are changed by others at any time:
      those about the calls that are made ([template_sync_calls], [template_sync_updates_owned],
      [cleanup_deletes_exactly_excess], [emit_event_exact], [gatekeeper_sync_calls],
      [status_sync_query_batch], [startup_follows_plan]); [template_sync_no_panic] assumes of the
      environment only that a field that is never reset stays set.  [wp], [all_ops] and [causal]
      speak about all answers;
    - for every environment with the properties of a class, where the effect on a server matters:
      [PolicyServer] and [SecretServer] in [ApiServer], [MessageCache] in [GatekeeperSync],
      [UninstallFlag] and [Deadline] in [Uninstall].  Each class has an instance, which the concrete
      runs use;
    - for every function [f] from calls to answers, so for servers that answer the same call always
      the same ([const_env f], or [eval f] for the result): [pending_blocks_sync],
      [process_dependencies_exact], [finalizer_removed_after_cleanup], [finalizer_cleanup_exact],
      [finalizer_follows_objects], [gatekeeper_report_exact] (where the remembered messages do
      change), [spec_sync_update_error_swallowed] and [pending_report_error_lost], which say what is
      done with given answers.

    Library code is a parameter: a class of operations ([UnstructuredLib], [DecodeLib], [TimeLib],
    [OwnerLib], [SchemeLib], [FmtLib], [GatekeeperLib], [MapRange]) with its documented behaviour in
    a second class ([...Laws]), and a reference implementation for the concrete runs.

    What runs side by side is a transition system: the Gatekeeper manager with its goroutines in
    [Managers], the health proxy in [HealthProxy], and in [System] the reconciles of all controllers,
    whose calls are interleaved in any order on one world, next to other parties.  The start of the
    process is a program over calls of its own, in [Startup].

    Go slices that are shared and changed in place are modelled where it matters: in status-sync,
    the details of a policy and the events by template are cells of a store.  Times are nanoseconds
    in Z and the numbers parsed from event names wrap at 64 bits.

    ** The files

    - [Prelude]: notations, tactics, hints and lemmas on lists, options and integers.
    - [Prog]: programs, their runs and traces, loops, and the rules to reason about them.
    - [GoStrings]: the functions of [strings] and [fmt] the code uses, with their specifications.
    - [K8s]: the Kubernetes data, errors, JSON values and the classes of library functions.
    - [Effects]: the calls and their answers.
    - [Utils]: [utils/utils.go] and [utils/events.go].
    - [ApiServer]: what an API server promises; a server that keeps it.
    - [SpecSync], [SecretSync]: [policy_spec_sync.go] and [secret_sync.go].
    - [StatusHistory], [StatusEvents], [StatusSync]: [policy_status_sync.go]: merging of histories;
      reading compliance events; the handler, with [eventMapper.go] and [eventPredicate.go].
    - [TemplateObjects], [TemplateActions], [TemplateSync]: [template_sync.go]: the functions on
      objects, with [predicate.go] and [template_utils.go]; the methods that call the cluster; the
      handler, and which calls it makes.
    - [TemplatePanics], [TemplatePending], [TemplateFinalizer]: more about that handler: where it
      could panic, what it does with a template whose dependencies are not met, and when the cleanup
      finalizer is added and removed.
    - [GatekeeperSync]: [gatekeeper_constraint_sync.go] and [policy_predicate.go].
    - [Uninstall]: the handler of [watcher.go], and [triggeruninstall.go].
    - [Options]: [tool/options.go] and [tool/operator-sdk-port.go].
    - [Managers]: of [main.go], the loop around the Gatekeeper manager, a transition system with its
      goroutines, contexts and wait group.
    - [HealthProxy]: of [main.go], the health endpoints, and, as a transition system, the server
      with the goroutine that shuts it down, the wait group, and all that add to it: the goroutines
      [main] starts and those of the loop around the Gatekeeper manager.
    - [EventCache]: of [main.go], what the cache keeps of events, and the key of the spam filter.
    - [Startup]: of [main.go], [main] with everything it sets up, [addControllers] and
      [runGatekeeperSyncManager]; [SetupWithManager] of every controller, [StartWatcher] of
      [watcher.go] and the counters of [template_metric.go].
    - [StartupPlan]: the plan a start is held to, and the theorems about [Startup].
    - [System]: the controllers together.

    Each [Reconcile] is the whole handler of the file it is named after.  A long handler is cut into
    definitions at its early returns, loop bodies and branches; their arguments are the variables in
    scope there.  Log lines are left out.

    ** What is proved

    - Synchronisation.  [spec_sync_converges] and [secret_sync_converges]: a reconcile without an
      error leaves the copy in line with the hub (but for an update of a policy whose failure is
      swallowed); an object with finalizers that is deleted stays, marked for deletion, and is
      updated like others.  [status_sync_converges]: the statuses on both
      clusters agree and have one entry per template.  [spec_sync_stable]: a copy in line with the
      hub is left alone.  [status_sync_defers_to_spec_sync]: copies that differ are not touched.
    - Confinement.  [spec_sync_calls], [secret_sync_calls], [template_sync_calls],
      [template_sync_updates_owned], [gatekeeper_sync_calls], [status_sync_query_batch]: whatever is
      answered, a controller writes only what is its own, and ends the query batches it starts; for
      template-sync every write is justified by the calls and answers before it.
    - Templates.  [pending_blocks_sync], [process_dependencies_exact]: unmet dependencies are found
      exactly and block a template.  [cleanup_deletes_exactly_excess], [finalizer_cleanup_exact],
      [finalizer_removed_after_cleanup], [finalizer_follows_objects]: what is deleted, when the
      finalizer may go, and for which objects it is there.  [template_sync_no_panic].  The functions on objects:
      [template_update_settles], [override_remediation_exact], [remove_finalizer_exact],
      [dup_name_exact], [pending_msg_order_independent], [template_predicate_exact].
    - Events and histories.  [merge_history_sound], [merge_newest_decides], [merge_idempotent]: the
      history is bounded and sorted, its newest event decides, and it is stable when the recorded
      names are distinct and carry their timestamps.  [sent_event_is_found],
      [event_reason_roundtrip]: what is sent is read back.  [emit_event_exact],
      [reported_event_not_repeated], [gatekeeper_report_exact], [gatekeeper_report_once],
      [gatekeeper_violations_text], [gatekeeper_cache_current]: when an event is sent, what it says,
      and that it is not repeated.  [overall_compliance_spec].
    - The controllers together.  [system_statuses_typed]: in every interleaving the statuses stay
      well formed and the handlers that rely on it do not panic, by induction over the steps;
      [system_keeps_hub]: no step changes the hub but for statuses; [sync_round_settles] and
      [settled_rests]: spec-sync and status-sync bring the clusters together and then rest.
      [event_cache_faithful]: status-sync sees through the cache what it would see on the server.
    - Uninstall.  [uninstall_watcher_stops_controllers], [trigger_uninstall_complete],
      [start_watcher_watches_self].
    - The process.  [startup_follows_plan]: what is set up, in which order and with which settings,
      whatever the calls of the start answer; [plan_managers_apart]; [metric_init_panics].
      [gatekeeper_health_restored]: the lock, the health address and the watcher of the Gatekeeper
      manager are given back.  [health_proxy_waits]: the process waits for the server and
      the goroutines counted so far.  [gatekeeper_manager_follows_installation], by induction over
      the steps: one goroutine at most has an open context, exactly while the Gatekeeper manager
      should run; a cancelled one may still be in a run that has not returned.
      [gatekeeper_manager_drains]: the goroutines end with the process.  [options_sound],
      [health_ok_iff].
    - Deviations.  [spec_sync_update_error_swallowed] and [pending_report_error_lost]: two errors
      that are lost.  [gatekeeper_manager_may_spin]: a loop that may outlive its context.
      [health_proxy_failure_unbalanced]: a wait group that is told twice.
      [gatekeeper_added_after_wait]: a goroutine the process does not wait for.
      [gatekeeper_managers_may_overlap]: two goroutines inside the Gatekeeper manager at a time.
      [finalizer_removed_after_cleanup] and [finalizer_follows_objects] say where the finalizer
      stays for ever, and where it goes although an object is left.

    ** Bounds

    All definitions are total.  Loops over slices are structural.  The loop of [removeFinalizer] has
    the length of the slice as fuel, and is shown to end within it.  The two loops of the uninstall
    command are bounded by the deadline of their context only: they take fuel, and with more fuel
    than the context has checks left they are shown to give a result.  The limit of ten entries of a
    history is the code's.

    ** What is not modelled

    Logging, the parsers of the command line, and the registration of API types with the schemes
    ([scheme-init.go]).  controller-runtime, client-go and the dynamic watchers are calls with any
    answers: which requests a watch leads to, and when, is not modelled, and [System] lets every
    reconcile start at any time. The goroutines that no wait group counts are not part of
    [HealthProxy]: the lease updater, the loop around the Gatekeeper manager itself, and the
    watchers; the process does not wait for them. The configuration a manager returns ([GetConfig])
    is taken to be the one it was created with. JSON numbers are integers or opaque decimal
    literals.  Not shown are the convergence of template-sync on a server of objects, and the rounds
    of template-sync and status-sync that meet in the events. *)

From stdpp Require Export base gmap list strings sorting pretty.
From Stdlib Require Export ZArith.
From Stdlib Require Import Ascii.

Declare Scope addon_scope.
Delimit Scope addon_scope with addon.
Open Scope addon_scope.

(** Equality tests of the source ([==] and [!=] on comparable Go values). *)
Notation "x '==?' y" := (bool_decide (x = y)) (at level 70, no associativity) : addon_scope.
Notation "x '!=?' y" := (negb (bool_decide (x = y))) (at level 70, no associativity) : addon_scope.

Create HintDb addon.
Create Rewrite HintDb addon.

(** * Tactics of the development *)

(** Turn the boolean tests of a hypothesis or of the goal into propositions. *)
Ltac breflect :=
  repeat match goal with
  | H : bool_decide _ = true |- _ => apply bool_decide_eq_true in H
  | H : bool_decide _ = false |- _ => apply bool_decide_eq_false in H
  | H : negb _ = true |- _ => apply negb_true_iff in H
  | H : negb _ = false |- _ => apply negb_false_iff in H
  | H : (_ && _)%bool = true |- _ => apply andb_true_iff in H; destruct H
  | H : (_ || _)%bool = false |- _ => apply orb_false_iff in H; destruct H
  end.

(** Case analysis on every test of the goal, followed by clean up. *)
Ltac case_tests := repeat (case_match; simplify_eq/=).

(** * Booleans *)

Lemma bool_decide_refl {A} `{EqDecision A} (x : A) : (x ==? x) = true.
Proof. by apply bool_decide_eq_true. Qed.

Lemma bool_decide_sym {A} `{EqDecision A} (x y : A) : (x ==? y) = (y ==? x).
Proof. by apply bool_decide_ext. Qed.

#[export] Hint Rewrite @bool_decide_refl : addon.

(** * Lists *)

(** The first element of a list that satisfies a boolean test. *)
Fixpoint find_first {A} (f : A → bool) (l : list A) : option A :=
  match l with
  | [] => None
  | x :: l' => if f x then Some x else find_first f l'
  end.

Lemma find_first_Some {A} (f : A → bool) l x :
  find_first f l = Some x ↔
  ∃ l1 l2, l = l1 ++ x :: l2 ∧ f x = true ∧ Forall (λ y, f y = false) l1.
Proof.
  split.
  - induction l as [|y l IH]; simpl; [done|].
    destruct (f y) eqn:E; intros; simplify_eq.
    + exists [], l. eauto using Forall_nil_2.
    + destruct IH as (l1 & l2 & -> & ? & ?); [done|].
      exists (y :: l1), l2. eauto using Forall_cons_2.
  - intros (l1 & l2 & -> & Hx & Hl1). induction Hl1 as [|y l1 Hy _ IH]; simpl.
    + by rewrite Hx.
    + by rewrite Hy.
Qed.

Lemma find_first_None {A} (f : A → bool) l :
  find_first f l = None ↔ Forall (λ y, f y = false) l.
Proof.
  split.
  - induction l as [|y l IH]; simpl; [by constructor|].
    destruct (f y) eqn:E; [done|]. eauto using Forall_cons_2.
  - induction 1 as [|y l Hy _ IH]; simpl; [done|]. by rewrite Hy.
Qed.

Lemma find_first_elem {A} (f : A → bool) l x :
  find_first f l = Some x → x ∈ l ∧ f x = true.
Proof.
  rewrite find_first_Some. intros (l1 & l2 & -> & ? & _). set_solver.
Qed.

(** A slice with the index of each element. *)
Definition enumerate {A} (l : list A) : list (nat * A) := imap (λ i x, (i, x)) l.

Lemma enumerate_lookup {A} (l : list A) x : x ∈ enumerate l → l !! x.1 = Some x.2.
Proof.
  intros [k Hk]%list_elem_of_lookup. unfold enumerate in Hk. rewrite list_lookup_imap in Hk.
  destruct (l !! k) as [y|] eqn:E; simplify_eq/=. done.
Qed.

(** [existsb] as membership. *)
Lemma existsb_elem {A} (f : A → bool) l :
  existsb f l = true ↔ ∃ x, x ∈ l ∧ f x = true.
Proof.
  rewrite existsb_exists. split; intros (x & ? & ?); exists x;
    rewrite list_elem_of_In in *; eauto.
Qed.

Lemma existsb_false {A} (f : A → bool) l :
  existsb f l = false ↔ Forall (λ x, f x = false) l.
Proof.
  induction l as [|x l IH]; simpl.
  - split; [constructor|done].
  - rewrite orb_false_iff, IH, Forall_cons. done.
Qed.

Lemma filter_all {A} (P : A → Prop) `{!∀ x, Decision (P x)} l : Forall P l → filter P l = l.
Proof.
  induction 1 as [|x l Hx _ IH]; [done|]. by rewrite filter_cons_True, IH.
Qed.

(** * Machine integers *)

(** Signed 64-bit wrap-around. *)
Definition int64_min : Z := - 2 ^ 63.
Definition int64_max : Z := 2 ^ 63 - 1.
Definition wrap64 (z : Z) : Z := (z + 2 ^ 63) `mod` 2 ^ 64 - 2 ^ 63.
Definition in_int64 (z : Z) : Prop := (int64_min ≤ z ≤ int64_max)%Z.

Lemma wrap64_id z : in_int64 z → wrap64 z = z.
Proof.
  unfold in_int64, int64_min, int64_max, wrap64. intros H.
  rewrite Z.mod_small; lia.
Qed.

Lemma wrap64_range z : in_int64 (wrap64 z).
Proof.
  unfold in_int64, int64_min, int64_max, wrap64.
  pose proof (Z.mod_pos_bound (z + 2 ^ 63) (2 ^ 64)). lia.
Qed.
