(* ===== verification/Prog.v ===== *)
(** * Programs that call an environment

    The controllers are sequential Go functions that talk to API servers, watchers, channels,
    counters and shared variables.  Such a function is modelled as a tree: a node names one call,
    a branch is what the code does with one possible answer.  The calls and their answer types are
    parameters here; [Effects] fixes them.  An environment is any state machine that answers calls
    ([handler]); [run] executes a program against one and records the trace of calls and answers. *)

From S2P Require Import Prelude.

Section prog.
Context {Op : Type} {Ans : Op → Type}.

(** The programs.  [Panic] is a run-time panic of Go. *)
Inductive prog (A : Type) : Type :=
| Ret (a : A)
| Panic
| Do (o : Op) (k : Ans o → prog A).

Arguments Ret {A} a.
Arguments Panic {A}.
Arguments Do {A} o k.

Inductive outcome (A : Type) : Type :=
| Returned (a : A)
| Panicked.

Arguments Returned {A} a.
Arguments Panicked {A}.

Definition event : Type := { o : Op & Ans o }.
Definition ev (o : Op) (x : Ans o) : event := existT o x.
Definition ops (t : list event) : list Op := map (λ e, projT1 e) t.

Lemma ops_app t1 t2 : ops (t1 ++ t2) = ops t1 ++ ops t2.
Proof. apply map_app. Qed.

Fixpoint bind {A B} (p : prog A) (k : A → prog B) : prog B :=
  match p with
  | Ret a => k a
  | Panic => Panic
  | Do o k' => Do o (λ x, bind (k' x) k)
  end.

Definition call (o : Op) : prog (Ans o) := Do o Ret.

(** [defer d] before [p]: [d] runs when [p] returns and when it panics. *)
Fixpoint defer {A} (p : prog A) (d : prog unit) : prog A :=
  match p with
  | Ret a => bind d (λ _, Ret a)
  | Panic => bind d (λ _, Panic)
  | Do o k => Do o (λ x, defer (k x) d)
  end.

(** An environment with states [W]. *)
Definition handler (W : Type) : Type := W → ∀ o : Op, W * Ans o.

Fixpoint run {W A} (h : handler W) (w : W) (p : prog A) : W * list event * outcome A :=
  match p with
  | Ret a => (w, [], Returned a)
  | Panic => (w, [], Panicked)
  | Do o k =>
      let '(w1, x) := h w o in
      let '(w2, t, r) := run h w1 (k x) in
      (w2, ev o x :: t, r)
  end.

Definition state_of {W A} (r : W * list event * outcome A) : W := r.1.1.
Definition trace_of {W A} (r : W * list event * outcome A) : list event := r.1.2.
Definition result_of {W A} (r : W * list event * outcome A) : outcome A := r.2.

(** ** What holds for every answer of the environment *)

Fixpoint wp {A} (p : prog A) (Q : list event → outcome A → Prop) : Prop :=
  match p with
  | Ret a => Q [] (Returned a)
  | Panic => Q [] Panicked
  | Do o k => ∀ x, wp (k x) (λ t r, Q (ev o x :: t) r)
  end.

(** Every call of the program, whatever was answered before it, satisfies [P]. *)
Fixpoint all_ops {A} (P : Op → Prop) (p : prog A) : Prop :=
  match p with
  | Ret _ | Panic => True
  | Do o k => P o ∧ ∀ x, all_ops P (k x)
  end.

Lemma wp_run {W A} (h : handler W) w (p : prog A) Q :
  wp p Q → Q (trace_of (run h w p)) (result_of (run h w p)).
Proof.
  revert w Q. induction p as [a| |o k IH]; intros w Q; simpl; [done..|].
  intros Hk. destruct (h w o) as [w1 x]. specialize (IH x w1 _ (Hk x)).
  by destruct (run h w1 (k x)) as [[w2 t] r].
Qed.

Lemma wp_mono {A} (p : prog A) (Q Q' : list event → outcome A → Prop) :
  wp p Q → (∀ t r, Q t r → Q' t r) → wp p Q'.
Proof.
  revert Q Q'. induction p as [a| |o k IH]; simpl; intros Q Q' Hp HQ; eauto.
Qed.

Lemma wp_true {A} (p : prog A) : wp p (λ _ _, True).
Proof. induction p as [a| |o k IH]; simpl; auto. Qed.

Lemma wp_bind {A B} (p : prog A) (k : A → prog B) Q :
  wp (bind p k) Q ↔
  wp p (λ t r, match r with
               | Returned a => wp (k a) (λ t' r', Q (t ++ t') r')
               | Panicked => Q t Panicked
               end).
Proof.
  revert Q. induction p as [a| |o k' IH]; intros Q; simpl; [done..|].
  split; intros H x; apply (IH x (λ t r, Q (ev o x :: t) r)), H.
Qed.

Lemma bind_ret {A} (p : prog A) (Q : list event → outcome A → Prop) :
  wp (bind p Ret) Q ↔ wp p Q.
Proof.
  rewrite wp_bind. split; intros H; (eapply wp_mono; [exact H|]); intros t [a|];
    simpl; by rewrite ?app_nil_r.
Qed.

Lemma all_ops_wp {A} (P : Op → Prop) (p : prog A) :
  all_ops P p → wp p (λ t _, Forall P (ops t)).
Proof.
  induction p as [a| |o k IH]; simpl; [constructor..|].
  intros [Ho Hk] x. eapply wp_mono; [by apply IH|]. intros t r Ht. by constructor.
Qed.

Lemma all_ops_bind {A B} (P : Op → Prop) (p : prog A) (k : A → prog B) :
  all_ops P p → (∀ a, all_ops P (k a)) → all_ops P (bind p k).
Proof.
  induction p as [a| |o k' IH]; simpl; [by eauto..|].
  intros [Ho Hk'] Hk. split; [done|]. eauto.
Qed.

Lemma all_ops_call (P : Op → Prop) o : P o → all_ops P (call o).
Proof. by intros Ho. Qed.

Lemma all_ops_run {W A} (h : handler W) w (p : prog A) (P : Op → Prop) :
  all_ops P p → Forall P (ops (trace_of (run h w p))).
Proof. intros Hp. exact (wp_run h w p _ (all_ops_wp P p Hp)). Qed.

Lemma all_ops_mono {A} (P P' : Op → Prop) (p : prog A) :
  all_ops P p → (∀ o, P o → P' o) → all_ops P' p.
Proof. intros Hp HP. revert Hp. induction p as [a| |o k IH]; simpl; [done..|]. intros [? ?]; auto. Qed.

Lemma run_bind {W A B} (h : handler W) w (p : prog A) (k : A → prog B) :
  run h w (bind p k) =
  let '(w1, t1, r1) := run h w p in
  match r1 with
  | Returned a => let '(w2, t2, r2) := run h w1 (k a) in (w2, t1 ++ t2, r2)
  | Panicked => (w1, t1, Panicked)
  end.
Proof.
  revert w. induction p as [a| |o k' IH]; intros w; simpl.
  - by destruct (run h w (k a)) as [[??]?].
  - done.
  - destruct (h w o) as [w1 x]. rewrite IH.
    destruct (run h w1 (k' x)) as [[w2 t2] [a|]]; [|done].
    by destruct (run h w2 (k a)) as [[w3 t3] r3].
Qed.

Lemma run_defer {W A} (h : handler W) w (p : prog A) (d : prog unit) :
  run h w (defer p d) =
  let '(w1, t1, r1) := run h w p in
  let '(w2, t2, r2) := run h w1 d in
  (w2, t1 ++ t2, match r2 with Returned _ => r1 | Panicked => Panicked end).
Proof.
  revert w. induction p as [a| |o k' IH]; intros w; simpl.
  - rewrite run_bind. destruct (run h w d) as [[w1 t1] [u|]]; simpl; by rewrite ?app_nil_r.
  - rewrite run_bind. destruct (run h w d) as [[w1 t1] [u|]]; simpl; by rewrite ?app_nil_r.
  - destruct (h w o) as [w1 x]. rewrite IH.
    destruct (run h w1 (k' x)) as [[w2 t2] r2]. by destruct (run h w2 d) as [[w3 t3] r3].
Qed.

Lemma all_ops_defer {A} (P : Op → Prop) (p : prog A) (d : prog unit) :
  all_ops P p → all_ops P d → all_ops P (defer p d).
Proof.
  intros Hp Hd. induction p as [a| |o k' IH]; simpl in *.
  - by apply all_ops_bind.
  - by apply all_ops_bind.
  - destruct Hp as [Ho Hp]. split; [done|]. auto.
Qed.

Lemma wp_all_ops {A} (d : ∀ o, Ans o) (P : Op → Prop) (p : prog A) :
  wp p (λ t _, Forall P (ops t)) → all_ops P p.
Proof.
  induction p as [a| |o k IH]; simpl; [done..|]. intros Hk. split.
  - pose proof (wp_run (λ (_ : unit) o, ((), d o)) () (k (d o)) _ (Hk (d o))) as H.
    cbn in H. by apply Forall_cons in H as [Ho _].
  - intros x. apply IH. eapply wp_mono; [apply Hk|]. cbn. intros t _ H. by apply Forall_cons in H as [_ H].
Qed.

(** ** What holds for honest environments

    [R] says which answers a call may get.  As long as all answers are of this kind, every call of
    the program satisfies [P], its result satisfies [Q], and it panics only if [B] holds. *)
Section obeys.
Variables (R : ∀ o, Ans o → Prop) (P : Op → Prop) (B : Prop).

Fixpoint obeys {A} (Q : A → Prop) (p : prog A) : Prop :=
  match p with
  | Ret a => Q a
  | Panic => B
  | Do o k => P o ∧ ∀ x, R o x → obeys Q (k x)
  end.

Lemma obeys_mono {A} (Q Q' : A → Prop) (p : prog A) : obeys Q p → (∀ a, Q a → Q' a) → obeys Q' p.
Proof. intros Hp HQ. induction p as [a| |o k IH]; simpl in *; [by auto|done|]. destruct Hp. auto. Qed.

Lemma obeys_bind {A C} (Q : A → Prop) (Q' : C → Prop) (p : prog A) (k : A → prog C) :
  obeys Q p → (∀ a, Q a → obeys Q' (k a)) → obeys Q' (bind p k).
Proof.
  intros Hp Hk. induction p as [a| |o k' IH]; simpl in *; [by auto|done|].
  destruct Hp as [Ho Hp]. split; [done|]. auto.
Qed.

Lemma obeys_call (Q : ∀ o, Ans o → Prop) o : P o → (∀ x, R o x → Q o x) → obeys (Q o) (call o).
Proof. by split. Qed.

Lemma obeys_defer {A} (Q : A → Prop) (p : prog A) (d : prog unit) :
  obeys Q p → obeys (λ _, True) d → obeys Q (defer p d).
Proof.
  intros Hp Hd. induction p as [a| |o k IH]; simpl in *.
  - eapply obeys_bind; [exact Hd|]. by intros _ _.
  - eapply obeys_bind; [exact Hd|]. by intros _ _.
  - destruct Hp as [Ho Hp]. split; [done|]. auto.
Qed.

(** From what holds for all answers. *)
Lemma obeys_all_ops {A} (p : prog A) : B → all_ops P p → obeys (λ _, True) p.
Proof. intros HB. induction p as [a| |o k IH]; simpl; [done..|]. intros [Ho Hk]. split; [done|]. auto. Qed.

Lemma obeys_wp {A} (Q : A → Prop) (p : prog A) :
  all_ops P p → wp p (λ _ r, match r with Returned a => Q a | Panicked => B end) → obeys Q p.
Proof.
  intros Hp HQ. induction p as [a| |o k IH]; simpl in *; [done..|].
  destruct Hp as [Ho Hp]. split; [done|]. auto.
Qed.

End obeys.

(** ** Loops *)

(** What one iteration of a [for] loop does next: go on, [break], or [return] from the function. *)
Inductive ctl (S R : Type) : Type :=
| Next (s : S)
| Break (s : S)
| Exit (r : R).

Arguments Next {S R} s.
Arguments Break {S R} s.
Arguments Exit {S R} r.

Fixpoint for_each {X S R} (body : S → X → prog (ctl S R)) (xs : list X) (s : S) : prog (S + R) :=
  match xs with
  | [] => Ret (inl s)
  | x :: xs' =>
      bind (body s x) (λ c,
        match c with
        | Next s' => for_each body xs' s'
        | Break s' => Ret (inl s')
        | Exit r => Ret (inr r)
        end)
  end.

Lemma all_ops_for_each {X S R} (P : Op → Prop) (body : S → X → prog (ctl S R)) xs s :
  (∀ s' x, x ∈ xs → all_ops P (body s' x)) → all_ops P (for_each body xs s).
Proof.
  revert s. induction xs as [|x xs IH]; intros s Hb; simpl; [done|].
  apply all_ops_bind; [apply Hb; set_solver|].
  intros [s'|s'|r]; simpl; [|done..]. apply IH. intros; apply Hb; set_solver.
Qed.

(** Loop rule: [I] relates the trace so far, the items not yet visited and the loop state. *)
Lemma wp_for_each {X S R} (body : S → X → prog (ctl S R)) xs s
    (I : list event → list X → S → Prop) (Q : list event → outcome (S + R) → Prop) t0 :
  I t0 xs s →
  (∀ t x xs' s', I t (x :: xs') s' → wp (body s' x) (λ t' r, match r with
     | Returned (Next s'') => I (t ++ t') xs' s''
     | Returned (Break s'') => Q (t ++ t') (Returned (inl s''))
     | Returned (Exit v) => Q (t ++ t') (Returned (inr v))
     | Panicked => Q (t ++ t') Panicked
     end)) →
  (∀ t s', I t [] s' → Q t (Returned (inl s'))) →
  wp (for_each body xs s) (λ t r, Q (t0 ++ t) r).
Proof.
  intros HI Hbody Hend. revert t0 s HI.
  induction xs as [|x xs IH]; intros t0 s HI; simpl.
  - rewrite app_nil_r. by apply Hend.
  - apply wp_bind. eapply wp_mono; [by apply Hbody|].
    intros t [[s'|s'|v]|] Ht; simpl in *; rewrite ?app_nil_r; [|done..].
    eapply wp_mono; [by apply IH|]. intros t' r. by rewrite app_assoc.
Qed.

(** A loop whose body always goes on. *)
Fixpoint fold_each {X S} (body : S → X → prog S) (xs : list X) (s : S) : prog S :=
  match xs with
  | [] => Ret s
  | x :: xs' => bind (body s x) (λ s', fold_each body xs' s')
  end.

Lemma all_ops_fold_each {X S} (P : Op → Prop) (body : S → X → prog S) xs s :
  (∀ s' x, x ∈ xs → all_ops P (body s' x)) → all_ops P (fold_each body xs s).
Proof.
  revert s. induction xs as [|x xs IH]; intros s Hb; simpl; [done|].
  apply all_ops_bind; [apply Hb; set_solver|].
  intros s'. apply IH. intros; apply Hb; set_solver.
Qed.

Lemma wp_fold_each {X S} (body : S → X → prog S) xs s
    (I : list event → list X → S → Prop) (Q : list event → outcome S → Prop) t0 :
  I t0 xs s →
  (∀ t x xs' s', I t (x :: xs') s' → wp (body s' x) (λ t' r, match r with
     | Returned s'' => I (t ++ t') xs' s''
     | Panicked => Q (t ++ t') Panicked
     end)) →
  (∀ t s', I t [] s' → Q t (Returned s')) →
  wp (fold_each body xs s) (λ t r, Q (t0 ++ t) r).
Proof.
  intros HI Hbody Hend. revert t0 s HI.
  induction xs as [|x xs IH]; intros t0 s HI; simpl.
  - rewrite app_nil_r. by apply Hend.
  - apply wp_bind. eapply wp_mono; [by apply Hbody|].
    intros t [s'|] Ht; simpl in *; [|done].
    eapply wp_mono; [by apply IH|]. intros t' r. by rewrite app_assoc.
Qed.

(** ** Calls and what happened before them

    Every call of the program satisfies [P] of the events so far, which start with [t]. *)
Fixpoint causal {A} (P : list event → Op → Prop) (t : list event) (p : prog A) : Prop :=
  match p with
  | Ret _ | Panic => True
  | Do o k => P t o ∧ ∀ x, causal P (t ++ [ev o x]) (k x)
  end.

(** The same of a trace. *)
Definition justified (P : list event → Op → Prop) (t : list event) : Prop :=
  ∀ t1 e t2, t = t1 ++ e :: t2 → P t1 (projT1 e).

Section causal.
Variable P : list event → Op → Prop.

Lemma causal_run {W A} (h : handler W) w t (p : prog A) t1 e t2 :
  causal P t p → trace_of (run h w p) = t1 ++ e :: t2 → P (t ++ t1) (projT1 e).
Proof.
  revert w t t1. induction p as [a| |o k IH]; intros w t t1; simpl; [by destruct t1..|].
  intros [Ho Hk]. destruct (h w o) as [w1 x]. specialize (IH x w1 (t ++ [ev o x])).
  destruct (run h w1 (k x)) as [[w2 t'] r]. cbn in *. destruct t1 as [|e1 t1]; intros [= <- Ht].
  - by rewrite app_nil_r.
  - specialize (IH t1 (Hk x) Ht). by rewrite <- app_assoc in IH.
Qed.

Lemma causal_justified {W A} (h : handler W) w (p : prog A) :
  causal P [] p → justified P (trace_of (run h w p)).
Proof. intros Hp t1 e t2. exact (causal_run h w [] p t1 e t2 Hp). Qed.

Lemma causal_all_ops {A} (Q : Op → Prop) t (p : prog A) :
  (∀ t o, P t o → Q o) → causal P t p → all_ops Q p.
Proof.
  intros HQ. revert t. induction p as [a| |o k IH]; intros t; simpl; [done..|]. intros [Ho Hk].
  split; [by eapply HQ|]. intros x. by eapply IH.
Qed.

Lemma causal_bind {A B} t (p : prog A) (k : A → prog B) :
  causal P t p → wp p (λ t' r, ∀ a, r = Returned a → causal P (t ++ t') (k a)) →
  causal P t (bind p k).
Proof.
  revert t. induction p as [a| |o k' IH]; intros t; simpl.
  - intros _ H. specialize (H a eq_refl). by rewrite app_nil_r in H.
  - done.
  - intros [Ho Hk] Hw. split; [done|]. intros x. apply IH; [done|]. eapply wp_mono; [apply Hw|].
    intros t' r H a Ha. rewrite <- app_assoc. by apply H.
Qed.

Lemma causal_then {A B} t (p : prog A) (k : A → prog B) :
  causal P t p → (∀ t' a, causal P (t ++ t') (k a)) → causal P t (bind p k).
Proof.
  intros Hp Hk. apply causal_bind; [done|]. eapply wp_mono; [apply wp_true|]. intros t' r _ a _. apply Hk.
Qed.

Lemma causal_for_each {X S R} t (body : S → X → prog (ctl S R)) xs s :
  (∀ t s x, x ∈ xs → causal P t (body s x)) → causal P t (for_each body xs s).
Proof.
  revert t s. induction xs as [|x xs IH]; intros t s Hb; simpl; [done|].
  apply causal_then; [apply Hb; set_solver|]. intros t' [s'|s'|v]; [|done..].
  apply IH. intros; apply Hb; set_solver.
Qed.

Lemma causal_fold_each {X S} t (body : S → X → prog S) xs s :
  (∀ t s x, x ∈ xs → causal P t (body s x)) → causal P t (fold_each body xs s).
Proof.
  revert t s. induction xs as [|x xs IH]; intros t s Hb; simpl; [done|].
  apply causal_then; [apply Hb; set_solver|]. intros t' s'. apply IH. intros; apply Hb; set_solver.
Qed.

Lemma causal_mono {A} (Q : list event → Op → Prop) t (p : prog A) :
  (∀ t o, P t o → Q t o) → causal P t p → causal Q t p.
Proof.
  intros HQ. revert t. induction p as [a| |o k IH]; intros t; simpl; [done..|].
  intros [Ho Hk]. split; auto.
Qed.

(** What holds of a call does not stop to hold. *)
Hypothesis Pmono : ∀ t t' o, P t o → P (t ++ t') o.

Lemma all_ops_causal {A} t (p : prog A) : all_ops (P t) p → causal P t p.
Proof.
  rewrite <- (app_nil_r t) at 2. generalize (@nil event) as t'.
  induction p as [a| |o k IH]; intros t'; simpl; [done..|]. intros [Ho Hk].
  split; [by apply Pmono|]. intros x. rewrite <- app_assoc. auto.
Qed.

End causal.

(** ** When a program panics

    [calm p] says that [p] panics only after events of which [B] holds, which it goes on to do
    whatever happened before them. *)
Section calm.
Variable B : list event → Prop.
Hypothesis Bapp : ∀ t t', B t' → B (t ++ t').

Definition calm {A} (p : prog A) : Prop := wp p (λ t r, r = Panicked → B t).

Lemma calm_ret {A} (a : A) : calm (Ret a).
Proof. done. Qed.

Lemma calm_bind {A C} (p : prog A) (k : A → prog C) : calm p → (∀ a, calm (k a)) → calm (bind p k).
Proof.
  intros Hp Hk. apply wp_bind. eapply wp_mono; [exact Hp|]. intros t [a|] Ht; [|auto].
  eapply wp_mono; [apply Hk|]. intros t' r Ht' Hr. apply Bapp. auto.
Qed.

Lemma calm_call o : calm (call o).
Proof. by intros x. Qed.

Lemma calm_call_bind {C} o (k : Ans o → prog C) : (∀ x, calm (k x)) → calm (bind (call o) k).
Proof. intros Hk. apply calm_bind; [apply calm_call|done]. Qed.

Lemma calm_for_each {X S R} (body : S → X → prog (ctl S R)) xs s :
  (∀ s x, x ∈ xs → calm (body s x)) → calm (for_each body xs s).
Proof.
  revert s. induction xs as [|x xs IH]; intros s Hb; simpl; [done|].
  apply calm_bind; [apply Hb; by left|].
  intros [s'|s'|v]; [|done..]. apply IH. intros s0 y Hy. apply Hb. by right.
Qed.

Lemma calm_fold_each {X S} (body : S → X → prog S) xs s :
  (∀ s x, x ∈ xs → calm (body s x)) → calm (fold_each body xs s).
Proof.
  revert s. induction xs as [|x xs IH]; intros s Hb; simpl; [done|].
  apply calm_bind; [apply Hb; by left|].
  intros s'. apply IH. intros s0 y Hy. apply Hb. by right.
Qed.

Lemma calm_run {W A} (h : handler W) w (p : prog A) :
  calm p → ¬ B (trace_of (run h w p)) → result_of (run h w p) ≠ Panicked.
Proof. intros Hp HB Hr. apply HB. exact (wp_run h w p _ Hp Hr). Qed.

End calm.

(** ** Environments without state

    [eval f p] is the result of [p] when call [o] is always answered [f o]. *)
Fixpoint eval {A} (f : ∀ o, Ans o) (p : prog A) : outcome A :=
  match p with
  | Ret a => Returned a
  | Panic => Panicked
  | Do o k => eval f (k (f o))
  end.

Lemma eval_bind {A B} f (p : prog A) (k : A → prog B) :
  eval f (bind p k) =
  match eval f p with Returned a => eval f (k a) | Panicked => Panicked end.
Proof. induction p as [a| |o k' IH]; simpl; [done..|]. apply IH. Qed.

Lemma eval_run {W A} (f : ∀ o, Ans o) (h : handler W) w (p : prog A) :
  (∀ w o, h w o = (w, f o)) → result_of (run h w p) = eval f p.
Proof.
  intros Hh. induction p as [a| |o k IH]; simpl; [done..|].
  rewrite Hh. specialize (IH (f o)). by destruct (run h w (k (f o))) as [[w2 t] r].
Qed.

Lemma eval_fold_each {X S} f (body : S → X → prog S) (g : S → X → S) xs s :
  (∀ s x, eval f (body s x) = Returned (g s x)) →
  eval f (fold_each body xs s) = Returned (foldl g s xs).
Proof.
  intros Hg. revert s. induction xs as [|x xs IH]; intros s; simpl; [done|].
  by rewrite eval_bind, Hg.
Qed.

Lemma eval_bind_safe {A B} f (p : prog A) (k : A → prog B) :
  eval f p ≠ Panicked → (∀ a, eval f (k a) ≠ Panicked) → eval f (bind p k) ≠ Panicked.
Proof. rewrite eval_bind. destruct (eval f p); auto. Qed.

Lemma eval_for_each_safe {X S R} f (body : S → X → prog (ctl S R)) xs s :
  (∀ s x, x ∈ xs → eval f (body s x) ≠ Panicked) → eval f (for_each body xs s) ≠ Panicked.
Proof.
  revert s. induction xs as [|x xs IH]; intros s Hb; simpl; [done|].
  apply eval_bind_safe; [apply Hb; set_solver|].
  intros [s'|s'|v]; [|done..]. apply IH. intros; apply Hb; set_solver.
Qed.

Lemma eval_fold_each_safe {X S} f (body : S → X → prog S) xs s :
  (∀ s x, x ∈ xs → eval f (body s x) ≠ Panicked) → eval f (fold_each body xs s) ≠ Panicked.
Proof.
  revert s. induction xs as [|x xs IH]; intros s Hb; simpl; [done|].
  apply eval_bind_safe; [apply Hb; set_solver|].
  intros s'. apply IH. intros; apply Hb; set_solver.
Qed.

End prog.

Arguments prog {Op} Ans A.
Arguments Ret {Op Ans A} a.
Arguments Panic {Op Ans A}.
Arguments Do {Op Ans A} o k.
Arguments Returned {A} a.
Arguments Panicked {A}.
Arguments Next {S R} s.
Arguments Break {S R} s.
Arguments Exit {S R} r.
Arguments handler {Op} Ans W.
Arguments event {Op} Ans.

Declare Scope prog_scope.
Delimit Scope prog_scope with prog.
Open Scope prog_scope.

Notation "'let!' x ':=' p 'in' q" := (bind p (λ x, q))
  (at level 10, x pattern, p at level 100, q at level 200,
   format "'[v' 'let!'  x  ':='  p  'in' '/' q ']'") : prog_scope.
Notation "'do!' p 'in' q" := (bind p (λ _, q))
  (at level 10, p at level 100, q at level 200,
   format "'[v' 'do!'  p  'in' '/' q ']'") : prog_scope.
