(* ===== verification/GoStrings.v ===== *)
(** * The Go string functions the controllers use

    Go strings are byte strings, [string] here.  The functions of the packages [strings],
    [strconv], [sort] and [fmt] are written out on the ASCII range: [ToLower] and [TrimSpace] of Go
    also know the letters and the spaces above U+007F, which this file leaves alone. *)

From S2P Require Import Prelude.
From Stdlib Require Import Ascii.

Local Open Scope Z_scope.

(** ** Package strings *)

Definition HasPrefix (s p : string) : bool := String.prefix p s.

Fixpoint drop_bytes (n : nat) (s : string) : string :=
  match n, s with
  | S n', String _ s' => drop_bytes n' s'
  | _, _ => s
  end.

Definition TrimPrefix (s p : string) : string :=
  if HasPrefix s p then drop_bytes (String.length p) s else s.

Fixpoint HasSuffix (s suf : string) : bool :=
  (s ==? suf) || match s with EmptyString => false | String _ s' => HasSuffix s' suf end.

Fixpoint Contains (s sub : string) : bool :=
  HasPrefix s sub || match s with EmptyString => false | String _ s' => Contains s' sub end.

(** ASCII white space: tab, line feed, vertical tab, form feed, carriage return, space. *)
Definition is_space (c : ascii) : bool :=
  let n := N_of_ascii c in ((9 <=? n) && (n <=? 13) || (n =? 32))%N.

Fixpoint TrimLeftSpace (s : string) : string :=
  match s with
  | String c s' => if is_space c then TrimLeftSpace s' else s
  | EmptyString => EmptyString
  end.

Fixpoint TrimRightSpace (s : string) : string :=
  match s with
  | String c s' =>
      let r := TrimRightSpace s' in
      if (is_space c && (r ==? ""))%bool then "" else String c r
  | EmptyString => EmptyString
  end.

Definition TrimSpace (s : string) : string := TrimRightSpace (TrimLeftSpace s).

Definition lower (c : ascii) : ascii :=
  let n := N_of_ascii c in
  if ((65 <=? n) && (n <=? 90))%N then ascii_of_N (n + 32) else c.

Fixpoint ToLower (s : string) : string :=
  match s with
  | String c s' => String (lower c) (ToLower s')
  | EmptyString => EmptyString
  end.

Definition EqualFold (s1 s2 : string) : bool := ToLower s1 ==? ToLower s2.

Fixpoint Split (s : string) (sep : ascii) : list string :=
  match s with
  | EmptyString => [""]
  | String c s' =>
      if c ==? sep then "" :: Split s' sep
      else match Split s' sep with
           | p :: ps => String c p :: ps
           | [] => [String c ""]
           end
  end.

Fixpoint Join (l : list string) (sep : string) : string :=
  match l with
  | [] => ""
  | [s] => s
  | s :: l' => s +:+ sep +:+ Join l' sep
  end.

(** ** Package sort *)

(** [sort.Strings]: increasing byte order. *)
Definition sort_Strings (l : list string) : list string := merge_sort String.le l.

(** ** Packages fmt and strconv: hexadecimal numbers *)

Definition hex_char (d : Z) : ascii :=
  ascii_of_N (Z.to_N (if d <? 10 then d + 48 else d + 87)).

Definition hex_value (c : ascii) : option Z :=
  let n := Z.of_N (N_of_ascii c) in
  if (48 <=? n) && (n <=? 57) then Some (n - 48)
  else if (97 <=? n) && (n <=? 102) then Some (n - 87)
  else if (65 <=? n) && (n <=? 70) then Some (n - 55)
  else None.

(** The digits of a number below [16 ^ fuel], most significant first. *)
Fixpoint hex_digits (fuel : nat) (n : Z) : string :=
  match fuel with
  | O => ""
  | S f =>
      if n <? 16 then String (hex_char n) ""
      else hex_digits f (n / 16) +:+ String (hex_char (n mod 16)) ""
  end.

(** [fmt.Sprintf("%x", z)] for an int64: a sign and at most 16 digits. *)
Definition sprintf_x (z : Z) : string :=
  if z <? 0 then "-" +:+ hex_digits 17 (- z) else hex_digits 17 z.

Fixpoint parse_hex (acc : Z) (s : string) : option Z :=
  match s with
  | EmptyString => Some acc
  | String c s' =>
      match hex_value c with
      | Some d => parse_hex (acc * 16 + d) s'
      | None => None
      end
  end.

(** [strconv.ParseUint(s, 16, 64)], without the range check of the caller. *)
Definition parse_uint16 (s : string) : option Z :=
  if s ==? "" then None else parse_hex 0 s.

(** [strconv.ParseInt(s, 16, 64)]; [None] is a non-nil error. *)
Definition ParseInt16 (s : string) : option Z :=
  match s with
  | EmptyString => None
  | String c s' =>
      if c ==? "-"%char then
        match parse_uint16 s' with
        | Some un => if un <=? 2 ^ 63 then Some (- un) else None
        | None => None
        end
      else
        match parse_uint16 (if c ==? "+"%char then s' else s) with
        | Some un => if un <? 2 ^ 63 then Some un else None
        | None => None
        end
  end.

(** ** Lemmas *)

#[local] Arguments String.append : simpl nomatch.
#[local] Arguments hex_digits : simpl never.
#[local] Arguments HasPrefix : simpl never.

Fixpoint str_Forall (P : ascii → Prop) (s : string) : Prop :=
  match s with
  | EmptyString => True
  | String c s' => P c ∧ str_Forall P s'
  end.

Lemma str_Forall_app P s1 s2 : str_Forall P (s1 +:+ s2) ↔ str_Forall P s1 ∧ str_Forall P s2.
Proof. induction s1 as [|c s1 IH]; simpl; [tauto|]. rewrite IH. tauto. Qed.

Lemma str_Forall_mono (P Q : ascii → Prop) s :
  str_Forall P s → (∀ c, P c → Q c) → str_Forall Q s.
Proof. intros H HPQ. revert H. induction s as [|c s IH]; simpl; [done|]. intros [? ?]; auto. Qed.

Lemma str_app_nil_r s : s +:+ "" = s.
Proof. induction s; simpl; congruence. Qed.

Lemma str_app_assoc s1 s2 s3 : s1 +:+ (s2 +:+ s3) = (s1 +:+ s2) +:+ s3.
Proof. induction s1; simpl; congruence. Qed.

Lemma Split_nonempty s sep : Split s sep ≠ [].
Proof. destruct s; simpl; [done|]. case_tests; done. Qed.

Lemma Split_no_sep s sep : str_Forall (λ c, c ≠ sep) s → Split s sep = [s].
Proof.
  induction s as [|c s IH]; simpl; [done|]. intros [Hc Hs].
  rewrite bool_decide_eq_false_2 by done. by rewrite IH.
Qed.

Lemma Split_app s1 s2 sep : Split (s1 +:+ String sep s2) sep = Split s1 sep ++ Split s2 sep.
Proof.
  induction s1 as [|c s1 IH]; simpl.
  - by rewrite bool_decide_eq_true_2.
  - rewrite IH. case_match; [done|].
    destruct (Split s1 sep) as [|p ps] eqn:E; [by destruct (Split_nonempty s1 sep)|done].
Qed.

(** The last part of a name that ends in a separator and a part without separators. *)
Lemma Split_last s1 s2 sep :
  str_Forall (λ c, c ≠ sep) s2 → last (Split (s1 +:+ String sep s2) sep) = Some s2.
Proof. intros H. rewrite Split_app, (Split_no_sep s2) by done. apply last_snoc. Qed.

(** Case analysis on a hexadecimal digit. *)
Ltac hex_cases d H :=
  assert (d = 0 ∨ d = 1 ∨ d = 2 ∨ d = 3 ∨ d = 4 ∨ d = 5 ∨ d = 6 ∨ d = 7 ∨ d = 8 ∨ d = 9 ∨
          d = 10 ∨ d = 11 ∨ d = 12 ∨ d = 13 ∨ d = 14 ∨ d = 15) as Hd by lia;
  clear H; destruct_or! Hd; subst d.

Lemma hex_char_value d : 0 ≤ d < 16 → hex_value (hex_char d) = Some d.
Proof. intros H. hex_cases d H; reflexivity. Qed.

Lemma hex_char_plain d : 0 ≤ d < 16 →
  hex_char d ≠ "-"%char ∧ hex_char d ≠ "+"%char ∧ hex_char d ≠ "."%char.
Proof. intros H. hex_cases d H; repeat split; discriminate. Qed.

Lemma parse_hex_app acc s1 s2 :
  parse_hex acc (s1 +:+ s2) = parse_hex acc s1 ≫= λ a, parse_hex a s2.
Proof.
  revert acc. induction s1 as [|c s1 IH]; intros acc; simpl; [done|].
  destruct (hex_value c); [apply IH|done].
Qed.

Lemma hex_digits_S f n :
  hex_digits (S f) n =
  if n <? 16 then String (hex_char n) ""
  else hex_digits f (n / 16) +:+ String (hex_char (n mod 16)) "".
Proof. reflexivity. Qed.

Lemma hex_digits_parse fuel n : 0 ≤ n < 16 ^ Z.of_nat fuel → parse_hex 0 (hex_digits fuel n) = Some n.
Proof.
  revert n. induction fuel as [|f IH]; intros n Hn.
  { change (16 ^ Z.of_nat 0) with 1 in Hn. simpl. f_equal; lia. }
  rewrite hex_digits_S. destruct (Z.ltb_spec n 16).
  - cbn [parse_hex]. rewrite hex_char_value by lia. f_equal; lia.
  - rewrite Nat2Z.inj_succ, Z.pow_succ_r in Hn by lia.
    rewrite parse_hex_app, IH by (split; [apply Z.div_pos|apply Z.div_lt_upper_bound]; lia).
    simpl.
    pose proof (Z.mod_pos_bound n 16). rewrite hex_char_value by lia.
    pose proof (Z.div_mod n 16). f_equal; lia.
Qed.

Lemma hex_digits_chars fuel n : 0 ≤ n →
  str_Forall (λ c, c ≠ "-"%char ∧ c ≠ "+"%char ∧ c ≠ "."%char) (hex_digits fuel n).
Proof.
  revert n. induction fuel as [|f IH]; intros n Hn; [done|]. rewrite hex_digits_S.
  destruct (Z.ltb_spec n 16).
  - simpl. split; [|done]. apply hex_char_plain; lia.
  - pose proof (Z.mod_pos_bound n 16). apply str_Forall_app. split; [apply IH, Z.div_pos; lia|].
    simpl. split; [|done]. apply hex_char_plain; lia.
Qed.

Lemma hex_digits_ne fuel n : fuel ≠ O → hex_digits fuel n ≠ "".
Proof.
  destruct fuel as [|f]; [done|]. intros _. rewrite hex_digits_S.
  destruct (n <? 16); [done|]. by destruct (hex_digits f (n / 16)).
Qed.

Lemma parse_uint16_hex n : 0 ≤ n ≤ 2 ^ 64 → parse_uint16 (hex_digits 17 n) = Some n.
Proof.
  intros Hn. unfold parse_uint16. rewrite bool_decide_eq_false_2 by by apply hex_digits_ne.
  apply hex_digits_parse. split; [lia|]. apply Z.le_lt_trans with (2 ^ 64); [lia|]. done.
Qed.

(** Reading back a printed 64-bit number gives that number. *)
Lemma ParseInt16_sprintf z : in_int64 z → ParseInt16 (sprintf_x z) = Some z.
Proof.
  unfold in_int64, int64_min, int64_max, sprintf_x. intros Hz.
  destruct (Z.ltb_spec z 0); simpl.
  - rewrite parse_uint16_hex by lia. destruct (Z.leb_spec (- z) (2 ^ 63)); [f_equal|]; lia.
  - assert (Hp : parse_uint16 (hex_digits 17 z) = Some z) by (apply parse_uint16_hex; lia).
    pose proof (hex_digits_chars 17 z) as Hc. pose proof (hex_digits_ne 17 z) as Hne.
    destruct (hex_digits 17 z) as [|c s]; [by destruct Hne|]. destruct Hc as [(? & ? & ?) _]; [done|].
    simpl. rewrite !bool_decide_eq_false_2 by done. rewrite Hp.
    destruct (Z.ltb_spec z (2 ^ 63)); [done|lia].
Qed.

Lemma sprintf_x_no_dot z : str_Forall (λ c, c ≠ "."%char) (sprintf_x z).
Proof.
  unfold sprintf_x.
  assert (∀ n, 0 ≤ n → str_Forall (λ c, c ≠ "."%char) (hex_digits 17 n)) as Hn.
  { intros n Hn. eapply str_Forall_mono; [by apply hex_digits_chars|]. by intros c (? & ? & ?). }
  destruct (Z.ltb_spec z 0); simpl; [split; [done|]|]; apply Hn; lia.
Qed.

Lemma HasPrefix_app p s : HasPrefix (p +:+ s) p = true.
Proof.
  unfold HasPrefix. induction p as [|c p IH]; simpl; [by destruct s|].
  by destruct (ascii_dec c c).
Qed.

Lemma HasPrefix_spec s p : HasPrefix s p = true ↔ ∃ s', s = p +:+ s'.
Proof.
  split; [|intros [s' ->]; apply HasPrefix_app].
  unfold HasPrefix. revert s. induction p as [|c p IH]; intros s; simpl; [intros _; by exists s|].
  destruct s as [|d s]; [done|]. simpl. destruct (ascii_dec c d); [|done].
  intros [s' ->]%IH. exists s'. by subst.
Qed.

Lemma Contains_spec s sub : Contains s sub = true ↔ ∃ s1 s2, s = s1 +:+ sub +:+ s2.
Proof.
  split.
  - induction s as [|c s IH]; simpl.
    + rewrite orb_true_iff. intros [[s2 Hs]%HasPrefix_spec|?]; [|done]. by exists "", s2.
    + rewrite orb_true_iff. intros [[s2 ->]%HasPrefix_spec|(s1 & s2 & ->)%IH].
      * by exists "", s2.
      * by exists (String c s1), s2.
  - intros (s1 & s2 & ->). induction s1 as [|c s1 IH]; simpl.
    + destruct (sub +:+ s2) eqn:E; simpl; rewrite <- ?E, HasPrefix_app; done.
    + rewrite IH. by rewrite orb_true_r.
Qed.

Lemma sort_Strings_Permutation l1 l2 : l1 ≡ₚ l2 → sort_Strings l1 = sort_Strings l2.
Proof.
  intros Hp. unfold sort_Strings. apply (StronglySorted_unique String.le).
  - apply StronglySorted_merge_sort; apply _.
  - apply StronglySorted_merge_sort; apply _.
  - by rewrite !merge_sort_Permutation.
Qed.

Example parse_event_time : ParseInt16 "17b80d88a995e12c" = Some 1709130939198988588.
Proof. reflexivity. Qed.
Example print_event_time : sprintf_x 1709130939198988588 = "17b80d88a995e12c".
Proof. reflexivity. Qed.
