(* ===== verification/K8s.v ===== *)
(** * Kubernetes data and the library functions the controllers rely on

    The records below hold the fields the controllers read, write, compare or copy; what they only
    carry along is an opaque field ([..._rest]).  A Go map that may be nil or empty is a [gmap]
    wherever the code treats the two alike.  Functions of the Kubernetes libraries are operations
    of a type class, with their documented behaviour in a second class of laws: the models hold for
    every implementation, and the theorems name the laws they use. *)

From S2P Require Import Prelude.

(** ** Errors *)

(** What the error predicates of the Kubernetes packages and [errors.Is] distinguish. *)
Inductive reason :=
| NotFound | Conflict | Invalid | BadRequest | ServerTimeout | Timeout | NoMatch
| MissingKind | NotRegistered | Canceled | NoVersionedResource | ResourceUnwatchable | InvalidInput | OtherReason.

#[export] Instance reason_eq_dec : EqDecision reason.
Proof. solve_decision. Defined.

(** An error and its text; wrapping with [%w] keeps the reason and changes the text. *)
Record error := Error { err_reason : reason; err_msg : string }.

#[export] Instance error_eq_dec : EqDecision error.
Proof. solve_decision. Defined.

Definition has_reason (r : reason) (e : error) : bool := err_reason e ==? r.
Abbreviation IsNotFound := (has_reason NotFound).
Abbreviation IsConflict := (has_reason Conflict).
Abbreviation IsInvalid := (has_reason Invalid).
Abbreviation IsNoMatchError := (has_reason NoMatch).
Abbreviation IsNotRegisteredError := (has_reason NotRegistered).
Abbreviation IsMissingKind := (has_reason MissingKind).
Abbreviation IsServerTimeout := (has_reason ServerTimeout).
Abbreviation IsTimeout := (has_reason Timeout).

(** [fmt.Errorf(pre + "%w", e)]. *)
Definition wrap (pre : string) (e : error) : error := Error (err_reason e) (pre +:+ err_msg e).

(** The pair of a value and an error that a Go call returns, of which one is set. *)
Inductive result (A : Type) := Ok (a : A) | Err (e : error).
Arguments Ok {A} a.
Arguments Err {A} e.

(** ** JSON values *)

Set Warnings "-register-all".

(** The values of an [interface{}] decoded from JSON by the Kubernetes decoder.  A number is an
    int64 or a float64, which is kept as the text [json.Marshal] prints for it; a float64 with an
    integral value, which prints like an integer, is left out.  [json.Marshal] sorts the keys of
    maps, so that two values have the same encoding exactly when they are equal. *)
Inductive json :=
| JNull
| JBool (b : bool)
| JInt (z : Z)
| JFloat (lit : string)
| JStr (s : string)
| JArr (l : list json)
| JObj (m : gmap string json).

#[export] Instance json_eq_dec : EqDecision json.
Proof.
  refine (fix go (x y : json) {struct x} : Decision (x = y) :=
    let _ : EqDecision json := @go in
    match x, y with
    | JNull, JNull => left eq_refl
    | JBool a, JBool b => cast_if (decide (a = b))
    | JInt a, JInt b => cast_if (decide (a = b))
    | JFloat a, JFloat b => cast_if (decide (a = b))
    | JStr a, JStr b => cast_if (decide (a = b))
    | JArr a, JArr b => cast_if (decide (a = b))
    | JObj a, JObj b => cast_if (decide (a = b))
    | _, _ => right _
    end); congruence.
Defined.

(** ** Names of kinds, resources and objects *)

Record GroupVersionKind := GVK { gvk_Group : string; gvk_Version : string; gvk_Kind : string }.
Record GroupVersionResource :=
  GVR { gvr_Group : string; gvr_Version : string; gvr_Resource : string }.
Record NamespacedName := NN { nn_Namespace : string; nn_Name : string }.

(** [depclient.ObjectIdentifier] *)
Record ObjectIdentifier := ObjID {
  oid_Group : string; oid_Version : string; oid_Kind : string;
  oid_Namespace : string; oid_Name : string }.

#[export] Instance GroupVersionKind_eq_dec : EqDecision GroupVersionKind.
Proof. solve_decision. Defined.
#[export] Instance GroupVersionResource_eq_dec : EqDecision GroupVersionResource.
Proof. solve_decision. Defined.
#[export] Instance NamespacedName_eq_dec : EqDecision NamespacedName.
Proof. solve_decision. Defined.
#[export] Instance ObjectIdentifier_eq_dec : EqDecision ObjectIdentifier.
Proof. solve_decision. Defined.

#[export] Instance NamespacedName_countable : Countable NamespacedName.
Proof.
  refine (inj_countable' (λ k, (nn_Namespace k, nn_Name k)) (λ p, NN p.1 p.2) _). by intros [].
Defined.
#[export] Instance GroupVersionResource_countable : Countable GroupVersionResource.
Proof.
  refine (inj_countable' (λ k, (gvr_Group k, gvr_Version k, gvr_Resource k))
    (λ p, GVR p.1.1 p.1.2 p.2) _). by intros [].
Defined.
#[export] Instance ObjectIdentifier_countable : Countable ObjectIdentifier.
Proof.
  refine (inj_countable'
    (λ k, (oid_Group k, oid_Version k, oid_Kind k, oid_Namespace k, oid_Name k))
    (λ p, ObjID p.1.1.1.1 p.1.1.1.2 p.1.1.2 p.1.2 p.2) _). by intros [].
Defined.

(** [schema.GroupVersion.String]: the group is left out when it is empty. *)
Definition gv_String (group version : string) : string :=
  if group ==? "" then version else group +:+ "/" +:+ version.

(** [schema.GroupVersionKind.String] and [schema.GroupVersionResource.String]. *)
Definition gvk_String (k : GroupVersionKind) : string :=
  gvk_Group k +:+ "/" +:+ gvk_Version k +:+ ", Kind=" +:+ gvk_Kind k.
Definition gvr_String (r : GroupVersionResource) : string :=
  gvr_Group r +:+ "/" +:+ gvr_Version r +:+ ", Resource=" +:+ gvr_Resource r.

(** ** Object metadata *)

Record OwnerReference := OwnerRef {
  or_APIVersion : string; or_Kind : string; or_Name : string; or_UID : string;
  or_rest : string }.

#[export] Instance OwnerReference_eq_dec : EqDecision OwnerReference.
Proof. solve_decision. Defined.

(** Instants are nanoseconds since the Unix epoch. *)
Abbreviation time := Z (only parsing).

Record ObjectMeta := Meta {
  m_Name : string;
  m_Namespace : string;
  m_Labels : gmap string string;
  m_Annotations : gmap string string;
  m_Finalizers : list string;
  m_OwnerReferences : list OwnerReference;
  m_ResourceVersion : string;
  m_UID : string;
  m_Generation : Z;
  m_DeletionTimestamp : option Z }.

#[export] Instance ObjectMeta_eq_dec : EqDecision ObjectMeta.
Proof. solve_decision. Defined.

(** [metav1.ObjectMeta{Name: name, Namespace: ns}] *)
Definition new_meta (name ns : string) : ObjectMeta :=
  Meta name ns ∅ ∅ [] [] "" "" 0 None.

Definition meta_set_Namespace (v : string) (m : ObjectMeta) : ObjectMeta :=
  Meta (m_Name m) v (m_Labels m) (m_Annotations m) (m_Finalizers m) (m_OwnerReferences m)
    (m_ResourceVersion m) (m_UID m) (m_Generation m) (m_DeletionTimestamp m).
Definition meta_set_Labels (v : gmap string string) (m : ObjectMeta) : ObjectMeta :=
  Meta (m_Name m) (m_Namespace m) v (m_Annotations m) (m_Finalizers m) (m_OwnerReferences m)
    (m_ResourceVersion m) (m_UID m) (m_Generation m) (m_DeletionTimestamp m).
Definition meta_set_Annotations (v : gmap string string) (m : ObjectMeta) : ObjectMeta :=
  Meta (m_Name m) (m_Namespace m) (m_Labels m) v (m_Finalizers m) (m_OwnerReferences m)
    (m_ResourceVersion m) (m_UID m) (m_Generation m) (m_DeletionTimestamp m).
Definition meta_set_Finalizers (v : list string) (m : ObjectMeta) : ObjectMeta :=
  Meta (m_Name m) (m_Namespace m) (m_Labels m) (m_Annotations m) v (m_OwnerReferences m)
    (m_ResourceVersion m) (m_UID m) (m_Generation m) (m_DeletionTimestamp m).
Definition meta_set_OwnerReferences (v : list OwnerReference) (m : ObjectMeta) : ObjectMeta :=
  Meta (m_Name m) (m_Namespace m) (m_Labels m) (m_Annotations m) (m_Finalizers m) v
    (m_ResourceVersion m) (m_UID m) (m_Generation m) (m_DeletionTimestamp m).
Definition meta_set_ResourceVersion (v : string) (m : ObjectMeta) : ObjectMeta :=
  Meta (m_Name m) (m_Namespace m) (m_Labels m) (m_Annotations m) (m_Finalizers m)
    (m_OwnerReferences m) v (m_UID m) (m_Generation m) (m_DeletionTimestamp m).

(** A map lookup [m[k]] of Go on a [map[string]string]: the zero value when the key is absent. *)
Definition str_index (m : gmap string string) (k : string) : string := default "" (m !! k).

(** ** Unstructured objects *)

(** [unstructured.Unstructured]: the kind, the metadata and the other top-level fields ([spec],
    [status], ...) of the object map. *)
Record unstructured := Unstructured {
  u_GVK : GroupVersionKind;
  u_Meta : ObjectMeta;
  u_Object : gmap string json }.

#[export] Instance unstructured_eq_dec : EqDecision unstructured.
Proof. solve_decision. Defined.

Definition u_Name (u : unstructured) : string := m_Name (u_Meta u).
Definition u_Namespace (u : unstructured) : string := m_Namespace (u_Meta u).
Definition u_Kind (u : unstructured) : string := gvk_Kind (u_GVK u).
Definition u_Group (u : unstructured) : string := gvk_Group (u_GVK u).
Definition u_Labels (u : unstructured) : gmap string string := m_Labels (u_Meta u).
Definition u_Annotations (u : unstructured) : gmap string string := m_Annotations (u_Meta u).
Definition u_OwnerReferences (u : unstructured) : list OwnerReference :=
  m_OwnerReferences (u_Meta u).

Definition u_set_Meta (f : ObjectMeta → ObjectMeta) (u : unstructured) : unstructured :=
  Unstructured (u_GVK u) (f (u_Meta u)) (u_Object u).
Definition u_set_Object (o : gmap string json) (u : unstructured) : unstructured :=
  Unstructured (u_GVK u) (u_Meta u) o.

(** ** Policies *)

Record PolicyDependency := Dependency {
  dep_GVK : GroupVersionKind; dep_Name : string; dep_Namespace : string;
  dep_Compliance : string }.

Record PolicyTemplate := Template {
  pt_Raw : string;                    (* ObjectDefinition.Raw *)
  pt_ExtraDependencies : list PolicyDependency;
  pt_IgnorePending : bool }.

Record PolicySpec := Spec {
  ps_RemediationAction : string;
  ps_PolicyTemplates : list PolicyTemplate;
  ps_Dependencies : list PolicyDependency;
  ps_rest : string }.

Record ComplianceHistory := History {
  ch_LastTimestamp : Z; ch_Message : string; ch_EventName : string }.

Record DetailsPerTemplate := Details {
  dpt_TemplateMeta : ObjectMeta;
  dpt_ComplianceState : string;
  dpt_History : list ComplianceHistory }.

(** [Details] holds pointers, which may be nil. *)
Record PolicyStatus := Status {
  st_ComplianceState : string;
  st_Details : list (option DetailsPerTemplate);
  st_rest : string }.

Record Policy := MkPolicy {
  p_APIVersion : string;
  p_Kind : string;
  p_Meta : ObjectMeta;
  p_Spec : PolicySpec;
  p_Status : PolicyStatus }.

#[export] Instance PolicyDependency_eq_dec : EqDecision PolicyDependency.
Proof. solve_decision. Defined.
#[export] Instance PolicyTemplate_eq_dec : EqDecision PolicyTemplate.
Proof. solve_decision. Defined.
#[export] Instance PolicySpec_eq_dec : EqDecision PolicySpec.
Proof. solve_decision. Defined.
#[export] Instance ComplianceHistory_eq_dec : EqDecision ComplianceHistory.
Proof. solve_decision. Defined.
#[export] Instance DetailsPerTemplate_eq_dec : EqDecision DetailsPerTemplate.
Proof. solve_decision. Defined.
#[export] Instance PolicyStatus_eq_dec : EqDecision PolicyStatus.
Proof. solve_decision. Defined.
#[export] Instance Policy_eq_dec : EqDecision Policy.
Proof. solve_decision. Defined.

Definition p_Name (p : Policy) : string := m_Name (p_Meta p).
Definition p_Namespace (p : Policy) : string := m_Namespace (p_Meta p).
Definition p_Annotations (p : Policy) : gmap string string := m_Annotations (p_Meta p).
Definition p_Labels (p : Policy) : gmap string string := m_Labels (p_Meta p).
Definition p_UID (p : Policy) : string := m_UID (p_Meta p).

Definition p_set_Meta (f : ObjectMeta → ObjectMeta) (p : Policy) : Policy :=
  MkPolicy (p_APIVersion p) (p_Kind p) (f (p_Meta p)) (p_Spec p) (p_Status p).
Definition p_set_Spec (s : PolicySpec) (p : Policy) : Policy :=
  MkPolicy (p_APIVersion p) (p_Kind p) (p_Meta p) s (p_Status p).
Definition p_set_Status (s : PolicyStatus) (p : Policy) : Policy :=
  MkPolicy (p_APIVersion p) (p_Kind p) (p_Meta p) (p_Spec p) s.

(** The constants of [policiesv1] and of the propagator's [common] package. *)
Definition policy_group : string := "policy.open-cluster-management.io".
Definition policy_version : string := "v1".
Definition policy_kind : string := "Policy".
Definition Compliant : string := "Compliant".
Definition NonCompliant : string := "NonCompliant".
Definition Pending : string := "Pending".
Definition ClusterNameLabel : string := policy_group +:+ "/cluster-name".
Definition ClusterNamespaceLabel : string := policy_group +:+ "/cluster-namespace".

(** [equality.Semantic.DeepEqual] on values in which nil and empty maps and slices are the same. *)
Definition DeepEqual {A} `{EqDecision A} (x y : A) : bool := x ==? y.

(** ** Secrets, Deployments, Events *)

Record Secret := MkSecret { s_Meta : ObjectMeta; s_Data : gmap string string; s_rest : string }.

#[export] Instance Secret_eq_dec : EqDecision Secret.
Proof. solve_decision. Defined.

(** A Deployment; its annotations are a Go map, which may be nil. *)
Record Deployment := MkDeployment {
  d_Annotations : option (gmap string string); d_rest : string }.

Record ObjectReference := ObjRef {
  ref_Kind : string; ref_Namespace : string; ref_Name : string; ref_UID : string;
  ref_APIVersion : string }.

(** [corev1.Event] *)
Record Event := MkEvent {
  e_Name : string;
  e_Namespace : string;
  e_InvolvedObject : ObjectReference;
  e_Reason : string;
  e_Message : string;
  e_Component : string;
  e_Host : string;
  e_FirstTimestamp : Z;
  e_LastTimestamp : Z;
  e_Count : Z;
  e_Type : string;
  e_Action : string;
  e_ReportingController : string;
  e_ReportingInstance : string;
  e_Related : option ObjectReference }.

(** ** Libraries *)

(** Where a path of field names leads in an object. *)
Inductive json_path := Found (v : json) | Missing | Blocked.

Fixpoint json_at (m : gmap string json) (path : list string) : json_path :=
  match path with
  | [] => Found (JObj m)
  | [k] => match m !! k with Some v => Found v | None => Missing end
  | k :: path' =>
      match m !! k with
      | Some (JObj m') => json_at m' path'
      | Some JNull | None => Missing
      | Some _ => Blocked
      end
  end.

(** The nested accessors of the package [unstructured]: value, found, error. *)
Class UnstructuredLib := {
  NestedString : gmap string json → list string → string * bool * option error;
  NestedInt64 : gmap string json → list string → Z * bool * option error;
  NestedBool : gmap string json → list string → bool * bool * option error;
  NestedSlice : gmap string json → list string → list json * bool * option error;
  SetNestedField : gmap string json → json → list string → gmap string json * option error
}.

(** [f] reads the values that [get] accepts: it finds them, reports a missing path as not found
    without an error, and a value of another type or a path through one as an error. *)
Definition reads_nested {A} (zero : A) (get : json → option A)
    (f : gmap string json → list string → A * bool * option error) : Prop :=
  ∀ m path,
    match json_at m path with
    | Found v =>
        match get v with
        | Some a => f m path = (a, true, None)
        | None => ∃ e, f m path = (zero, false, Some e)
        end
    | Missing => f m path = (zero, false, None)
    | Blocked => ∃ e, f m path = (zero, false, Some e)
    end.

Definition get_str (v : json) : option string := match v with JStr s => Some s | _ => None end.
Definition get_int (v : json) : option Z := match v with JInt z => Some z | _ => None end.
Definition get_bool (v : json) : option bool := match v with JBool b => Some b | _ => None end.
Definition get_arr (v : json) : option (list json) := match v with JArr l => Some l | _ => None end.

Class UnstructuredLaws (L : UnstructuredLib) : Prop := {
  NestedString_reads : reads_nested "" get_str NestedString;
  NestedInt64_reads : reads_nested 0%Z get_int NestedInt64;
  NestedBool_reads : reads_nested false get_bool NestedBool;
  NestedSlice_reads : reads_nested [] get_arr NestedSlice
}.

(** Decoding the raw JSON of a policy template. *)
Class DecodeLib := {
  (** [UnstructuredJSONScheme.Decode]: the kind and, when the decoded object is a [metav1.Object],
      the object. *)
  Decode : string → result (GroupVersionKind * option unstructured);
  (** [json.Unmarshal] into an [Unstructured], which asks for a kind. *)
  UnmarshalUnstructured : string → result unstructured;
  (** [json.Unmarshal] into the object map of an [Unstructured]. *)
  UnmarshalObject : string → result unstructured
}.

(** [metav1.Time.Rfc3339Copy] and the decoder of [metav1.MicroTime]. *)
Class TimeLib := {
  Rfc3339Copy : Z → Z;
  ParseMicroTime : string → option Z
}.

Definition second : Z := 1000000000.
Definition microsecond : Z := 1000.

(** [Rfc3339Copy] is documented to keep second-level precision. *)
Class TimeLaws (L : TimeLib) : Prop := {
  Rfc3339Copy_second : ∀ t, Rfc3339Copy t = (t `div` second * second)%Z
}.

(** [metav1.NewControllerRef] *)
Class OwnerLib := { NewControllerRef : Policy → GroupVersionKind → OwnerReference }.
Class OwnerLaws (L : OwnerLib) : Prop := {
  NewControllerRef_name : ∀ p k, or_Name (NewControllerRef p k) = p_Name p;
  NewControllerRef_uid : ∀ p k, or_UID (NewControllerRef p k) = p_UID p;
  NewControllerRef_kind : ∀ p k, or_Kind (NewControllerRef p k) = gvk_Kind k
}.

(** The order in which a [range] loop visits a Go map is not specified. *)
Class MapRange := { range : ∀ {V}, gmap ObjectIdentifier V → list (ObjectIdentifier * V) }.
Class MapRangeLaws (R : MapRange) : Prop := {
  range_map : ∀ V (m : gmap ObjectIdentifier V), range m ≡ₚ map_to_list m
}.

(** ** Reference implementations of the libraries, for concrete runs *)

Definition range_ref : MapRange := {| range := λ V m, map_to_list m |}.
#[export] Instance range_ref_laws : MapRangeLaws range_ref.
Proof. by split. Qed.

Definition nested_ref {A} (zero : A) (get : json → option A)
    (m : gmap string json) (path : list string) : A * bool * option error :=
  match json_at m path with
  | Found v =>
      match get v with
      | Some a => (a, true, None)
      | None => (zero, false, Some (Error OtherReason "accessor error: unexpected type"))
      end
  | Missing => (zero, false, None)
  | Blocked => (zero, false, Some (Error OtherReason "accessor error: not a map"))
  end.

Fixpoint set_nested_ref (m : gmap string json) (v : json) (path : list string)
    : option (gmap string json) :=
  match path with
  | [] => None
  | [k] => Some (<[k := v]> m)
  | k :: path' =>
      match m !! k with
      | Some (JObj m') => (λ m'', <[k := JObj m'']> m) <$> set_nested_ref m' v path'
      | Some _ => None
      | None => (λ m'', <[k := JObj m'']> m) <$> set_nested_ref ∅ v path'
      end
  end.

Definition unstructured_ref : UnstructuredLib := {|
  NestedString := nested_ref "" get_str;
  NestedInt64 := nested_ref 0%Z get_int;
  NestedBool := nested_ref false get_bool;
  NestedSlice := nested_ref [] get_arr;
  SetNestedField := λ m v path,
    match set_nested_ref m v path with
    | Some m' => (m', None)
    | None => (m, Some (Error OtherReason "value cannot be set"))
    end
|}.

Lemma nested_ref_reads {A} (zero : A) get : reads_nested zero get (nested_ref zero get).
Proof. intros m path. unfold nested_ref. case_tests; eauto. Qed.

#[export] Instance unstructured_ref_laws : UnstructuredLaws unstructured_ref.
Proof. split; apply nested_ref_reads. Qed.

Definition time_ref : TimeLib := {|
  Rfc3339Copy := λ t, (t `div` second * second)%Z;
  ParseMicroTime := λ _, None
|}.

#[export] Instance time_ref_laws : TimeLaws time_ref.
Proof. by split. Qed.

Definition owner_ref : OwnerLib := {|
  NewControllerRef := λ p k, OwnerRef (gv_String (gvk_Group k) (gvk_Version k)) (gvk_Kind k)
    (p_Name p) (p_UID p) "controller"
|}.

#[export] Instance owner_ref_laws : OwnerLaws owner_ref.
Proof. by split. Qed.
