(* ===== verification/Effects.v ===== *)
(** * The calls of the controllers

    One constructor per call a controller makes outside its own function: API servers (the hub and
    the managed cluster), the dynamic client, discovery, watchers, event recorders, channels,
    Prometheus counters, the clock, and the variables that concurrent reconciles share.  [ans] is
    the type of the answer.  A write that succeeds answers with the object the server returned,
    which the Go clients decode into the argument. *)

From S2P Require Import Prelude Prog K8s.

Inductive cluster := Hub | Managed.

#[export] Instance cluster_eq_dec : EqDecision cluster.
Proof. solve_decision. Defined.

(** One entry of the discovery answer for a group and version ([metav1.APIResource]). *)
Record APIResource := MkAPIResource { ar_Name : string; ar_Kind : string; ar_Namespaced : bool }.

(** The fields of a CustomResourceDefinition and of a ConstraintTemplate that are read. *)
Record CRD := MkCRD {
  crd_Group : string; crd_Plural : string; crd_Versions : list string;
  crd_NamespaceScoped : bool; crd_Labels : gmap string string }.
Record ConstraintTemplate := MkCT { ct_StatusCreated : bool; ct_CRDKind : string }.

(** The two error counters of template-sync. *)
Inductive counter := policyUserErrorsCounter | policySystemErrorsCounter.

(** The JSON patches template-sync sends, each a list of one operation. *)
Inductive json_patch :=
| PatchReplace (path : string) (value : string)
| PatchRemove (path : string).

(** The Kubernetes API versions a list or get is typed for. *)
Inductive api_version := V1 | V1beta1.

(** The key of a message gatekeeper-sync has sent ([policyKindName]). *)
Record policyKindName := PolicyKindName { pkn_Policy : string; pkn_Kind : string; pkn_Name : string }.

#[export] Instance policyKindName_eq_dec : EqDecision policyKindName.
Proof. solve_decision. Defined.
#[export] Instance policyKindName_countable : Countable policyKindName.
Proof.
  refine (inj_countable' (λ k, (pkn_Policy k, pkn_Kind k, pkn_Name k))
    (λ p, PolicyKindName p.1.1 p.1.2 p.2) _). by intros [].
Defined.

Inductive op :=
(* variables shared by all reconciles *)
| OReadUninstalling
| OWriteUninstalling (b : bool)
| OReadCreatedGk
| OWriteCreatedGk (b : bool)
(* typed clients *)
| OPolicyGet (c : cluster) (k : NamespacedName)
| OPolicyCreate (c : cluster) (p : Policy)
| OPolicyUpdate (c : cluster) (p : Policy)
| OPolicyStatusUpdate (c : cluster) (p : Policy)
| OPolicyDelete (c : cluster) (k : NamespacedName)
| OSecretGet (c : cluster) (k : NamespacedName)
| OSecretCreate (c : cluster) (s : Secret)
| OSecretUpdate (c : cluster) (s : Secret)
| OSecretDelete (c : cluster) (k : NamespacedName)
| OEventList (ns : string)
| OEventCreate (ns : string) (e : Event)
| ODeploymentGet (ns name : string)
| ODeploymentUpdate (ns : string) (d : Deployment)
| OCRDGet (v : api_version) (name : string)
| OCRDList (v : api_version) (label value : string)
| OConstraintTemplateList (v : api_version)
(* dynamic client and discovery *)
| ODynamicNew
| OServerResources (gv : string)
| ODynGet (r : GroupVersionResource) (ns name : string)
| ODynCreate (r : GroupVersionResource) (ns : string) (u : unstructured)
| ODynUpdate (r : GroupVersionResource) (ns : string) (u : unstructured)
| ODynPatch (r : GroupVersionResource) (ns name : string) (p : json_patch) (sub : option string)
| ODynDelete (r : GroupVersionResource) (ns name : string)
| ODynList (r : GroupVersionResource) (ns label value : string)
| ODynDeleteCollection (r : GroupVersionResource) (ns : string)
(* dynamic watchers *)
| OStartQueryBatch (id : ObjectIdentifier)
| OEndQueryBatch (id : ObjectIdentifier)
| OWatchGet (id : ObjectIdentifier) (k : GroupVersionKind) (ns name : string)
| OAddOrUpdateWatcher (id : ObjectIdentifier) (objs : list ObjectIdentifier)
| ORemoveWatcher (id : ObjectIdentifier)
(* events recorded in the background, channels, counters *)
| OEventf (c : cluster) (obj : NamespacedName) (type reason action msg : string)
| OSendSpecSync (k : NamespacedName)
| OSendStatusSync (k : NamespacedName)
| OCounterInc (c : counter) (policy template type : string)
| OCounterDelete (c : counter) (policy : string)
(* the webhook configuration and the cache of sent messages of gatekeeper-sync *)
| OWebhookGet (name : string)
| OMsgRange
| OMsgLoad (k : policyKindName)
| OMsgStore (k : policyKindName) (digest : string)
| OMsgDelete (k : policyKindName)
(* clock and context *)
| ONow
| OSleep (nanoseconds : Z)
| OCtxDone.

Definition ans (o : op) : Type :=
  match o with
  | OReadUninstalling => bool
  | OReadCreatedGk => option bool
  | OPolicyGet _ _ | OPolicyCreate _ _ | OPolicyUpdate _ _ | OPolicyStatusUpdate _ _ => result Policy
  | OSecretGet _ _ | OSecretCreate _ _ | OSecretUpdate _ _ => result Secret
  | OEventList _ => result (list Event)
  | ODeploymentGet _ _ => result Deployment
  | OCRDGet _ _ => result CRD
  | OCRDList _ _ _ => result (list CRD)
  | OConstraintTemplateList _ => result (list ConstraintTemplate)
  | OServerResources _ => result (list APIResource)
  | ODynGet _ _ _ | ODynCreate _ _ _ | ODynUpdate _ _ _ => result unstructured
  | ODynList _ _ _ _ => result (list unstructured)
  | OWatchGet _ _ _ _ => result (option unstructured)
  | OPolicyDelete _ _ | OSecretDelete _ _ | OEventCreate _ _ | ODeploymentUpdate _ _
  | ODynamicNew | ODynPatch _ _ _ _ _ | ODynDelete _ _ _ | ODynDeleteCollection _ _
  | OStartQueryBatch _ | OEndQueryBatch _ | OAddOrUpdateWatcher _ _ | ORemoveWatcher _ =>
      option error
  | OWebhookGet _ => result (list string)
  | OMsgRange => list policyKindName
  | OMsgLoad _ => option string
  | ONow => Z
  | OCtxDone => bool
  | OWriteUninstalling _ | OWriteCreatedGk _ | OEventf _ _ _ _ _ _ | OSendSpecSync _
  | OSendStatusSync _ | OCounterInc _ _ _ _ | OCounterDelete _ _ | OSleep _
  | OMsgStore _ _ | OMsgDelete _ => unit
  end.

Abbreviation prg := (prog ans).
Abbreviation call := (@Prog.call op ans).
Abbreviation env W := (handler ans W).
Abbreviation trace := (list (event ans)).

(** [reconcile.Result] and the error a [Reconcile] returns next to it. *)
Record Result := MkResult { RequeueAfter : Z }.
Definition reconciled : Type := Result * option error.
Definition done_ok : reconciled := (MkResult 0, None).
Definition done_err (e : error) : reconciled := (MkResult 0, Some e).
(** [5 * time.Minute], in nanoseconds. *)
Definition five_minutes : Z := 5 * 60 * second.
Definition requeue_5m : reconciled := (MkResult five_minutes, None).

(** ** Classes of calls *)

(** Calls that change an API server, a channel or a shared variable. *)
Definition is_write (o : op) : bool :=
  match o with
  | OWriteUninstalling _ | OWriteCreatedGk _
  | OPolicyCreate _ _ | OPolicyUpdate _ _ | OPolicyStatusUpdate _ _ | OPolicyDelete _ _
  | OSecretCreate _ _ | OSecretUpdate _ _ | OSecretDelete _ _
  | OEventCreate _ _ | ODeploymentUpdate _ _
  | ODynCreate _ _ _ | ODynUpdate _ _ _ | ODynPatch _ _ _ _ _ | ODynDelete _ _ _
  | ODynDeleteCollection _ _ | OAddOrUpdateWatcher _ _ | ORemoveWatcher _
  | OEventf _ _ _ _ _ _ | OSendSpecSync _ | OSendStatusSync _
  | OCounterInc _ _ _ _ | OCounterDelete _ _ | OMsgStore _ _ | OMsgDelete _ => true
  | _ => false
  end.

(** Go equality on the parts of a call that identify its target. *)
Definition is_policy_write (c : cluster) (o : op) : bool :=
  match o with
  | OPolicyCreate c' _ | OPolicyUpdate c' _ | OPolicyStatusUpdate c' _ | OPolicyDelete c' _ =>
      c ==? c'
  | _ => false
  end.

(** The error a call was answered with. *)
Definition answer_error (e : event ans) : option error :=
  let 'existT o x := e in
  let of_result {A} (x : result A) : option error :=
    match x with Ok _ => None | Err e => Some e end in
  match o return ans o → option error with
  | OPolicyGet _ _ | OPolicyCreate _ _ | OPolicyUpdate _ _ | OPolicyStatusUpdate _ _
  | OSecretGet _ _ | OSecretCreate _ _ | OSecretUpdate _ _ | OEventList _ | ODeploymentGet _ _
  | OCRDGet _ _ | OCRDList _ _ _ | OConstraintTemplateList _ | OServerResources _
  | ODynGet _ _ _ | ODynCreate _ _ _ | ODynUpdate _ _ _ | ODynList _ _ _ _
  | OWatchGet _ _ _ _ | OWebhookGet _ => of_result
  | OPolicyDelete _ _ | OSecretDelete _ _ | OEventCreate _ _ | ODeploymentUpdate _ _
  | ODynamicNew | ODynPatch _ _ _ _ _ | ODynDelete _ _ _ | ODynDeleteCollection _ _
  | OStartQueryBatch _ | OEndQueryBatch _ | OAddOrUpdateWatcher _ _ | ORemoveWatcher _ =>
      λ x, x
  | _ => λ _, None
  end x.

(** Some call of the trace failed with [e]. *)
Definition answered (e : error) (t : trace) : Prop := Exists (λ x, answer_error x = Some e) t.

(** ** Environments for concrete runs *)

(** The answer of an environment in which nothing exists and nothing fails. *)
Definition not_found : error := Error NotFound "not found".

Definition default_ans (o : op) : ans o :=
  match o return ans o with
  | OReadUninstalling => false
  | OReadCreatedGk => None
  | OPolicyGet _ _ | OSecretGet _ _ | ODeploymentGet _ _ | OCRDGet _ _ | ODynGet _ _ _ =>
      Err not_found
  | OPolicyCreate _ p | OPolicyUpdate _ p | OPolicyStatusUpdate _ p => Ok p
  | OSecretCreate _ s | OSecretUpdate _ s => Ok s
  | OEventList _ => Ok []
  | OCRDList _ _ _ => Ok []
  | OConstraintTemplateList _ => Ok []
  | OServerResources _ => Ok []
  | ODynCreate _ _ u | ODynUpdate _ _ u => Ok u
  | ODynList _ _ _ _ => Ok []
  | OWatchGet _ _ _ _ => Ok None
  | OPolicyDelete _ _ | OSecretDelete _ _ | OEventCreate _ _ | ODeploymentUpdate _ _
  | ODynamicNew | ODynPatch _ _ _ _ _ | ODynDelete _ _ _ | ODynDeleteCollection _ _
  | OStartQueryBatch _ | OEndQueryBatch _ | OAddOrUpdateWatcher _ _ | ORemoveWatcher _ => None
  | OWebhookGet _ => Err not_found
  | OMsgRange => []
  | OMsgLoad _ => None
  | ONow => 0%Z
  | OCtxDone => false
  | OWriteUninstalling _ | OWriteCreatedGk _ | OEventf _ _ _ _ _ _ | OSendSpecSync _
  | OSendStatusSync _ | OCounterInc _ _ _ _ | OCounterDelete _ _ | OSleep _
  | OMsgStore _ _ | OMsgDelete _ => tt
  end.

(** An environment without state. *)
Definition const_env (f : ∀ o : op, ans o) : env unit := λ _ o, (tt, f o).

Lemma run_const_call {A} f o (k : ans o → prg A) :
  run (const_env f) tt (let! x := call o in k x) =
  let '(w, t, r) := run (const_env f) tt (k (f o)) in (w, ev o (f o) :: t, r).
Proof. reflexivity. Qed.

Lemma eval_const {A} f (p : prg A) : result_of (run (const_env f) tt p) = eval f p.
Proof. apply eval_run. by intros []. Qed.

(** A call of the second part of a program, when the first part returns. *)
Lemma const_bind_elem_ret {A B} f (p : prg A) (k : A → prg B) a o :
  eval f p = Returned a → o ∈ ops (trace_of (run (const_env f) tt (k a))) →
  o ∈ ops (trace_of (run (const_env f) tt (bind p k))).
Proof.
  intros Hp Ho. rewrite run_bind. rewrite <- (eval_const f p) in Hp.
  destruct (run (const_env f) tt p) as [[[] t] r]. cbn in Hp. subst r.
  destruct (run (const_env f) tt (k a)) as [[w' t'] r'].
  cbn [trace_of fst snd] in *. rewrite ops_app.
  apply elem_of_app. by right.
Qed.

Lemma const_bind_elem {A B} f (p : prg A) (k : A → prg B) o :
  eval f p ≠ Panicked → (∀ a, o ∈ ops (trace_of (run (const_env f) tt (k a)))) →
  o ∈ ops (trace_of (run (const_env f) tt (bind p k))).
Proof.
  intros Hp Hk. destruct (eval f p) as [a|] eqn:E; [|done]. by eapply const_bind_elem_ret.
Qed.
