(* ===== verification/Utils.v ===== *)
(** * controllers/utils

    The helpers shared by the controllers: comparison of replicated policies, the allow list of
    policy kinds, error lists, discovery of a resource from a kind ([utils.go]), and the sender of
    compliance events ([events.go]). *)

From S2P Require Import Prelude Prog GoStrings K8s Effects.

(** ** utils.go: constants *)

Definition GvkConstraintTemplate_Group : string := "templates.gatekeeper.sh".
Definition GvkConstraintTemplate_Kind : string := "ConstraintTemplate".
Definition GConstraint : string := "constraints.gatekeeper.sh".
Definition ClusterwideFinalizer : string := policy_group +:+ "/cleanup-cluster-scoped-policies".
Definition ParentPolicyLabel : string := policy_group +:+ "/policy".
Definition PolicyTypeLabel : string := policy_group +:+ "/policy-type".

(** Pairs of a group and a kind; an empty kind allows every kind of the group. *)
Definition policyAllowList : list (string * string) :=
  [(GvkConstraintTemplate_Group, GvkConstraintTemplate_Kind); (GConstraint, "")].

(** ** utils.go: functions *)

Definition EquivalentReplicatedPolicies (plc1 plc2 : Policy) : bool :=
  if negb (DeepEqual (p_Annotations plc1) (p_Annotations plc2)) then false
  else DeepEqual (p_Spec plc1) (p_Spec plc2).

Fixpoint is_allowed_in (allow : list (string * string)) (group kind : string) : bool :=
  match allow with
  | [] => false
  | (g, k) :: allow' =>
      if ((group ==? g) && ((k ==? "") || (kind ==? k)))%bool then true
      else is_allowed_in allow' group kind
  end.

Definition IsAllowedPolicy (group kind : string) : bool :=
  is_allowed_in policyAllowList group kind.

(** [(ErrList).Aggregate]: the loop keeps the error built so far. *)
Fixpoint aggregate_from (err : option error) (l : list error) : option error :=
  match l with
  | [] => err
  | item :: l' =>
      aggregate_from
        (match err with
         | None => Some item
         | Some e => Some (wrap (err_msg e +:+ "; ") item)
         end) l'
  end.

Definition Aggregate (l : list error) : option error := aggregate_from None l.

Definition ErrNoVersionedResource (msg : string) : error :=
  Error NoVersionedResource ("the resource version was not found: " +:+ msg).

Definition GVRFromGVK (gvk : GroupVersionKind) : prg (result (GroupVersionResource * bool)) :=
  let! rsrcList := call (OServerResources (gv_String (gvk_Group gvk) (gvk_Version gvk))) in
  match rsrcList with
  | Err err =>
      if IsNotFound err then Ret (Err (ErrNoVersionedResource (gvk_String gvk)))
      else Ret (Err err)
  | Ok APIResources =>
      match find_first (λ rsrc, ar_Kind rsrc ==? gvk_Kind gvk) APIResources with
      | Some rsrc =>
          Ret (Ok (GVR (gvk_Group gvk) (gvk_Version gvk) (ar_Name rsrc), ar_Namespaced rsrc))
      | None =>
          Ret (Err (ErrNoVersionedResource ("no matching kind was found: " +:+ gvk_String gvk)))
      end
  end.

(** The runtime scheme and the typed objects it creates. *)
Class SchemeLib := {
  typed : Type;
  scheme_New : GroupVersionKind → result typed;
  typed_Kind : typed → string;
  FromUnstructured : unstructured → typed → result typed;
  scheme_Default : typed → typed;
  MarshalTyped : typed → result string;
  UnmarshalMap : string → result unstructured
}.

(** [ApplyObjectDefaults]: the object after the call, and the error. *)
Definition ApplyObjectDefaults `{SchemeLib} (object : unstructured)
    : unstructured * option error :=
  match scheme_New (u_GVK object) with
  | Err err => if IsNotRegisteredError err then (object, None) else (object, Some err)
  | Ok objectTyped =>
      let errDefault :=
        "an unexpected error occurred while filling in default fields for the " +:+
        typed_Kind objectTyped +:+ ": " in
      match FromUnstructured object objectTyped with
      | Err err => (object, Some (wrap errDefault err))
      | Ok objectTyped =>
          match MarshalTyped (scheme_Default objectTyped) with
          | Err err => (object, Some (wrap errDefault err))
          | Ok objectRaw =>
              match UnmarshalMap objectRaw with
              | Err err => (object, Some (wrap errDefault err))
              | Ok objectMap => (objectMap, None)
              end
          end
      end
  end.

(** A scheme in which no kind is registered. *)
Definition empty_scheme : SchemeLib := {|
  typed := unit;
  scheme_New := λ _, Err (Error NotRegistered "no kind is registered");
  typed_Kind := λ _, "";
  FromUnstructured := λ _ t, Ok t;
  scheme_Default := λ t, t;
  MarshalTyped := λ _, Ok "";
  UnmarshalMap := λ _, Err (Error OtherReason "unexpected end of JSON input") |}.

(** ** events.go *)

Record ComplianceEventSender := Sender {
  ces_ClusterNamespace : string;
  ces_InstanceName : string;
  ces_ControllerName : string }.

(** The name client-go gives an event: the owner's name and the time in hexadecimal. *)
Definition event_name (owner : string) (now : Z) : string :=
  owner +:+ "." +:+ sprintf_x (wrap64 now).

Definition EventTypeNormal : string := "Normal".
Definition EventTypeWarning : string := "Warning".

(** The event [SendEvent] builds at time [now]. *)
Definition compliance_event (c : ComplianceEventSender) (instance : option unstructured)
    (owner : OwnerReference) (reason msg compliance : string) (now : Z) : Event :=
  {| e_Name := event_name (or_Name owner) now;
     e_Namespace := ces_ClusterNamespace c;
     e_InvolvedObject :=
       ObjRef (or_Kind owner) (ces_ClusterNamespace c) (or_Name owner) (or_UID owner)
         (or_APIVersion owner);
     e_Reason := reason;
     e_Message := compliance +:+ "; " +:+ msg;
     e_Component := ces_ControllerName c;
     e_Host := ces_InstanceName c;
     e_FirstTimestamp := now;
     e_LastTimestamp := now;
     e_Count := 1;
     e_Type := if compliance ==? Compliant then EventTypeNormal else EventTypeWarning;
     e_Action := "ComplianceStateUpdate";
     e_ReportingController := ces_ControllerName c;
     e_ReportingInstance := ces_InstanceName c;
     e_Related :=
       (λ u, ObjRef (u_Kind u) (u_Namespace u) (u_Name u) (m_UID (u_Meta u))
               (gv_String (u_Group u) (gvk_Version (u_GVK u)))) <$> instance |}.

Definition SendEvent (c : ComplianceEventSender) (instance : option unstructured)
    (owner : OwnerReference) (reason msg compliance : string) : prg (option error) :=
  let! now := call ONow in
  call (OEventCreate (ces_ClusterNamespace c)
          (compliance_event c instance owner reason msg compliance now)).

Definition EventReason (ns name : string) : string :=
  if ns ==? "" then "policy: " +:+ name else "policy: " +:+ ns +:+ "/" +:+ name.

(** ** Lemmas *)

Lemma EquivalentReplicatedPolicies_spec plc1 plc2 :
  EquivalentReplicatedPolicies plc1 plc2 = true ↔
  p_Annotations plc1 = p_Annotations plc2 ∧ p_Spec plc1 = p_Spec plc2.
Proof.
  unfold EquivalentReplicatedPolicies, DeepEqual. case_match; breflect.
  - split; [done|]. by intros [? _].
  - rewrite bool_decide_eq_true. tauto.
Qed.

Lemma EquivalentReplicatedPolicies_sym plc1 plc2 :
  EquivalentReplicatedPolicies plc1 plc2 = EquivalentReplicatedPolicies plc2 plc1.
Proof.
  apply eq_bool_prop_intro. rewrite !Is_true_true, !EquivalentReplicatedPolicies_spec.
  split; intros [? ?]; done.
Qed.

Lemma aggregate_from_Some e l :
  aggregate_from (Some e) l =
  Some (Error (err_reason (default e (last l))) (Join (err_msg e :: map err_msg l) "; ")).
Proof.
  revert e. induction l as [|x l IH]; intros e; simpl; [by destruct e|].
  rewrite IH. unfold wrap. f_equal. f_equal.
  - destruct l as [|y l]; [done|]. change (last (x :: y :: l)) with (last (y :: l)).
    destruct (last (y :: l)) eqn:E; [done|]. by apply last_None in E.
  - destruct l; simpl; by rewrite <- ?str_app_assoc.
Qed.

(** What discovery says about a kind, when [answer] is the answer for its group and version. *)
Definition discovered (gvk : GroupVersionKind) (answer : result (list APIResource))
    : result (GroupVersionResource * bool) :=
  match answer with
  | Err err => Err (if IsNotFound err then ErrNoVersionedResource (gvk_String gvk) else err)
  | Ok l =>
      match find_first (λ rsrc, ar_Kind rsrc ==? gvk_Kind gvk) l with
      | Some rsrc => Ok (GVR (gvk_Group gvk) (gvk_Version gvk) (ar_Name rsrc), ar_Namespaced rsrc)
      | None => Err (ErrNoVersionedResource ("no matching kind was found: " +:+ gvk_String gvk))
      end
  end.

Definition discovery_call (gvk : GroupVersionKind) : op :=
  OServerResources (gv_String (gvk_Group gvk) (gvk_Version gvk)).

Lemma GVRFromGVK_eval f gvk :
  eval f (GVRFromGVK gvk) = Returned (discovered gvk (f (discovery_call gvk))).
Proof.
  unfold GVRFromGVK, discovered, discovery_call. simpl.
  destruct (f (OServerResources _)) as [l|e]; by case_match.
Qed.

Lemma GVRFromGVK_wp gvk Q :
  (∀ x, Q [ev (discovery_call gvk) x] (Returned (discovered gvk x))) → wp (GVRFromGVK gvk) Q.
Proof.
  intros H. unfold GVRFromGVK. simpl. intros x. specialize (H x). unfold discovered in H.
  destruct x as [l|e]; [destruct (find_first _ _)|destruct (IsNotFound e)]; exact H.
Qed.

Lemma GVRFromGVK_calls (P : op → Prop) gvk : P (discovery_call gvk) → all_ops P (GVRFromGVK gvk).
Proof. intros H. unfold GVRFromGVK. simpl. split; [done|]. intros x. by repeat case_match. Qed.
