(* ===== verification/ApiServer.v ===== *)
(** * What an API server promises

    The classes state the documented behaviour of the API servers, seen through clients whose
    caches are up to date: a get answers with the stored object, a successful write stores what was
    sent, a failed call changes nothing, and no other call touches the store.  Calls may fail at any
    time.  [store_env] is a server that satisfies them. *)

From S2P Require Import Prelude Prog K8s Effects.

Definition p_key (p : Policy) : NamespacedName := NN (p_Namespace p) (p_Name p).
Definition s_key (s : Secret) : NamespacedName := NN (m_Namespace (s_Meta s)) (m_Name (s_Meta s)).

(** What a server keeps of an object it is sent through the main resource. *)
Definition same_content (p p' : Policy) : Prop :=
  p_key p' = p_key p ∧ p_Annotations p' = p_Annotations p ∧ p_Labels p' = p_Labels p ∧
  p_Spec p' = p_Spec p.

Definition is_policy_op (o : op) : bool :=
  match o with
  | OPolicyGet _ _ | OPolicyCreate _ _ | OPolicyUpdate _ _ | OPolicyStatusUpdate _ _
  | OPolicyDelete _ _ => true
  | _ => false
  end.

Definition is_secret_op (o : op) : bool :=
  match o with
  | OSecretGet _ _ | OSecretCreate _ _ | OSecretUpdate _ _ | OSecretDelete _ _ => true
  | _ => false
  end.

(** [f] is [g] except on cluster [c], where it is [m]. *)
Definition only_on {K V} `{Countable K} (f g : cluster → gmap K V) (c : cluster) (m : gmap K V)
    : Prop :=
  f c = m ∧ ∀ c', c' ≠ c → f c' = g c'.

(** Policies have a status subresource: writes to the main resource ignore the status, and a new
    policy has none; writes to the status ignore everything else. *)
Definition no_status : PolicyStatus := Status "" [] "".
Definition keeps_status (m : gmap NamespacedName Policy) (p p' : Policy) : Prop :=
  ∃ q, m !! p_key p = Some q ∧ p_Status p' = p_Status q.
Definition keeps_content (m : gmap NamespacedName Policy) (p p' : Policy) : Prop :=
  ∃ q, m !! p_key p = Some q ∧ same_content q p' ∧ p_Status p' = p_Status p.

(** ** Finalizers

    An object that is deleted is removed, or marked with a deletion timestamp when finalizers keep
    it; it is removed by the write that takes its last finalizer away.  So a server never holds an
    object that is marked and has no finalizer left. *)
Section objects.
Context {V : Type} (key : V → NamespacedName) (meta : V → ObjectMeta).

Definition terminating (v : V) : Prop := is_Some (m_DeletionTimestamp (meta v)).
Definition kept (v : V) : Prop := terminating v → m_Finalizers (meta v) ≠ [].

#[export] Instance kept_dec v : Decision (kept v).
Proof.
  unfold kept, terminating. destruct (m_DeletionTimestamp (meta v)) as [t|].
  - destruct (decide (m_Finalizers (meta v) = [])) as [E|E]; [right|by left].
    intros H. by apply H.
  - left. by intros [? ?].
Defined.

(** [same] tells what the mark does not change. *)
Definition deleted (same : V → V → Prop) (m m' : gmap NamespacedName V) (k : NamespacedName) : Prop :=
  m' = delete k m ∨
  ∃ v v', m !! k = Some v ∧ m' = <[k := v']> m ∧ terminating v' ∧ same v v'.

(** An update stores what it answers with, or takes the last finalizer of a marked object. *)
Definition updated (m m' : gmap NamespacedName V) (v v' : V) : Prop :=
  m' = <[key v := v']> m ∨
  ∃ q, m !! key v = Some q ∧ terminating q ∧ m_Finalizers (meta v) = [] ∧ m' = delete (key v) m.

(** An object that is sent with the finalizers it was read with stays. *)
Lemma updated_kept m m' q v v' :
  m !! key v = Some q → kept q → m_Finalizers (meta v) = m_Finalizers (meta q) →
  updated m m' v v' → m' = <[key v := v']> m.
Proof.
  intros Hq Hk Hf [?|(q' & Hq' & Hd & Hnil & _)]; [done|]. simplify_eq. exfalso.
  apply Hk; [done|]. congruence.
Qed.

End objects.

Definition same_policy (p p' : Policy) : Prop := same_content p p' ∧ p_Status p' = p_Status p.
Definition same_secret (s s' : Secret) : Prop := s_key s' = s_key s ∧ s_Data s' = s_Data s.

Class PolicyServer {W} (h : env W) := {
  policies : W → cluster → gmap NamespacedName Policy;
  policy_key : ∀ w c k p, policies w c !! k = Some p → p_key p = k;
  policy_kept : ∀ w c k p, policies w c !! k = Some p → kept p_Meta p;
  policy_get : ∀ w c k w' x, h w (OPolicyGet c k) = (w', x) →
    (∀ c', policies w' c' = policies w c') ∧
    match x with
    | Ok p => policies w c !! k = Some p
    | Err e => IsNotFound e = true → policies w c !! k = None
    end;
  policy_create : ∀ w c p w' x, h w (OPolicyCreate c p) = (w', x) →
    match x with
    | Ok p' => same_content p p' ∧ p_Status p' = no_status ∧
               only_on (policies w') (policies w) c (<[p_key p := p']> (policies w c))
    | Err _ => ∀ c', policies w' c' = policies w c'
    end;
  policy_update : ∀ w c p w' x, h w (OPolicyUpdate c p) = (w', x) →
    match x with
    | Ok p' => same_content p p' ∧ keeps_status (policies w c) p p' ∧
               updated p_key p_Meta (policies w c) (policies w' c) p p' ∧
               ∀ c', c' ≠ c → policies w' c' = policies w c'
    | Err _ => ∀ c', policies w' c' = policies w c'
    end;
  policy_status_update : ∀ w c p w' x, h w (OPolicyStatusUpdate c p) = (w', x) →
    match x with
    | Ok p' => keeps_content (policies w c) p p' ∧
               only_on (policies w') (policies w) c (<[p_key p := p']> (policies w c))
    | Err _ => ∀ c', policies w' c' = policies w c'
    end;
  policy_delete : ∀ w c k w' x, h w (OPolicyDelete c k) = (w', x) →
    match x with
    | None => deleted p_Meta same_policy (policies w c) (policies w' c) k ∧
              ∀ c', c' ≠ c → policies w' c' = policies w c'
    | Some e => (∀ c', policies w' c' = policies w c') ∧
                (IsNotFound e = true → policies w c !! k = None)
    end;
  policy_frame : ∀ w o w' x, is_policy_op o = false → h w o = (w', x) →
    ∀ c, policies w' c = policies w c
}.

Class SecretServer {W} (h : env W) := {
  secrets : W → cluster → gmap NamespacedName Secret;
  secret_key : ∀ w c k s, secrets w c !! k = Some s → s_key s = k;
  secret_kept : ∀ w c k s, secrets w c !! k = Some s → kept s_Meta s;
  secret_get : ∀ w c k w' x, h w (OSecretGet c k) = (w', x) →
    (∀ c', secrets w' c' = secrets w c') ∧
    match x with
    | Ok s => secrets w c !! k = Some s
    | Err e => IsNotFound e = true → secrets w c !! k = None
    end;
  secret_create : ∀ w c s w' x, h w (OSecretCreate c s) = (w', x) →
    match x with
    | Ok s' => same_secret s s' ∧
               only_on (secrets w') (secrets w) c (<[s_key s := s']> (secrets w c))
    | Err _ => ∀ c', secrets w' c' = secrets w c'
    end;
  secret_update : ∀ w c s w' x, h w (OSecretUpdate c s) = (w', x) →
    match x with
    | Ok s' => same_secret s s' ∧ updated s_key s_Meta (secrets w c) (secrets w' c) s s' ∧
               ∀ c', c' ≠ c → secrets w' c' = secrets w c'
    | Err _ => ∀ c', secrets w' c' = secrets w c'
    end;
  secret_delete : ∀ w c k w' x, h w (OSecretDelete c k) = (w', x) →
    match x with
    | None => deleted s_Meta same_secret (secrets w c) (secrets w' c) k ∧
              ∀ c', c' ≠ c → secrets w' c' = secrets w c'
    | Some e => (∀ c', secrets w' c' = secrets w c') ∧
                (IsNotFound e = true → secrets w c !! k = None)
    end;
  secret_frame : ∀ w o w' x, is_secret_op o = false → h w o = (w', x) →
    ∀ c, secrets w' c = secrets w c
}.

(** ** A server *)

Record world := World {
  w_uninstalling : bool;
  w_hub : gmap NamespacedName Policy;
  w_managed : gmap NamespacedName Policy;
  w_hub_secrets : gmap NamespacedName Secret;
  w_managed_secrets : gmap NamespacedName Secret }.

Definition w_policies (w : world) (c : cluster) : gmap NamespacedName Policy :=
  match c with Hub => w_hub w | Managed => w_managed w end.
Definition w_secrets (w : world) (c : cluster) : gmap NamespacedName Secret :=
  match c with Hub => w_hub_secrets w | Managed => w_managed_secrets w end.

Definition set_policies (c : cluster) (m : gmap NamespacedName Policy) (w : world) : world :=
  match c with
  | Hub => World (w_uninstalling w) m (w_managed w) (w_hub_secrets w) (w_managed_secrets w)
  | Managed => World (w_uninstalling w) (w_hub w) m (w_hub_secrets w) (w_managed_secrets w)
  end.
Definition set_secrets (c : cluster) (m : gmap NamespacedName Secret) (w : world) : world :=
  match c with
  | Hub => World (w_uninstalling w) (w_hub w) (w_managed w) m (w_managed_secrets w)
  | Managed => World (w_uninstalling w) (w_hub w) (w_managed w) (w_hub_secrets w) m
  end.

(** Setting the deletion timestamp. *)
Definition meta_set_DeletionTimestamp (t : option Z) (m : ObjectMeta) : ObjectMeta :=
  Meta (m_Name m) (m_Namespace m) (m_Labels m) (m_Annotations m) (m_Finalizers m)
    (m_OwnerReferences m) (m_ResourceVersion m) (m_UID m) (m_Generation m) t.
Definition s_set_Meta (f : ObjectMeta → ObjectMeta) (s : Secret) : Secret :=
  MkSecret (f (s_Meta s)) (s_Data s) (s_rest s).

Section store.
Context {V : Type} (key : V → NamespacedName) (meta : V → ObjectMeta).
Variable set_meta : (ObjectMeta → ObjectMeta) → V → V.
Hypothesis Hmeta : ∀ f v, meta (set_meta f v) = f (meta v).
Hypothesis Hkey : ∀ t v, key (set_meta (meta_set_DeletionTimestamp t) v) = key v.

(** The objects of a map that a server could hold, so that every world is well formed. *)
Definition held (m : gmap NamespacedName V) : gmap NamespacedName V :=
  filter (λ kv, key kv.2 = kv.1 ∧ kept meta kv.2) m.
Definition held_at (m : gmap NamespacedName V) (k : NamespacedName) : option V :=
  m !! k ≫= λ v, if decide (key v = k ∧ kept meta v) then Some v else None.

Definition store_new (v : V) (m : gmap NamespacedName V) : V * gmap NamespacedName V :=
  let v := set_meta (meta_set_DeletionTimestamp None) v in (v, <[key v := v]> m).
(** [q] is the stored object, whose mark [v] gets. *)
Definition store_update (q v : V) (m : gmap NamespacedName V) : V * gmap NamespacedName V :=
  let v := set_meta (meta_set_DeletionTimestamp (m_DeletionTimestamp (meta q))) v in
  (v, if decide (kept meta v) then <[key v := v]> m else delete (key v) m).
Definition store_delete (q : V) (m : gmap NamespacedName V) : gmap NamespacedName V :=
  if decide (m_Finalizers (meta q) = []) then delete (key q) m
  else <[key q := set_meta (meta_set_DeletionTimestamp (Some 0%Z)) q]> m.

Lemma held_lookup m k : held m !! k = held_at m k.
Proof.
  unfold held, held_at. destruct (m !! k) as [v|] eqn:E; simpl.
  - case_decide as Hd; [by apply map_lookup_filter_Some|].
    apply map_lookup_filter_None. right. intros v' ?. by simplify_eq.
  - apply map_lookup_filter_None. by left.
Qed.

Lemma held_at_Some m k v : held_at m k = Some v → m !! k = Some v ∧ key v = k ∧ kept meta v.
Proof. unfold held_at. destruct (m !! k); simpl; [|done]. case_decide; [|done]. naive_solver. Qed.

Lemma held_insert m v : kept meta v → held (<[key v := v]> m) = <[key v := v]> (held m).
Proof. intros Hv. unfold held. by rewrite map_filter_insert_True. Qed.
Lemma held_delete m k : held (delete k m) = delete k (held m).
Proof. unfold held. by rewrite map_filter_delete. Qed.

Lemma set_mark_kept v : kept meta (set_meta (meta_set_DeletionTimestamp None) v).
Proof. unfold kept, terminating. rewrite Hmeta. by intros [? ?]. Qed.

Lemma store_new_spec v m : (store_new v m).2 = <[key v := (store_new v m).1]> m ∧
  held (store_new v m).2 = <[key v := (store_new v m).1]> (held m).
Proof.
  unfold store_new. cbn [fst snd]. set (v' := set_meta _ v).
  assert (key v' = key v) as Hv by apply Hkey. rewrite <- Hv. split; [done|].
  apply held_insert, set_mark_kept.
Qed.

Lemma store_update_spec q v m :
  held_at m (key v) = Some q →
  updated key meta (held m) (held (store_update q v m).2) v (store_update q v m).1.
Proof.
  intros Hq. unfold store_update, updated. cbn [fst snd].
  set (v' := set_meta _ v). assert (key v' = key v) as Hv by apply Hkey. rewrite Hv. case_decide as Hk.
  - left. rewrite <- Hv. by apply held_insert.
  - right. exists q. rewrite held_lookup, held_delete. split; [done|].
    assert (terminating meta q ∧ m_Finalizers (meta v) = []) as [? ?]; [|done].
    unfold kept, terminating, v' in Hk |- *. rewrite Hmeta in Hk. cbn in Hk.
    destruct (m_DeletionTimestamp (meta q)); [|by destruct Hk; intros [? ?]].
    split; [done|]. destruct (m_Finalizers (meta v)); [done|]. by destruct Hk.
Qed.

Lemma store_delete_spec (same : V → V → Prop) q k m :
  held_at m k = Some q → (∀ t, same q (set_meta (meta_set_DeletionTimestamp t) q)) →
  deleted meta same (held m) (held (store_delete q m)) k.
Proof.
  intros Hq Hs. pose proof (held_at_Some _ _ _ Hq) as (Hm & Hk & _). unfold store_delete, deleted.
  rewrite Hk. case_decide as Hf; [left; apply held_delete|right].
  set (q' := set_meta _ q). exists q, q'.
  assert (key q' = k) as Hk' by (unfold q'; by rewrite Hkey).
  rewrite held_lookup, Hq. split; [done|].
  split; [|split; [unfold terminating, q'; rewrite Hmeta; by eexists|apply Hs]].
  rewrite <- Hk'. apply held_insert. unfold kept, q'. by rewrite Hmeta.
Qed.

End store.

Definition policy_at (w : world) (c : cluster) : NamespacedName → option Policy :=
  held_at p_key p_Meta (w_policies w c).
Definition secret_at (w : world) (c : cluster) : NamespacedName → option Secret :=
  held_at s_key s_Meta (w_secrets w c).

Definition store_env : env world := λ w o,
  match o return world * ans o with
  | OReadUninstalling => (w, w_uninstalling w)
  | OPolicyGet c k =>
      (w, match policy_at w c k with Some p => Ok p | None => Err not_found end)
  | OPolicyCreate c p =>
      let '(p, m) := store_new p_key p_set_Meta (p_set_Status no_status p) (w_policies w c) in
      (set_policies c m w, Ok p)
  | OPolicyUpdate c p =>
      match policy_at w c (p_key p) with
      | Some q =>
          let '(p, m) := store_update p_key p_Meta p_set_Meta q (p_set_Status (p_Status q) p)
                           (w_policies w c) in
          (set_policies c m w, Ok p)
      | None => (w, Err not_found)
      end
  | OPolicyStatusUpdate c p =>
      match policy_at w c (p_key p) with
      | Some q =>
          let p' := p_set_Status (p_Status p) q in
          (set_policies c (<[p_key p := p']> (w_policies w c)) w, Ok p')
      | None => (w, Err not_found)
      end
  | OPolicyDelete c k =>
      match policy_at w c k with
      | Some q => (set_policies c (store_delete p_key p_Meta p_set_Meta q (w_policies w c)) w, None)
      | None => (w, Some not_found)
      end
  | OSecretGet c k =>
      (w, match secret_at w c k with Some s => Ok s | None => Err not_found end)
  | OSecretCreate c s =>
      let '(s, m) := store_new s_key s_set_Meta s (w_secrets w c) in (set_secrets c m w, Ok s)
  | OSecretUpdate c s =>
      match secret_at w c (s_key s) with
      | Some q =>
          let '(s, m) := store_update s_key s_Meta s_set_Meta q s (w_secrets w c) in
          (set_secrets c m w, Ok s)
      | None => (w, Err not_found)
      end
  | OSecretDelete c k =>
      match secret_at w c k with
      | Some q => (set_secrets c (store_delete s_key s_Meta s_set_Meta q (w_secrets w c)) w, None)
      | None => (w, Some not_found)
      end
  | o => (w, default_ans o)
  end.

Lemma policies_set c m w c' :
  w_policies (set_policies c m w) c' = if c' ==? c then m else w_policies w c'.
Proof. by destruct c, c'. Qed.
Lemma secrets_set c m w c' :
  w_secrets (set_secrets c m w) c' = if c' ==? c then m else w_secrets w c'.
Proof. by destruct c, c'. Qed.
Lemma policies_set_secrets c m w c' : w_policies (set_secrets c m w) c' = w_policies w c'.
Proof. by destruct c, c'. Qed.
Lemma secrets_set_policies c m w c' : w_secrets (set_policies c m w) c' = w_secrets w c'.
Proof. by destruct c, c'. Qed.

(** A store that was set, on the cluster and elsewhere. *)
Ltac store_set :=
  rewrite ?policies_set, ?secrets_set, ?bool_decide_eq_true_2 by done;
  try (intros ? ?; rewrite ?policies_set, ?secrets_set, bool_decide_eq_false_2 by done; done).

Definition held_policies (w : world) (c : cluster) : gmap NamespacedName Policy :=
  held p_key p_Meta (w_policies w c).
Definition held_secrets (w : world) (c : cluster) : gmap NamespacedName Secret :=
  held s_key s_Meta (w_secrets w c).

Lemma held_policies_lookup w c k : held_policies w c !! k = policy_at w c k.
Proof. apply held_lookup. Qed.
Lemma held_secrets_lookup w c k : held_secrets w c !! k = secret_at w c k.
Proof. apply held_lookup. Qed.

Lemma held_policies_on c m w m' :
  held p_key p_Meta m = m' → only_on (held_policies (set_policies c m w)) (held_policies w) c m'.
Proof.
  intros Hm. unfold only_on, held_policies. split; [by store_set|].
  intros c' ?. by rewrite policies_set, bool_decide_eq_false_2.
Qed.
Lemma held_secrets_on c m w m' :
  held s_key s_Meta m = m' → only_on (held_secrets (set_secrets c m w)) (held_secrets w) c m'.
Proof.
  intros Hm. unfold only_on, held_secrets. split; [by store_set|].
  intros c' ?. by rewrite secrets_set, bool_decide_eq_false_2.
Qed.

#[export, program] Instance store_policies : PolicyServer store_env := {| policies := held_policies |}.
Next Obligation. intros w c k p. rewrite held_policies_lookup. by intros (_ & ? & _)%held_at_Some. Qed.
Next Obligation. intros w c k p. rewrite held_policies_lookup. by intros (_ & _ & ?)%held_at_Some. Qed.
Next Obligation.
  intros w c k w' x H; unfold store_env in H; simplify_eq. split; [done|].
  rewrite held_policies_lookup. by destruct (policy_at _ c k).
Qed.
Next Obligation.
  intros w c p w' x H; unfold store_env, store_new in H; simplify_eq/=.
  split; [by split_and!|]. split; [done|]. apply held_policies_on.
  by apply (store_new_spec p_key p_Meta p_set_Meta) with (v := p_set_Status no_status p).
Qed.
Next Obligation.
  intros w c p w' x H; unfold store_env in H. destruct (policy_at w c (p_key p)) as [q|] eqn:E;
    [|by simplify_eq].
  pose proof (store_update_spec p_key p_Meta p_set_Meta ltac:(done) ltac:(done) q
    (p_set_Status (p_Status q) p) (w_policies w c) E) as Hu.
  destruct (store_update _ _ _ _ _ _) as [p' m] eqn:Es. simplify_eq.
  destruct (held_policies_on c m w _ eq_refl) as [Hon Hoff]. rewrite Hon.
  unfold store_update in Es. injection Es as <- _.
  split; [by split_and!|]. split; [exists q; by rewrite held_policies_lookup|]. split; [exact Hu|exact Hoff].
Qed.
Next Obligation.
  intros w c p w' x H; unfold store_env in H. destruct (policy_at w c (p_key p)) as [q|] eqn:E;
    simplify_eq; [|done]. split; [exists q; by rewrite held_policies_lookup|].
  apply held_policies_on. apply held_at_Some in E as (_ & <- & Hk).
  by apply (held_insert p_key p_Meta _ (p_set_Status _ q)).
Qed.
Next Obligation.
  intros w c k w' x H; unfold store_env in H.
  destruct (policy_at w c k) as [q|] eqn:E; simplify_eq.
  - destruct (held_policies_on c (store_delete p_key p_Meta p_set_Meta q (w_policies w c)) w _ eq_refl)
      as [Hon Hoff]. rewrite Hon. split; [|exact Hoff].
    apply (store_delete_spec p_key p_Meta p_set_Meta); done.
  - split; [done|]. by rewrite held_policies_lookup.
Qed.
Next Obligation.
  intros w o w' x Ho H c. unfold store_env, held_policies in *. destruct o; simpl in *; simplify_eq; try done;
    try (by rewrite policies_set_secrets); by repeat case_match; simplify_eq/=; rewrite ?policies_set_secrets.
Qed.

#[export, program] Instance store_secrets : SecretServer store_env := {| secrets := held_secrets |}.
Next Obligation. intros w c k s. rewrite held_secrets_lookup. by intros (_ & ? & _)%held_at_Some. Qed.
Next Obligation. intros w c k s. rewrite held_secrets_lookup. by intros (_ & _ & ?)%held_at_Some. Qed.
Next Obligation.
  intros w c k w' x H; unfold store_env in H; simplify_eq. split; [done|].
  rewrite held_secrets_lookup. by destruct (secret_at _ c k).
Qed.
Next Obligation.
  intros w c s w' x H; unfold store_env, store_new in H; simplify_eq/=.
  split; [done|]. apply held_secrets_on. by apply (store_new_spec s_key s_Meta s_set_Meta) with (v := s).
Qed.
Next Obligation.
  intros w c s w' x H; unfold store_env in H. destruct (secret_at w c (s_key s)) as [q|] eqn:E;
    [|by simplify_eq].
  pose proof (store_update_spec s_key s_Meta s_set_Meta ltac:(done) ltac:(done) q s (w_secrets w c) E) as Hu.
  destruct (store_update _ _ _ _ _ _) as [s' m] eqn:Es. simplify_eq.
  destruct (held_secrets_on c m w _ eq_refl) as [Hon Hoff]. rewrite Hon.
  unfold store_update in Es. injection Es as <- _. split; [done|]. split; [exact Hu|exact Hoff].
Qed.
Next Obligation.
  intros w c k w' x H; unfold store_env in H.
  destruct (secret_at w c k) as [q|] eqn:E; simplify_eq.
  - destruct (held_secrets_on c (store_delete s_key s_Meta s_set_Meta q (w_secrets w c)) w _ eq_refl)
      as [Hon Hoff]. rewrite Hon. split; [|exact Hoff].
    apply (store_delete_spec s_key s_Meta s_set_Meta); done.
  - split; [done|]. by rewrite held_secrets_lookup.
Qed.
Next Obligation.
  intros w o w' x Ho H c. unfold store_env, held_secrets in *. destruct o; simpl in *; simplify_eq; try done;
    try (by rewrite secrets_set_policies); by repeat case_match; simplify_eq/=; rewrite ?secrets_set_policies.
Qed.

(** ** Stepping a run over a call that leaves the policies or the secrets alone *)

Ltac policy_frame_step h w' x Hw :=
  match goal with
  | |- context [h ?w ?o] =>
      let E := fresh in
      destruct (h w o) as [w' x] eqn:E;
      assert (∀ c, policies w' c = policies w c) as Hw
        by (refine (policy_frame _ _ _ _ _ E); done);
      clear E
  end.

Ltac secret_frame_step h w' x Hw :=
  match goal with
  | |- context [h ?w ?o] =>
      let E := fresh in
      destruct (h w o) as [w' x] eqn:E;
      assert (∀ c, secrets w' c = secrets w c) as Hw
        by (refine (secret_frame _ _ _ _ _ E); done);
      clear E
  end.

(** A program that makes no policy call leaves the policies alone. *)
Lemma policy_frame_run {W A} (h : env W) `{!PolicyServer h} (p : prg A) w :
  all_ops (λ o, is_policy_op o = false) p →
  ∀ c, policies (state_of (run h w p)) c = policies w c.
Proof.
  revert w. induction p as [a| |o k IH]; intros w Hp c; simpl in *; [done..|].
  destruct Hp as [Ho Hk]. destruct (h w o) as [w1 x] eqn:E.
  specialize (IH x w1 (Hk x) c). destruct (run h w1 (k x)) as [[w2 t] r]. cbn in *.
  rewrite IH. by eapply policy_frame.
Qed.
