(* ===== verification/SpecSync.v ===== *)
(** * controllers/specsync

    The spec-sync controller replicates the policies of the cluster namespace on the hub to the
    managed cluster.  [Reconcile] is the whole handler of [policy_spec_sync.go]; the theorems show
    that it brings the replicated policy in line with the hub, that it writes nothing else, and
    what it does with a failed update. *)

From S2P Require Import Prelude Prog GoStrings K8s Effects Utils ApiServer.

Record PolicyReconciler := MkReconciler { TargetNamespace : string }.

(** The key of the replicated policy on the managed cluster. *)
Definition managed_key (r : PolicyReconciler) (request : NamespacedName) : NamespacedName :=
  NN (TargetNamespace r) (nn_Name request).

(** The copy that is created on the managed cluster. *)
Definition replicated_policy (r : PolicyReconciler) (instance : Policy) : Policy :=
  let managedPlc := p_set_Meta (meta_set_Namespace (TargetNamespace r)) instance in
  let managedPlc :=
    if str_index (p_Labels managedPlc) ClusterNamespaceLabel !=? ""
    then p_set_Meta (meta_set_Labels
           (<[ClusterNamespaceLabel := TargetNamespace r]> (p_Labels managedPlc))) managedPlc
    else managedPlc in
  p_set_Meta (λ m, meta_set_ResourceVersion "" (meta_set_OwnerReferences [] m)) managedPlc.

(** [r.ManagedRecorder.Eventf(managedPlc, ...)] *)
Definition record_sync (managedPlc : Policy) (msg : string) : prg unit :=
  call (OEventf Managed (p_key managedPlc) EventTypeNormal "PolicySpecSync" "PolicySpecSync" msg).

(** The second half of [Reconcile]: compare with the replicated policy and update it. *)
Definition compare_and_update (r : PolicyReconciler) (instance managedPlc : Policy)
    : prg reconciled :=
  if negb (EquivalentReplicatedPolicies instance managedPlc) then
    let managedPlc := p_set_Meta (meta_set_Annotations (p_Annotations instance)) managedPlc in
    let managedPlc := p_set_Spec (p_Spec instance) managedPlc in
    let! updated := call (OPolicyUpdate Managed managedPlc) in
    let recorded (obj : Policy) : prg reconciled :=
      do! record_sync obj
            ("Policy " +:+ p_Name instance +:+ " was updated in cluster namespace " +:+
             TargetNamespace r) in
      Ret done_ok in
    match updated with
    | Ok managedPlc => recorded managedPlc
    | Err err => if IsNotFound err then Ret (done_err err) else recorded managedPlc
    end
  else if negb (DeepEqual (p_Status instance) (p_Status managedPlc)) then
    do! call (OSendStatusSync (p_key managedPlc)) in
    Ret done_ok
  else Ret done_ok.

(** The policy is gone from the hub: remove the replicated one. *)
Definition delete_replicated (r : PolicyReconciler) (request : NamespacedName) : prg reconciled :=
  let! err := call (OPolicyDelete Managed (managed_key r request)) in
  match err with
  | Some err => if negb (IsNotFound err) then Ret (done_err err) else Ret done_ok
  | None => Ret done_ok
  end.

(** The policy is not on the managed cluster: create it, then compare with what was created. *)
Definition create_replicated (r : PolicyReconciler) (instance : Policy) : prg reconciled :=
  let! created := call (OPolicyCreate Managed (replicated_policy r instance)) in
  match created with
  | Err err => Ret (done_err err)
  | Ok managedPlc =>
      do! record_sync managedPlc
            ("Policy " +:+ p_Name instance +:+
             " was synchronized to cluster namespace " +:+ TargetNamespace r) in
      compare_and_update r instance managedPlc
  end.

Definition Reconcile (r : PolicyReconciler) (request : NamespacedName) : prg reconciled :=
  let! uninstalling := call OReadUninstalling in
  if uninstalling : bool then Ret requeue_5m else
  let! got := call (OPolicyGet Hub request) in
  match got with
  | Err err => if IsNotFound err then delete_replicated r request else Ret (done_err err)
  | Ok instance =>
      let! managed := call (OPolicyGet Managed (managed_key r request)) in
      match managed with
      | Err err => if IsNotFound err then create_replicated r instance else Ret (done_err err)
      | Ok managedPlc => compare_and_update r instance managedPlc
      end
  end.

(** ** What the replicated policy should be *)

(** The specification: when the hub has the policy, the managed cluster has a copy with the same
    annotations and spec; when it does not, the managed cluster has none that is not on its way out. *)
Definition in_sync (hub managed : option Policy) : Prop :=
  match hub with
  | Some p => ∃ q, managed = Some q ∧ p_Annotations q = p_Annotations p ∧ p_Spec q = p_Spec p
  | None => ∀ q, managed = Some q → is_Some (m_DeletionTimestamp (p_Meta q))
  end.

(** A call of the trace that updated a policy and failed. *)
Definition failed_update (e : event ans) : bool :=
  let 'existT o x := e in
  match o return ans o → bool with
  | OPolicyUpdate _ _ => λ x, match x with Ok _ => false | Err _ => true end
  | _ => λ _, false
  end x.

(** ** Lemmas *)

Lemma replicated_policy_key r p request :
  p_key p = request → p_key (replicated_policy r p) = managed_key r request.
Proof. intros <-. unfold replicated_policy. by case_match. Qed.

Lemma replicated_policy_content r p :
  p_Annotations (replicated_policy r p) = p_Annotations p ∧
  p_Spec (replicated_policy r p) = p_Spec p.
Proof. unfold replicated_policy. by case_match. Qed.

Section converge.
Context {W : Type} (h : env W) `{!PolicyServer h} (r : PolicyReconciler).

(** What a run that starts in [w] leaves of the stores: the hub, and all but one managed policy. *)
Definition frame (k : NamespacedName) (w w' : W) : Prop :=
  policies w' Hub = policies w Hub ∧
  ∀ k', k' ≠ k → policies w' Managed !! k' = policies w Managed !! k'.

Lemma frame_refl k w w' : (∀ c, policies w' c = policies w c) → frame k w w'.
Proof. intros H. split; [by rewrite H|]. intros. by rewrite H. Qed.

Lemma frame_trans k w1 w2 w3 : frame k w1 w2 → frame k w2 w3 → frame k w1 w3.
Proof.
  intros [H1 H1'] [H2 H2']. split; [congruence|]. intros k' ?. by rewrite H2', H1'.
Qed.

Lemma frame_insert k w w' p :
  only_on (policies w') (policies w) Managed (<[k := p]> (policies w Managed)) → frame k w w'.
Proof.
  intros [Hm Ho]. split; [by apply Ho|]. intros k' ?. by rewrite Hm, lookup_insert_ne.
Qed.

(** A run from [w] brings the policy at [k] in line with [hub], unless an update failed. *)
Definition syncs (k : NamespacedName) (hub : option Policy) (w : W)
    (x : W * trace * outcome reconciled) : Prop :=
  let '(w', t, res) := x in
  frame k w w' ∧
  (Forall (λ e, failed_update e = false) t →
   ∃ out, res = Returned out ∧ (out = done_ok → in_sync hub (policies w' Managed !! k))).

#[local] Arguments syncs : simpl never.
#[local] Arguments in_sync : simpl never.

Lemma syncs_err k hub w w' t e :
  (∀ c, policies w' c = policies w c) → syncs k hub w (w', t, Returned (done_err e)).
Proof. intros Hw. split; [by apply frame_refl|]. intros _. by eexists. Qed.

Lemma syncs_ok k hub w w' t :
  frame k w w' → in_sync hub (policies w' Managed !! k) →
  syncs k hub w (w', t, Returned done_ok).
Proof. intros Hf Hs. split; [done|]. intros _. by eexists. Qed.

Lemma syncs_failed k hub w w' t out e :
  frame k w w' → e ∈ t → failed_update e = true → syncs k hub w (w', t, out).
Proof.
  intros Hf He Hfail. split; [done|]. rewrite Forall_forall. intros Ht.
  by rewrite (Ht e He) in Hfail.
Qed.

(** A call in front of a run. *)
Lemma syncs_step k hub w w1 e x :
  frame k w w1 → syncs k hub w1 x → syncs k hub w (let '(w2, t, res) := x in (w2, e :: t, res)).
Proof.
  intros Hf. destruct x as [[w' t] res]. intros [Hf' Hs]. split; [by eapply frame_trans|].
  intros Ht. apply Forall_cons in Ht as [_ Ht]. auto.
Qed.

(** The comparison and the update leave the replicated policy equal to the hub's, unless the
    update failed. *)
Lemma compare_and_update_sync k w p q :
  policies w Managed !! k = Some q → p_key q = k →
  syncs k (Some p) w (run h w (compare_and_update r p q)).
Proof.
  intros Hq Hk. unfold compare_and_update.
  destruct (EquivalentReplicatedPolicies p q) eqn:Heq; simpl.
  - apply EquivalentReplicatedPolicies_spec in Heq as [Ha Hs].
    destruct (DeepEqual (p_Status p) (p_Status q)); simpl.
    + apply syncs_ok; [by apply frame_refl|]. by exists q.
    + policy_frame_step h w' x Hw'.
      apply syncs_ok; [by apply frame_refl|]. exists q. by rewrite Hw'.
  - set (q' := p_set_Spec _ _).
    destruct (h w (OPolicyUpdate Managed q')) as [w1 [q1|e]] eqn:E; apply policy_update in E.
    + destruct E as ((Hkey & Ha & _ & Hs) & _ & E & Ho).
      apply (updated_kept _ _ _ _ q) in E; [|by rewrite <- Hk in Hq|by eapply policy_kept|done].
      simpl. policy_frame_step h w2 x Hw2. apply syncs_ok.
      * eapply frame_trans; [by eapply frame_insert; rewrite <- Hk|by apply frame_refl].
      * exists q1. change (p_key q') with (p_key q) in E. rewrite Hw2, E, Hk, lookup_insert_eq. by rewrite Ha, Hs.
    + destruct (IsNotFound e); simpl; [by apply syncs_err|].
      policy_frame_step h w2 x Hw2. eapply syncs_failed; [|by left|done].
      apply frame_refl. intros c. by rewrite Hw2.
Qed.

Lemma delete_replicated_sync request w :
  policies w Hub !! request = None →
  syncs (managed_key r request) None w (run h w (delete_replicated r request)).
Proof.
  intros Hhub. unfold delete_replicated; simpl. set (k := managed_key r request).
  destruct (h w (OPolicyDelete Managed k)) as [w' [e|]] eqn:E; apply policy_delete in E; simpl.
  - destruct E as [Hw' E]. destruct (IsNotFound e); simpl; [|by apply syncs_err].
    apply syncs_ok; [by apply frame_refl|]. intros q. by rewrite Hw', E.
  - destruct E as [Hd Hw']. apply syncs_ok.
    + split; [by apply Hw'|]. intros k' ?. destruct Hd as [->|(? & ? & _ & -> & _)];
        [by rewrite lookup_delete_ne|by rewrite lookup_insert_ne].
    + intros q. destruct Hd as [->|(? & p' & _ & -> & Hp & _)]; [by rewrite lookup_delete_eq|].
      rewrite lookup_insert_eq. by intros [= <-].
Qed.

Lemma create_replicated_sync request w p :
  p_key p = request →
  syncs (managed_key r request) (Some p) w (run h w (create_replicated r p)).
Proof.
  intros Hkey. unfold create_replicated; simpl.
  destruct (h w (OPolicyCreate _ _)) as [w1 [q|e]] eqn:E; apply policy_create in E; simpl.
  2: by apply syncs_err.
  destruct E as [(Hk & Ha & _ & Hs) [_ E]]. rewrite (replicated_policy_key r p request) in * by done.
  destruct (replicated_policy_content r p) as [Ha' Hs'].
  policy_frame_step h w2 u Hw2.
  eapply (syncs_step _ _ w w2); [eapply (frame_trans _ _ w1)|].
  { by eapply frame_insert. }
  { by apply frame_refl. }
  destruct (run h w2 (compare_and_update r p q)) as [[w3 t] res] eqn:Hrun.
  eapply (syncs_step _ _ w2 w2 _ (w3, t, res)); [by apply frame_refl|].
  rewrite <- Hrun. apply compare_and_update_sync; [|done].
  destruct E as [E _]. by rewrite Hw2, E, lookup_insert_eq.
Qed.

End converge.

(** The calls the handler makes, whatever it is answered. *)
Definition spec_sync_call (r : PolicyReconciler) (request : NamespacedName) (o : op) : Prop :=
  match o with
  | OReadUninstalling => True
  | OPolicyGet Hub k => k = request
  | OPolicyGet Managed k | OPolicyDelete Managed k => k = managed_key r request
  | OPolicyCreate Managed p => ∃ instance, p = replicated_policy r instance
  | OPolicyUpdate Managed p =>
      ∃ instance q, EquivalentReplicatedPolicies instance q = false ∧
        p = p_set_Spec (p_Spec instance)
              (p_set_Meta (meta_set_Annotations (p_Annotations instance)) q)
  | OEventf Managed _ _ _ _ _ | OSendStatusSync _ => True
  | _ => False
  end.

Lemma spec_compare_calls r request p q :
  all_ops (spec_sync_call r request) (compare_and_update r p q).
Proof.
  unfold compare_and_update, record_sync.
  destruct (EquivalentReplicatedPolicies p q) eqn:E; simpl.
  - by case_match.
  - split; [by exists p, q|]. intros [?|?]; [done|]. by case_match.
Qed.

Lemma spec_sync_all_calls r request : all_ops (spec_sync_call r request) (Reconcile r request).
Proof.
  unfold Reconcile, delete_replicated, create_replicated, record_sync; simpl.
  split; [done|]. intros [|]; simpl; [done|]. split; [done|]. intros [p|e]; simpl.
  - split; [done|]. intros [q|e]; [apply spec_compare_calls|].
    case_match; simpl; [|done]. split; [by eexists|]. intros [q|]; simpl; [|done].
    split; [done|]. intros _. apply spec_compare_calls.
  - case_match; simpl; [|done]. split; [done|]. intros [e'|]; [|done]. by case_match.
Qed.

Lemma spec_sync_returns r request : wp (Reconcile r request) (λ _ x, x ≠ Panicked).
Proof.
  assert (∀ p q, wp (compare_and_update r p q) (λ _ x, x ≠ Panicked)) as Hc.
  { intros p q. unfold compare_and_update, record_sync.
    destruct (EquivalentReplicatedPolicies p q); simpl.
    - by case_match.
    - intros [q'|e]; simpl; [done|]. by case_match. }
  unfold Reconcile, delete_replicated, create_replicated, record_sync; simpl.
  intros [|]; simpl; [done|]. intros [p|e]; simpl.
  - intros [q|e]; [by eapply wp_mono; [apply Hc|]|]. case_match; simpl; [|done].
    intros [q|e']; simpl; [|done]. intros _. by eapply wp_mono; [apply Hc|].
  - case_match; simpl; [|done]. intros [e'|]; [by case_match|done].
Qed.

Lemma Reconcile_syncs {W} (h : env W) `{!PolicyServer h} r w request :
  syncs h (managed_key r request) (policies w Hub !! request) w
    (run h w (Reconcile r request)).
Proof.
  unfold Reconcile; simpl. policy_frame_step h w0 b Hw0.
  destruct b; simpl; [split; [by apply frame_refl|]; intros _; by eexists|].
  destruct (h w0 (OPolicyGet Hub request)) as [w1 x] eqn:E1; apply policy_get in E1 as [Hw1 E1].
  assert (frame h (managed_key r request) w w0) as Hf0 by by apply frame_refl.
  assert (frame h (managed_key r request) w0 w1) as Hf1 by by apply frame_refl.
  rewrite Hw0 in E1. eapply (syncs_step _ _ _ w w0 _ (let '(_, _, _) := run h w1 _ in _)); [done|].
  eapply (syncs_step _ _ _ w0 w1); [done|]. destruct x as [p|e]; simpl.
  - rewrite E1. destruct (h w1 (OPolicyGet Managed _)) as [w2 y] eqn:E2.
    apply policy_get in E2 as [Hw2 E2]. eapply (syncs_step _ _ _ w1 w2); [by apply frame_refl|].
    destruct y as [q|e]; simpl.
    + apply compare_and_update_sync; [by rewrite Hw2|by eapply policy_key].
    + destruct (IsNotFound e); [|by apply syncs_err].
      apply create_replicated_sync. by eapply policy_key.
  - destruct (IsNotFound e) eqn:He; [|by apply syncs_err].
    rewrite E1 by done. apply delete_replicated_sync. rewrite Hw1, Hw0. by apply E1.
Qed.

Lemma Reconcile_in_sync {W} (h : env W) `{!PolicyServer h} r w request p q :
  policies w Hub !! request = Some p →
  policies w Managed !! managed_key r request = Some q →
  EquivalentReplicatedPolicies p q = true →
  Forall (λ o, is_write o = true → p_Status p ≠ p_Status q ∧ o = OSendStatusSync (managed_key r request))
    (ops (trace_of (run h w (Reconcile r request)))).
Proof.
  intros Hp Hq Heq. unfold Reconcile; simpl. policy_frame_step h w0 b Hw0.
  destruct b; simpl; [by repeat constructor|].
  destruct (h w0 (OPolicyGet Hub request)) as [w1 x] eqn:E1; apply policy_get in E1 as [Hw1 E1].
  rewrite Hw0, Hp in E1. destruct x as [p'|e]; simpl.
  - simplify_eq. destruct (h w1 (OPolicyGet Managed _)) as [w2 y] eqn:E2.
    apply policy_get in E2 as [Hw2 E2]. rewrite Hw1, Hw0, Hq in E2. destruct y as [q'|e]; simpl.
    + simplify_eq. unfold compare_and_update. rewrite Heq; simpl.
      assert (p_key q' = managed_key r request) as Hk by by eapply policy_key.
      destruct (DeepEqual (p_Status p') (p_Status q')) eqn:Hst; simpl; [by repeat constructor|].
      unfold DeepEqual in Hst. breflect.
      destruct (h w2 (OSendStatusSync _)); repeat (constructor; try done). by rewrite Hk.
    + destruct (IsNotFound e); [by specialize (E2 eq_refl)|by repeat constructor].
  - destruct (IsNotFound e); [by specialize (E1 eq_refl)|by repeat constructor].
Qed.

(** ** Properties *)

(** C1: in a world whose API servers keep their promises, a reconcile that returns without an
    error (and is not postponed) leaves the replicated policy in line with the hub: the same
    annotations and spec when the hub has the policy, none (or one on its way out) when it does
    not.  The one exception is a failed update, which the handler swallows.  In every case the hub
    and all other policies of the managed cluster are untouched.  A replicated policy that is being
    deleted but is kept by its finalizers is no exception: it is updated like any other. *)
Theorem spec_sync_converges {W} (h : env W) `{!PolicyServer h} r w request :
  syncs h (managed_key r request) (policies w Hub !! request) w
    (run h w (Reconcile r request)).
Proof. apply Reconcile_syncs. Qed.

(** C38: an update of the replicated policy that fails for any reason but a missing policy is
    reported as a success: the handler records that the policy was updated and returns no error, so
    the request is not retried. *)
Theorem spec_sync_update_error_swallowed (f : ∀ o, ans o) r request p q e :
  f OReadUninstalling = false →
  f (OPolicyGet Hub request) = Ok p →
  f (OPolicyGet Managed (managed_key r request)) = Ok q →
  EquivalentReplicatedPolicies p q = false →
  (∀ q', f (OPolicyUpdate Managed q') = Err e) →
  IsNotFound e = false →
  let '(_, t, res) := run (const_env f) tt (Reconcile r request) in
  res = Returned done_ok ∧
  last (ops t) = Some (OEventf Managed (p_key q) EventTypeNormal "PolicySpecSync" "PolicySpecSync"
    ("Policy " +:+ p_Name p +:+ " was updated in cluster namespace " +:+ TargetNamespace r)).
Proof.
  intros Hu Hp Hq Hne Hupd He. unfold Reconcile; simpl.
  rewrite Hu; simpl. rewrite Hp; simpl. rewrite Hq; simpl.
  unfold compare_and_update. rewrite Hne; simpl. rewrite Hupd, He; simpl. done.
Qed.

(** Whatever the API servers answer, the handler only reads the policy on both clusters,
    deletes or creates the one replicated policy, updates a managed policy only after it was read
    and found different, and records events or asks for a status sync; nothing is ever written to
    the hub.  While the addon is being uninstalled it does nothing but ask for a retry. *)
Theorem spec_sync_calls {W} (h : env W) r w request :
  let x := run h w (Reconcile r request) in
  Forall (spec_sync_call r request) (ops (trace_of x)) ∧
  ((h w OReadUninstalling).2 = true →
   ops (trace_of x) = [OReadUninstalling] ∧ result_of x = Returned requeue_5m).
Proof.
  split.
  - apply all_ops_run, spec_sync_all_calls.
  - unfold Reconcile; simpl. destruct (h w OReadUninstalling) as [w1 b]; simpl.
    intros ->. done.
Qed.

(** Once the replicated policy agrees with the hub, a reconcile writes nothing; when only the
    statuses differ it asks status-sync to copy the status, for the replicated policy. *)
Theorem spec_sync_stable {W} (h : env W) `{!PolicyServer h} r w request p q :
  policies w Hub !! request = Some p →
  policies w Managed !! managed_key r request = Some q →
  EquivalentReplicatedPolicies p q = true →
  Forall (λ o, is_write o = true → p_Status p ≠ p_Status q ∧ o = OSendStatusSync (managed_key r request))
    (ops (trace_of (run h w (Reconcile r request)))).
Proof. apply Reconcile_in_sync. Qed.

(** ** Concrete runs *)

Definition demo_policy (ns anno : string) : Policy :=
  MkPolicy "policy.open-cluster-management.io/v1" "Policy"
    (meta_set_Annotations {["a" := anno]}
      (meta_set_Labels {[ClusterNamespaceLabel := "hub-ns"]} (new_meta "ns.policy" ns)))
    (Spec "inform" [Template "{}" [] false] [] "") (Status "" [] "").

Definition demo_reconciler : PolicyReconciler := MkReconciler "managed".
Definition demo_request : NamespacedName := NN "hub-ns" "ns.policy".
(** The replicated policy was deleted, and template-sync's finalizer keeps it. *)
Definition terminating_policy : Policy → Policy :=
  p_set_Meta (λ m, meta_set_DeletionTimestamp (Some 1%Z) (meta_set_Finalizers [ClusterwideFinalizer] m)).
Definition demo_world : world :=
  World false {[demo_request := demo_policy "hub-ns" "new"]}
    {[NN "managed" "ns.policy" := terminating_policy (demo_policy "managed" "old")]} ∅ ∅.

(** A managed policy with outdated annotations is updated, also when it is being deleted. *)
Lemma spec_sync_converges_witness :
  syncs store_env (managed_key demo_reconciler demo_request)
    (policies demo_world Hub !! demo_request) demo_world
    (run store_env demo_world (Reconcile demo_reconciler demo_request)) ∧
  p_Annotations <$> policies (state_of (run store_env demo_world
    (Reconcile demo_reconciler demo_request))) Managed !! NN "managed" "ns.policy" =
  Some {["a" := "new"]}.
Proof.
  split; [|vm_compute; reflexivity].
  exact (spec_sync_converges store_env demo_reconciler demo_world demo_request).
Defined.

Definition swallow_env (o : op) : ans o :=
  match o return ans o with
  | OPolicyGet Hub _ => Ok (demo_policy "hub-ns" "new")
  | OPolicyGet Managed _ => Ok (demo_policy "managed" "old")
  | OPolicyUpdate _ _ => Err (Error Conflict "the object has been modified")
  | o => default_ans o
  end.

Lemma spec_sync_update_error_swallowed_witness :
  let '(_, t, res) :=
    run (const_env swallow_env) tt (Reconcile demo_reconciler demo_request) in
  res = Returned done_ok ∧
  last (ops t) = Some (OEventf Managed (NN "managed" "ns.policy") EventTypeNormal
    "PolicySpecSync" "PolicySpecSync"
    "Policy ns.policy was updated in cluster namespace managed").
Proof.
  apply (spec_sync_update_error_swallowed swallow_env demo_reconciler demo_request
    (demo_policy "hub-ns" "new") (demo_policy "managed" "old")
    (Error Conflict "the object has been modified")); reflexivity.
Defined.

Definition stable_world : world :=
  World false {[demo_request := demo_policy "hub-ns" "same"]}
    {[NN "managed" "ns.policy" := demo_policy "managed" "same"]} ∅ ∅.

Lemma spec_sync_stable_witness :
  Forall (λ o, is_write o = true →
      Status "" [] "" ≠ Status "" [] "" ∧ o = OSendStatusSync (NN "managed" "ns.policy"))
    (ops (trace_of (run store_env stable_world (Reconcile demo_reconciler demo_request)))).
Proof.
  apply (spec_sync_stable store_env demo_reconciler stable_world demo_request
    (demo_policy "hub-ns" "same") (demo_policy "managed" "same")); reflexivity.
Defined.
