(* ===== verification/SecretSync.v ===== *)
(** * controllers/secretsync

    The secret-sync controller keeps one Secret, the policy encryption key, of the cluster namespace
    on the hub replicated to the managed cluster.  [Reconcile] is the whole handler of
    [secret_sync.go]. *)

From S2P Require Import Prelude Prog K8s Effects ApiServer.

Definition SecretName : string := "policy-encryption-key".

Record SecretReconciler := MkReconciler { TargetNamespace : string }.

Definition target_key (r : SecretReconciler) (request : NamespacedName) : NamespacedName :=
  NN (TargetNamespace r) (nn_Name request).

(** The Secret is gone from the hub: delete the replicated one. *)
Definition delete_replicated (r : SecretReconciler) (request : NamespacedName) : prg reconciled :=
  let! err := call (OSecretDelete Managed (target_key r request)) in
  match err with
  | Some err => if negb (IsNotFound err) then Ret (done_err err) else Ret done_ok
  | None => Ret done_ok
  end.

(** The replicated Secret carries over the data only. *)
Definition replicated_secret (r : SecretReconciler) (request : NamespacedName) (hub : Secret)
    : Secret :=
  MkSecret (new_meta (nn_Name request) (TargetNamespace r)) (s_Data hub) "".

Definition Reconcile (r : SecretReconciler) (request : NamespacedName) : prg reconciled :=
  let! uninstalling := call OReadUninstalling in
  if uninstalling : bool then Ret requeue_5m else
  if nn_Name request !=? SecretName then Ret done_ok else
  let! got := call (OSecretGet Hub request) in
  match got with
  | Err err =>
      if negb (IsNotFound err) then Ret (done_err err) else delete_replicated r request
  | Ok hubEncryptionSecret =>
      let! managed := call (OSecretGet Managed (target_key r request)) in
      match managed with
      | Err err =>
          if negb (IsNotFound err) then Ret (done_err err) else
          let! created :=
            call (OSecretCreate Managed (replicated_secret r request hubEncryptionSecret)) in
          match created with
          | Err err => Ret (done_err err)
          | Ok _ => Ret done_ok
          end
      | Ok managedEncryptionSecret =>
          if negb (DeepEqual (s_Data hubEncryptionSecret) (s_Data managedEncryptionSecret)) then
            let! updated :=
              call (OSecretUpdate Managed
                      (MkSecret (s_Meta managedEncryptionSecret) (s_Data hubEncryptionSecret)
                         (s_rest managedEncryptionSecret))) in
            match updated with
            | Err err => Ret (done_err err)
            | Ok _ => Ret done_ok
            end
          else Ret done_ok
      end
  end.

(** ** The specification: the managed cluster has the data of the hub

    When the hub has no Secret, the managed cluster has none that is not on its way out. *)

Definition in_sync (hub managed : option Secret) : Prop :=
  match hub with
  | Some s => s_Data <$> managed = Some (s_Data s)
  | None => ∀ q, managed = Some q → terminating s_Meta q
  end.

Section converge.
Context {W : Type} (h : env W) `{!SecretServer h}.

Definition frame (k : NamespacedName) (w w' : W) : Prop :=
  secrets w' Hub = secrets w Hub ∧
  ∀ k', k' ≠ k → secrets w' Managed !! k' = secrets w Managed !! k'.

Definition syncs (k : NamespacedName) (hub : option Secret) (w : W)
    (x : W * trace * outcome reconciled) : Prop :=
  let '(w', _, res) := x in
  frame k w w' ∧
  ∃ out, res = Returned out ∧ (out = done_ok → in_sync hub (secrets w' Managed !! k)).

#[local] Arguments syncs : simpl never.

Lemma secret_frame_same k w w' : (∀ c, secrets w' c = secrets w c) → frame k w w'.
Proof. intros H. split; [by rewrite H|]. intros. by rewrite H. Qed.

Lemma secret_frame_only k w w' m :
  only_on (secrets w') (secrets w) Managed m →
  (∀ k', k' ≠ k → m !! k' = secrets w Managed !! k') → frame k w w'.
Proof. intros [Hm Ho] Hk. split; [by apply Ho|]. rewrite Hm. done. Qed.

Lemma secret_syncs_err k hub w w' t e :
  (∀ c, secrets w' c = secrets w c) → syncs k hub w (w', t, Returned (done_err e)).
Proof. intros Hw. split; [by apply secret_frame_same|]. by eexists. Qed.

Lemma secret_syncs_ok k hub w w' t :
  frame k w w' → in_sync hub (secrets w' Managed !! k) → syncs k hub w (w', t, Returned done_ok).
Proof. intros Hf Hs. split; [done|]. by eexists. Qed.

Lemma secret_syncs_step k hub w w1 e x :
  (∀ c, secrets w1 c = secrets w c) → syncs k hub w1 x →
  syncs k hub w (let '(w2, t, res) := x in (w2, e :: t, res)).
Proof.
  intros Hw. destruct x as [[w' t] res]. intros [[Hf Hf'] Hs]. split; [|done].
  split; [by rewrite Hf|]. intros k' ?. by rewrite Hf', Hw.
Qed.

(** A write that stores [s'] under [k] with the data of the hub. *)
Lemma secret_syncs_write k s s' w w' t :
  only_on (secrets w') (secrets w) Managed (<[k := s']> (secrets w Managed)) →
  s_Data s' = s_Data s → syncs k (Some s) w (w', t, Returned done_ok).
Proof.
  intros Ho Hd. apply secret_syncs_ok.
  - eapply secret_frame_only; [done|]. intros. by rewrite lookup_insert_ne.
  - destruct Ho as [-> _]. rewrite lookup_insert_eq. unfold in_sync; simpl. by rewrite Hd.
Qed.

Lemma secret_delete_replicated_sync r request w :
  syncs (target_key r request) None w (run h w (delete_replicated r request)).
Proof.
  unfold delete_replicated; simpl. set (k := target_key r request).
  destruct (h w (OSecretDelete Managed k)) as [w' [e|]] eqn:E; apply secret_delete in E; simpl.
  - destruct E as [Hw' E]. destruct (IsNotFound e); simpl; [|by apply secret_syncs_err].
    apply secret_syncs_ok; [by apply secret_frame_same|]. unfold in_sync. by rewrite Hw', E.
  - destruct E as [Hd Ho]. apply secret_syncs_ok.
    + split; [by apply Ho|]. intros k' ?. destruct Hd as [->|(? & ? & _ & -> & _)];
        [by rewrite lookup_delete_ne|by rewrite lookup_insert_ne].
    + intros q. destruct Hd as [->|(? & s' & _ & -> & Hs & _)]; [by rewrite lookup_delete_eq|].
      rewrite lookup_insert_eq. by intros [= <-].
Qed.

End converge.

#[local] Arguments syncs : simpl never.

(** C36: in a world whose API servers keep their promises, a reconcile of the encryption key that
    returns without an error (and is not postponed) leaves the data of the replicated Secret equal
    to the hub's, or deletes the Secret when the hub has none (it is gone then, or marked for deletion
    and kept by finalizers); the hub and all other Secrets are untouched, and the handler never
    panics. *)
Theorem secret_sync_converges {W} (h : env W) `{!SecretServer h} r w request :
  nn_Name request = SecretName →
  syncs h (target_key r request) (secrets w Hub !! request) w (run h w (Reconcile r request)).
Proof.
  intros Hname. unfold Reconcile; simpl. secret_frame_step h w0 b Hw0.
  eapply secret_syncs_step; [done|].
  destruct b; simpl; [split; [by apply secret_frame_same|]; by eexists|].
  rewrite bool_decide_eq_true_2 by done; simpl.
  destruct (h w0 (OSecretGet Hub request)) as [w1 x] eqn:E1; apply secret_get in E1 as [Hw1 E1].
  rewrite <- Hw0. eapply secret_syncs_step; [done|]. destruct x as [s|e]; simpl.
  - rewrite E1. destruct (h w1 (OSecretGet Managed _)) as [w2 y] eqn:E2.
    apply secret_get in E2 as [Hw2 E2]. eapply secret_syncs_step; [done|]. rewrite <- Hw2 in E2.
    destruct y as [q|e]; simpl.
    + unfold DeepEqual. case_match; breflect; simpl.
      * destruct (h w2 (OSecretUpdate _ _)) as [w3 [q'|e]] eqn:E3; apply secret_update in E3; simpl.
        -- destruct E3 as ((Hk' & Hd) & E3 & Ho).
           assert (s_key q = target_key r request) as Hk by by eapply secret_key.
           apply (updated_kept _ _ _ _ q) in E3;
             [|by rewrite <- Hk in E2|by eapply secret_kept|done].
           eapply secret_syncs_write; [|exact Hd]. split; [|exact Ho]. by rewrite E3, <- Hk.
        -- by apply secret_syncs_err.
      * apply secret_syncs_ok; [by apply secret_frame_same|]. rewrite E2. unfold in_sync; simpl. congruence.
    + destruct (IsNotFound e); simpl; [|by apply secret_syncs_err].
      destruct (h w2 (OSecretCreate _ _)) as [w3 [q'|e']] eqn:E3; apply secret_create in E3; simpl.
      * destruct E3 as ((_ & Hd) & E3). by eapply secret_syncs_write; [|exact Hd].
      * by apply secret_syncs_err.
  - destruct (IsNotFound e) eqn:He; simpl; [|by apply secret_syncs_err].
    rewrite E1 by done. apply secret_delete_replicated_sync.
Qed.

(** The calls of the handler for a request: no Secret but the encryption key is ever named. *)
Definition secret_sync_call (r : SecretReconciler) (request : NamespacedName) (o : op) : Prop :=
  match o with
  | OReadUninstalling => True
  | OSecretGet Hub k => k = request ∧ nn_Name k = SecretName
  | OSecretGet Managed k | OSecretDelete Managed k =>
      k = target_key r request ∧ nn_Name k = SecretName
  | OSecretCreate Managed s =>
      s_key s = target_key r request ∧ m_Name (s_Meta s) = SecretName ∧
      m_Annotations (s_Meta s) = ∅ ∧ m_Labels (s_Meta s) = ∅
  | OSecretUpdate Managed _ => nn_Name request = SecretName
  | _ => False
  end.

Lemma secret_sync_all_calls r request : all_ops (secret_sync_call r request) (Reconcile r request).
Proof.
  unfold Reconcile, delete_replicated, target_key; simpl.
  split; [done|]. intros [|]; simpl; [done|].
  destruct (decide (nn_Name request = SecretName)) as [Hn|Hn].
  2: by rewrite bool_decide_eq_false_2.
  rewrite bool_decide_eq_true_2 by done; simpl. split; [done|]. intros [s|e]; simpl.
  - split; [done|]. intros [q|e]; simpl.
    + case_match; simpl; [|done]. split; [done|]. by intros [].
    + case_match; simpl; [done|]. split; [done|]. by intros [].
  - case_match; simpl; [done|]. split; [done|]. intros [e'|]; [|done]. by case_match.
Qed.

Lemma secret_sync_returns r request : wp (Reconcile r request) (λ _ x, x ≠ Panicked).
Proof.
  unfold Reconcile, delete_replicated; simpl. intros [|]; simpl; [done|].
  case_match; simpl; [done|]. intros [s|e]; simpl.
  - intros [q|e]; simpl; case_match; simpl; try done; by intros [].
  - case_match; simpl; [done|]. intros [e'|]; [by case_match|done].
Qed.

(** Whatever it is answered, the handler never writes to the hub and never reads, creates or
    deletes a Secret with another name than the encryption key; the copy it creates has no
    annotations or labels of the hub's Secret. *)
Theorem secret_sync_calls {W} (h : env W) r w request :
  Forall (secret_sync_call r request) (ops (trace_of (run h w (Reconcile r request)))).
Proof. apply all_ops_run, secret_sync_all_calls. Qed.

(** ** Concrete runs *)

Definition demo_secret (ns value : string) : Secret :=
  MkSecret (meta_set_Annotations {["velero" := "x"]} (new_meta SecretName ns))
    {["key" := value]} "Opaque".
Definition demo_world : world :=
  World false ∅ ∅ {[NN "hub-ns" SecretName := demo_secret "hub-ns" "k1"]}
    {[NN "managed" SecretName := demo_secret "managed" "k0"]}.

Lemma secret_sync_converges_witness :
  nn_Name (NN "hub-ns" SecretName) = SecretName ∧
  syncs store_env (NN "managed" SecretName) (secrets demo_world Hub !! NN "hub-ns" SecretName)
    demo_world (run store_env demo_world (Reconcile (MkReconciler "managed") (NN "hub-ns" SecretName))).
Proof.
  split; [reflexivity|].
  exact (secret_sync_converges store_env (MkReconciler "managed") demo_world
    (NN "hub-ns" SecretName) eq_refl).
Defined.

Example secret_updated :
  s_Data <$> w_managed_secrets (state_of
    (run store_env demo_world (Reconcile (MkReconciler "managed") (NN "hub-ns" SecretName))))
    !! NN "managed" SecretName = Some {["key" := "k1"]}.
Proof. reflexivity. Qed.
