(* ===== verification/StatusHistory.v ===== *)
(** * controllers/statussync: compliance histories

    The pure part of [policy_status_sync.go]: the timestamp in an event's name, the compliance a
    message reports, and [mergeDetails], which merges the events found for a template with the
    history already in the policy's status.  A nil pointer in the existing details makes Go panic;
    [mergeDetails] is [None] there. *)

From S2P Require Import Prelude Prog GoStrings K8s Effects Utils.
From Stdlib Require Import Ascii.

Local Open Scope Z_scope.

(** [strings.Split(eventName, ".")], its last part, read as a hexadecimal int64. *)
Definition parseTimestampFromEventName (eventName : string) : option Z :=
  match last (Split eventName "."%char) with
  | Some part => ParseInt16 part
  | None => None
  end.

Definition combined_prefix : string := "(combined from similar events):".

Definition parseComplianceFromMessage (message : string) : string :=
  let cleanMsg := ToLower (TrimSpace (TrimPrefix message combined_prefix)) in
  if HasPrefix cleanMsg "compliant" then Compliant
  else if HasPrefix cleanMsg "pending" then Pending
  else NonCompliant.

Definition timestampsWithin (ts1 ts2 threshold : Z) : bool :=
  let low := ts1 - threshold in
  let high := ts1 + threshold in
  (low <? ts2) && (ts2 <? high).

(** ** mergeDetails *)

(** The first existing entry with the template's name; [None] is the nil dereference of
    [dpt.TemplateMeta]. *)
Fixpoint find_dpt (existingDPTs : list (option DetailsPerTemplate)) (tName : string)
    : option (option DetailsPerTemplate) :=
  match existingDPTs with
  | [] => Some None
  | None :: _ => None
  | Some dpt :: rest =>
      if m_Name (dpt_TemplateMeta dpt) ==? tName then Some (Some dpt) else find_dpt rest tName
  end.

(** Old events are added when no event so far has their name. *)
Fixpoint add_old_events (events old : list ComplianceHistory) : list ComplianceHistory :=
  match old with
  | [] => events
  | oldEvent :: old' =>
      let found :=
        existsb (λ foundEvent, ch_EventName foundEvent ==? ch_EventName oldEvent) events in
      add_old_events (if found then events else events ++ [oldEvent]) old'
  end.

(** The timestamp in the event's name is used when there is one. *)
Definition precise (e : ComplianceHistory) : ComplianceHistory :=
  match parseTimestampFromEventName (ch_EventName e) with
  | Some ts => History ts (ch_Message e) (ch_EventName e)
  | None => e
  end.

(** [slices.SortStableFunc] by decreasing timestamp. *)
Fixpoint insert_newest (e : ComplianceHistory) (l : list ComplianceHistory)
    : list ComplianceHistory :=
  match l with
  | [] => [e]
  | x :: l' => if ch_LastTimestamp x <=? ch_LastTimestamp e then e :: l else x :: insert_newest e l'
  end.

Definition sort_newest (l : list ComplianceHistory) : list ComplianceHistory :=
  foldr insert_newest [] l.

Definition tooSimilar (event previous : ComplianceHistory) : bool :=
  timestampsWithin (ch_LastTimestamp event) (ch_LastTimestamp previous) (5 * microsecond) &&
  (ch_Message event ==? ch_Message previous).

Definition history_limit : nat := 10.

(** The loop over [events[1:]]: [previous] is [events[i-1]], [saved] is [len(dedupedHistory)]. *)
Fixpoint dedup_from (previous : ComplianceHistory) (saved : nat) (events : list ComplianceHistory)
    : list ComplianceHistory :=
  match events with
  | [] => []
  | event :: events' =>
      if Nat.eqb saved history_limit then []
      else if tooSimilar event previous then dedup_from event saved events'
      else event :: dedup_from event (S saved) events'
  end.

Definition dedup_history (events : list ComplianceHistory) : list ComplianceHistory :=
  match events with
  | [] => []
  | event :: events' => event :: dedup_from event 1 events'
  end.

Section merge.
Context `{T : TimeLib}.

Definition truncate (e : ComplianceHistory) : ComplianceHistory :=
  History (Rfc3339Copy (ch_LastTimestamp e)) (ch_Message e) (ch_EventName e).

Definition mergeDetails (events : list ComplianceHistory)
    (existingDPTs : list (option DetailsPerTemplate)) (tName : string)
    : option DetailsPerTemplate :=
  match find_dpt existingDPTs tName with
  | None => None
  | Some found =>
      let details := default (Details (new_meta tName "") "" []) found in
      let events := add_old_events events (dpt_History details) in
      let events := sort_newest (map precise events) in
      let history := map truncate (dedup_history events) in
      let state :=
        match history with
        | h :: _ => parseComplianceFromMessage (ch_Message h)
        | [] => dpt_ComplianceState details
        end in
      Some (Details (dpt_TemplateMeta details) state history)
  end.

End merge.

(** ** Event names *)

(** The name of an event is read back as the time it was sent at. *)
Lemma parse_event_name owner now :
  parseTimestampFromEventName (event_name owner now) = Some (wrap64 now).
Proof.
  unfold parseTimestampFromEventName, event_name.
  change ("." +:+ ?s) with (String "."%char s).
  rewrite Split_last by apply sprintf_x_no_dot.
  apply ParseInt16_sprintf, wrap64_range.
Qed.

(** ** Sorting *)

(** Newest first. *)
Definition newer (a b : ComplianceHistory) : Prop := ch_LastTimestamp b ≤ ch_LastTimestamp a.

#[export] Instance newer_trans : Transitive newer.
Proof. intros a b c. unfold newer. lia. Qed.

Lemma insert_newest_perm e l : insert_newest e l ≡ₚ e :: l.
Proof.
  induction l as [|x l IH]; simpl; [done|]. case_match; [done|].
  rewrite IH. apply Permutation_swap.
Qed.

Lemma sort_newest_perm l : sort_newest l ≡ₚ l.
Proof. induction l as [|e l IH]; simpl; [done|]. by rewrite insert_newest_perm, IH. Qed.

Lemma insert_newest_sorted e l : StronglySorted newer l → StronglySorted newer (insert_newest e l).
Proof.
  induction 1 as [|x l Hl IH Hx]; simpl; [by repeat constructor|].
  destruct (Z.leb_spec (ch_LastTimestamp x) (ch_LastTimestamp e)).
  - constructor; [by constructor|]. constructor; [done|].
    eapply Forall_impl; [done|]. intros y Hy. by transitivity x.
  - constructor; [done|]. rewrite insert_newest_perm. constructor; [unfold newer; lia|done].
Qed.

Lemma sort_newest_sorted l : StronglySorted newer (sort_newest l).
Proof. induction l; simpl; [constructor|by apply insert_newest_sorted]. Qed.

(** A sorted list is left alone: the sort is stable. *)
Lemma sort_newest_id l : StronglySorted newer l → sort_newest l = l.
Proof.
  induction 1 as [|x l Hl IH Hx]; simpl; [done|]. rewrite IH.
  destruct Hx as [|y l Hy _]; simpl; [done|]. unfold newer in Hy.
  destruct (Z.leb_spec (ch_LastTimestamp y) (ch_LastTimestamp x)); [done|lia].
Qed.

(** ** Deduplication *)

Lemma dedup_from_sublist prev n l : dedup_from prev n l `sublist_of` l.
Proof.
  revert prev n. induction l as [|e l IH]; intros prev n; simpl; [done|].
  case_match; [apply sublist_nil_l|]. case_match; by constructor.
Qed.

Lemma dedup_history_sublist l : dedup_history l `sublist_of` l.
Proof. destruct l as [|e l]; simpl; [done|]. constructor. apply dedup_from_sublist. Qed.

Lemma dedup_from_bound prev n l : (n ≤ history_limit → n + length (dedup_from prev n l) ≤ history_limit)%nat.
Proof.
  revert prev n. induction l as [|e l IH]; intros prev n Hn; simpl; [lia|].
  destruct (Nat.eqb_spec n history_limit); simpl; [lia|]. case_match; [by apply IH|].
  simpl. specialize (IH e (S n)). lia.
Qed.

Lemma dedup_history_bound l : (length (dedup_history l) ≤ history_limit)%nat.
Proof.
  destruct l as [|e l]; simpl; [unfold history_limit; lia|].
  pose proof (dedup_from_bound e 1 l). unfold history_limit in *. lia.
Qed.

Lemma tooSimilar_false_older e p p' :
  tooSimilar e p = false → ch_Message p' = ch_Message p → newer p e → newer p' p →
  tooSimilar e p' = false.
Proof.
  unfold tooSimilar, timestampsWithin, newer. intros H Hm He Hp.
  rewrite Hm. destruct (ch_Message e ==? ch_Message p); [|by rewrite andb_false_r].
  rewrite andb_true_r in *. apply andb_false_iff in H. apply andb_false_iff.
  unfold microsecond in *. lia.
Qed.

(** Running the deduplication again changes nothing. *)
Lemma dedup_from_idem l : ∀ prev prev' n,
  StronglySorted newer (prev :: l) → ch_Message prev' = ch_Message prev → newer prev' prev →
  dedup_from prev' n (dedup_from prev n l) = dedup_from prev n l.
Proof.
  induction l as [|e l IH]; intros prev prev' n Hs Hm Hp; simpl; [done|].
  apply StronglySorted_inv in Hs as [Hs Hall]. apply Forall_cons in Hall as [He Hall].
  destruct (Nat.eqb n history_limit) eqn:Hn; simpl; [done|].
  destruct (tooSimilar e prev) eqn:Hsim.
  - apply IH; [done| |by transitivity prev].
    unfold tooSimilar in Hsim. breflect. congruence.
  - simpl. rewrite Hn, (tooSimilar_false_older e prev prev') by done.
    f_equal. apply IH; [done..|]. unfold newer. lia.
Qed.

Lemma dedup_history_idem l :
  StronglySorted newer l → dedup_history (dedup_history l) = dedup_history l.
Proof.
  destruct l as [|e l]; intros Hs; simpl; [done|]. f_equal.
  apply dedup_from_idem; [done..|]. unfold newer. lia.
Qed.

Lemma StronglySorted_sublist {A} (R : relation A) l k :
  k `sublist_of` l → StronglySorted R l → StronglySorted R k.
Proof.
  induction 1 as [|x k l H IH|x k l H IH]; intros Hs; [constructor| |].
  - apply StronglySorted_inv in Hs as [Hs Hx]. constructor; [auto|].
    rewrite Forall_forall in *. intros y Hy. apply Hx. by eapply elem_of_sublist.
  - apply StronglySorted_inv in Hs as [Hs _]. auto.
Qed.

(** ** Provenance *)

Lemma add_old_events_elem events old e :
  e ∈ add_old_events events old → e ∈ events ∨ e ∈ old.
Proof.
  revert events. induction old as [|o old IH]; intros events; simpl; [by left|].
  intros [He|He]%IH; [|by right; right].
  case_match; [by left|]. apply elem_of_app in He as [He|He%list_elem_of_singleton]; [by left|].
  right. subst. by left.
Qed.

Lemma add_old_events_l events old e : e ∈ events → e ∈ add_old_events events old.
Proof.
  revert events. induction old as [|o old IH]; intros events He; simpl; [done|].
  apply IH. case_match; [done|]. set_solver.
Qed.

Lemma add_old_events_names events old e :
  e ∈ old → ∃ e', e' ∈ add_old_events events old ∧ ch_EventName e' = ch_EventName e.
Proof.
  revert events. induction old as [|o old IH]; intros events He; simpl; [set_solver|].
  apply elem_of_cons in He as [->|He]; [|by apply IH].
  case_match eqn:E.
  - apply existsb_elem in E as (f & Hf & Hn). breflect. exists f.
    split; [by apply add_old_events_l|done].
  - exists o. split; [|done]. apply add_old_events_l. set_solver.
Qed.

Lemma precise_name e : ch_EventName (precise e) = ch_EventName e.
Proof. unfold precise. by case_match. Qed.
Lemma precise_message e : ch_Message (precise e) = ch_Message e.
Proof. unfold precise. by case_match. Qed.

(** ** What mergeDetails returns *)

(** The history already recorded for a template. *)
Definition old_history (existing : list (option DetailsPerTemplate)) (tName : string)
    : list ComplianceHistory :=
  match find_dpt existing tName with
  | Some (Some dpt) => dpt_History dpt
  | _ => []
  end.

(** The events the new history is chosen from. *)
Definition candidates (events : list ComplianceHistory)
    (existing : list (option DetailsPerTemplate)) (tName : string) : list ComplianceHistory :=
  map precise (add_old_events events (old_history existing tName)).

Lemma find_dpt_name existing tName d :
  find_dpt existing tName = Some (Some d) → m_Name (dpt_TemplateMeta d) = tName.
Proof.
  induction existing as [|[x|] l IH]; simpl; [done| |done].
  case_match; breflect; [|done]. intros. by simplify_eq.
Qed.

Section merge_facts.
Context `{T : TimeLib}.

Lemma mergeDetails_inv events existing tName d :
  mergeDetails events existing tName = Some d →
  m_Name (dpt_TemplateMeta d) = tName ∧
  dpt_History d = map truncate (dedup_history (sort_newest (candidates events existing tName))) ∧
  match dpt_History d with
  | h :: _ => dpt_ComplianceState d = parseComplianceFromMessage (ch_Message h)
  | [] => ∃ d0, find_dpt existing tName = Some d0 ∧
            dpt_ComplianceState d = default "" (dpt_ComplianceState <$> d0)
  end.
Proof.
  unfold mergeDetails, candidates, old_history.
  destruct (find_dpt existing tName) as [[d0|]|] eqn:E; intros H; simplify_eq; simpl.
  - split; [by eapply find_dpt_name|]. split; [done|]. case_match; [|done]. by eexists.
  - split; [done|]. split; [done|]. case_match; [|done]. by eexists.
Qed.

Lemma mergeDetails_total events existing tName :
  Forall is_Some existing → is_Some (mergeDetails events existing tName).
Proof.
  intros H. unfold mergeDetails.
  assert (is_Some (find_dpt existing tName)) as [x ->]; [|by eexists].
  induction H as [|o l [x ->] _ IH]; simpl; [by eexists|]. case_match; [by eexists|done].
Qed.

Lemma precise_truncate e :
  is_Some (parseTimestampFromEventName (ch_EventName e)) → precise (truncate (precise e)) = precise e.
Proof. intros [ts Hts]. unfold precise, truncate. rewrite Hts. simpl. by rewrite Hts. Qed.

Lemma add_old_events_nil old :
  NoDup (map ch_EventName old) → ∀ events,
  (∀ e e', e ∈ events → e' ∈ old → ch_EventName e ≠ ch_EventName e') →
  add_old_events events old = events ++ old.
Proof.
  induction old as [|o old IH]; simpl; intros Hnd events Hd; [by rewrite app_nil_r|].
  apply NoDup_cons in Hnd as [Ho Hnd]. case_match eqn:E.
  - apply existsb_elem in E as (f & Hf & Hn). breflect. exfalso. eapply Hd; [done| |done]. by left.
  - rewrite IH; [by rewrite <- app_assoc|done|]. intros e e' He He'.
    apply elem_of_app in He as [He| ->%list_elem_of_singleton]; [apply Hd; [done|by right]|].
    intros Hn. apply Ho. rewrite Hn. by apply list_elem_of_fmap_2.
Qed.

Context `{!TimeLaws T}.

Lemma truncate_newer a b : newer a b → newer (truncate a) (truncate b).
Proof.
  unfold newer, truncate; simpl. rewrite !Rfc3339Copy_second. intros H.
  assert (second > 0) by (unfold second; lia).
  pose proof (Z.div_le_mono (ch_LastTimestamp b) (ch_LastTimestamp a) second). nia.
Qed.

Lemma map_truncate_sorted l : StronglySorted newer l → StronglySorted newer (map truncate l).
Proof.
  induction 1 as [|x l Hl IH Hx]; simpl; constructor; [done|].
  apply Forall_map. eapply Forall_impl; [done|]. apply truncate_newer.
Qed.

End merge_facts.

(** ** Properties *)

(** C17: the merged history of a template has at most ten entries, newest first, each of them an
    event that was found or was already recorded (with its message and name, and its timestamp
    taken from the name when there is one, to the second). *)
Theorem merge_history_sound `{T : TimeLib} `{!TimeLaws T} events existing tName d :
  mergeDetails events existing tName = Some d →
  (length (dpt_History d) ≤ 10)%nat ∧
  StronglySorted newer (dpt_History d) ∧
  ∀ h, h ∈ dpt_History d →
    ∃ e, (e ∈ events ∨ e ∈ old_history existing tName) ∧
      ch_EventName h = ch_EventName e ∧ ch_Message h = ch_Message e ∧
      ch_LastTimestamp h =
        Rfc3339Copy (default (ch_LastTimestamp e) (parseTimestampFromEventName (ch_EventName e))).
Proof.
  intros (_ & -> & _)%mergeDetails_inv. set (l := sort_newest _). split; [|split].
  - rewrite length_map. apply dedup_history_bound.
  - apply map_truncate_sorted. eapply StronglySorted_sublist; [apply dedup_history_sublist|].
    apply sort_newest_sorted.
  - intros h Hh. apply list_elem_of_fmap in Hh as (e1 & -> & He1).
    eapply elem_of_sublist in He1; [|apply dedup_history_sublist].
    subst l. rewrite sort_newest_perm in He1.
    apply list_elem_of_fmap in He1 as (e & -> & He). apply add_old_events_elem in He.
    exists e. split; [done|]. simpl. rewrite precise_name, precise_message. split; [done|].
    split; [done|]. unfold precise. by destruct (parseTimestampFromEventName _).
Qed.

(** C18: the first entry of the merged history is the newest of all the events, and its message
    decides the compliance state of the template; there is such an entry as soon as an event was
    found.  Without any event the recorded compliance state is kept. *)
Theorem merge_newest_decides `{T : TimeLib} `{!TimeLaws T} events existing tName d :
  mergeDetails events existing tName = Some d →
  match dpt_History d with
  | h :: _ =>
      dpt_ComplianceState d = parseComplianceFromMessage (ch_Message h) ∧
      (∀ e, e ∈ candidates events existing tName →
            Rfc3339Copy (ch_LastTimestamp e) ≤ ch_LastTimestamp h) ∧
      ∃ e, e ∈ candidates events existing tName ∧ h = truncate e ∧
           ∀ e', e' ∈ candidates events existing tName → newer e e'
  | [] =>
      events = [] ∧ old_history existing tName = [] ∧
      ∃ d0, find_dpt existing tName = Some d0 ∧
            dpt_ComplianceState d = default "" (dpt_ComplianceState <$> d0)
  end.
Proof.
  intros (_ & Hh & Hc)%mergeDetails_inv.
  pose proof (sort_newest_perm (candidates events existing tName)) as Hp.
  pose proof (sort_newest_sorted (candidates events existing tName)) as Hs.
  destruct (sort_newest (candidates events existing tName)) as [|e l]; simpl in Hh;
    rewrite Hh in *.
  - split_and!; [| |exact Hc]; apply Permutation_nil_l in Hp; symmetry in Hp;
      unfold candidates in Hp; apply fmap_nil_inv in Hp.
    + destruct events as [|e events]; [done|].
      pose proof (add_old_events_l (e :: events) (old_history existing tName) e) as He.
      rewrite Hp in He. by apply elem_of_nil in He; [|by left].
    + destruct (old_history existing tName) as [|o old] eqn:Eo; [done|].
      destruct (add_old_events_names events (o :: old) o) as (e' & He' & _); [by left|].
      rewrite Hp in He'. by apply elem_of_nil in He'.
  - apply StronglySorted_inv in Hs as [_ Hs]. split; [done|].
    assert (∀ e', e' ∈ candidates events existing tName → newer e e') as Hnew.
    { intros e'. rewrite <- Hp, elem_of_cons. intros [->|He']; [unfold newer; lia|].
      rewrite Forall_forall in Hs. by apply Hs. }
    split.
    + intros e' He'. apply Hnew, truncate_newer in He'. done.
    + exists e. split; [rewrite <- Hp; by left|done].
Qed.

(** C19: when the names recorded in a merged history are distinct and every one of them carries its
    timestamp (as those of the events the addon sends do), merging again without any new event
    returns the same details: a reconcile after the events have expired does not change the status.
    Without the condition on the names it may, see [merge_may_collapse]. *)
Theorem merge_idempotent `{T : TimeLib} `{!TimeLaws T} events existing tName d :
  mergeDetails events existing tName = Some d →
  Forall (λ e, is_Some (parseTimestampFromEventName (ch_EventName e))) (dpt_History d) →
  NoDup (map ch_EventName (dpt_History d)) →
  mergeDetails [] [Some d] tName = Some d.
Proof.
  intros (Hn & Hh & Hc)%mergeDetails_inv Hts Hnd. unfold mergeDetails; simpl.
  rewrite Hn, bool_decide_eq_true_2 by done; simpl.
  rewrite add_old_events_nil by (done || set_solver). simpl.
  set (S1 := sort_newest (candidates events existing tName)) in *.
  assert (StronglySorted newer S1) as HS by apply sort_newest_sorted.
  assert (map precise (dpt_History d) = dedup_history S1) as Hp.
  { rewrite Hh in Hts |- *. rewrite Forall_map in Hts. rewrite map_map.
    rewrite <- (map_id (dedup_history S1)) at 2. apply map_ext_in. intros e He.
    apply list_elem_of_In in He. rewrite Forall_forall in Hts. specialize (Hts e He). simpl in Hts.
    eapply elem_of_sublist in He; [|apply dedup_history_sublist].
    unfold S1 in He. rewrite sort_newest_perm in He.
    apply list_elem_of_fmap in He as (e0 & -> & _). apply precise_truncate.
    by rewrite precise_name in Hts. }
  rewrite Hp, sort_newest_id, dedup_history_idem, <- Hh.
  - destruct d as [meta state history]; simpl in *. f_equal. f_equal.
    destruct history; [done|by rewrite Hc].
  - done.
  - eapply StronglySorted_sublist; [apply dedup_history_sublist|done].
Qed.

(** The compliance in front of the message of a compliance event is what status-sync reads
    back from it. *)
Theorem compliance_roundtrip compliance msg :
  compliance ∈ [Compliant; NonCompliant; Pending] →
  parseComplianceFromMessage (compliance +:+ "; " +:+ msg) = compliance.
Proof.
  intros H. rewrite !elem_of_cons, elem_of_nil in H. destruct H as [->|[->|[->|[]]]]; reflexivity.
Qed.

(** ** Concrete runs *)

Definition demo_events : list ComplianceHistory :=
  [History 1709130939000000000 "Compliant; notification - ok" "p.17b80d88a995e12c";
   History 1709130940000000000 "NonCompliant; violation - missing" "p.17b80d88e53d5d2c"].
Definition demo_existing : list (option DetailsPerTemplate) :=
  [Some (Details (new_meta "t" "") "Pending"
     [History 1709130938000000000 "Pending; waiting" "p.17b80d886dee652c"])].
Definition demo_details : DetailsPerTemplate :=
  Details (new_meta "t" "") "NonCompliant"
    [History 1709130940000000000 "NonCompliant; violation - missing" "p.17b80d88e53d5d2c";
     History 1709130939000000000 "Compliant; notification - ok" "p.17b80d88a995e12c";
     History 1709130938000000000 "Pending; waiting" "p.17b80d886dee652c"].

(** Two events with the same message in one second, whose names carry no timestamp: the first merge
    keeps both, cut to the second, and the next one takes them for the same event. *)
Example merge_may_collapse :
  let h t n := History t "Compliant; ok" n in
  ∃ d, mergeDetails (T := time_ref) [h 1709130939000000000 "x"; h 1709130939500000000 "y"] [] "t" = Some d ∧
    map ch_EventName (dpt_History d) = ["y"; "x"] ∧
    (map ch_EventName ∘ dpt_History) <$> mergeDetails (T := time_ref) [] [Some d] "t" = Some ["y"].
Proof. eexists. split; [vm_compute; reflexivity|]. split; vm_compute; reflexivity. Qed.

Example demo_merge : mergeDetails (T := time_ref) demo_events demo_existing "t" = Some demo_details.
Proof. vm_compute. reflexivity. Qed.

Lemma merge_history_sound_witness :
  mergeDetails (T := time_ref) demo_events demo_existing "t" = Some demo_details ∧
  (length (dpt_History demo_details) ≤ 10)%nat ∧
  StronglySorted newer (dpt_History demo_details).
Proof.
  split; [vm_compute; reflexivity|].
  destruct (merge_history_sound (T := time_ref) demo_events demo_existing "t" demo_details)
    as (H1 & H2 & _); [vm_compute; reflexivity|]. split; assumption.
Defined.

Lemma merge_newest_decides_witness :
  dpt_ComplianceState demo_details =
  parseComplianceFromMessage "NonCompliant; violation - missing".
Proof.
  pose proof (merge_newest_decides (T := time_ref) demo_events demo_existing "t" demo_details) as H.
  destruct H as [H _]; [vm_compute; reflexivity|]. exact H.
Defined.

Lemma merge_idempotent_witness :
  mergeDetails (T := time_ref) [] [Some demo_details] "t" = Some demo_details.
Proof.
  apply (merge_idempotent (T := time_ref) demo_events demo_existing "t" demo_details).
  - vm_compute. reflexivity.
  - repeat (apply Forall_cons; split; [vm_compute; eexists; reflexivity|]). apply Forall_nil, I.
  - apply (bool_decide_unpack _). vm_compute. exact I.
Defined.

Lemma compliance_roundtrip_witness :
  parseComplianceFromMessage "Pending; 1 is still pending" = Pending.
Proof.
  apply (compliance_roundtrip Pending "1 is still pending").
  apply (bool_decide_unpack _). vm_compute. exact I.
Defined.
