(* ===== verification/StatusEvents.v ===== *)
(** * controllers/statussync: where the compliance events come from

    The events of a policy are read from the cluster's Event objects, whose reason names the
    template, and from the history a template keeps in its own status ([getEventsInCluster],
    [getEventsInTemplate], [templateOwnedByPolicy] of [policy_status_sync.go]). *)

From S2P Require Import Prelude Prog GoStrings K8s Effects Utils StatusHistory.
From Stdlib Require Import Ascii.

(** ** The regular expression of event reasons

    [(?i)^policy:\s*(?:([a-z0-9.-]+)\s*\/)?(.+)], matched the way Go does: leftmost, greedy, with
    backtracking.  The result is the second group, the template's name. *)

Definition re_space (c : ascii) : bool :=
  let n := N_of_ascii c in ((n =? 9) || (n =? 10) || (n =? 12) || (n =? 13) || (n =? 32))%N.

Definition re_name (c : ascii) : bool :=
  let n := N_of_ascii (lower c) in
  (((97 <=? n) && (n <=? 122)) || ((48 <=? n) && (n <=? 57)) || (n =? 46) || (n =? 45))%N.

Definition newline : ascii := "010"%char.

(** [(.+)]: the longest run without a newline, if it is not empty. *)
Fixpoint until_newline (s : string) : string :=
  match s with
  | String c s' => if c ==? newline then "" else String c (until_newline s')
  | EmptyString => ""
  end.

Definition dot_plus (s : string) : option string :=
  let r := until_newline s in if r ==? "" then None else Some r.

Fixpoint span_name (s : string) : string * string :=
  match s with
  | String c s' =>
      if re_name c then let '(a, b) := span_name s' in (String c a, b) else ("", s)
  | EmptyString => ("", "")
  end.

Fixpoint skip_spaces (s : string) : string :=
  match s with
  | String c s' => if re_space c then skip_spaces s' else s
  | EmptyString => ""
  end.

(** The optional group is present: a name, spaces and a slash before the rest.  No character is in
    two of the three classes, so a shorter name or fewer spaces cannot match either. *)
Definition with_group (s : string) : option string :=
  let '(name, rest) := span_name s in
  if name ==? "" then None
  else match skip_spaces rest with
       | String c rest' => if c ==? "/"%char then dot_plus rest' else None
       | EmptyString => None
       end.

Definition group_or_not (s : string) : option string :=
  match with_group s with Some r => Some r | None => dot_plus s end.

(** The first [\s*] takes as many spaces as it can and gives them back when the rest fails. *)
Fixpoint after_spaces (s : string) : option string :=
  match s with
  | String c s' =>
      if re_space c then
        match after_spaces s' with
        | Some r => Some r
        | None => group_or_not s
        end
      else group_or_not s
  | EmptyString => group_or_not ""
  end.

(** [rgx.FindStringSubmatch(reason)[2]], or [None] when the expression does not match. *)
Definition template_of_reason (reason : string) : option string :=
  if HasPrefix (ToLower reason) "policy:" then after_spaces (drop_bytes 7 reason) else None.

(** ** getEventsInCluster *)

Definition event_history (e : Event) : ComplianceHistory :=
  History (e_LastTimestamp e) (TrimSpace (TrimPrefix (e_Message e) combined_prefix)) (e_Name e).

Definition add_event (instance : Policy) (m : gmap string (list ComplianceHistory)) (e : Event)
    : gmap string (list ComplianceHistory) :=
  if ref_UID (e_InvolvedObject e) ==? p_UID instance then
    match template_of_reason (e_Reason e) with
    | Some templateName =>
        <[templateName := default [] (m !! templateName) ++ [event_history e]]> m
    | None => m
    end
  else m.

Definition getEventsInCluster (instance : Policy)
    : prg (result (gmap string (list ComplianceHistory))) :=
  let! eventList := call (OEventList (p_Namespace instance)) in
  match eventList with
  | Err err => Ret (Err err)
  | Ok items => Ret (Ok (foldl (add_event instance) ∅ items))
  end.

(** ** getEventsInTemplate *)

(** [templateHistoryEvent]: the zero time is that of a missing or null timestamp. *)
Definition zero_time : Z := -62135596800 * second.
Record templateHistoryEvent := THE { the_LastTimestamp : Z; the_Message : string }.

Section template_events.
Context `{U : UnstructuredLib} `{T : TimeLib}.

(** Decoding one key of the JSON object into the struct; field names match without regard to
    case. [None] is a decoding error. *)
Definition set_history_field (e : templateHistoryEvent) (kv : string * json)
    : option templateHistoryEvent :=
  let '(k, v) := kv in
  if EqualFold k "lastTimestamp" then
    match v with
    | JNull => Some (THE zero_time (the_Message e))
    | JStr s => (λ ts, THE ts (the_Message e)) <$> ParseMicroTime s
    | _ => None
    end
  else if EqualFold k "message" then
    match v with
    | JNull => Some e
    | JStr s => Some (THE (the_LastTimestamp e) s)
    | _ => None
    end
  else Some e.

(** [json.Marshal] writes the keys in increasing order and [json.Unmarshal] reads them in that
    order. *)
Definition key_le (a b : string * json) : Prop := String.le a.1 b.1.
#[export] Instance key_le_dec : RelDecision key_le.
Proof. intros a b. unfold key_le. apply _. Defined.

Definition decode_history_event (ev : json) : option templateHistoryEvent :=
  match ev with
  | JNull => Some (THE zero_time "")
  | JObj m =>
      foldl (λ acc kv, acc ≫= λ e, set_history_field e kv) (Some (THE zero_time ""))
        (merge_sort key_le (map_to_list m))
  | _ => None
  end.

Definition history_of_template_event (policyName : string) (ev : json)
    : option ComplianceHistory :=
  match decode_history_event ev with
  | None => None
  | Some event =>
      if ((the_LastTimestamp event ==? zero_time) || (the_Message event ==? ""))%bool then None
      else Some (History (the_LastTimestamp event) (TrimSpace (the_Message event))
                   (event_name policyName (the_LastTimestamp event)))
  end.

Definition getEventsInTemplate (tmplUnstruct : option unstructured) (policyName : string)
    : list ComplianceHistory :=
  match tmplUnstruct with
  | None => []
  | Some u =>
      let '(events, found, err) := NestedSlice (u_Object u) ["status"; "history"] in
      if (negb found || bool_decide (is_Some err))%bool then []
      else omap (history_of_template_event policyName) events
  end.

End template_events.

(** ** templateOwnedByPolicy *)

Definition templateOwnedByPolicy (obj : option unstructured) (policyName : string) : bool :=
  match obj with
  | None => false
  | Some obj =>
      let refName :=
        match find_first (λ ownerRef, or_Kind ownerRef ==? policy_kind) (u_OwnerReferences obj) with
        | Some ownerRef => or_Name ownerRef
        | None => ""
        end in
      let refName :=
        if refName ==? "" then str_index (u_Labels obj) ParentPolicyLabel else refName in
      (refName !=? "") && (refName ==? policyName)
  end.

(** ** Lemmas *)

Lemma until_newline_id s : str_Forall (λ c, c ≠ newline) s → until_newline s = s.
Proof.
  induction s as [|c s IH]; simpl; [done|]. intros [Hc Hs].
  rewrite bool_decide_eq_false_2 by done. by rewrite IH.
Qed.

Lemma dot_plus_id s : s ≠ "" → str_Forall (λ c, c ≠ newline) s → dot_plus s = Some s.
Proof.
  intros Hne Hs. unfold dot_plus. rewrite until_newline_id by done.
  by rewrite bool_decide_eq_false_2.
Qed.

#[local] Arguments String.append : simpl nomatch.

Lemma span_name_app ns c rest :
  str_Forall (λ c, re_name c = true) ns → re_name c = false →
  span_name (ns +:+ String c rest) = (ns, String c rest).
Proof.
  intros Hns Hc. induction ns as [|d ns IH]; simpl in *; [by rewrite Hc|].
  destruct Hns as [-> Hns]. by rewrite IH.
Qed.

(** A namespace as Kubernetes allows it: lower case letters, digits and dashes. *)
Definition dns_label (ns : string) : Prop :=
  ns ≠ "" ∧ str_Forall (λ c, re_name c = true) ns.

(** A template name without white space and slashes. *)
Definition plain_name (name : string) : Prop :=
  name ≠ "" ∧ str_Forall (λ c, re_space c = false ∧ c ≠ "/"%char) name.

Lemma plain_no_newline name : plain_name name → str_Forall (λ c, c ≠ newline) name.
Proof.
  intros [_ H]. eapply str_Forall_mono; [exact H|]. by intros c [Hc _] ->.
Qed.

Lemma span_name_plain s a b :
  str_Forall (λ c, re_space c = false ∧ c ≠ "/"%char) s → span_name s = (a, b) →
  b = "" ∨ ∃ c b', b = String c b' ∧ re_space c = false ∧ c ≠ "/"%char.
Proof.
  revert a b. induction s as [|c s IH]; simpl; intros a b; [intros _ [= <- <-]; by left|].
  intros [Hc Hs]. destruct (re_name c).
  - destruct (span_name s) as [a' b'] eqn:E. intros [= <- <-]. by eapply IH.
  - intros [= <- <-]. right. by exists c, s.
Qed.

Lemma with_group_plain name : plain_name name → with_group name = None.
Proof.
  intros [_ H]. unfold with_group. destruct (span_name name) as [a b] eqn:E.
  case_match; [done|].
  destruct (span_name_plain name a b H E) as [->|(c & b' & -> & Hc & Hs)]; simpl; [done|].
  rewrite Hc. by rewrite bool_decide_eq_false_2.
Qed.

Lemma after_spaces_start s c s' :
  s = String c s' → re_space c = false → after_spaces s = group_or_not s.
Proof. intros -> Hc. simpl. by rewrite Hc. Qed.

Lemma name_not_space c : re_name c = true → re_space c = false.
Proof.
  destruct c as [[] [] [] [] [] [] [] []]; vm_compute; congruence.
Qed.

Lemma group_or_not_ns ns name :
  dns_label ns → plain_name name → group_or_not (ns +:+ "/" +:+ name) = Some name.
Proof.
  intros [Hne Hns] Hname. unfold group_or_not, with_group.
  change ("/" +:+ name) with (String "/"%char name).
  rewrite span_name_app by done. rewrite bool_decide_eq_false_2 by done. simpl.
  rewrite dot_plus_id; [done| |by apply plain_no_newline]. by destruct Hname.
Qed.

(** Reading the reason of a compliance event gives the name of its template. *)
Lemma event_reason_parse ns name :
  ns = "" ∨ dns_label ns → plain_name name → template_of_reason (EventReason ns name) = Some name.
Proof.
  intros Hns Hname. unfold template_of_reason, EventReason.
  destruct Hns as [->|Hns].
  - rewrite bool_decide_eq_true_2 by done. simpl.
    pose proof Hname as [Hne Hf]. destruct name as [|c name]; [done|].
    rewrite (after_spaces_start _ c name) by (done || apply Hf).
    unfold group_or_not. rewrite with_group_plain by done.
    rewrite dot_plus_id; [done..|]. by apply plain_no_newline.
  - rewrite bool_decide_eq_false_2 by apply Hns. simpl.
    pose proof (group_or_not_ns ns name Hns Hname) as Hg.
    destruct Hns as [Hne Hf]. destruct ns as [|c ns]; [done|].
    simpl in Hg.
    rewrite (after_spaces_start _ c (ns +:+ "/" +:+ name)); [|done|apply name_not_space, Hf].
    simpl. by rewrite Hg.
Qed.

Lemma add_event_same instance m e name :
  ref_UID (e_InvolvedObject e) = p_UID instance → template_of_reason (e_Reason e) = Some name →
  add_event instance m e = <[name := default [] (m !! name) ++ [event_history e]]> m.
Proof. intros HU HR. unfold add_event. by rewrite bool_decide_eq_true_2, HR. Qed.

(** Which events end up under a template's name. *)
Definition concerns (instance : Policy) (name : string) (e : Event) : bool :=
  (ref_UID (e_InvolvedObject e) ==? p_UID instance) &&
  (template_of_reason (e_Reason e) ==? Some name).

Lemma add_event_lookup instance m e name :
  default [] (add_event instance m e !! name) =
  default [] (m !! name) ++ (if concerns instance name e then [event_history e] else []).
Proof.
  unfold add_event, concerns. case_match; simpl; [|by rewrite app_nil_r].
  destruct (template_of_reason (e_Reason e)) as [n|]; simpl; [|by rewrite app_nil_r].
  destruct (decide (n = name)) as [->|Hn].
  - by rewrite lookup_insert_eq, bool_decide_eq_true_2.
  - rewrite lookup_insert_ne, bool_decide_eq_false_2 by congruence. by rewrite app_nil_r.
Qed.

Lemma event_map_lookup instance items name :
  default [] (foldl (add_event instance) ∅ items !! name) =
  map event_history (filter (λ e, concerns instance name e = true) items).
Proof.
  assert (∀ m, default [] (foldl (add_event instance) m items !! name) =
    default [] (m !! name) ++ map event_history (filter (λ e, concerns instance name e = true) items))
    as H; [|by rewrite H].
  induction items as [|e items IH]; intros m; simpl; [by rewrite app_nil_r|].
  rewrite IH, add_event_lookup, <- app_assoc. f_equal. unfold filter; simpl.
  destruct (decide (concerns instance name e = true)) as [->|Hc%not_true_is_false]; [done|].
  by rewrite Hc.
Qed.

(** ** Properties *)

(** The reason that template-sync and gatekeeper-sync write on a compliance event is read back
    by status-sync as the template's name, for namespaced and for cluster-scoped templates. *)
Theorem event_reason_roundtrip ns name :
  (ns = "" ∨ dns_label ns) → plain_name name →
  template_of_reason (EventReason ns name) = Some name.
Proof. apply event_reason_parse. Qed.

Lemma event_reason_roundtrip_witness :
  template_of_reason (EventReason "managed" "case9-test-policy") = Some "case9-test-policy" ∧
  template_of_reason (EventReason "" "K8sRequiredLabels:1") = Some "K8sRequiredLabels:1".
Proof.
  split.
  - apply (event_reason_roundtrip "managed" "case9-test-policy"); [right|];
      split; vm_compute; try discriminate; repeat split; done.
  - apply (event_reason_roundtrip "" "K8sRequiredLabels:1"); [left; reflexivity|].
    split; vm_compute; try discriminate; repeat split; done.
Defined.

(** C23: a compliance event that a controller of the addon sends for a template is found again
    under that template's name when the events of the policy are listed, and it becomes a history
    entry that carries the time of sending to the nanosecond and, for the three compliance states,
    reports the compliance it was sent with. *)
Theorem sent_event_is_found (c : ComplianceEventSender) instance0 owner policy ns name
    msg compliance now items1 items2 :
  or_UID owner = p_UID policy → (ns = "" ∨ dns_label ns) → plain_name name → in_int64 now →
  compliance ∈ [Compliant; NonCompliant; Pending] →
  let e := compliance_event c instance0 owner (EventReason ns name) msg compliance now in
  let found :=
    default [] (foldl (add_event policy) ∅ (items1 ++ e :: items2) !! name) in
  ∃ l1 l2, found = l1 ++ event_history e :: l2 ∧
    ch_LastTimestamp (precise (event_history e)) = now ∧
    parseComplianceFromMessage (ch_Message (event_history e)) = compliance.
Proof.
  intros HU Hns Hname Hnow Hcomp e found. subst found.
  rewrite event_map_lookup, filter_app, map_app.
  exists (map event_history (filter (λ e, concerns policy name e = true) items1)),
    (map event_history (filter (λ e, concerns policy name e = true) items2)).
  rewrite filter_cons_True; [split; [done|split]|].
  - unfold precise, event_history; simpl. by rewrite parse_event_name, wrap64_id.
  - simpl. rewrite !elem_of_cons, elem_of_nil in Hcomp.
    destruct Hcomp as [->|[->|[->|[]]]]; reflexivity.
  - unfold concerns; simpl. rewrite bool_decide_eq_true_2 by done.
    by rewrite event_reason_parse, bool_decide_eq_true_2.
Qed.

Lemma sent_event_is_found_witness :
  let policy := MkPolicy "" "Policy" (new_meta "p" "managed") (Spec "" [] [] "") (Status "" [] "") in
  let owner := OwnerRef "" "Policy" "p" "" "" in
  let e := compliance_event (Sender "managed" "pod" "template-sync") None owner
             (EventReason "managed" "t") "it is fine" Compliant 1709130939198988588 in
  ∃ l1 l2, default [] (foldl (add_event policy) ∅ ([] ++ e :: []) !! "t") =
    l1 ++ event_history e :: l2 ∧
    ch_LastTimestamp (precise (event_history e)) = 1709130939198988588%Z ∧
    parseComplianceFromMessage (ch_Message (event_history e)) = Compliant.
Proof.
  apply (sent_event_is_found (Sender "managed" "pod" "template-sync") None
    (OwnerRef "" "Policy" "p" "" "")
    (MkPolicy "" "Policy" (new_meta "p" "managed") (Spec "" [] [] "") (Status "" [] ""))
    "managed" "t" "it is fine" Compliant 1709130939198988588 [] []).
  - reflexivity.
  - right. split; vm_compute; try discriminate; repeat split; done.
  - split; vm_compute; try discriminate; repeat split; done.
  - unfold in_int64, int64_min, int64_max. lia.
  - left.
Defined.
