(* ===== verification/StatusSync.v ===== *)
(** * controllers/statussync

    The status-sync controller computes the compliance details of a replicated policy from events
    and template histories, writes them to the status on the managed cluster and copies the status
    to the hub.  This file has the whole [Reconcile] handler of [policy_status_sync.go], with
    [getInstances], [getDetails] and [updateStatuses], the mapper and the predicates of its event
    watch.  [getDetails] works on shared memory: the entries of the existing details are updated in
    place and the new list points to them, which matters when two templates have the same name. *)

From S2P Require Import Prelude Prog GoStrings K8s Effects Utils ApiServer StatusHistory StatusEvents.

(** [SpecSyncRequests] tells whether the channel to spec-sync is set. *)
Record PolicyReconciler := MkReconciler {
  ClusterNamespaceOnHub : string;
  OnMulticlusterhub : bool;
  SpecSyncRequests : bool }.

Definition policyID (name namespace : string) : ObjectIdentifier :=
  ObjID policy_group policy_version "Policy" namespace name.

Definition triggerSpecSyncReconcile (r : PolicyReconciler) (request : NamespacedName) : prg unit :=
  call (OSendSpecSync (NN (ClusterNamespaceOnHub r) (nn_Name request))).

(** The key of the policy on the hub. *)
Definition hub_key (r : PolicyReconciler) (name : string) : NamespacedName :=
  NN (ClusterNamespaceOnHub r) name.

(** ** getInstances

    [Ok None] is the return of two nil policies without an error. *)

(** The return when spec-sync has to act: it is told to when there is a channel to it. *)
Definition skip_and_trigger (r : PolicyReconciler) (request : NamespacedName)
    : prg (result (option (Policy * option Policy))) :=
  if SpecSyncRequests r then
    do! triggerSpecSyncReconcile r request in
    Ret (Ok None)
  else Ret (Ok None).

Definition getInstances (r : PolicyReconciler) (request : NamespacedName)
    : prg (result (option (Policy * option Policy))) :=
  let! got := call (OPolicyGet Managed request) in
  match got with
  | Err err =>
      if IsNotFound err then
        if OnMulticlusterhub r then Ret (Ok None)
        else
          let! hub := call (OPolicyGet Hub (hub_key r (nn_Name request))) in
          match hub with
          | Err err => if IsNotFound err then Ret (Ok None) else Ret (Err err)
          | Ok _ => skip_and_trigger r request
          end
      else Ret (Err err)
  | Ok managedInstance =>
      if OnMulticlusterhub r then Ret (Ok (Some (managedInstance, None)))
      else
        let! hub := call (OPolicyGet Hub (hub_key r (nn_Name request))) in
        match hub with
        | Err err => if IsNotFound err then skip_and_trigger r request else Ret (Err err)
        | Ok hubInstance =>
            if negb (EquivalentReplicatedPolicies managedInstance hubInstance)
            then skip_and_trigger r request
            else Ret (Ok (Some (managedInstance, Some hubInstance)))
        end
  end.

(** ** getDetails *)

(** An entry of the new details: a pointer into the existing details or a new object. *)
Inductive dpt_ref := Existing (i : nat) | Fresh (d : DetailsPerTemplate).

(** The memory of the loop: the map of events, the existing details, the new details. *)
Record details_state := DetailsState {
  ds_events : gmap string (list ComplianceHistory);
  ds_existing : list (option DetailsPerTemplate);
  ds_all : list dpt_ref }.

Definition resolve (existing : list (option DetailsPerTemplate)) (x : dpt_ref)
    : option DetailsPerTemplate :=
  match x with
  | Existing i => mjoin (existing !! i)
  | Fresh d => Some d
  end.

(** The index of the entry [mergeDetails] updates in place, if there is one. *)
Fixpoint cell_of (existing : list (option DetailsPerTemplate)) (tName : string) : option nat :=
  match existing with
  | [] => None
  | None :: _ => None
  | Some dpt :: rest =>
      if m_Name (dpt_TemplateMeta dpt) ==? tName then Some 0%nat else S <$> cell_of rest tName
  end.

Section details.
Context `{U : UnstructuredLib} `{T : TimeLib} `{D : DecodeLib}.

(** Go leaves open when [append] moves a slice to a new array.  [realloc i] tells whether that
    happened when the i-th call of [mergeDetails] appended the old events. *)
Variable realloc : nat → bool.

(** What a slice of events holds after [mergeDetails] got it: the timestamps and the order are
    changed in place, unless appending the old events moved them away. *)
Definition events_after (i : nat) (events : list ComplianceHistory)
    (existing : list (option DetailsPerTemplate)) (tName : string) : list ComplianceHistory :=
  let all := add_old_events events (old_history existing tName) in
  if (negb (Nat.eqb (length all) (length events)) && realloc i)%bool then events
  else take (length events) (sort_newest (map precise all)).

(** One call [mergeDetails(eventForPolicyMap[tName], existingDPTs, tName, ...)] and the append of
    its result; [use_existing] is false when [existingDPTs] was set to nil. *)
Definition merge_template (i : nat) (s : details_state) (tName : string) (use_existing : bool)
    : prg details_state :=
  let existingDPTs := if use_existing then ds_existing s else [] in
  let events := default [] (ds_events s !! tName) in
  match mergeDetails events existingDPTs tName with
  | None => Panic
  | Some details =>
      let map' :=
        match ds_events s !! tName with
        | Some _ => <[tName := events_after i events existingDPTs tName]> (ds_events s)
        | None => ds_events s
        end in
      match cell_of existingDPTs tName with
      | Some j =>
          Ret (DetailsState map' (<[j := Some details]> (ds_existing s)) (ds_all s ++ [Existing j]))
      | None => Ret (DetailsState map' (ds_existing s) (ds_all s ++ [Fresh details]))
      end
  end.

(** The name template-sync emits on an error. *)
Definition template_name (i : nat) : string := "template-" +:+ pretty i.

(** The body of the loop over [instance.Spec.PolicyTemplates]. *)
Definition details_step (instance : Policy) (s : details_state) (it : nat * PolicyTemplate)
    : prg (ctl details_state error) :=
  let '(i, policyT) := it in
  let policyObjID := policyID (p_Name instance) (p_Namespace instance) in
  let merge_next s tName use := let! s' := merge_template i s tName use in Ret (Next s') in
  match Decode (pt_Raw policyT) with
  | Err _ => merge_next s (template_name i) true
  | Ok (_, None) => merge_next s (template_name i) true
  | Ok (tmplGVK, Some obj) =>
      let tName := u_Name obj in
      let! got := call (OWatchGet policyObjID tmplGVK (p_Namespace instance) tName) in
      match got with
      | Err err =>
          if (negb (has_reason NoVersionedResource err) &&
              negb (has_reason ResourceUnwatchable err))%bool
          then Ret (Exit err)
          else merge_next s tName true
      | Ok tmplUnstruct =>
          let tmplOwnedByPolicy := templateOwnedByPolicy tmplUnstruct (oid_Name policyObjID) in
          let s :=
            if tmplOwnedByPolicy then
              let templateEvents := getEventsInTemplate tmplUnstruct (oid_Name policyObjID) in
              DetailsState
                (<[tName := default [] (ds_events s !! tName) ++ templateEvents]> (ds_events s))
                (ds_existing s) (ds_all s)
            else s in
          merge_next s tName
            (negb (bool_decide (is_Some tmplUnstruct) && negb tmplOwnedByPolicy))
      end
  end.

Definition getDetails (instance : Policy) : prg (result (list (option DetailsPerTemplate))) :=
  let! eventForPolicyMap := getEventsInCluster instance in
  match eventForPolicyMap with
  | Err err => Ret (Err err)
  | Ok m =>
      let! out := for_each (details_step instance)
        (enumerate (ps_PolicyTemplates (p_Spec instance)))
        (DetailsState m (st_Details (p_Status instance)) []) in
      match out with
      | inr err => Ret (Err err)
      | inl s => Ret (Ok (map (resolve (ds_existing s)) (ds_all s)))
      end
  end.

(** ** updateStatuses *)

(** The loop over the details: the compliance state and [isCompliant].  [None] is the dereference
    of a nil pointer. *)
Fixpoint compliance_loop (details : list (option DetailsPerTemplate)) (state : string)
    (isCompliant : bool) : option (string * bool) :=
  match details with
  | [] => Some (state, isCompliant)
  | None :: _ => None
  | Some dpt :: rest =>
      if dpt_ComplianceState dpt ==? NonCompliant then Some (NonCompliant, false)
      else if dpt_ComplianceState dpt ==? Pending then compliance_loop rest Pending false
      else if dpt_ComplianceState dpt ==? Compliant then compliance_loop rest state isCompliant
      else if dpt_ComplianceState dpt ==? "" then compliance_loop rest state false
      else compliance_loop rest state isCompliant
  end.

Definition overall_compliance (details : list (option DetailsPerTemplate)) (old : string)
    : option string :=
  (λ '(state, isCompliant), if isCompliant : bool then Compliant else state)
    <$> compliance_loop details old true.

Definition set_details (details : list (option DetailsPerTemplate)) (state : string) (p : Policy)
    : Policy :=
  p_set_Status (Status state details (st_rest (p_Status p))) p.

Definition record_status (c : cluster) (p : Policy) (msg : string) : prg unit :=
  call (OEventf c (p_key p) EventTypeNormal "PolicyStatusSync" "PolicyStatusSync" msg).

(** The part of [updateStatuses] for the hub. *)
Definition update_hub (r : PolicyReconciler) (instance : Policy) (hubInstance : option Policy)
    : prg (option error) :=
  if negb (OnMulticlusterhub r) then
    let! updated := call (OPolicyGet Hub (hub_key r (p_Name instance))) in
    let hubInstance := match updated with Ok p => Some p | Err _ => hubInstance end in
    match hubInstance with
    | None => Panic
    | Some hubInstance =>
        if negb (DeepEqual (p_Status hubInstance) (p_Status instance)) then
          let hubInstance := p_set_Status (p_Status instance) hubInstance in
          let! out := call (OPolicyStatusUpdate Hub hubInstance) in
          match out with
          | Err err => Ret (Some err)
          | Ok hubInstance =>
              do! record_status Hub hubInstance
                ("Policy " +:+ p_Name hubInstance +:+ " status was updated to " +:+
                 st_ComplianceState (p_Status hubInstance) +:+ " in cluster namespace " +:+
                 p_Namespace hubInstance) in
              Ret None
          end
        else Ret None
    end
  else Ret None.

Definition updateStatuses (r : PolicyReconciler) (instance : Policy) (hubInstance : option Policy)
    (oldStatus : PolicyStatus) : prg (option error) :=
  match overall_compliance (st_Details (p_Status instance))
          (st_ComplianceState (p_Status instance)) with
  | None => Panic
  | Some state =>
      let instance := set_details (st_Details (p_Status instance)) state instance in
      let matches :=
        DeepEqual (st_Details (p_Status instance)) (st_Details oldStatus) &&
        (st_ComplianceState (p_Status instance) ==? st_ComplianceState oldStatus) in
      if negb matches then
        let! out := call (OPolicyStatusUpdate Managed instance) in
        match out with
        | Err err => Ret (Some err)
        | Ok instance =>
            do! record_status Managed instance
              ("Policy " +:+ p_Name instance +:+ " status was updated in cluster namespace " +:+
               p_Namespace instance) in
            update_hub r instance hubInstance
        end
      else update_hub r instance hubInstance
  end.

(** ** Reconcile *)

(** The handler after the query batch was started. *)
Definition reconcile_batch (r : PolicyReconciler) (request : NamespacedName) : prg reconciled :=
  let! got := getInstances r request in
  match got with
  | Err err => Ret (done_err err)
  | Ok None => Ret done_ok
  | Ok (Some (instance, hubInstance)) =>
      if (negb (OnMulticlusterhub r) && (hubInstance ==? None))%bool then Ret done_ok
      else
        let oldStatus := p_Status instance in
        let! details := getDetails instance in
        match details with
        | Err err => Ret (done_err err)
        | Ok details =>
            let instance := set_details details (st_ComplianceState (p_Status instance)) instance in
            let! err := updateStatuses r instance hubInstance oldStatus in
            match err with
            | Some err => Ret (done_err err)
            | None => Ret done_ok
            end
        end
  end.

Definition Reconcile (r : PolicyReconciler) (request : NamespacedName) : prg reconciled :=
  let! uninstalling := call OReadUninstalling in
  if uninstalling then Ret requeue_5m
  else
    let policyObjID := policyID (nn_Name request) (nn_Namespace request) in
    let! err := call (OStartQueryBatch policyObjID) in
    match err with
    | Some err => Ret (done_err err)
    | None =>
        defer (reconcile_batch r request)
          (do! call (OEndQueryBatch policyObjID) in Ret tt)
    end.

End details.

(** ** The event watch *)

Definition eventMapper (event : Event) : list NamespacedName :=
  [NN (ref_Namespace (e_InvolvedObject event)) (ref_Name (e_InvolvedObject event))].

(** The objects a predicate may be given: an event or something else. *)
Inductive watched := WEvent (e : Event) | WOther.
Inductive watch_event :=
| UpdateEvent (ObjectNew : watched)
| CreateEvent (Object : watched)
| GenericEvent (Object : watched)
| DeleteEvent (Object : watched).

Definition policiesv1APIVersion : string := policy_group +:+ "/" +:+ policy_version.

Definition concerns_policy (o : watched) : bool :=
  match o with
  | WOther => false
  | WEvent e =>
      (ref_Kind (e_InvolvedObject e) ==? policy_kind) &&
      (ref_APIVersion (e_InvolvedObject e) ==? policiesv1APIVersion)
  end.

Definition eventPredicateFuncs (e : watch_event) : bool :=
  match e with
  | UpdateEvent o | CreateEvent o | GenericEvent o => concerns_policy o
  | DeleteEvent _ => false
  end.

(** ** The details of a policy *)

(** The name under which a template is reported. *)
Definition reported_name `{DecodeLib} (it : nat * PolicyTemplate) : string :=
  match Decode (pt_Raw it.2) with
  | Ok (_, Some obj) => u_Name obj
  | _ => template_name it.1
  end.

(** A well-formed entry of the details: at most ten events, newest first, and the compliance that
    the newest one reports. *)
Definition good_details (d : DetailsPerTemplate) : Prop :=
  (length (dpt_History d) ≤ 10)%nat ∧ StronglySorted newer (dpt_History d) ∧
  match dpt_History d with
  | h :: _ => dpt_ComplianceState d = parseComplianceFromMessage (ch_Message h)
  | [] => True
  end.

Definition details_for `{DecodeLib} (it : nat * PolicyTemplate) (od : option DetailsPerTemplate)
    : Prop :=
  ∃ d, od = Some d ∧ m_Name (dpt_TemplateMeta d) = reported_name it ∧ good_details d.

Lemma cell_of_lookup existing tName j :
  cell_of existing tName = Some j →
  ∃ d, existing !! j = Some (Some d) ∧ m_Name (dpt_TemplateMeta d) = tName.
Proof.
  revert j. induction existing as [|[d|] l IH]; intros j; simpl; [done| |done].
  case_match; breflect; [intros [= <-]; by exists d|].
  destruct (cell_of l tName) as [k|] eqn:E; [|done]. intros [= <-]. by apply IH.
Qed.

Section details_facts.
Context `{U : UnstructuredLib} `{T : TimeLib} `{!TimeLaws T} `{D : DecodeLib}.
Variable realloc : nat → bool.

Lemma mergeDetails_good events existing tName d :
  mergeDetails events existing tName = Some d →
  m_Name (dpt_TemplateMeta d) = tName ∧ good_details d.
Proof.
  intros (Hn & Hh & Hs)%mergeDetails_inv. split; [done|]. rewrite Hh in Hs.
  unfold good_details. rewrite Hh. split; [|split].
  - rewrite length_map. apply dedup_history_bound.
  - apply map_truncate_sorted. eapply StronglySorted_sublist; [apply dedup_history_sublist|].
    apply sort_newest_sorted.
  - by case_match.
Qed.

(** The entries built so far belong to the templates visited so far, and no pointer became nil. *)
Definition details_inv (existing : list (option DetailsPerTemplate))
    (seen : list (nat * PolicyTemplate)) (s : details_state) : Prop :=
  Forall2 details_for seen (map (resolve (ds_existing s)) (ds_all s)) ∧
  (Forall is_Some existing → Forall is_Some (ds_existing s)).

(** Updating an entry in place keeps what the pointers to it promise. *)
Lemma resolve_update seen existing refs j d d0 :
  existing !! j = Some (Some d0) →
  m_Name (dpt_TemplateMeta d) = m_Name (dpt_TemplateMeta d0) → good_details d →
  Forall2 details_for seen (map (resolve existing) refs) →
  Forall2 details_for seen (map (resolve (<[j := Some d]> existing)) refs).
Proof.
  intros Hj Hn Hd H. apply (Forall2_fmap_r (resolve _)). apply (Forall2_fmap_r (resolve _)) in H.
  eapply Forall2_impl; [exact H|]. intros it x (d' & Hr & Hn' & Hd').
  destruct x as [i|f]; simpl in *; [|by exists d'].
  destruct (decide (i = j)) as [->|Hne].
  - rewrite Hj in Hr. simplify_eq/=. unfold details_for. simpl.
    rewrite list_lookup_insert_eq by (by eapply lookup_lt_Some).
    exists d. split; [done|]. by rewrite Hn.
  - unfold details_for. simpl. rewrite list_lookup_insert_ne by done. by exists d'.
Qed.

Lemma merge_template_inv existing seen it i s tName use :
  details_inv existing seen s → tName = reported_name it →
  wp (let! s' := merge_template realloc i s tName use in Ret (Next (R := error) s'))
    (λ _ r, match r with
     | Returned (Next s') => details_inv existing (seen ++ [it]) s'
     | Returned _ => False
     | Panicked => ¬ Forall is_Some existing
     end).
Proof.
  intros [Hinv Hnil] ->. unfold merge_template. set (ex := if use then _ else _).
  destruct (mergeDetails _ ex _) as [d|] eqn:Hd; simpl.
  2:{ intros H%Hnil. destruct (mergeDetails_total (default [] (ds_events s !! reported_name it))
        ex (reported_name it)) as [? ?]; [subst ex; by destruct use|]. by simplify_eq. }
  apply mergeDetails_good in Hd as [Hn Hg].
  destruct (cell_of ex (reported_name it)) as [j|] eqn:Hc; simpl; (split; [|cbn]).
  - assert (∃ d0, ds_existing s !! j = Some (Some d0) ∧
      m_Name (dpt_TemplateMeta d0) = reported_name it) as (d0 & Hj & Hn0).
    { subst ex. destruct use; [by apply cell_of_lookup|done]. }
    cbn. rewrite map_app. apply Forall2_app.
    + eapply resolve_update; [done| |done|done]. by rewrite Hn, Hn0.
    + constructor; [|constructor]. exists d. simpl.
      by rewrite list_lookup_insert_eq by (by eapply lookup_lt_Some).
  - intros H%Hnil. by apply Forall_insert.
  - cbn. rewrite map_app. apply Forall2_app; [done|]. constructor; [|constructor]. by exists d.
  - done.
Qed.

Lemma details_step_inv instance existing seen s it :
  details_inv existing seen s →
  wp (details_step realloc instance s it) (λ t r, match r with
     | Returned (Next s') => details_inv existing (seen ++ [it]) s'
     | Returned (Break _) => False
     | Returned (Exit e) => answered e t
     | Panicked => ¬ Forall is_Some existing
     end).
Proof.
  intros Hinv. destruct it as [i p]. unfold details_step.
  assert (∀ s' tName use t0, details_inv existing seen s' → tName = reported_name (i, p) →
    wp (let! s'' := merge_template realloc i s' tName use in Ret (Next (R := error) s''))
      (λ t r, match r with
       | Returned (Next s') => details_inv existing (seen ++ [(i, p)]) s'
       | Returned (Break _) => False
       | Returned (Exit e) => answered e (t0 ++ t)
       | Panicked => ¬ Forall is_Some existing
       end)) as Hmerge.
  { intros s' tName use t0 Hs Ht. eapply wp_mono; [by eapply merge_template_inv|].
    intros t [[]|]; done. }
  unfold reported_name in Hmerge; simpl in Hmerge.
  destruct (Decode (pt_Raw p)) as [[k [obj|]]|e]; simpl.
  - intros [u|e]; [apply (Hmerge _ _ _ [_]); [|done]; by destruct (templateOwnedByPolicy _ _)|].
    destruct (_ && _)%bool; simpl; [by left|]. by apply (Hmerge _ _ _ [_]).
  - by apply (Hmerge _ _ _ []).
  - by apply (Hmerge _ _ _ []).
Qed.

Lemma getDetails_spec instance :
  wp (getDetails realloc instance) (λ t r, match r with
    | Returned (Ok details) =>
        Forall2 details_for (enumerate (ps_PolicyTemplates (p_Spec instance))) details
    | Returned (Err e) => answered e t
    | Panicked => ¬ Forall is_Some (st_Details (p_Status instance))
    end).
Proof.
  unfold getDetails, getEventsInCluster. simpl. intros [items|e]; simpl; [|by left].
  set (l := enumerate _). set (s0 := DetailsState _ _ _). set (ex := st_Details _).
  apply wp_bind.
  eapply wp_mono; [apply (wp_for_each (details_step realloc instance) l s0
    (λ _ rest s, ∃ seen, seen ++ rest = l ∧ details_inv ex seen s)
    (λ t r, match r with
       | Returned (inl s) => details_inv ex l s
       | Returned (inr e) => answered e t
       | Panicked => ¬ Forall is_Some ex
       end) [])|].
  - exists []. split; [done|]. by split; [constructor|].
  - intros t it rest s (seen & Hl & Hinv). eapply wp_mono; [by eapply details_step_inv|].
    intros t' [[s'|s'|e]|]; [|done| |done].
    + intros H. exists (seen ++ [it]). by rewrite <- app_assoc.
    + intros H. apply Exists_app. by right.
  - intros t s (seen & Hl & Hinv). rewrite app_nil_r in Hl. by subst.
  - intros t [[s|e]|]; simpl; [by intros [H _]| |done]. rewrite app_nil_r. intros H. by right.
Qed.

Lemma getDetails_calls instance P :
  P (OEventList (p_Namespace instance)) →
  (∀ k n, P (OWatchGet (policyID (p_Name instance) (p_Namespace instance)) k
               (p_Namespace instance) n)) →
  all_ops P (getDetails realloc instance).
Proof.
  intros H1 H2.
  assert (∀ i s n use, all_ops P (let! s' := merge_template realloc i s n use in
                                  Ret (Next (R := error) s'))) as Hm.
  { intros. apply all_ops_bind; [|done]. unfold merge_template. by repeat case_match. }
  unfold getDetails, getEventsInCluster. simpl. split; [done|]. intros [items|e]; simpl; [|done].
  apply all_ops_bind; [|by intros [s|e]]. apply all_ops_for_each. intros s [i p] _.
  unfold details_step. case_match; [|by apply Hm]. repeat case_match; try apply Hm.
  simpl. split; [done|]. intros [?|?]; [by apply Hm|]. by case_match; [|apply Hm].
Qed.

End details_facts.

(** ** The overall compliance *)

(** The states that keep a policy from being compliant. *)
Definition has_state (s : string) (details : list (option DetailsPerTemplate)) : bool :=
  existsb (λ od, match od with Some d => dpt_ComplianceState d ==? s | None => false end) details.

Lemma compliance_loop_spec details state isC :
  Forall is_Some details →
  compliance_loop details state isC =
  Some (if has_state NonCompliant details then (NonCompliant, false)
        else (if has_state Pending details then Pending else state,
              isC && negb (has_state Pending details) && negb (has_state "" details))).
Proof.
  intros H. revert state isC. induction H as [|od l [d ->] _ IH]; intros state isC; simpl.
  { by rewrite !andb_true_r. }
  destruct (dpt_ComplianceState d ==? NonCompliant) eqn:E1; simpl; [done|].
  destruct (dpt_ComplianceState d ==? Pending) eqn:E2; breflect; simpl.
  { rewrite IH. destruct (has_state NonCompliant l), (has_state Pending l); simpl;
      by rewrite ?andb_false_r. }
  destruct (dpt_ComplianceState d ==? Compliant) eqn:E3; breflect.
  { rewrite E3, IH. by destruct (has_state NonCompliant l). }
  destruct (dpt_ComplianceState d ==? ""); rewrite IH; destruct (has_state NonCompliant l);
    simpl; by rewrite ?andb_false_r.
Qed.

Lemma overall_compliance_total details old :
  Forall is_Some details → is_Some (overall_compliance details old).
Proof.
  intros H. unfold overall_compliance. rewrite compliance_loop_spec by done. by eexists.
Qed.

(** ** Synchronisation of the two statuses *)

Section converge.
Context {W : Type} (h : env W) `{!PolicyServer h}.
Context `{U : UnstructuredLib} `{T : TimeLib} `{!TimeLaws T} `{D : DecodeLib}.
Variable (realloc : nat → bool) (r : PolicyReconciler).
Hypothesis Hmch : OnMulticlusterhub r = false.

(** The policy [k] of the managed cluster and its replica on the hub have the status [s]. *)
Definition both_have (k : NamespacedName) (s : PolicyStatus) (w : W) : Prop :=
  ∃ m hub, policies w Managed !! k = Some m ∧
    policies w Hub !! hub_key r (nn_Name k) = Some hub ∧ p_Status m = s ∧ p_Status hub = s.

Lemma both_have_frame k s w w' : (∀ c, policies w' c = policies w c) → both_have k s w → both_have k s w'.
Proof. intros Hw (m & hub & ? & ? & ?). exists m, hub. by rewrite !Hw. Qed.

Lemma update_hub_sync k w instance hub m :
  p_key instance = k → policies w Managed !! k = Some m → p_Status m = p_Status instance →
  policies w Hub !! hub_key r (nn_Name k) = Some hub →
  let '(w', t, res) := run h w (update_hub r instance (Some hub)) in
  match res with
  | Returned None => both_have k (p_Status instance) w'
  | Returned (Some e) => answered e t
  | Panicked => False
  end.
Proof.
  intros Hk Hm Hst Hhub. unfold update_hub. rewrite Hmch; simpl.
  assert (p_Name instance = nn_Name k) as -> by by rewrite <- Hk.
  destruct (h w (OPolicyGet Hub _)) as [w1 x] eqn:E; apply policy_get in E as [Hw1 E].
  assert (match x with Ok p => Some p | Err _ => Some hub end = Some hub) as ->
    by (destruct x; congruence).
  destruct (DeepEqual (p_Status hub) (p_Status instance)) eqn:Heq; simpl.
  - unfold DeepEqual in Heq. breflect. exists m, hub. by rewrite !Hw1.
  - assert (p_key hub = hub_key r (nn_Name k)) as Hhk by by eapply policy_key.
    set (hub1 := p_set_Status _ _).
    destruct (h w1 (OPolicyStatusUpdate Hub hub1)) as [w2 [p'|e]] eqn:E2;
      apply policy_status_update in E2; simpl; [|by right; left].
    destruct E2 as ((q & _ & _ & Hs) & Hon & Hoff). policy_frame_step h w3 u Hw3.
    exists m, p'. rewrite !Hw3, Hon, (Hoff Managed) by done. rewrite !Hw1.
    change (p_key hub1) with (p_key hub). rewrite Hhk, lookup_insert_eq. done.
Qed.

Lemma updateStatuses_sync k w instance hub m details old :
  p_key instance = k → policies w Managed !! k = Some m →
  p_Status m = old → st_rest (p_Status instance) = st_rest old →
  st_Details (p_Status instance) = details → Forall is_Some details →
  policies w Hub !! hub_key r (nn_Name k) = Some hub →
  let '(w', t, res) := run h w (updateStatuses r instance (Some hub) old) in
  match res with
  | Returned None =>
      ∃ state, overall_compliance details (st_ComplianceState (p_Status instance)) = Some state ∧
        both_have k (Status state details (st_rest old)) w'
  | Returned (Some e) => answered e t
  | Panicked => False
  end.
Proof.
  intros Hk Hm Hold Hrest Hd Hnil Hhub. unfold updateStatuses. rewrite Hd.
  destruct (overall_compliance_total details (st_ComplianceState (p_Status instance)) Hnil)
    as [state Hstate]. rewrite Hstate; simpl. set (i1 := set_details _ _ _).
  assert (p_key i1 = k) as Hk1 by done.
  assert (p_Status i1 = Status state details (st_rest old)) as Hs1 by by rewrite <- Hrest.
  destruct (DeepEqual _ _ && _)%bool eqn:Hmatch; simpl.
  - unfold DeepEqual in Hmatch. breflect.
    assert (p_Status m = p_Status i1) as Hmi.
    { rewrite Hs1, Hold. destruct old; simpl in *. congruence. }
    pose proof (update_hub_sync k w i1 hub m Hk1 Hm Hmi Hhub) as Hu.
    destruct (run h w (update_hub r i1 (Some hub))) as [[w' t] [[e|]|]]; [done| |done].
    exists state. by rewrite <- Hs1.
  - destruct (h w (OPolicyStatusUpdate Managed i1)) as [w1 [i2|e]] eqn:E;
      apply policy_status_update in E; simpl; [|by left].
    destruct E as (Hc2 & Hon & Hoff). policy_frame_step h w2 u Hw2.
    destruct Hc2 as (q & Hq & (Hk2 & _) & Hs2). apply policy_key in Hq as Hkq. rewrite Hkq in Hk2.
    assert (policies w2 Managed !! k = Some i2) as Hm2
      by by rewrite Hw2, Hon, Hk1, lookup_insert_eq.
    assert (policies w2 Hub !! hub_key r (nn_Name k) = Some hub) as Hhub2
      by by rewrite Hw2, (Hoff Hub).
    pose proof (update_hub_sync k w2 i2 hub i2 (eq_trans Hk2 Hk1) Hm2 eq_refl Hhub2) as Hu.
    destruct (run h w2 (update_hub r i2 (Some hub))) as [[w' t] [[e|]|]]; [by do 2 right| |done].
    exists state. by rewrite <- Hs1, <- Hs2.
Qed.

Lemma getInstances_found k w m hub :
  policies w Managed !! k = Some m → policies w Hub !! hub_key r (nn_Name k) = Some hub →
  EquivalentReplicatedPolicies m hub = true →
  let '(w', t, res) := run h w (getInstances r k) in
  (∀ c, policies w' c = policies w c) ∧
  (res = Returned (Ok (Some (m, Some hub))) ∨ ∃ e, res = Returned (Err e) ∧ answered e t).
Proof.
  intros Hm Hhub Heq. unfold getInstances; simpl.
  destruct (h w (OPolicyGet Managed k)) as [w1 x] eqn:E; apply policy_get in E as [Hw1 E].
  destruct x as [m'|e].
  - assert (m' = m) as -> by congruence. rewrite Hmch; simpl.
    destruct (h w1 (OPolicyGet Hub _)) as [w2 y] eqn:E2; apply policy_get in E2 as [Hw2 E2].
    destruct y as [hub'|e]; simpl.
    + assert (hub' = hub) as -> by (rewrite Hw1 in E2; congruence).
      rewrite Heq; simpl. split; [intros; by rewrite Hw2|by left].
    + destruct (IsNotFound e) eqn:He; [rewrite Hw1 in E2; naive_solver congruence|].
      simpl. split; [intros; by rewrite Hw2|]. right. exists e. split; [done|]. by right; left.
  - destruct (IsNotFound e) eqn:He; [naive_solver congruence|].
    simpl. split; [done|]. right. exists e. split; [done|]. by left.
Qed.

(** What a run promises when the policy [m] and its replica on the hub agree. *)
Definition status_outcome (k : NamespacedName) (m : Policy) (w' : W) (t : trace)
    (res : outcome reconciled) : Prop :=
  match res with
  | Returned (_, Some e) => answered e t
  | Panicked => ¬ Forall is_Some (st_Details (p_Status m))
  | Returned (_, None) =>
      ∃ details state,
        Forall2 details_for (enumerate (ps_PolicyTemplates (p_Spec m))) details ∧
        overall_compliance details (st_ComplianceState (p_Status m)) = Some state ∧
        both_have k (Status state details (st_rest (p_Status m))) w'
  end.

Lemma details_for_Some l details : Forall2 details_for l details → Forall is_Some details.
Proof. induction 1 as [|?? ?? (d & -> & _) _ IH]; constructor; [by eexists|done]. Qed.

Lemma answered_app_l e t t' : answered e t → answered e (t ++ t').
Proof. intros H. apply Exists_app. by left. Qed.
Lemma answered_app_r e t t' : answered e t' → answered e (t ++ t').
Proof. intros H. apply Exists_app. by right. Qed.

Lemma reconcile_batch_sync k w m hub :
  policies w Managed !! k = Some m → policies w Hub !! hub_key r (nn_Name k) = Some hub →
  EquivalentReplicatedPolicies m hub = true →
  let '(w', t, res) := run h w (reconcile_batch realloc r k) in status_outcome k m w' t res.
Proof.
  intros Hm Hhub Heq. unfold reconcile_batch. rewrite run_bind.
  pose proof (getInstances_found k w m hub Hm Hhub Heq) as Hg.
  destruct (run h w (getInstances r k)) as [[w1 t1] res1].
  destruct Hg as [Hw1 [->|(e & -> & He)]]; [|simpl; by apply answered_app_l].
  rewrite Hmch; cbn -[p_Status run getDetails set_details updateStatuses]. rewrite run_bind.
  assert (∀ c, policies (state_of (run h w1 (getDetails realloc m))) c = policies w1 c) as Hw2
    by (apply policy_frame_run; by apply getDetails_calls).
  pose proof (wp_run h w1 _ _ (getDetails_spec realloc m)) as Hd.
  destruct (run h w1 (getDetails realloc m)) as [[w2 t2] [[details|e]|]];
    unfold state_of, trace_of, result_of in Hw2, Hd; cbn -[run updateStatuses] in Hw2, Hd |- *;
    [|simpl; rewrite app_nil_r; by apply answered_app_r|done].
  rewrite run_bind. set (i := set_details _ _ _).
  pose proof (updateStatuses_sync k w2 i hub m details (p_Status m)) as Hu.
  destruct (run h w2 (updateStatuses r i (Some hub) (p_Status m))) as [[w3 t3] res3].
  cbv beta iota in Hu.
  assert (match res3 with
    | Returned None => ∃ state,
        overall_compliance details (st_ComplianceState (p_Status i)) = Some state ∧
        both_have k (Status state details (st_rest (p_Status m))) w3
    | Returned (Some e) => answered e t3
    | Panicked => False
    end) as Hu'.
  { apply Hu; try done; [exact (policy_key _ _ _ _ Hm)|by rewrite Hw2, Hw1| |by rewrite Hw2, Hw1].
    by eapply details_for_Some. }
  destruct res3 as [[e|]|]; simpl; [|destruct Hu' as (state & Hs & Hb); by exists details, state|done].
  rewrite app_nil_r. by do 2 apply answered_app_r.
Qed.

End converge.

(** The two copies of the policy are not both there and equal. *)
Definition out_of_step (managed hub : option Policy) : Prop :=
  match managed, hub with
  | Some m, Some p => EquivalentReplicatedPolicies m p = false
  | Some _, None | None, Some _ => True
  | None, None => False
  end.

Lemma skip_and_trigger_run {W} (h : env W) `{!PolicyServer h} r request w :
  let '(w', t, res) := run h w (skip_and_trigger r request) in
  (∀ c, policies w' c = policies w c) ∧ res = Returned (Ok None) ∧
  (OSendSpecSync (hub_key r (nn_Name request)) ∈ ops t ↔ SpecSyncRequests r = true).
Proof.
  unfold skip_and_trigger, triggerSpecSyncReconcile. destruct (SpecSyncRequests r); simpl.
  - policy_frame_step h w1 x Hw. split; [done|]. split; [done|]. split; [done|]. by left.
  - split; [done|]. split; [done|]. split; [by intros ?%elem_of_nil|done].
Qed.

Lemma getInstances_out_of_step {W} (h : env W) `{!PolicyServer h} r k w :
  OnMulticlusterhub r = false →
  out_of_step (policies w Managed !! k) (policies w Hub !! hub_key r (nn_Name k)) →
  let '(w', t, res) := run h w (getInstances r k) in
  (∀ c, policies w' c = policies w c) ∧
  ((∃ e, res = Returned (Err e) ∧ answered e t) ∨
   (res = Returned (Ok None) ∧
    (OSendSpecSync (hub_key r (nn_Name k)) ∈ ops t ↔ SpecSyncRequests r = true))).
Proof.
  intros Hmch Hout. unfold getInstances; simpl.
  destruct (h w (OPolicyGet Managed k)) as [w1 x] eqn:E; apply policy_get in E as [Hw1 E].
  assert (∀ w2 o1 o2 x1 x2, (∀ c, policies w2 c = policies w c) →
    o1 ≠ OSendSpecSync (hub_key r (nn_Name k)) → o2 ≠ OSendSpecSync (hub_key r (nn_Name k)) →
    let '(w', t, res) := run h w2 (skip_and_trigger r k) in
    let t := ev o1 x1 :: ev o2 x2 :: t in
    (∀ c, policies w' c = policies w c) ∧
    ((∃ e, res = Returned (Err e) ∧ answered e t) ∨
     (res = Returned (Ok None) ∧
      (OSendSpecSync (hub_key r (nn_Name k)) ∈ ops t ↔ SpecSyncRequests r = true)))) as Hskip.
  { intros w2 o1 o2 x1 x2 Hw2 H1 H2. pose proof (skip_and_trigger_run h r k w2) as Hr.
    destruct (run h w2 (skip_and_trigger r k)) as [[w' t] res].
    destruct Hr as (Hw' & -> & Hs). split; [intros; by rewrite Hw', Hw2|]. right. split; [done|].
    cbn -[hub_key]. rewrite !elem_of_cons, <- Hs.
    split; [intros [H|[H|H]]; [by destruct H1|by destruct H2|done]|by auto]. }
  destruct x as [m|e]; rewrite Hmch; simpl.
  - rewrite E in Hout. destruct (h w1 (OPolicyGet Hub _)) as [w2 y] eqn:E2.
    apply policy_get in E2 as [Hw2 E2].
    assert (∀ c, policies w2 c = policies w c) as Hw by (intros; by rewrite Hw2).
    rewrite Hw1 in E2. destruct y as [hub|e]; simpl.
    + rewrite E2 in Hout. simpl in Hout. rewrite Hout. simpl.
      pose proof (Hskip w2 (OPolicyGet Managed k) (OPolicyGet Hub (hub_key r (nn_Name k)))
        (Ok m) (Ok hub) Hw) as Hs.
      destruct (run h w2 _) as [[w' t] res]. by apply Hs.
    + destruct (IsNotFound e) eqn:He.
      * pose proof (Hskip w2 (OPolicyGet Managed k) (OPolicyGet Hub (hub_key r (nn_Name k)))
          (Ok m) (Err e) Hw) as Hs.
        destruct (run h w2 _) as [[w' t] res]. by apply Hs.
      * simpl. split; [done|]. left. exists e. split; [done|]. by right; left.
  - destruct (IsNotFound e) eqn:He; simpl.
    2:{ split; [done|]. left. exists e. split; [done|]. by left. }
    rewrite E in Hout by done. destruct (h w1 (OPolicyGet Hub _)) as [w2 y] eqn:E2.
    apply policy_get in E2 as [Hw2 E2].
    assert (∀ c, policies w2 c = policies w c) as Hw by (intros; by rewrite Hw2).
    rewrite Hw1 in E2. destruct y as [hub|e']; simpl.
    + pose proof (Hskip w2 (OPolicyGet Managed k) (OPolicyGet Hub (hub_key r (nn_Name k)))
        (Err e) (Ok hub) Hw) as Hs.
      destruct (run h w2 _) as [[w' t] res]. by apply Hs.
    + destruct (IsNotFound e') eqn:He'; [by rewrite E2 in Hout|]. simpl.
      split; [done|]. left. exists e'. split; [done|]. by right; left.
Qed.

#[local] Opaque defer reconcile_batch.

(** The handler around its query batch. *)
Lemma Reconcile_run {W} (h : env W) `{U : UnstructuredLib} `{T : TimeLib} `{D : DecodeLib}
    realloc r w request :
  let id := policyID (nn_Name request) (nn_Namespace request) in
  run h w (Reconcile realloc r request) =
  let '(w1, b) := h w OReadUninstalling in
  if b then (w1, [ev OReadUninstalling b], Returned requeue_5m)
  else
    let '(w2, x) := h w1 (OStartQueryBatch id) in
    match x with
    | Some e => (w2, [ev OReadUninstalling b; ev (OStartQueryBatch id) x], Returned (done_err e))
    | None =>
        let '(w3, t, res) := run h w2 (reconcile_batch realloc r request) in
        let '(w4, y) := h w3 (OEndQueryBatch id) in
        (w4, ev OReadUninstalling b :: ev (OStartQueryBatch id) x :: t ++ [ev (OEndQueryBatch id) y],
         res)
    end.
Proof.
  unfold Reconcile; simpl. destruct (h w OReadUninstalling) as [w1 [|]]; [done|]. simpl.
  destruct (h w1 _) as [w2 [e|]]; [done|]. rewrite run_defer.
  destruct (run h w2 (reconcile_batch realloc r request)) as [[w3 t3] res3]; simpl.
  by destruct (h w3 (OEndQueryBatch _)) as [w4 x].
Qed.

#[local] Transparent reconcile_batch.

Lemma Reconcile_status {W} (h : env W) `{!PolicyServer h}
    `{U : UnstructuredLib} `{T : TimeLib} `{!TimeLaws T} `{D : DecodeLib} realloc r w request m hub :
  OnMulticlusterhub r = false →
  policies w Managed !! request = Some m →
  policies w Hub !! hub_key r (nn_Name request) = Some hub →
  EquivalentReplicatedPolicies m hub = true →
  let '(w', t, res) := run h w (Reconcile realloc r request) in
  ((h w OReadUninstalling).2 = true ∧ res = Returned requeue_5m) ∨
  ((h w OReadUninstalling).2 = false ∧ status_outcome h r request m w' t res).
Proof.
  intros Hmch Hm Hhub Heq. rewrite Reconcile_run; cbv zeta.
  destruct (h w OReadUninstalling) as [w1 b] eqn:E1.
  assert (∀ c, policies w1 c = policies w c) as Hw1 by (refine (policy_frame _ _ _ _ _ E1); done).
  destruct b; [by left|]. policy_frame_step h w2 x Hw2.
  destruct x as [e|]; [right; split; [done|]; by right; left|].
  pose proof (reconcile_batch_sync h realloc r Hmch request w2 m hub) as Hb.
  rewrite !Hw2, !Hw1 in Hb. specialize (Hb Hm Hhub Heq).
  destruct (run h w2 (reconcile_batch realloc r request)) as [[w3 t3] res3].
  policy_frame_step h w4 y Hw4. right. split; [done|].
  destruct res3 as [[n [e|]]|]; simpl in *; [|destruct Hb as (d & s & Hd & Hs & Hb)|done].
  - do 2 right. by apply answered_app_l.
  - exists d, s. split; [done|]. split; [done|]. by eapply both_have_frame.
Qed.

(** ** Properties *)

(** C20: the overall compliance of a policy is NonCompliant when one of its templates is,
    otherwise Pending when one of them is, otherwise Compliant when none of them is still without a
    state, and otherwise what it was. *)
Theorem overall_compliance_spec details old :
  Forall is_Some details →
  overall_compliance details old =
  Some (if has_state NonCompliant details then NonCompliant
        else if has_state Pending details then Pending
        else if has_state "" details then old
        else Compliant).
Proof.
  intros H. unfold overall_compliance. rewrite compliance_loop_spec by done. simpl. f_equal.
  by destruct (has_state NonCompliant details), (has_state Pending details), (has_state "" details).
Qed.

(** C2: when the policy on the managed cluster and its replica on the hub agree, a reconcile that
    is not postponed and returns no error leaves both with the same status: one entry per policy
    template, in the order of the templates and under their names, with at most ten events, newest
    first, the compliance the newest event reports, and the overall compliance computed from them.
    An error it returns was the answer of one of its calls, and it panics only when the existing
    details hold a nil pointer. *)
Theorem status_sync_converges {W} (h : env W) `{!PolicyServer h}
    `{U : UnstructuredLib} `{T : TimeLib} `{!TimeLaws T} `{D : DecodeLib} realloc r w request m hub :
  OnMulticlusterhub r = false →
  policies w Managed !! request = Some m →
  policies w Hub !! hub_key r (nn_Name request) = Some hub →
  EquivalentReplicatedPolicies m hub = true →
  let '(w', t, res) := run h w (Reconcile realloc r request) in
  ((h w OReadUninstalling).2 = true ∧ res = Returned requeue_5m) ∨
  ((h w OReadUninstalling).2 = false ∧ status_outcome h r request m w' t res).
Proof. exact (Reconcile_status h realloc r w request m hub). Qed.

(** The calls of a query batch: only watches for this policy, and no batch inside it. *)
Definition batch_call (id : ObjectIdentifier) (o : op) : Prop :=
  match o with
  | OStartQueryBatch _ | OEndQueryBatch _ | OAddOrUpdateWatcher _ _ | ORemoveWatcher _ => False
  | OWatchGet id' _ ns _ => id' = id ∧ ns = oid_Namespace id
  | _ => True
  end.

Lemma getInstances_key {W} (h : env W) `{!PolicyServer h} r request w :
  let '(w', t, res) := run h w (getInstances r request) in
  ∀ m o, res = Returned (Ok (Some (m, o))) → p_key m = request.
Proof.
  unfold getInstances, skip_and_trigger, triggerSpecSyncReconcile; simpl.
  destruct (h w (OPolicyGet Managed request)) as [w1 x] eqn:E; apply policy_get in E as [_ E].
  destruct x as [m'|e]; simpl.
  - apply policy_key in E. destruct (OnMulticlusterhub r); simpl; [by intros m o [= <- _]|].
    destruct (h w1 _) as [w2 [hub|e]]; repeat (case_match; simplify_eq/=); try done;
      by intros m o [= <- _].
  - destruct (IsNotFound e); simpl; [|done]. destruct (OnMulticlusterhub r); simpl; [done|].
    destruct (h w1 _) as [w2 [hub|e']]; by repeat (case_match; simplify_eq/=).
Qed.

(** Any property that holds of the calls of the two functions. *)
Lemma getInstances_all (P : op → Prop) r request :
  (∀ c k, P (OPolicyGet c k)) → (∀ k, P (OSendSpecSync k)) → all_ops P (getInstances r request).
Proof.
  intros Hget Hsend. unfold getInstances, skip_and_trigger, triggerSpecSyncReconcile; simpl.
  split; [apply Hget|].
  intros [m|e]; repeat (case_match; simpl; try done); split; try apply Hget; intros [hub|e'];
    by repeat (case_match; simpl; try done).
Qed.

Lemma updateStatuses_all (P : op → Prop) r instance hub old :
  (∀ c k, P (OPolicyGet c k)) → (∀ c p, P (OPolicyStatusUpdate c p)) →
  (∀ c k t s a m, P (OEventf c k t s a m)) → all_ops P (updateStatuses r instance hub old).
Proof.
  intros Hget Hupd Hev.
  assert (∀ i, all_ops P (update_hub r i hub)) as Hhub.
  { intros i. unfold update_hub. case_match; simpl; [|done]. split; [apply Hget|]. intros x.
    repeat (case_match; simpl; try done); (split; [apply Hupd|]; intros [?|?]; [|done]; simpl;
      split; [apply Hev|done]). }
  unfold updateStatuses. destruct (overall_compliance _ _); [|done].
  destruct (negb _); [|apply Hhub]. simpl. split; [apply Hupd|]. intros [?|?]; [|done]. simpl.
  split; [apply Hev|]. intros _. apply Hhub.
Qed.

Lemma getInstances_calls id r request : all_ops (batch_call id) (getInstances r request).
Proof. by apply getInstances_all. Qed.

Lemma updateStatuses_calls id r instance hub old :
  all_ops (batch_call id) (updateStatuses r instance hub old).
Proof. by apply updateStatuses_all. Qed.

(** The handler makes no call of another kind. *)
Lemma status_sync_all `{U : UnstructuredLib} `{T : TimeLib} `{D : DecodeLib} (P : op → Prop)
    realloc r request :
  (∀ o, match o with
        | OReadUninstalling | OStartQueryBatch _ | OEndQueryBatch _ | OPolicyGet _ _
        | OSendSpecSync _ | OEventList _ | OWatchGet _ _ _ _ | OPolicyStatusUpdate _ _
        | OEventf _ _ _ _ _ _ => True
        | _ => False
        end → P o) →
  all_ops P (Reconcile realloc r request).
Proof.
  intros HP. unfold Reconcile; simpl. split; [by apply HP|]. intros [|]; [done|]. split; [by apply HP|].
  intros [e|]; [done|]. apply all_ops_defer; [|by split; [apply HP|]].
  unfold reconcile_batch. apply all_ops_bind; [apply getInstances_all; intros; by apply HP|].
  intros [[[instance hub]|]|e]; [|done..]. case_match; [done|].
  apply all_ops_bind; [apply getDetails_calls; intros; by apply HP|].
  intros [details|e]; [|done]. apply all_ops_bind; [apply updateStatuses_all; intros; by apply HP|].
  by intros [e|].
Qed.

Lemma reconcile_batch_calls {W} (h : env W) `{!PolicyServer h}
    `{U : UnstructuredLib} `{T : TimeLib} `{D : DecodeLib} realloc r w request :
  Forall (batch_call (policyID (nn_Name request) (nn_Namespace request)))
    (ops (trace_of (run h w (reconcile_batch realloc r request)))).
Proof.
  unfold reconcile_batch. rewrite run_bind. set (id := policyID _ _).
  pose proof (getInstances_key h r request w) as Hkey.
  pose proof (all_ops_run h w _ _ (getInstances_calls id r request)) as H1.
  destruct (run h w (getInstances r request)) as [[w1 t1] res1].
  destruct res1 as [[[[m o]|]|e]|]; cbn [trace_of fst snd] in *;
    try (by cbn; rewrite ?app_nil_r).
  specialize (Hkey m o eq_refl). destruct (negb _ && _)%bool; [by cbn; rewrite app_nil_r|].
  match goal with |- context [run h w1 ?q] =>
    assert (all_ops (batch_call id) q) as Hq; [|apply (all_ops_run h w1) in Hq;
      destruct (run h w1 q) as [[??]?]] end.
  - apply all_ops_bind.
    + apply getDetails_calls; [done|]. intros. subst request. done.
    + intros [details|e]; [|done]. apply all_ops_bind; [apply updateStatuses_calls|].
      by intros [e|].
  - cbn in *. unfold ops in *. rewrite map_app. by apply Forall_app.
Qed.

(** C22: a query batch that was started is ended exactly once, last of all and also when the
    handler panics, and every object is watched inside it and on behalf of the requested policy. *)
Theorem status_sync_query_batch {W} (h : env W) `{!PolicyServer h}
    `{U : UnstructuredLib} `{T : TimeLib} `{D : DecodeLib} realloc r w request :
  let id := policyID (nn_Name request) (nn_Namespace request) in
  let t := trace_of (run h w (Reconcile realloc r request)) in
  ops t = [OReadUninstalling] ∨
  (∃ e, t = [ev OReadUninstalling false; ev (OStartQueryBatch id) (Some e)]) ∨
  (∃ t' x, t = ev OReadUninstalling false :: ev (OStartQueryBatch id) None :: t' ++
                 [ev (OEndQueryBatch id) x] ∧
           Forall (batch_call id) (ops t')).
Proof.
  cbv zeta. rewrite Reconcile_run; cbv zeta.
  destruct (h w OReadUninstalling) as [w1 [|]]; [by left|]. right.
  destruct (h w1 (OStartQueryBatch _)) as [w2 [e|]]; [left; by exists e|]. right.
  pose proof (reconcile_batch_calls h realloc r w2 request) as Hb.
  destruct (run h w2 (reconcile_batch realloc r request)) as [[w3 t3] res3].
  destruct (h w3 (OEndQueryBatch _)) as [w4 x]. by exists t3, x.
Qed.

(** C21: when the policy is on one cluster only, or the copies differ, the handler writes neither
    status; it asks spec-sync to repair the replicated policy, when it has a channel to it, and
    returns no error unless one of its calls failed. *)
Theorem status_sync_defers_to_spec_sync {W} (h : env W) `{!PolicyServer h}
    `{U : UnstructuredLib} `{T : TimeLib} `{D : DecodeLib} realloc r w request :
  OnMulticlusterhub r = false →
  (h w OReadUninstalling).2 = false →
  out_of_step (policies w Managed !! request) (policies w Hub !! hub_key r (nn_Name request)) →
  let '(w', t, res) := run h w (Reconcile realloc r request) in
  (∀ c, policies w' c = policies w c) ∧
  ((∃ e, res = Returned (done_err e) ∧ answered e t) ∨
   (res = Returned done_ok ∧
    (OSendSpecSync (hub_key r (nn_Name request)) ∈ ops t ↔ SpecSyncRequests r = true))).
Proof.
  intros Hmch Hun Hout. rewrite Reconcile_run; cbv zeta.
  destruct (h w OReadUninstalling) as [w1 b] eqn:E1.
  assert (∀ c, policies w1 c = policies w c) as Hw1 by (refine (policy_frame _ _ _ _ _ E1); done).
  simpl in Hun. subst b. policy_frame_step h w2 x Hw2.
  assert (∀ c, policies w2 c = policies w c) as Hw by (intros; by rewrite Hw2).
  destruct x as [e|]; [split; [done|]; left; exists e; split; [done|]; by right; left|].
  unfold reconcile_batch. rewrite run_bind.
  pose proof (getInstances_out_of_step h r request w2 Hmch) as Hg. rewrite !Hw in Hg.
  specialize (Hg Hout). destruct (run h w2 (getInstances r request)) as [[w3 t3] res3].
  destruct Hg as [Hw3 Hg].
  destruct Hg as [(e & -> & He)|[-> Hs]]; simpl; policy_frame_step h w4 y Hw4; rewrite app_nil_r.
  - split; [intros; by rewrite Hw4, Hw3|]. left. exists e. split; [done|].
    do 2 right. by apply answered_app_l.
  - split; [intros; by rewrite Hw4, Hw3|]. right. split; [done|]. rewrite <- Hs.
    unfold ops; simpl. rewrite map_app; simpl. rewrite !elem_of_cons, elem_of_app.
    split; [intros [?|[?|[?|?%list_elem_of_singleton]]]; done|]. by auto.
Qed.

(** ** Witnesses *)

Definition demo_decode : DecodeLib := {|
  Decode := λ raw, if raw ==? "" then Err (Error OtherReason "EOF")
    else Ok (GVK policy_group "v1" "ConfigurationPolicy",
             Some (Unstructured (GVK policy_group "v1" "ConfigurationPolicy") (new_meta raw "") ∅));
  UnmarshalUnstructured := λ _, Err not_found;
  UnmarshalObject := λ _, Err not_found |}.

Definition demo_reconciler : PolicyReconciler := MkReconciler "hub-ns" false true.
Definition demo_request : NamespacedName := NN "managed" "p".
Definition demo_policy (ns state : string) (templates : list PolicyTemplate) : Policy :=
  MkPolicy "policy.open-cluster-management.io/v1" "Policy" (new_meta "p" ns)
    (Spec "inform" templates [] "") (Status state [] "").
Definition demo_templates : list PolicyTemplate := [Template "t1" [] false; Template "" [] false].
Definition in_step : world :=
  World false {[NN "hub-ns" "p" := demo_policy "hub-ns" "" demo_templates]}
    {[demo_request := demo_policy "managed" "" demo_templates]} ∅ ∅.
Definition differing : world :=
  World false {[NN "hub-ns" "p" := demo_policy "hub-ns" "" demo_templates]}
    {[demo_request := demo_policy "managed" "" []]} ∅ ∅.

Lemma overall_compliance_spec_witness :
  overall_compliance [Some (Details (new_meta "a" "") Compliant []);
                      Some (Details (new_meta "b" "") Pending [])] NonCompliant = Some Pending.
Proof.
  rewrite overall_compliance_spec; [reflexivity|]. repeat constructor; by eexists.
Defined.

Lemma status_sync_converges_witness :
  let '(w', t, res) :=
    run store_env in_step (Reconcile (U := unstructured_ref) (T := time_ref) (D := demo_decode)
      (λ _, false) demo_reconciler demo_request) in
  ((store_env in_step OReadUninstalling).2 = true ∧ res = Returned requeue_5m) ∨
  ((store_env in_step OReadUninstalling).2 = false ∧ status_outcome (D := demo_decode) store_env demo_reconciler demo_request
    (demo_policy "managed" "" demo_templates) w' t res).
Proof.
  apply (status_sync_converges store_env (U := unstructured_ref) (T := time_ref)
    (D := demo_decode) (λ _, false) demo_reconciler in_step demo_request
    (demo_policy "managed" "" demo_templates) (demo_policy "hub-ns" "" demo_templates));
    reflexivity.
Defined.

Lemma status_sync_defers_to_spec_sync_witness :
  let '(w', t, res) :=
    run store_env differing (Reconcile (U := unstructured_ref) (T := time_ref) (D := demo_decode)
      (λ _, false) demo_reconciler demo_request) in
  (∀ c, policies w' c = policies differing c) ∧
  ((∃ e, res = Returned (done_err e) ∧ answered e t) ∨
   (res = Returned done_ok ∧
    (OSendSpecSync (hub_key demo_reconciler (nn_Name demo_request)) ∈ ops t ↔
     SpecSyncRequests demo_reconciler = true))).
Proof.
  apply (status_sync_defers_to_spec_sync store_env (U := unstructured_ref) (T := time_ref)
    (D := demo_decode) (λ _, false) demo_reconciler differing demo_request);
    [reflexivity..|]. exact (@eq_refl bool false).
Defined.

(** The first reconcile of a policy without events: both statuses get one entry per template. *)
Example demo_status_sync :
  let '(w', _, res) :=
    run store_env in_step (Reconcile (U := unstructured_ref) (T := time_ref) (D := demo_decode)
      (λ _, false) demo_reconciler demo_request) in
  res = Returned done_ok ∧
  p_Status <$> (w_hub w' !! NN "hub-ns" "p") =
    Some (Status "" [Some (Details (new_meta "t1" "") "" []);
                     Some (Details (new_meta "template-1" "") "" [])] "").
Proof. vm_compute. split; reflexivity. Qed.
