(* ===== verification/TemplateObjects.v ===== *)
(** * controllers/templatesync: templates, dependencies and finalizers

    The pure part of [template_sync.go]: how a template is completed, compared with the object on
    the cluster and merged into it, the dependency messages, the finalizer list, the check for
    duplicate names; and the event filter of [predicate.go]. *)

From S2P Require Import Prelude Prog GoStrings K8s Effects Utils.
From Stdlib Require Import Ascii.

(** The parts of the reconciler that are data. *)
Record PolicyReconciler := MkReconciler {
  ClusterNamespace : string;
  InstanceName : string;
  DisableGkSync : bool }.

Definition hubTmplErrorKey : string := policy_group +:+ "/hub-templates-error".

(** ** Dependencies *)

Definition getDepNamespace (clusterNamespace : string) (dep : PolicyDependency) : string :=
  if ((gvk_Group (dep_GVK dep) ==? policy_group) && HasSuffix (gvk_Kind (dep_GVK dep)) "Policy")%bool
  then clusterNamespace
  else dep_Namespace dep.

Definition dep_ID (clusterNamespace : string) (dep : PolicyDependency) : ObjectIdentifier :=
  ObjID (gvk_Group (dep_GVK dep)) (gvk_Version (dep_GVK dep)) (gvk_Kind (dep_GVK dep))
    (getDepNamespace clusterNamespace dep) (dep_Name dep).

Abbreviation deps := (gmap ObjectIdentifier string).

Definition oid_GVK (id : ObjectIdentifier) : GroupVersionKind :=
  GVK (oid_Group id) (oid_Version id) (oid_Kind id).

Section pending.
Context `{R : MapRange}.

Definition generatePendingMsg (dependencyFailures : deps) : string :=
  let names := map (λ '(dep, _), oid_Kind dep +:+ " " +:+ oid_Name dep) (range dependencyFailures) in
  let nameStr := Join (sort_Strings names) ", " in
  let n := pretty (size dependencyFailures) in
  if Nat.eqb (size dependencyFailures) 1
  then "Dependencies were not satisfied: " +:+ n +:+ " is still pending (" +:+ nameStr +:+ ")"
  else "Dependencies were not satisfied: " +:+ n +:+ " are still pending (" +:+ nameStr +:+ ")".

End pending.

(** ** The template as it is applied *)

(** [overrideRemediationAction] changes the object map in place; the result is the object after. *)
Definition overrideRemediationAction (instance : Policy) (t : unstructured) : unstructured :=
  if u_Group t ==? GConstraint then
    let action := ToLower (ps_RemediationAction (p_Spec instance)) in
    let set a :=
      match u_Object t !! "spec" with
      | Some (JObj spec) =>
          u_set_Object (<["spec" := JObj (<["enforcementAction" := JStr a]> spec)]> (u_Object t)) t
      | _ => t
      end in
    if action ==? "inform" then set "warn"
    else if action ==? "enforce" then set "deny"
    else t
  else if u_Group t ==? GvkConstraintTemplate_Group then t
  else
    match u_Object t !! "spec" with
    | Some (JObj spec) =>
        let set a :=
          u_set_Object (<["spec" := JObj (<["remediationAction" := JStr a]> spec)]> (u_Object t)) t in
        let informonly :=
          match spec !! "remediationAction" with
          | Some (JStr a) => EqualFold a "informonly"
          | _ => false
          end in
        if informonly then set "inform"
        else if ps_RemediationAction (p_Spec instance) !=? "" then
          set (ps_RemediationAction (p_Spec instance))
        else t
    | _ => t
    end.

Definition setDefaultTemplateLabels (r : PolicyReconciler) (instance : Policy)
    (labels : gmap string string) : gmap string string :=
  let cluster_name := str_index (p_Labels instance) ClusterNameLabel in
  <[ParentPolicyLabel := p_Name instance]>
  (<["cluster-name" := cluster_name]>
  (<[ClusterNameLabel := cluster_name]>
  (<["cluster-namespace" := ClusterNamespace r]>
  (<[ClusterNamespaceLabel := ClusterNamespace r]> labels)))).

(** ** equivalentTemplates *)

Section equivalence.
Context `{U : UnstructuredLib}.

(** A string field that gets a default when it is empty; a failure to set it is ignored. *)
Definition default_string (path : list string) (value : string) (o : gmap string json)
    : gmap string json :=
  let '(cur, _, _) := NestedString o path in
  if cur ==? "" then (SetNestedField o (JStr value) path).1 else o.

Definition default_recreate (objectTemplate : json) : json * bool :=
  match objectTemplate with
  | JObj m =>
      match m !! "recreateOption" with
      | Some _ => (objectTemplate, false)
      | None => (JObj (<["recreateOption" := JStr "None"]> m), true)
      end
  | _ => (objectTemplate, false)
  end.

(** The defaults [equivalentTemplates] sets on the template. *)
Definition fill_defaults (t : unstructured) : unstructured :=
  let o := u_Object t in
  let o :=
    if u_Kind t ==? "ConfigurationPolicy" then
      let o := default_string ["spec"; "pruneObjectBehavior"] "None" o in
      let '(objectTemplates, _, _) := NestedSlice o ["spec"; "object-templates"] in
      let filled := map default_recreate objectTemplates in
      if existsb snd filled
      then (SetNestedField o (JArr (map fst filled)) ["spec"; "object-templates"]).1
      else o
    else o in
  let o :=
    if u_Kind t ==? "OperatorPolicy" then
      let o := default_string ["spec"; "complianceConfig"; "catalogSourceUnhealthy"] "Compliant" o in
      let o :=
        default_string ["spec"; "complianceConfig"; "deploymentsUnavailable"] "NonCompliant" o in
      default_string ["spec"; "complianceConfig"; "upgradesAvailable"] "Compliant" o
    else o in
  u_set_Object o t.

(** [m] has every key of [desired] with the same value. *)
Definition has_all (m desired : gmap string string) : bool :=
  forallb (λ '(k, v), m !! k ==? Some v) (map_to_list desired).

Definition u_spec (u : unstructured) : json := default JNull (u_Object u !! "spec").

(** The result, and the template with its defaults. *)
Definition equivalentTemplates (eObject tObject : unstructured) : bool * unstructured :=
  let tObject := fill_defaults tObject in
  (if u_spec eObject !=? u_spec tObject then false
   else if negb (has_all (u_Annotations eObject) (u_Annotations tObject)) then false
   else if negb (has_all (u_Labels eObject) (u_Labels tObject)) then false
   else DeepEqual (u_OwnerReferences eObject) (u_OwnerReferences tObject),
   tObject).

End equivalence.

(** The object sent when the two differ: [spec] is set even when the template has none. *)
Definition merge_template_into (eObject tObject : unstructured) : unstructured :=
  u_set_Meta (λ m, meta_set_OwnerReferences (u_OwnerReferences tObject)
                     (meta_set_Labels (u_Labels tObject)
                        (meta_set_Annotations (u_Annotations tObject) m)))
    (u_set_Object (<["spec" := u_spec tObject]> (u_Object eObject)) eObject).

(** ** Finalizers *)

Definition hasClusterwideFinalizer (pol : Policy) : bool :=
  existsb (λ finalizer, finalizer ==? ClusterwideFinalizer) (m_Finalizers (p_Meta pol)).

(** The loop of [removeFinalizer]: [i] and [finalizersLength] as in the code; an index out of range
    is [None], a panic.  The loop ends within [fuel] rounds when [fuel] exceeds the distance. *)
Fixpoint remove_loop (fuel : nat) (i finalizersLength : nat) (finalizers : list string)
    (finalizer : string) : option (list string) :=
  match fuel with
  | O => None
  | S fuel' =>
      if Nat.ltb i finalizersLength then
        match finalizers !! i with
        | None => None
        | Some f =>
            if f ==? finalizer
            then remove_loop fuel' i (Nat.pred finalizersLength)
                   (take i finalizers ++ drop (S i) finalizers) finalizer
            else remove_loop fuel' (S i) finalizersLength finalizers finalizer
        end
      else Some finalizers
  end.

Definition removeFinalizer (pol : Policy) (finalizer : string) : option Policy :=
  let l := m_Finalizers (p_Meta pol) in
  (λ l', p_set_Meta (meta_set_Finalizers l') pol)
    <$> remove_loop (S (length l)) 0 (length l) l finalizer.

(** ** Names and messages *)

Section names.
Context `{D : DecodeLib}.

Definition unmarshalFromJSON (rawData : string) : result unstructured := UnmarshalObject rawData.

Fixpoint dup_name_from (foundNames : gset string) (templates : list PolicyTemplate) : string :=
  match templates with
  | [] => ""
  | v :: templates' =>
      match unmarshalFromJSON (pt_Raw v) with
      | Err _ => ""
      | Ok u =>
          let name := u_Name u in
          if bool_decide (name ∈ foundNames) then name
          else dup_name_from ({[name]} ∪ foundNames) templates'
      end
  end.

Definition getDupName (pol : Policy) : string :=
  dup_name_from ∅ (ps_PolicyTemplates (p_Spec pol)).

End names.

Definition getLatestStatusMessage (pol : Policy) (tIndex : nat) : string :=
  match st_Details (p_Status pol) !! tIndex with
  | Some (Some tmplDetails) =>
      match dpt_History tmplDetails with
      | h :: _ => ch_Message h
      | [] => ""
      end
  | _ => ""
  end.

(** ** predicate.go *)

Definition hasAnyDependencies (pol : Policy) : bool :=
  negb (Nat.eqb (length (ps_Dependencies (p_Spec pol))) 0) ||
  existsb (λ tmpl, negb (Nat.eqb (length (pt_ExtraDependencies tmpl)) 0))
    (ps_PolicyTemplates (p_Spec pol)).

(** The inner loop over a history: whether it returns true; [first] is [i == 0]. *)
Fixpoint history_has_old_error (first : bool) (l : list ComplianceHistory) : bool :=
  match l with
  | [] => false
  | historyEvent :: l' =>
      if Contains (ch_Message historyEvent) "template-error" then negb first
      else history_has_old_error false l'
  end.

(** [UpdateFunc] of [templatePredicates]; the other functions are left out and accept everything. *)
Definition templatePredicates_update (oldPolicy updatedPolicy : Policy) : bool :=
  if m_Generation (p_Meta oldPolicy) !=? m_Generation (p_Meta updatedPolicy) then true
  else if (hasAnyDependencies updatedPolicy &&
           (st_ComplianceState (p_Status updatedPolicy) !=? "Pending"))%bool then true
  else
    existsb (λ dpt, match dpt with
                    | None => false
                    | Some dpt => history_has_old_error true (dpt_History dpt)
                    end) (st_Details (p_Status updatedPolicy)).

(** ** Lemmas *)

Lemma remove_loop_filter fuel pre post f :
  (length post < fuel)%nat → Forall (λ x, x ≠ f) pre →
  remove_loop fuel (length pre) (length pre + length post) (pre ++ post) f =
  Some (pre ++ filter (λ x, x ≠ f) post).
Proof.
  revert fuel pre. induction post as [|x post IH]; intros fuel pre Hf Hpre;
    (destruct fuel as [|fuel]; [simpl in Hf; lia|]); cbn [remove_loop].
  { rewrite Nat.add_0_r, Nat.ltb_irrefl. by rewrite filter_nil. }
  simpl length. rewrite (proj2 (Nat.ltb_lt _ _)) by lia.
  rewrite list_lookup_middle by done. cbv beta iota. destruct (decide (x = f)) as [->|Hne].
  - rewrite bool_decide_eq_true_2, filter_cons_False by auto.
    rewrite take_app_length, <- (Nat.add_1_r (length pre)), <- drop_drop, drop_app_length; simpl.
    rewrite drop_0, Nat.add_succ_r. apply IH; [simpl in Hf; lia|done].
  - rewrite bool_decide_eq_false_2, filter_cons_True by done.
    replace (pre ++ x :: post) with ((pre ++ [x]) ++ post) by (by rewrite <- app_assoc).
    replace (S (length pre)) with (length (pre ++ [x])) by (rewrite length_app; simpl; lia).
    replace (length pre + S (length post))%nat with (length (pre ++ [x]) + length post)%nat
      by (rewrite length_app; simpl; lia).
    rewrite IH; [by rewrite <- app_assoc|simpl in Hf; lia|].
    apply Forall_app. split; [done|]. by constructor.
Qed.

(** [removeFinalizer] without its loop. *)
Lemma remove_finalizer_filter pol f :
  removeFinalizer pol f =
  Some (p_set_Meta (meta_set_Finalizers (filter (λ x, x ≠ f) (m_Finalizers (p_Meta pol)))) pol).
Proof.
  unfold removeFinalizer. set (l := m_Finalizers (p_Meta pol)).
  assert (remove_loop (S (length l)) 0 (length l) l f = Some (filter (λ x, x ≠ f) l)) as ->; [|done].
  apply (remove_loop_filter (S (length l)) [] l f); [lia|constructor].
Qed.

Lemma has_all_spec m desired :
  has_all m desired = true ↔ ∀ k v, desired !! k = Some v → m !! k = Some v.
Proof.
  unfold has_all. rewrite forallb_forall. split.
  - intros H k v Hk. specialize (H (k, v)). rewrite <- list_elem_of_In, elem_of_map_to_list in H.
    specialize (H Hk). simpl in H. by breflect.
  - intros H [k v] Hkv. rewrite <- list_elem_of_In, elem_of_map_to_list in Hkv.
    by apply bool_decide_eq_true, H.
Qed.

Lemma dup_name_from_spec `{DecodeLib} templates us found :
  Forall2 (λ t u, unmarshalFromJSON (pt_Raw t) = Ok u ∧ u_Name u ≠ "") templates us →
  let names := map u_Name us in
  if bool_decide (NoDup names ∧ Forall (λ n, n ∉ found) names)
  then dup_name_from found templates = ""
  else ∃ l1 n l2, names = l1 ++ n :: l2 ∧ dup_name_from found templates = n ∧
         (n ∈ l1 ∨ n ∈ found) ∧ n ≠ "".
Proof.
  intros Hall. revert found. induction Hall as [|t u ts us [Ht Hu] _ IH]; intros found;
    cbn [map dup_name_from].
  { rewrite bool_decide_eq_true_2; [done|]. split; constructor. }
  rewrite Ht. destruct (decide (u_Name u ∈ found)) as [Hin|Hin].
  - rewrite (bool_decide_eq_true_2 (_ ∈ _)) by done. rewrite bool_decide_eq_false_2.
    + exists [], (u_Name u), (map u_Name us). auto.
    + intros [_ Hf]. by apply Forall_cons in Hf as [? _].
  - rewrite (bool_decide_eq_false_2 (_ ∈ _)) by done.
    specialize (IH ({[u_Name u]} ∪ found)). cbv zeta in IH.
    destruct (bool_decide (NoDup (u_Name u :: _) ∧ _)) eqn:E; breflect.
    + destruct E as [[Hn Hnd]%NoDup_cons [_ Hf]%Forall_cons].
      rewrite bool_decide_eq_true_2 in IH; [done|]. split; [done|].
      rewrite Forall_forall in *. intros x Hx. specialize (Hf x Hx). set_solver.
    + rewrite bool_decide_eq_false_2 in IH.
      * destruct IH as (l1 & n & l2 & -> & Hd & Hin' & Hne).
        exists (u_Name u :: l1), n, l2. split; [done|]. split; [done|]. set_solver.
      * intros [Hnd Hf]. apply E. split.
        -- apply NoDup_cons. split; [|done]. intros Hx. rewrite Forall_forall in Hf.
           specialize (Hf _ Hx). set_solver.
        -- apply Forall_cons. split; [done|]. eapply Forall_impl; [done|]. set_solver.
Qed.

Lemma history_old_error_spec l :
  history_has_old_error true l = true ↔
  ∃ h l', l = h :: l' ∧ Contains (ch_Message h) "template-error" = false ∧
    ∃ h', h' ∈ l' ∧ Contains (ch_Message h') "template-error" = true.
Proof.
  assert (∀ l, history_has_old_error false l = true ↔
    ∃ h', h' ∈ l ∧ Contains (ch_Message h') "template-error" = true) as Hrest.
  { induction l0 as [|h l0 IH]; simpl; [set_solver|].
    destruct (Contains (ch_Message h) "template-error") eqn:E.
    - split; [|done]. intros _. exists h. split; [by left|done].
    - rewrite IH. split; intros (h' & Hin & Hc); exists h'; [by split; [right|]|].
      apply elem_of_cons in Hin as [->|?]; [by rewrite E in Hc|done]. }
  destruct l as [|h l]; simpl; [split; [done|]; by intros (? & ? & ? & _)|].
  destruct (Contains (ch_Message h) "template-error") eqn:E.
  - split; [done|]. intros (h0 & l0 & [= <- <-] & Hc & _). by rewrite E in Hc.
  - rewrite Hrest. split; [intros Hex; by exists h, l|]. by intros (? & ? & [= <- <-] & _ & ?).
Qed.

Lemma default_labels_lookup r instance labels k :
  setDefaultTemplateLabels r instance labels !! k =
  if k ==? ParentPolicyLabel then Some (p_Name instance)
  else if (k ==? "cluster-name") || (k ==? ClusterNameLabel)
       then Some (str_index (p_Labels instance) ClusterNameLabel)
  else if (k ==? "cluster-namespace") || (k ==? ClusterNamespaceLabel)
       then Some (ClusterNamespace r)
  else labels !! k.
Proof.
  unfold setDefaultTemplateLabels.
  repeat (rewrite lookup_insert; case_decide; [subst; by rewrite ?bool_decide_refl, ?orb_true_r;
    repeat (case_match; breflect; try done)|]).
  rewrite !bool_decide_eq_false_2 by congruence. done.
Qed.

(** ** Properties *)

(** The loop that removes a finalizer ends, stays within the slice, and leaves exactly the
    other finalizers, in their order; nothing else of the policy changes. *)
Theorem remove_finalizer_exact pol f :
  removeFinalizer pol f =
  Some (p_set_Meta (meta_set_Finalizers (filter (λ x, x ≠ f) (m_Finalizers (p_Meta pol)))) pol).
Proof. apply remove_finalizer_filter. Qed.

(** C35: an update settles.  After an object on the cluster was updated from a template, comparing
    it with the same template again finds them equal, so that reconciling does not update forever;
    and an object found equal already has the template's spec and owners and all its annotations
    and labels, so that skipping the update loses nothing. *)
Theorem template_update_settles `{U : UnstructuredLib} eObject tObject :
  let t := (equivalentTemplates eObject tObject).2 in
  (equivalentTemplates (merge_template_into eObject t) tObject).1 = true ∧
  ((equivalentTemplates eObject tObject).1 = true →
   u_spec eObject = u_spec t ∧ u_OwnerReferences eObject = u_OwnerReferences t ∧
   u_Annotations t ⊆ u_Annotations eObject ∧ u_Labels t ⊆ u_Labels eObject).
Proof.
  unfold equivalentTemplates; simpl. set (t := fill_defaults tObject). split.
  - assert (u_spec (merge_template_into eObject t) = u_spec t) as ->
      by (unfold u_spec at 1; simpl; by rewrite lookup_insert_eq).
    rewrite bool_decide_refl; simpl.
    rewrite !(proj2 (has_all_spec _ _)) by done. simpl. apply bool_decide_refl.
  - repeat case_match; breflect; intros; try done. unfold DeepEqual in *. breflect.
    split; [done|]. split; [done|].
    split; apply map_subseteq_spec; by apply has_all_spec.
Qed.

(** Overriding the remediation action changes one field of the spec at most: the enforcement
    action of a constraint, the remediation action of any other kind but a ConstraintTemplate.
    A template that asks for "informonly", in any case, becomes "inform" whatever the policy says;
    otherwise a remediation action of the policy wins. *)
Theorem override_remediation_exact instance t spec :
  u_Object t !! "spec" = Some (JObj spec) →
  let t' := overrideRemediationAction instance t in
  let action := ps_RemediationAction (p_Spec instance) in
  u_Meta t' = u_Meta t ∧ u_GVK t' = u_GVK t ∧
  ∃ spec', u_Object t' = <["spec" := JObj spec']> (u_Object t) ∧
    spec' =
      if u_Group t ==? GConstraint then
        if EqualFold action "inform" then <["enforcementAction" := JStr "warn"]> spec
        else if EqualFold action "enforce" then <["enforcementAction" := JStr "deny"]> spec
        else spec
      else if u_Group t ==? GvkConstraintTemplate_Group then spec
      else if match spec !! "remediationAction" with
              | Some (JStr a) => EqualFold a "informonly" | _ => false end
           then <["remediationAction" := JStr "inform"]> spec
      else if action ==? "" then spec
      else <["remediationAction" := JStr action]> spec.
Proof.
  intros Hspec. cbv zeta. unfold overrideRemediationAction. rewrite Hspec.
  change (EqualFold ?a "inform") with (ToLower a ==? "inform").
  change (EqualFold ?a "enforce") with (ToLower a ==? "enforce").
  assert (u_Object t = <["spec" := JObj spec]> (u_Object t)) as Hid by by rewrite insert_id.
  repeat match goal with
  | |- context [if ?b then _ else _] =>
      lazymatch b with context [if _ then _ else _] => fail | _ => destruct b eqn:? end
  end; simpl in *; breflect; try congruence;
  (split; [done|]; split; [done|]; eexists; split; [first [done | exact Hid]|done]).
Qed.

(** The message about unmet dependencies does not depend on the order in which Go visits the
    map, so that an unchanged set of dependencies gives an unchanged message. *)
Theorem pending_msg_order_independent (R1 R2 : MapRange) failures :
  MapRangeLaws R1 → MapRangeLaws R2 →
  generatePendingMsg (R := R1) failures = generatePendingMsg (R := R2) failures.
Proof.
  intros H1 H2. unfold generatePendingMsg.
  set (f := λ '(dep, _), _).
  assert (sort_Strings (map f (@range R1 _ failures)) = sort_Strings (map f (@range R2 _ failures)))
    as ->; [|done].
  apply sort_Strings_Permutation, Permutation_map.
  by rewrite (@range_map R1 H1), (@range_map R2 H2).
Qed.

(** When every template can be read and has a name, [getDupName] finds nothing exactly when
    the names are distinct, and otherwise it finds the name of a template that repeats the name of
    an earlier one. *)
Theorem dup_name_exact `{D : DecodeLib} pol us :
  Forall2 (λ t u, unmarshalFromJSON (pt_Raw t) = Ok u ∧ u_Name u ≠ "")
    (ps_PolicyTemplates (p_Spec pol)) us →
  (getDupName pol = "" ↔ NoDup (map u_Name us)) ∧
  (getDupName pol ≠ "" → ∃ l1 l2, map u_Name us = l1 ++ getDupName pol :: l2 ∧ getDupName pol ∈ l1).
Proof.
  intros H. pose proof (dup_name_from_spec _ _ ∅ H) as Hs. cbv zeta in Hs.
  unfold getDupName. case_match eqn:E; breflect.
  - destruct E as [Hnd _]. rewrite Hs. done.
  - destruct Hs as (l1 & n & l2 & Hl & -> & [Hin|Hin] & Hne); [|set_solver].
    split; [|intros _; by exists l1, l2]. split; [done|]. intros Hnd. exfalso. rewrite Hl in Hnd.
    apply NoDup_app in Hnd as (_ & Hd & _). eapply Hd; [done|]. by left.
Qed.

(** Template-sync looks at an updated policy exactly when its spec changed, when it has
    dependencies and is not pending, or when a template reported an error before its newest event,
    which then is not an error itself. *)
Theorem template_predicate_exact oldPolicy updatedPolicy :
  templatePredicates_update oldPolicy updatedPolicy = true ↔
  m_Generation (p_Meta oldPolicy) ≠ m_Generation (p_Meta updatedPolicy) ∨
  ((ps_Dependencies (p_Spec updatedPolicy) ≠ [] ∨
    ∃ t, t ∈ ps_PolicyTemplates (p_Spec updatedPolicy) ∧ pt_ExtraDependencies t ≠ []) ∧
   st_ComplianceState (p_Status updatedPolicy) ≠ Pending) ∨
  ∃ d h l h', Some d ∈ st_Details (p_Status updatedPolicy) ∧ dpt_History d = h :: l ∧
    Contains (ch_Message h) "template-error" = false ∧
    h' ∈ l ∧ Contains (ch_Message h') "template-error" = true.
Proof.
  assert (hasAnyDependencies updatedPolicy = true ↔
    (ps_Dependencies (p_Spec updatedPolicy) ≠ [] ∨
     ∃ t, t ∈ ps_PolicyTemplates (p_Spec updatedPolicy) ∧ pt_ExtraDependencies t ≠ [])) as Hdeps.
  { unfold hasAnyDependencies. rewrite orb_true_iff, existsb_elem.
    setoid_rewrite negb_true_iff. setoid_rewrite Nat.eqb_neq. setoid_rewrite length_zero_iff_nil.
    done. }
  rewrite <- Hdeps. unfold templatePredicates_update. change Pending with "Pending".
  destruct (m_Generation _ !=? _) eqn:E1; breflect; [split; [by left|done]|].
  destruct (hasAnyDependencies updatedPolicy && _)%bool eqn:E2; breflect; [split; [|done]; auto|].
  rewrite existsb_elem. split.
  - intros ([d|] & Hd & Hh); [|done].
    apply history_old_error_spec in Hh as (h & l & Hl & Hc & h' & Hin & Hc').
    right; right. by exists d, h, l, h'.
  - intros [?|[[Hd Hs]|(d & h & l & h' & Hin & Hl & Hc & Hin' & Hc')]]; [done| |].
    + rewrite Hd, bool_decide_eq_false_2 in E2 by done. done.
    + exists (Some d). split; [done|]. apply history_old_error_spec. exists h, l. eauto.
Qed.

(** ** Witnesses *)

Definition demo_instance (action : string) (raws : list string) : Policy :=
  MkPolicy "policy.open-cluster-management.io/v1" "Policy" (new_meta "p" "managed")
    (Spec action (map (λ raw, Template raw [] false) raws) [] "") (Status "" [] "").

Definition demo_spec : gmap string json := {["remediationAction" := JStr "InformOnly"]}.
Definition demo_template : unstructured :=
  Unstructured (GVK policy_group "v1" "ConfigurationPolicy") (new_meta "t" "")
    {["spec" := JObj demo_spec]}.

Lemma override_remediation_exact_witness :
  ∃ spec', u_Object (overrideRemediationAction (demo_instance "enforce" []) demo_template) =
    <["spec" := JObj spec']> (u_Object demo_template) ∧
    spec' = <["remediationAction" := JStr "inform"]> demo_spec.
Proof.
  destruct (override_remediation_exact (demo_instance "enforce" []) demo_template demo_spec)
    as (_ & _ & spec' & H & Hs); [reflexivity|]. exists spec'. split; [exact H|exact Hs].
Defined.

Lemma pending_msg_order_independent_witness :
  let failures : deps := {[ObjID policy_group "v1" "Policy" "managed" "dep" := "not found"]} in
  generatePendingMsg (R := range_ref) failures = generatePendingMsg (R := range_ref) failures.
Proof.
  apply (pending_msg_order_independent range_ref range_ref
    {[ObjID policy_group "v1" "Policy" "managed" "dep" := "not found"]} _ _).
Defined.

Example demo_pending_msg :
  generatePendingMsg (R := range_ref)
    {[ObjID policy_group "v1" "Policy" "managed" "dep" := "not found"]} =
  "Dependencies were not satisfied: 1 is still pending (Policy dep)".
Proof. vm_compute. reflexivity. Qed.

(** A decoder that takes the raw text for the name. *)
Definition name_decode : DecodeLib := {|
  Decode := λ raw, Ok (u_GVK demo_template,
    Some (Unstructured (u_GVK demo_template) (new_meta raw "") ∅));
  UnmarshalUnstructured := λ raw, Ok (Unstructured (u_GVK demo_template) (new_meta raw "") ∅);
  UnmarshalObject := λ raw, Ok (Unstructured (u_GVK demo_template) (new_meta raw "") ∅) |}.

Lemma dup_name_exact_witness :
  (getDupName (D := name_decode) (demo_instance "" ["a"; "b"; "a"]) = "" ↔
   NoDup (map u_Name (map (λ n, Unstructured (u_GVK demo_template) (new_meta n "") ∅)
                        ["a"; "b"; "a"]))).
Proof.
  refine (proj1 (dup_name_exact (D := name_decode) (demo_instance "" ["a"; "b"; "a"])
    (map (λ n, Unstructured (u_GVK demo_template) (new_meta n "") ∅) ["a"; "b"; "a"]) _)).
  repeat constructor; discriminate.
Defined.
