(* ===== verification/TemplateActions.v ===== *)
(** * controllers/templatesync: dependencies, events, cleanup

    The methods of the template-sync reconciler that talk to the API server and that its main loop
    calls: [processDependencies], the emitters of template events, [handleSyncSuccess],
    [hasPolicyTemplateLabel], [cleanUpExcessTemplates] and [finalizerCleanup] of
    [template_sync.go]. *)

From S2P Require Import Prelude Prog GoStrings K8s Effects Utils StatusHistory StatusEvents.
From S2P Require Import TemplateObjects.
From Stdlib Require Import Ascii.

Definition ControllerName : string := "policy-template-sync".

(** ** processDependencies *)

Definition DepFailNoAPIMapping : string := "Could not find an API mapping for the dependency".
Definition DepFailObjNotFound : string := "Dependency object not found".
Definition DepFailGet : string := "Failed to get the dependency object".
Definition DepFailCompNotFound : string :=
  "Failed to find complianceState on the dependency object".
Definition DepFailWrongCompliance : string := "Compliance mismatch on the dependency object".

Section dependencies.
Context `{U : UnstructuredLib} `{R : MapRange}.

(** The compliance of an object that was found. *)
Definition dependency_compliance (dep : ObjectIdentifier) (wanted : string) (depObj : unstructured)
    : option string :=
  if oid_Group dep ==? GvkConstraintTemplate_Group then
    if wanted !=? "Compliant" then Some DepFailWrongCompliance else None
  else if oid_Group dep ==? GConstraint then
    let '(violations, found, err) := NestedInt64 (u_Object depObj) ["status"; "totalViolations"] in
    if (bool_decide (is_Some err) || negb found)%bool then Some DepFailCompNotFound
    else if negb (Bool.eqb (violations ==? 0%Z) (wanted ==? "Compliant"))
         then Some DepFailWrongCompliance
    else None
  else
    let '(depCompliance, found, err) := NestedString (u_Object depObj) ["status"; "compliant"] in
    if (bool_decide (is_Some err) || negb found)%bool then Some DepFailCompNotFound
    else if depCompliance !=? wanted then Some DepFailWrongCompliance
    else None.

(** The body of the loop: why the dependency is not satisfied, if it is not. *)
Definition check_dependency (dep : ObjectIdentifier) (wanted : string) : prg (option string) :=
  let! mapping := GVRFromGVK (oid_GVK dep) in
  match mapping with
  | Err _ => Ret (Some DepFailNoAPIMapping)
  | Ok (rsrc, namespaced) =>
      let ns := if namespaced : bool then oid_Namespace dep else "" in
      let! got := call (ODynGet rsrc ns (oid_Name dep)) in
      match got with
      | Err err =>
          if IsNotFound err then
            if ((oid_Group dep ==? GvkConstraintTemplate_Group) && (wanted !=? "Compliant"))%bool
            then Ret None
            else Ret (Some DepFailObjNotFound)
          else Ret (Some DepFailGet)
      | Ok depObj => Ret (dependency_compliance dep wanted depObj)
      end
  end.

Definition processDependencies (templateDeps : deps) : prg deps :=
  fold_each (λ dependencyFailures '(dep, wanted),
    let! why := check_dependency dep wanted in
    Ret (match why with
         | Some why => <[dep := why]> dependencyFailures
         | None => dependencyFailures
         end)) (range templateDeps) ∅.

End dependencies.

(** ** Events *)

Section events.
Context `{D : DecodeLib} `{U : UnstructuredLib}.
Variable r : PolicyReconciler.

Definition policy_nn (pol : Policy) : NamespacedName := NN (p_Namespace pol) (p_Name pol).

Definition record_template_event (pol : Policy) (eventType msg : string) : prg unit :=
  call (OEventf Managed (policy_nn pol) eventType "PolicyTemplateSync" "PolicyTemplateSync" msg).

Definition emitTemplateEvent (pol : Policy) (tIndex : nat) (tName : string) (clusterScoped : bool)
    (eventType compliance msg : string) : prg (option error) :=
  let! refreshed := call (OPolicyGet Managed (policy_nn pol)) in
  match refreshed with
  | Err err => Ret (Some err)
  | Ok refreshed =>
      if Contains (getLatestStatusMessage refreshed tIndex) (compliance +:+ "; " +:+ msg)
      then Ret None
      else
        do! record_template_event pol eventType msg in
        let policyComplianceReason :=
          if clusterScoped then EventReason "" tName else EventReason (p_Namespace pol) tName in
        let sender := Sender (p_Namespace pol) (InstanceName r) ControllerName in
        let ownerref := OwnerRef (p_APIVersion pol) (p_Kind pol) (p_Name pol) (p_UID pol) "" in
        match ps_PolicyTemplates (p_Spec pol) !! tIndex with
        | None => Panic
        | Some policyT =>
            let instance :=
              match UnmarshalUnstructured (pt_Raw policyT) with Ok u => Some u | Err _ => None end in
            SendEvent sender instance ownerref policyComplianceReason msg compliance
        end
  end.

Definition emitTemplateSuccess (pol : Policy) (tIndex : nat) (tName : string)
    (clusterScoped : bool) (msg : string) : prg (option error) :=
  emitTemplateEvent pol tIndex tName clusterScoped "Normal" Compliant msg.

Definition emitTemplateError (pol : Policy) (tIndex : nat) (tName : string)
    (clusterScoped : bool) (errMsg : string) : prg (option error) :=
  emitTemplateEvent pol tIndex tName clusterScoped "Warning" NonCompliant
    ("template-error; " +:+ errMsg).

Definition emitTemplatePending (pol : Policy) (tIndex : nat) (tName : string)
    (clusterScoped : bool) (msg : string) : prg (option error) :=
  match ps_PolicyTemplates (p_Spec pol) !! tIndex with
  | None => Panic
  | Some policyT =>
      if pt_IgnorePending policyT
      then emitTemplateEvent pol tIndex tName clusterScoped EventTypeNormal Compliant
             (msg +:+ " but ignorePending is true")
      else emitTemplateEvent pol tIndex tName clusterScoped "Warning" Pending msg
  end.

Definition status_reset : json_patch := PatchRemove "/status/compliant".

Definition handleSyncSuccess (pol : Policy) (tIndex : nat) (tName msg : string)
    (rsrc : GroupVersionResource) (ns : string) (gv_Group : string) (template : unstructured)
    : prg (option error) :=
  do! (if msg !=? "" then record_template_event pol EventTypeNormal msg else Ret tt) in
  if gv_Group !=? policy_group then Ret None
  else
    let latestMessage := getLatestStatusMessage pol tIndex in
    if (negb (Contains latestMessage "template-error;") &&
        negb (Contains latestMessage "Pending;"))%bool then Ret None
    else
      let '(compliantStatus, _, _) := NestedString (u_Object template) ["status"; "compliant"] in
      if compliantStatus ==? "" then Ret None
      else
        let! err := call (ODynPatch rsrc ns tName status_reset (Some "status")) in
        match err with
        | Some err =>
            Ret (Some (wrap ("unable to reset the status of policy template " +:+ tName +:+ ": ") err))
        | None => Ret None
        end.

(** [%v] of an error that may be nil. *)
Definition print_error (err : option error) : string :=
  match err with Some e => err_msg e | None => "<nil>" end.

Definition emitGKConstraintTemplateErrMsg (tObjectUnstructured : unstructured)
    (rsrc : GroupVersionResource) (ns : string) (instance : Policy) (tIndex : nat) (tName : string)
    : prg (result bool) :=
  let name := u_Name tObjectUnstructured in
  let! template := call (ODynGet rsrc ns name) in
  match template with
  | Err err => Ret (Err err)
  | Ok template =>
      let '(created, ok, err) := NestedBool (u_Object template) ["status"; "created"] in
      if (negb ok || bool_decide (is_Some err))%bool then
        do! emitTemplateError instance tIndex tName true
              ("Failed to retrieve status.created from ConstraintTemplate " +:+ name +:+ ": " +:+
               print_error err) in
        Ret (Ok true)
      else if negb created then
        do! emitTemplateError instance tIndex tName true
              ("Failed to create Gatekeeper ConstraintTemplate. Check the status of " +:+ name +:+
               ".") in
        Ret (Ok true)
      else Ret (Ok false)
  end.

End events.

(** ** hasPolicyTemplateLabel *)

(** [schema.GroupResource.String] *)
Definition group_resource (rsrc : GroupVersionResource) : string :=
  if gvr_Group rsrc ==? "" then gvr_Resource rsrc else gvr_Resource rsrc +:+ "." +:+ gvr_Group rsrc.

Definition crd_is_template (crd : CRD) : bool :=
  str_index (crd_Labels crd) PolicyTypeLabel ==? "template".

Definition hasPolicyTemplateLabel (rsrc : GroupVersionResource) : prg (result bool) :=
  let crdName := group_resource rsrc in
  let failed err := if IsNotFound err then Ret (Ok false) else Ret (Err err) in
  let! crd := call (OCRDGet V1 crdName) in
  match crd with
  | Ok crd => Ret (Ok (crd_is_template crd))
  | Err err =>
      if IsNoMatchError err then
        let! betaCrd := call (OCRDGet V1beta1 crdName) in
        match betaCrd with
        | Ok crd => Ret (Ok (crd_is_template crd))
        | Err err => failed err
        end
      else failed err
  end.

(** ** cleanUpExcessTemplates *)

Definition setCreatedGkConstraint (b : bool) : prg unit := call (OWriteCreatedGk b).

Record gvrScoped := GvrScoped { gs_gvr : GroupVersionResource; gs_namespaced : bool }.

Definition constrainttemplates (version : string) : gvrScoped :=
  GvrScoped (GVR GvkConstraintTemplate_Group version "constrainttemplates") false.
Definition constraint_gvr (gkCT : ConstraintTemplate) : gvrScoped :=
  GvrScoped (GVR GConstraint "v1beta1" (ToLower (ct_CRDKind gkCT))) false.

(** [createdGkConstraint == nil || *createdGkConstraint], two reads of a shared pointer. *)
Definition should_query_constraints : prg bool :=
  let! p := call OReadCreatedGk in
  match p with
  | None => Ret true
  | Some _ =>
      let! p := call OReadCreatedGk in
      match p with None => Panic | Some b => Ret b end
  end.

(** The resources of Gatekeeper; the list of v1 ConstraintTemplates is empty when listing it
    failed. *)
Definition gatekeeper_gvrs : prg (list gvrScoped) :=
  let! query := should_query_constraints in
  if negb query then Ret []
  else
    let! listv1 := call (OConstraintTemplateList V1) in
    let gkConstraintTemplateListv1 := match listv1 with Ok items => items | Err _ => [] end in
    let add_template version : prg (list gvrScoped) :=
      if Nat.ltb 0 (length gkConstraintTemplateListv1) then Ret [constrainttemplates version]
      else do! setCreatedGkConstraint false in Ret [] in
    match listv1 with
    | Ok _ =>
        let! tmplGVRs := add_template "v1" in
        Ret (tmplGVRs ++
             map constraint_gvr
               (filter (λ gkCT, ct_StatusCreated gkCT = true) gkConstraintTemplateListv1))
    | Err err =>
        if IsNoMatchError err then
          let! listv1beta1 := call (OConstraintTemplateList V1beta1) in
          match listv1beta1 with
          | Ok items =>
              let! tmplGVRs := add_template "v1beta1" in
              Ret (tmplGVRs ++ map constraint_gvr items)
          | Err err =>
              if IsNoMatchError err then do! setCreatedGkConstraint false in Ret []
              else Ret []
          end
        else Ret []
    end.

Definition crd_gvr (crd : CRD) : option gvrScoped :=
  match crd_Versions crd with
  | v :: _ => Some (GvrScoped (GVR (crd_Group crd) v (crd_Plural crd)) (crd_NamespaceScoped crd))
  | [] => None
  end.

(** How [fmt] prints the list options of the CRD query with [%+v]. *)
Class FmtLib := { print_crdQuery : string }.

Section cleanup.
Context `{F : FmtLib}.
Variable r : PolicyReconciler.

Definition crd_gvrs : prg (result (list gvrScoped)) :=
  let! crdsv1 := call (OCRDList V1 PolicyTypeLabel "template") in
  match crdsv1 with
  | Ok items => Ret (Ok (omap crd_gvr items))
  | Err err =>
      if IsNoMatchError err then
        let! crdsv1beta1 := call (OCRDList V1beta1 PolicyTypeLabel "template") in
        match crdsv1beta1 with
        | Ok items => Ret (Ok (omap crd_gvr items))
        | Err err =>
            Ret (Err (wrap ("error listing v1beta1 CRDs with query " +:+ print_crdQuery +:+ ": ") err))
        end
      else
        Ret (Err (wrap ("error listing v1 CRDs with query " +:+ print_crdQuery +:+ ": ") err))
  end.

(** The body of the loop over the children of one resource. *)
Definition delete_child (g : gvrScoped) (resourceNs : string) (templateNames : list string)
    (errorList : list error) (tmpl : unstructured) : prg (list error) :=
  let found := existsb (λ parentTmplName, parentTmplName ==? u_Name tmpl) templateNames in
  if negb found then
    let! err := call (ODynDelete (gs_gvr g) resourceNs (u_Name tmpl)) in
    match err with
    | Some err =>
        Ret (errorList ++ [wrap ("error deleting " +:+ gvr_String (gs_gvr g) +:+ " object " +:+
                                 u_Name tmpl +:+ ": ") err])
    | None => Ret errorList
    end
  else Ret errorList.

Definition clean_resource (instance : Policy) (templateNames : list string)
    (errorList : list error) (g : gvrScoped) : prg (list error) :=
  let resourceNs := if gs_namespaced g then ClusterNamespace r else "" in
  let! children := call (ODynList (gs_gvr g) resourceNs ParentPolicyLabel (p_Name instance)) in
  match children with
  | Err err =>
      Ret (errorList ++ [wrap ("error listing " +:+ gvr_String (gs_gvr g) +:+ " objects: ") err])
  | Ok items => fold_each (delete_child g resourceNs templateNames) items errorList
  end.

Definition cleanUpExcessTemplates (instance : Policy) (templateNames : list string)
    : prg (option error) :=
  let! gk := gatekeeper_gvrs in
  let! crds := crd_gvrs in
  match crds with
  | Err err => Ret (Some err)
  | Ok crds =>
      let tmplGVRs := gk ++ crds in
      let! errorList := fold_each (clean_resource instance templateNames) tmplGVRs [] in
      Ret (Aggregate errorList)
  end.

End cleanup.

(** ** finalizerCleanup *)

Section finalizer.
Context `{D : DecodeLib}.

Definition user_error (policy template type : string) : prg unit :=
  call (OCounterInc policyUserErrorsCounter policy template type).
Definition system_error (policy template type : string) : prg unit :=
  call (OCounterInc policySystemErrorsCounter policy template type).

Definition cleanup_template (pol : Policy) (errorList : list error) (policyT : PolicyTemplate)
    : prg (list error) :=
  match Decode (pt_Raw policyT) with
  | Err err =>
      let! uninstalling := call OReadUninstalling in
      let errorList :=
        if uninstalling : bool then errorList
        else errorList ++ [wrap "failed to decode policy template with error: " err] in
      do! user_error (p_Name pol) "" "format-error" in
      Ret errorList
  | Ok (_, None) => Ret errorList
  | Ok (gvk, Some tMetaObj) =>
      let tName := u_Name tMetaObj in
      let! mapping := GVRFromGVK gvk in
      match mapping with
      | Err err =>
          if has_reason NoVersionedResource err then Ret errorList
          else
            do! system_error (p_Name pol) tName "get-error" in
            Ret (errorList ++ [err])
      | Ok (rsrc, namespaced) =>
          if namespaced : bool then Ret errorList
          else
            let! err := call (ODynDelete rsrc "" tName) in
            match err with
            | Some err =>
                if negb (IsNotFound err) then
                  do! system_error (p_Name pol) tName "delete-error" in
                  Ret (errorList ++ [wrap ("failed to delete " +:+ gvk_Kind gvk +:+ " with error: ") err])
                else Ret errorList
            | None => Ret errorList
            end
      end
  end.

Definition finalizerCleanup (pol : Policy) : prg (option error) :=
  let! errorList := fold_each (cleanup_template pol) (ps_PolicyTemplates (p_Spec pol)) [] in
  Ret (Aggregate errorList).

End finalizer.

(** ** When a dependency is satisfied *)

(** The specification, for answers [f]: the kind is known; a ConstraintTemplate is there exactly
    when it is wanted to be Compliant; a constraint has counted its violations, none exactly when
    it is wanted to be Compliant; any other object reports the wanted compliance. *)
Definition satisfied (f : ∀ o, ans o) (dep : ObjectIdentifier) (wanted : string) : Prop :=
  ∃ rsrc namespaced,
    discovered (oid_GVK dep) (f (discovery_call (oid_GVK dep))) = Ok (rsrc, namespaced) ∧
    match f (ODynGet rsrc (if namespaced : bool then oid_Namespace dep else "") (oid_Name dep)) with
    | Err e =>
        IsNotFound e = true ∧ oid_Group dep = GvkConstraintTemplate_Group ∧ wanted ≠ Compliant
    | Ok obj =>
        if oid_Group dep ==? GvkConstraintTemplate_Group then wanted = Compliant
        else if oid_Group dep ==? GConstraint then
          ∃ n, json_at (u_Object obj) ["status"; "totalViolations"] = Found (JInt n) ∧
            (n = 0%Z ↔ wanted = Compliant)
        else json_at (u_Object obj) ["status"; "compliant"] = Found (JStr wanted)
    end.

Section dependency_facts.
Context `{U : UnstructuredLib} `{!UnstructuredLaws U} `{R : MapRange} `{!MapRangeLaws R}.

(** A reader of a nested field is either wrong about it or finds its value. *)
Lemma reads_nested_cases {A} (zero : A) get (rd : gmap string json → list string → A * bool * option error) m path a found err :
  reads_nested zero get rd → rd m path = (a, found, err) →
  if (bool_decide (is_Some err) || negb found)%bool
  then ∀ v, json_at m path = Found v → get v = None
  else ∃ v, json_at m path = Found v ∧ get v = Some a.
Proof.
  intros Hrd E. specialize (Hrd m path). destruct (json_at m path) as [v| |].
  - destruct (get v) as [a'|] eqn:Hg.
    + rewrite E in Hrd. simplify_eq/=. by exists v.
    + destruct Hrd as [e He]. rewrite E in He. simplify_eq/=. intros ? [= <-]. done.
  - rewrite E in Hrd. simplify_eq/=. done.
  - destruct Hrd as [e He]. rewrite E in He. simplify_eq/=. done.
Qed.

Lemma dependency_compliance_spec dep wanted obj :
  dependency_compliance dep wanted obj = None ↔
  if oid_Group dep ==? GvkConstraintTemplate_Group then wanted = Compliant
  else if oid_Group dep ==? GConstraint then
    ∃ n, json_at (u_Object obj) ["status"; "totalViolations"] = Found (JInt n) ∧
      (n = 0%Z ↔ wanted = Compliant)
  else json_at (u_Object obj) ["status"; "compliant"] = Found (JStr wanted).
Proof.
  unfold dependency_compliance. change Compliant with "Compliant".
  destruct (oid_Group dep ==? GvkConstraintTemplate_Group).
  { destruct (wanted ==? "Compliant") eqn:E; breflect; done. }
  destruct (oid_Group dep ==? GConstraint).
  - destruct (NestedInt64 _ _) as [[n found] err] eqn:E.
    apply (reads_nested_cases 0%Z get_int _ _ _ _ _ _ NestedInt64_reads) in E.
    destruct (_ || _)%bool.
    { split; [done|]. intros (n' & Hn & _). by apply E in Hn. }
    destruct E as (v & Hv & Hg). destruct v; simplify_eq/=.
    destruct (n ==? 0%Z) eqn:H1, (wanted ==? "Compliant") eqn:H2; breflect; simpl.
    1,4: split; [intros _; exists n; split; [done|by split]|done].
    all: split; [done|]; intros (n' & Hn & Hw1 & Hw2); rewrite Hv in Hn; simplify_eq; exfalso.
    + by apply H2, Hw1.
    + by apply H1, Hw2.
  - destruct (NestedString _ _) as [[s found] err] eqn:E.
    apply (reads_nested_cases "" get_str _ _ _ _ _ _ NestedString_reads) in E.
    destruct (_ || _)%bool.
    { split; [done|]. intros Hn. by apply E in Hn. }
    destruct E as (v & Hv & Hg). destruct v; simplify_eq/=.
    destruct (s ==? wanted) eqn:Hb; breflect; simpl; rewrite Hv.
    + by subst.
    + split; [done|]. intros ?. by simplify_eq.
Qed.

(** Why a dependency fails, when the answers are [f]. *)
Definition failure (f : ∀ o, ans o) (dep : ObjectIdentifier) (wanted : string) : option string :=
  match eval f (check_dependency dep wanted) with Returned why => why | Panicked => None end.

Lemma check_dependency_spec f dep wanted :
  eval f (check_dependency dep wanted) = Returned (failure f dep wanted) ∧
  (failure f dep wanted = None ↔ satisfied f dep wanted).
Proof.
  unfold failure, check_dependency, satisfied. rewrite eval_bind, GVRFromGVK_eval.
  destruct (discovered _ _) as [[rsrc namespaced]|e]; simpl.
  2:{ split; [done|]. split; [done|]. by intros (? & ? & ? & _). }
  set (g := ODynGet rsrc _ _). assert (∀ P : GroupVersionResource → bool → Prop,
    (∃ r n, Ok (rsrc, namespaced) = Ok (r, n) ∧ P r n) ↔ P rsrc namespaced) as HP.
  { intros P. split; [intros (? & ? & ? & ?); by simplify_eq|]. by exists rsrc, namespaced. }
  rewrite HP. fold g. destruct (f g) as [obj|e]; simpl.
  - split; [done|]. apply dependency_compliance_spec.
  - destruct (IsNotFound e); simpl.
    2:{ split; [done|]. split; [done|]. by intros (? & ? & ?). }
    change Compliant with "Compliant". destruct (_ && _)%bool eqn:E; simpl; (split; [done|]).
    + breflect. split; [|done]. auto.
    + split; [done|]. intros (_ & Hg & Hw).
      rewrite Hg, bool_decide_refl, bool_decide_eq_false_2 in E by done. done.
Qed.

Lemma fold_failures (why : ObjectIdentifier → string → option string) l (acc : deps) dep :
  NoDup l.*1 →
  foldl (λ m '(d, w), match why d w with Some y => <[d := y]> m | None => m end) acc l !! dep =
  match list_find (λ p, p.1 = dep) l with
  | Some (_, (_, w)) => match why dep w with Some y => Some y | None => acc !! dep end
  | None => acc !! dep
  end.
Proof.
  revert acc. induction l as [|[d w] l IH]; intros acc Hnd; simpl; [done|].
  apply NoDup_cons in Hnd as [Hd Hnd]. rewrite IH by done. case_decide as Heq; simpl in Heq.
  - subst d. destruct (list_find _ l) as [[i [d' w']]|] eqn:Hf.
    { apply list_find_Some in Hf as (Hl & <- & _). destruct Hd. simpl.
      apply (list_elem_of_fmap_2 fst _ (d', w')). by eapply list_elem_of_lookup_2. }
    destruct (why dep w); [by rewrite lookup_insert_eq|done].
  - destruct (list_find _ l) as [[i [d' w']]|]; simpl;
      destruct (why d w); rewrite ?lookup_insert_ne by done; done.
Qed.

Lemma range_find {V} (m : gmap ObjectIdentifier V) dep :
  (λ x, x.2.2) <$> list_find (λ p, p.1 = dep) (range m) = m !! dep.
Proof.
  destruct (m !! dep) as [v|] eqn:Hm.
  - assert ((dep, v) ∈ range m) as Hin by (by rewrite range_map, elem_of_map_to_list).
    destruct (list_find_elem_of (λ p : ObjectIdentifier * V, p.1 = dep) _ _ Hin eq_refl)
      as [[i [d w]] Hf].
    rewrite Hf. apply list_find_Some in Hf as (Hl & Hd & _). simpl in Hd. subst d. simpl. f_equal.
    apply list_elem_of_lookup_2 in Hl. rewrite range_map, elem_of_map_to_list in Hl. congruence.
  - destruct (list_find _ _) as [[i [d w]]|] eqn:Hf; [|done].
    apply list_find_Some in Hf as (Hl & Hd & _). simpl in Hd. subst d.
    apply list_elem_of_lookup_2 in Hl. rewrite range_map, elem_of_map_to_list in Hl. congruence.
Qed.

Lemma processDependencies_exact_aux (f : ∀ o, ans o) (templateDeps : deps) :
  ∃ failures, eval f (processDependencies templateDeps) = Returned failures ∧
  ∀ dep, match templateDeps !! dep with
         | Some wanted => failures !! dep = None ↔ satisfied f dep wanted
         | None => failures !! dep = None
         end.
Proof.
  set (g := λ (m : deps) '(d, w), match failure f d w with Some y => <[d := y]> m | None => m end).
  exists (foldl g ∅ (range templateDeps)). split.
  - unfold processDependencies. apply eval_fold_each. intros m [d w]. rewrite eval_bind.
    by rewrite (proj1 (check_dependency_spec f d w)).
  - intros dep. unfold g. rewrite (fold_failures (failure f)).
    + rewrite <- (range_find templateDeps dep).
      destruct (list_find _ _) as [[i [d w]]|]; simpl; [|done].
      rewrite <- (proj2 (check_dependency_spec f dep w)), lookup_empty.
      by destruct (failure f dep w).
    + assert (range templateDeps ≡ₚ map_to_list templateDeps) as -> by apply range_map.
      apply NoDup_fst_map_to_list.
Qed.

End dependency_facts.

(** ** What the cleanup deletes *)

(** The answer to a list of the objects of policy [policy]. *)
Definition listed (policy : string) (e : event ans)
    : option (GroupVersionResource * string * list unstructured) :=
  let 'existT o x := e in
  match o return ans o → _ with
  | ODynList rsrc ns label value => λ x,
      match x with
      | Ok items =>
          if ((label ==? ParentPolicyLabel) && (value ==? policy))%bool
          then Some (rsrc, ns, items) else None
      | Err _ => None
      end
  | _ => λ _, None
  end x.

(** The excess objects of an answer, as the deletions that remove them. *)
Definition excess (names : list string) (l : GroupVersionResource * string * list unstructured)
    : list op :=
  let '(rsrc, ns, items) := l in
  map (λ u, ODynDelete rsrc ns (u_Name u)) (filter (λ u, u_Name u ∉ names) items).

Definition is_delete (o : op) : bool := match o with ODynDelete _ _ _ => true | _ => false end.

(** The deletions of a trace are exactly the excess objects of its lists, in order. *)
Definition deletes_excess (policy : string) (names : list string) (t : trace) : Prop :=
  filter (λ o, is_delete o = true) (ops t) = concat (map (excess names) (omap (listed policy) t)).

Lemma deletes_excess_app policy names t1 t2 :
  deletes_excess policy names t1 → deletes_excess policy names t2 →
  deletes_excess policy names (t1 ++ t2).
Proof.
  unfold deletes_excess. intros H1 H2.
  by rewrite ops_app, filter_app, omap_app, map_app, concat_app, H1, H2.
Qed.

Lemma deletes_excess_quiet policy names (t : trace) :
  Forall (λ o, match o with ODynDelete _ _ _ | ODynList _ _ _ _ => False | _ => True end) (ops t) →
  deletes_excess policy names t.
Proof.
  unfold deletes_excess, ops. induction t as [|[o x] t IH]; simpl; [done|].
  intros [Ho Ht]%Forall_cons. specialize (IH Ht). destruct o; simpl in *; by rewrite ?filter_cons.
Qed.

Lemma excess_deletes names l : Forall (λ o, is_delete o = true) (excess names l).
Proof. destruct l as [[rsrc ns] items]. apply Forall_map. by apply Forall_true. Qed.

Lemma no_lists policy (t : trace) :
  Forall (λ o, is_delete o = true) (ops t) → omap (listed policy) t = [].
Proof.
  induction t as [|[o x] t IH]; simpl; [done|]. intros [Ho Ht]%Forall_cons.
  destruct o; try done. by apply IH.
Qed.

Section cleanup_facts.
Context `{F : FmtLib}.
Variable (r : PolicyReconciler) (instance : Policy) (names : list string).

Lemma delete_children_trace g ns items errs :
  wp (fold_each (delete_child g ns names) items errs)
    (λ t res, ops t = excess names (gs_gvr g, ns, items) ∧ res ≠ Panicked).
Proof.
  revert errs. induction items as [|u items IH]; intros errs; simpl; [done|].
  apply wp_bind. unfold delete_child.
  destruct (existsb _ names) eqn:E; simpl.
  - eapply wp_mono; [apply IH|]. intros t res [Ht Hres]. split; [|done]. rewrite Ht. simpl.
    apply existsb_elem in E as (n & Hn & He). breflect. subst n.
    by rewrite filter_cons_False by (by intros []).
  - intros [e|]; simpl; (eapply wp_mono; [apply IH|]); intros t res [Ht Hres]; (split; [|done]);
      simpl; rewrite Ht; simpl; rewrite filter_cons_True; try done;
      (intros Hin; rewrite existsb_false, Forall_forall in E; specialize (E _ Hin); by breflect).
Qed.

Lemma clean_resource_trace g errs :
  wp (clean_resource r instance names errs g)
    (λ t res, deletes_excess (p_Name instance) names t ∧ res ≠ Panicked).
Proof.
  unfold clean_resource. simpl. intros [items|e]; simpl.
  - eapply wp_mono; [apply delete_children_trace|]. intros t res [Ht Hres]. split; [|done].
    unfold deletes_excess. simpl. rewrite !bool_decide_refl; simpl.
    rewrite filter_cons_False by done. rewrite Ht.
    rewrite filter_all by apply excess_deletes.
    change (list_omap _ _ ?f t) with (omap f t).
    rewrite (no_lists (p_Name instance) t); [simpl; by rewrite app_nil_r|].
    rewrite Ht. apply excess_deletes.
  - by split.
Qed.

Lemma clean_resources_trace gs errs :
  wp (fold_each (clean_resource r instance names) gs errs)
    (λ t _, deletes_excess (p_Name instance) names t).
Proof.
  apply (wp_fold_each _ gs errs (λ t _ _, deletes_excess (p_Name instance) names t)
    (λ t _, deletes_excess (p_Name instance) names t) []); [done| |done].
  intros t g gs' errs' Ht. eapply wp_mono; [apply clean_resource_trace|].
  intros t' [errs''|] [Ht' Hres]; by apply deletes_excess_app.
Qed.

(** The calls before the loop delete nothing and list no children. *)
Definition quiet (o : op) : Prop :=
  match o with ODynDelete _ _ _ | ODynList _ _ _ _ => False | _ => True end.

Lemma gatekeeper_gvrs_quiet : all_ops quiet gatekeeper_gvrs.
Proof.
  unfold gatekeeper_gvrs, should_query_constraints, setCreatedGkConstraint.
  apply all_ops_bind.
  { simpl. split; [done|]. intros [b|]; simpl; [|done]. split; [done|]. by intros [b'|]. }
  intros [|]; simpl; [|done]. split; [done|]. intros [items|e]; simpl.
  - apply all_ops_bind; [|done]. by case_match.
  - destruct (IsNoMatchError e); simpl; [|done]. split; [done|].
    intros [items|e']; simpl; [done|]. by case_match.
Qed.

Lemma crd_gvrs_quiet : all_ops quiet crd_gvrs.
Proof.
  unfold crd_gvrs; simpl. split; [done|]. intros [items|e]; [done|]. case_match; [|done].
  simpl. split; [done|]. by intros [items|e'].
Qed.

Lemma quiet_trace {A} (p : prg A) :
  all_ops quiet p → wp p (λ t _, deletes_excess (p_Name instance) names t).
Proof.
  intros Hp. eapply wp_mono; [by apply all_ops_wp|]. intros t res Ht. by apply deletes_excess_quiet.
Qed.

Lemma cleanup_trace :
  wp (cleanUpExcessTemplates r instance names)
    (λ t _, deletes_excess (p_Name instance) names t).
Proof.
  unfold cleanUpExcessTemplates. apply wp_bind.
  eapply wp_mono; [apply quiet_trace, gatekeeper_gvrs_quiet|]. intros t1 [gk|] H1; [|done].
  apply wp_bind. eapply wp_mono; [apply quiet_trace, crd_gvrs_quiet|].
  intros t2 [[crds|e]|] H2; simpl; try (rewrite ?app_nil_r; by apply deletes_excess_app).
  apply wp_bind. eapply wp_mono; [apply clean_resources_trace|].
  intros t3 [errs|] H3; simpl; rewrite ?app_nil_r; repeat apply deletes_excess_app; done.
Qed.

End cleanup_facts.

(** ** What the finalizer waits for *)

(** Nothing is left to do for a template: it cannot be read while the addon is uninstalled, it is
    not an object with a name, its kind is gone or namespaced, or its object is deleted. *)
Definition cleaned `{DecodeLib} (f : ∀ o, ans o) (t : PolicyTemplate) : Prop :=
  match Decode (pt_Raw t) with
  | Err _ => f OReadUninstalling = true
  | Ok (_, None) => True
  | Ok (gvk, Some obj) =>
      match discovered gvk (f (discovery_call gvk)) with
      | Err e => has_reason NoVersionedResource e = true
      | Ok (_, true) => True
      | Ok (rsrc, false) =>
          match f (ODynDelete rsrc "" (u_Name obj)) with
          | None => True
          | Some e => IsNotFound e = true
          end
      end
  end.

Section finalizer_facts.
Context `{D : DecodeLib}.

Definition cleanup_errors (f : ∀ o, ans o) (pol : Policy) (t : PolicyTemplate) : list error :=
  match eval f (cleanup_template pol [] t) with Returned l => l | Panicked => [] end.

Lemma cleanup_template_spec f pol errs t :
  eval f (cleanup_template pol errs t) = Returned (errs ++ cleanup_errors f pol t) ∧
  (cleanup_errors f pol t = [] ↔ cleaned f t).
Proof.
  unfold cleanup_errors, cleanup_template, cleaned.
  destruct (Decode (pt_Raw t)) as [[gvk [obj|]]|e]; [|simpl; by rewrite app_nil_r|].
  - rewrite !eval_bind, GVRFromGVK_eval.
    destruct (discovered _ _) as [[rsrc [|]]|e]; simpl; [by rewrite app_nil_r| |].
    + destruct (f (ODynDelete _ _ _)) as [e|]; simpl; [|by rewrite app_nil_r].
      destruct (IsNotFound e); simpl; by rewrite ?app_nil_r.
    + destruct (has_reason NoVersionedResource e); simpl; by rewrite ?app_nil_r.
  - simpl. destruct (f OReadUninstalling); by rewrite ?app_nil_r.
Qed.

Lemma foldl_app_concat {A B} (g : A → list B) l acc :
  foldl (λ acc x, acc ++ g x) acc l = acc ++ concat (map g l).
Proof.
  revert acc. induction l as [|x l IH]; intros acc; simpl; [by rewrite app_nil_r|].
  by rewrite IH, app_assoc.
Qed.

Lemma Aggregate_None l : Aggregate l = None ↔ l = [].
Proof.
  destruct l as [|e l]; [done|]. unfold Aggregate; simpl. by rewrite aggregate_from_Some.
Qed.

Lemma finalizerCleanup_spec f pol :
  eval f (finalizerCleanup pol) =
    Returned (Aggregate (concat (map (cleanup_errors f pol) (ps_PolicyTemplates (p_Spec pol))))).
Proof.
  unfold finalizerCleanup.
  rewrite eval_bind, (eval_fold_each f _ (λ errs t, errs ++ cleanup_errors f pol t));
    [|intros; apply cleanup_template_spec].
  simpl. by rewrite foldl_app_concat.
Qed.

Lemma finalizerCleanup_exact_aux f pol :
  ∃ err, eval f (finalizerCleanup pol) = Returned err ∧
  (err = None ↔ Forall (cleaned f) (ps_PolicyTemplates (p_Spec pol))).
Proof.
  eexists. split; [apply finalizerCleanup_spec|]. rewrite Aggregate_None.
  induction (ps_PolicyTemplates (p_Spec pol)) as [|t l IH]; simpl; [done|].
  rewrite app_nil, IH, Forall_cons. by rewrite (proj2 (cleanup_template_spec f pol [] t)).
Qed.

End finalizer_facts.

(** ** Events that were already reported *)

#[local] Arguments String.append : simpl nomatch.

Lemma TrimRightSpace_app a s :
  TrimRightSpace s = s → s ≠ "" → TrimRightSpace (a +:+ s) = a +:+ s.
Proof.
  intros Hs Hne. induction a as [|c a IH]; simpl; [done|]. rewrite IH.
  rewrite (bool_decide_eq_false_2 (a +:+ s = "")); [by rewrite andb_false_r|].
  by destruct a, s.
Qed.

Lemma Contains_refl s : Contains s s = true.
Proof. apply Contains_spec. exists "", "". simpl. by rewrite str_app_nil_r. Qed.

(** The message of a compliance event is kept as it is, unless it ends in white space. *)
Lemma compliance_message_kept c inst owner reason msg compliance now :
  compliance ∈ [Compliant; NonCompliant; Pending] → TrimRightSpace msg = msg → msg ≠ "" →
  ch_Message (event_history (compliance_event c inst owner reason msg compliance now)) =
  compliance +:+ "; " +:+ msg.
Proof.
  intros Hc Hm Hne. unfold event_history; simpl.
  assert (∀ c0 a, is_space c0 = false → c0 ≠ "("%char →
    TrimSpace (TrimPrefix (String c0 a +:+ msg) combined_prefix) = String c0 a +:+ msg) as Hgen.
  { intros c0 a Hsp Hpar. unfold TrimPrefix.
    assert (HasPrefix (String c0 a +:+ msg) combined_prefix = false) as ->.
    { apply not_true_iff_false. intros [s' Hs]%HasPrefix_spec. unfold combined_prefix in Hs.
      simpl in Hs. injection Hs. congruence. }
    unfold TrimSpace. simpl TrimLeftSpace. rewrite Hsp.
    apply (TrimRightSpace_app (String c0 a)); done. }
  rewrite !elem_of_cons, elem_of_nil in Hc.
  destruct Hc as [->|[->|[->|[]]]];
    [apply (Hgen "C"%char "ompliant; ")|apply (Hgen "N"%char "onCompliant; ")|
     apply (Hgen "P"%char "ending; ")]; done.
Qed.

(** ** Properties *)

(** C10: the dependencies reported as unmet are exactly those of the template that are not
    satisfied, in whatever order Go visits them: unknown kinds, missing or unreadable objects, and
    objects whose compliance is not the wanted one all count as unmet, and a ConstraintTemplate that
    is wanted not to be Compliant is satisfied by being absent. *)
Theorem process_dependencies_exact `{U : UnstructuredLib} `{!UnstructuredLaws U}
    `{R : MapRange} `{!MapRangeLaws R} (f : ∀ o, ans o) (templateDeps : deps) :
  ∃ failures, eval f (processDependencies templateDeps) = Returned failures ∧
  ∀ dep, match templateDeps !! dep with
         | Some wanted => failures !! dep = None ↔ satisfied f dep wanted
         | None => failures !! dep = None
         end.
Proof. apply processDependencies_exact_aux. Qed.

(** C11: whatever the API server answers, the cleanup after a reconcile deletes exactly the excess
    objects: those that a list by the label of the parent policy returned and that are not named
    in the policy any more, each in the resource and namespace it was listed in, and in that order.
    A template that is still in the policy is never deleted. *)
Theorem cleanup_deletes_exactly_excess {W} (h : env W) `{F : FmtLib} r w instance names :
  deletes_excess (p_Name instance) names
    (trace_of (run h w (cleanUpExcessTemplates r instance names))).
Proof. apply (wp_run h w _ (λ t _, _) (cleanup_trace r instance names)). Qed.

(** C13: the cleanup for the finalizer succeeds exactly when nothing is left for any template: an
    object of a cluster-scoped kind is deleted or was gone, and only a template that cannot be read
    while the addon is not being uninstalled, an unreachable discovery or a failed deletion stands
    in the way. *)
Theorem finalizer_cleanup_exact `{D : DecodeLib} (f : ∀ o, ans o) pol :
  ∃ err, eval f (finalizerCleanup pol) = Returned err ∧
  (err = None ↔ Forall (cleaned f) (ps_PolicyTemplates (p_Spec pol))).
Proof.
  apply finalizerCleanup_exact_aux.
Qed.

(** C25: a template event is sent exactly when the status of the freshly read policy does not have
    its message yet: nothing is sent when the policy cannot be read or already reports the message,
    and otherwise one compliance event for this template is created, after one informational
    event. *)
Theorem emit_event_exact {W} (h : env W) `{D : DecodeLib} r w pol tIndex tName clusterScoped
    eventType compliance msg policyT :
  ps_PolicyTemplates (p_Spec pol) !! tIndex = Some policyT →
  let t := trace_of (run h w
    (emitTemplateEvent r pol tIndex tName clusterScoped eventType compliance msg)) in
  let get := OPolicyGet Managed (policy_nn pol) in
  let reason := EventReason (if clusterScoped : bool then "" else p_Namespace pol) tName in
  match (h w get).2 with
  | Err e => t = [ev get (Err e)]
  | Ok p =>
      if Contains (getLatestStatusMessage p tIndex) (compliance +:+ "; " +:+ msg)
      then t = [ev get (Ok p)]
      else ∃ instance now out, t =
        [ev get (Ok p);
         ev (OEventf Managed (policy_nn pol) eventType "PolicyTemplateSync" "PolicyTemplateSync" msg)
           tt;
         ev ONow now;
         ev (OEventCreate (p_Namespace pol)
               (compliance_event (Sender (p_Namespace pol) (InstanceName r) ControllerName) instance
                  (OwnerRef (p_APIVersion pol) (p_Kind pol) (p_Name pol) (p_UID pol) "")
                  reason msg compliance now)) out]
  end.
Proof.
  intros HT. cbv zeta. unfold emitTemplateEvent, record_template_event, SendEvent; simpl.
  destruct (h w _) as [w1 [p|e]]; simpl; [|done].
  case_match; simpl; [done|]. destruct (h w1 _) as [w2 []]; simpl. rewrite HT; simpl.
  destruct (h w2 ONow) as [w3 now]; simpl.
  set (i := match UnmarshalUnstructured _ with Ok _ => _ | _ => _ end).
  set (reason := if clusterScoped then EventReason _ _ else _).
  destruct (h w3 _) as [w4 out]; simpl. exists i, now, out. unfold reason. by destruct clusterScoped.
Qed.

(** A template event is not repeated.  Once status-sync has made the event of a message the
    newest entry of the template's history, sending the same message again does nothing but read
    the policy, provided that the message does not end in white space (which status-sync trims). *)
Theorem reported_event_not_repeated {W} (h : env W) `{D : DecodeLib} `{T : TimeLib} r w pol tIndex tName
    clusterScoped eventType compliance msg c inst owner reason now p d hist :
  compliance ∈ [Compliant; NonCompliant; Pending] → TrimRightSpace msg = msg → msg ≠ "" →
  (h w (OPolicyGet Managed (policy_nn pol))).2 = Ok p →
  st_Details (p_Status p) !! tIndex = Some (Some d) →
  dpt_History d = truncate
    (precise (event_history (compliance_event c inst owner reason msg compliance now))) :: hist →
  let '(_, t, res) :=
    run h w (emitTemplateEvent r pol tIndex tName clusterScoped eventType compliance msg) in
  ops t = [OPolicyGet Managed (policy_nn pol)] ∧ res = Returned None.
Proof.
  intros Hc Hm Hne Hget Hd Hh. unfold emitTemplateEvent; simpl.
  destruct (h w _) as [w1 x]; simpl in Hget; subst x.
  unfold getLatestStatusMessage. rewrite Hd, Hh. simpl ch_Message. rewrite precise_message.
  rewrite compliance_message_kept by done. by rewrite Contains_refl.
Qed.

(** ** Witnesses *)

Lemma process_dependencies_exact_witness :
  ∃ failures, eval default_ans (processDependencies (U := unstructured_ref) (R := range_ref)
    {[ObjID policy_group "v1" "Policy" "managed" "dep" := "Compliant"]}) = Returned failures ∧
  ∀ dep, match ({[ObjID policy_group "v1" "Policy" "managed" "dep" := "Compliant"]} : deps) !! dep with
         | Some wanted => failures !! dep = None ↔ satisfied default_ans dep wanted
         | None => failures !! dep = None
         end.
Proof. apply (process_dependencies_exact (U := unstructured_ref) (R := range_ref)). Defined.

Definition demo_sender : PolicyReconciler := MkReconciler "managed" "pod" false.

Lemma emit_event_exact_witness :
  trace_of (run (const_env default_ans) tt (emitTemplateEvent (D := name_decode) demo_sender
    (demo_instance "inform" ["t"]) 0 "t" false "Normal" Compliant "ok")) =
  [ev (OPolicyGet Managed (NN "managed" "p")) (Err not_found)].
Proof.
  exact (emit_event_exact (const_env default_ans) (D := name_decode) demo_sender tt
    (demo_instance "inform" ["t"]) 0 "t" false "Normal" Compliant "ok" (Template "t" [] false)
    eq_refl).
Defined.

Definition reported_policy : Policy :=
  p_set_Status (Status "NonCompliant"
    [Some (Details (new_meta "t" "") "NonCompliant"
       [truncate (T := time_ref) (precise (event_history (compliance_event
          (Sender "managed" "pod" ControllerName) None (OwnerRef "" "Policy" "p" "" "")
          "policy: managed/t" "template-error; oops" NonCompliant 1709130939198988588)))])] "")
    (demo_instance "inform" ["t"]).
Definition reported_answers (o : op) : ans o :=
  match o return ans o with
  | OPolicyGet _ _ => Ok reported_policy
  | o => default_ans o
  end.

Lemma reported_event_not_repeated_witness :
  let '(_, t, res) := run (const_env reported_answers) tt
    (emitTemplateEvent (D := name_decode) demo_sender (demo_instance "inform" ["t"]) 0 "t" false
       "Warning" NonCompliant "template-error; oops") in
  ops t = [OPolicyGet Managed (policy_nn (demo_instance "inform" ["t"]))] ∧ res = Returned None.
Proof.
  apply (reported_event_not_repeated (const_env reported_answers) (D := name_decode)
    (T := time_ref) demo_sender tt (demo_instance "inform" ["t"]) 0 "t" false "Warning" NonCompliant
    "template-error; oops" (Sender "managed" "pod" ControllerName) None
    (OwnerRef "" "Policy" "p" "" "") "policy: managed/t" 1709130939198988588 reported_policy
    (Details (new_meta "t" "") "NonCompliant"
       [truncate (T := time_ref) (precise (event_history (compliance_event
          (Sender "managed" "pod" ControllerName) None (OwnerRef "" "Policy" "p" "" "")
          "policy: managed/t" "template-error; oops" NonCompliant 1709130939198988588)))]) []);
    [|reflexivity|discriminate|reflexivity..].
  right. left.
Defined.
