(* ===== verification/TemplateSync.v ===== *)
(** * controllers/templatesync

    The template-sync controller creates, updates and deletes the objects a policy's templates
    describe.  This file has its main loop and the whole [Reconcile] handler of
    [template_sync.go]; the methods they call are in [TemplateObjects] and [TemplateActions].  One
    round of the loop either goes on with the next template, with a new loop state, or returns from
    the handler. *)

From S2P Require Import Prelude Prog GoStrings K8s Effects Utils TemplateObjects TemplateActions.
From Stdlib Require Import Ascii.

(** The variables the loop over the templates updates. *)
Record sync_state := SyncState {
  resultError : option error;
  templateNames : list string;
  childTemplates : list ObjectIdentifier;
  addFinalizer : bool;
  allDeps : deps }.

Definition set_error (err : error) (s : sync_state) : sync_state :=
  SyncState (Some err) (templateNames s) (childTemplates s) (addFinalizer s) (allDeps s).
Definition assign_error (err : option error) (s : sync_state) : sync_state :=
  SyncState err (templateNames s) (childTemplates s) (addFinalizer s) (allDeps s).
Definition add_name (name : string) (s : sync_state) : sync_state :=
  SyncState (resultError s) (templateNames s ++ [name]) (childTemplates s) (addFinalizer s) (allDeps s).
Definition add_child (id : ObjectIdentifier) (s : sync_state) : sync_state :=
  SyncState (resultError s) (templateNames s) (childTemplates s ++ [id]) (addFinalizer s) (allDeps s).
Definition need_finalizer (s : sync_state) : sync_state :=
  SyncState (resultError s) (templateNames s) (childTemplates s) true (allDeps s).
Definition set_allDeps (d : deps) (s : sync_state) : sync_state :=
  SyncState (resultError s) (templateNames s) (childTemplates s) (addFinalizer s) d.

(** An error that is remembered only when there is one. *)
Definition note_error (err : option error) (s : sync_state) : sync_state :=
  match err with Some e => set_error e s | None => s end.

(** ** Dependencies *)

Definition conflict_error (dep : PolicyDependency) : error :=
  Error OtherReason ("dependency on " +:+ dep_Name dep +:+ " has conflicting compliance states").

(** The loop over [policyT.ExtraDependencies]: all dependencies, those of the template, and the
    dependency that conflicts with an earlier one. *)
Fixpoint extra_deps (clusterNamespace : string) (l : list PolicyDependency) (all template : deps)
    : deps * deps * option PolicyDependency :=
  match l with
  | [] => (all, template, None)
  | dep :: l' =>
      let depID := dep_ID clusterNamespace dep in
      let conflict :=
        match template !! depID with
        | Some existingDep => existingDep !=? dep_Compliance dep
        | None => false
        end in
      if conflict then (all, template, Some dep)
      else extra_deps clusterNamespace l' (<[depID := dep_Compliance dep]> all)
             (<[depID := dep_Compliance dep]> template)
  end.

(** One round of the loop over [instance.Spec.Dependencies]; [allDeps] and [topLevelDeps] are
    equal after it. *)
Definition add_top_level (clusterNamespace : string) (policy : string) (topLevelDeps : deps)
    (dep : PolicyDependency) : prg deps :=
  let depID := dep_ID clusterNamespace dep in
  let conflict :=
    match topLevelDeps !! depID with
    | Some existingDep => existingDep !=? dep_Compliance dep
    | None => false
    end in
  if conflict then
    do! user_error policy "" "dependency-error" in
    Ret topLevelDeps
  else Ret (<[depID := dep_Compliance dep]> topLevelDeps).

(** ** Kinds *)

Definition isGkConstraintTemplate (gvk : GroupVersionKind) : bool :=
  (gvk_Group gvk ==? GvkConstraintTemplate_Group) && (gvk_Kind gvk ==? GvkConstraintTemplate_Kind).
Definition isGkConstraint (gvk : GroupVersionKind) : bool := gvk_Group gvk ==? GConstraint.
Definition isGkObj (gvk : GroupVersionKind) : bool :=
  isGkConstraintTemplate gvk || isGkConstraint gvk.

Definition policy_GVK : GroupVersionKind := GVK policy_group policy_version policy_kind.

Definition indexed_name (tIndex : nat) : string := "template-" +:+ pretty tIndex.

Definition dquote : string := String (ascii_of_nat 34) "".

(** The regular expression for two alternatives in one template: a literal suffix. *)
Definition multiTemplate (msg : string) : bool :=
  HasSuffix msg
    ("spec" +:+ dquote +:+
     " must validate one and only one schema (oneOf). Found 2 valid alternatives").

Section sync.
Context `{U : UnstructuredLib} `{D : DecodeLib} `{R : MapRange} `{F : FmtLib} `{S : SchemeLib}
  `{O : OwnerLib}.
Variable (r : PolicyReconciler) (request : NamespacedName) (instance : Policy).

(** What is known of the template the loop is at. *)
Record template_ctx := TemplateCtx {
  tc_Index : nat;
  tc_GVK : GroupVersionKind;
  tc_Meta : unstructured;            (* metaObj *)
  tc_Name : string;
  tc_rsrc : GroupVersionResource;
  tc_ClusterScoped : bool }.

Definition resourceNs (c : template_ctx) : string :=
  if tc_ClusterScoped c then "" else p_Namespace instance.

(** [_ = r.emitTemplateError(...)] *)
Definition report_error (tIndex : nat) (tName : string) (clusterScoped : bool) (msg : string)
    : prg unit :=
  do! emitTemplateError r instance tIndex tName clusterScoped msg in Ret tt.

Definition next (s : sync_state) : prg (ctl sync_state reconciled) := Ret (Next s).
Definition return_error (err : error) : prg (ctl sync_state reconciled) :=
  Ret (Exit (done_err err)).

(** The status event of a ConstraintTemplate, which generates no status itself. *)
Definition emit_ct_success (c : template_ctx) (verb : string) (s : sync_state) : prg sync_state :=
  let! emitErr := emitTemplateSuccess r instance (tc_Index c) (tc_Name c) (tc_ClusterScoped c)
    (gvk_Kind (tc_GVK c) +:+ " " +:+ tc_Name c +:+ " was " +:+ verb +:+ " successfully") in
  Ret (note_error emitErr s).

(** After a cluster-scoped object was created or updated. *)
Definition synced_clusterwide (c : template_ctx) (verb : string) (s : sync_state)
    : prg sync_state :=
  if tc_ClusterScoped c then
    let s := need_finalizer s in
    do! (if isGkObj (tc_GVK c) then setCreatedGkConstraint true else Ret tt) in
    if isGkConstraintTemplate (tc_GVK c) then emit_ct_success c verb s else Ret s
  else Ret s.

(** [r.handleSyncSuccess(...)] and the counter of its failures. *)
Definition finish_sync (c : template_ctx) (msg : string) (obj : unstructured) (s : sync_state)
    : prg sync_state :=
  let! err := handleSyncSuccess instance (tc_Index c) (tc_Name c) msg (tc_rsrc c) (resourceNs c)
    (gvk_Group (tc_GVK c)) obj in
  match err with
  | Some err =>
      do! system_error (p_Name instance) (tc_Name c) "patch-error" in
      Ret (set_error err s)
  | None => Ret s
  end.

Definition set_owner (t : unstructured) : unstructured :=
  u_set_Meta (meta_set_OwnerReferences [NewControllerRef instance policy_GVK]) t.

Definition set_labels (t : unstructured) : unstructured :=
  u_set_Meta (meta_set_Labels (setDefaultTemplateLabels r instance (u_Labels t))) t.

(** The object that is created for a template. *)
Definition new_object (c : template_ctx) (t : unstructured) : unstructured :=
  let t := if tc_ClusterScoped c then t else set_owner t in
  let t := set_labels t in
  let t := overrideRemediationAction instance t in
  u_set_Meta (meta_set_Namespace (resourceNs c)) t.

(** ** The object does not exist *)

Definition create_failed (c : template_ctx) (err : error) (s : sync_state)
    : prg (ctl sync_state reconciled) :=
  let err :=
    if multiTemplate (err_msg err) then
      Error OtherReason
        ("ConfigurationPolicy.policy.open-cluster-management.io " +:+ dquote +:+ tc_Name c +:+
         dquote +:+ " is invalid: spec may only contain one of object-templates and " +:+
         "object-templates-raw")
    else err in
  do! report_error (tc_Index c) (tc_Name c) (tc_ClusterScoped c)
        ("Failed to create policy template: " +:+ err_msg err) in
  if IsInvalid err then
    do! user_error (p_Name instance) (tc_Name c) "format-error" in
    next s
  else
    do! system_error (p_Name instance) (tc_Name c) "create-error" in
    next (set_error err s).

Definition hub_template_error (c : template_ctx) : string :=
  str_index (u_Annotations (tc_Meta c)) hubTmplErrorKey.

Definition after_create (c : template_ctx) (eObject : unstructured) (s : sync_state)
    : prg (ctl sync_state reconciled) :=
  let! s := synced_clusterwide c "created" s in
  let! s := finish_sync c ("Policy template " +:+ tc_Name c +:+ " created successfully") eObject s in
  next s.

Definition create_template (c : template_ctx) (dependencyFailures : deps) (t : unstructured)
    (s : sync_state) : prg (ctl sync_state reconciled) :=
  if negb (Nat.eqb (size dependencyFailures) 0) then
    let! emitErr := emitTemplatePending r instance (tc_Index c) (tc_Name c) (tc_ClusterScoped c)
      (generatePendingMsg dependencyFailures) in
    next (note_error emitErr s)
  else if hub_template_error c !=? "" then
    do! report_error (tc_Index c) (tc_Name c) (tc_ClusterScoped c) (hub_template_error c) in
    do! user_error (p_Name instance) (tc_Name c) "format-error" in
    next s
  else
    let t := new_object c t in
    let! created := call (ODynCreate (tc_rsrc c) (resourceNs c) t) in
    match created with
    | Err err => create_failed c err s
    | Ok eObject =>
        if isGkConstraintTemplate (tc_GVK c) then
          let! sent := emitGKConstraintTemplateErrMsg r t (tc_rsrc c) (resourceNs c) instance
            (tc_Index c) (tc_Name c) in
          match sent with
          | Err err => return_error err
          | Ok true => next s
          | Ok false => after_create c eObject s
          end
        else after_create c eObject s
    end.

(** ** The object exists *)

Definition delete_pending (c : template_ctx) (dependencyFailures : deps) (s : sync_state)
    : prg (ctl sync_state reconciled) :=
  let! emitErr := emitTemplatePending r instance (tc_Index c) (tc_Name c) (tc_ClusterScoped c)
    (generatePendingMsg dependencyFailures) in
  (* resultError = err, and err is nil here *)
  let s := match emitErr with Some _ => assign_error None s | None => s end in
  let! err := call (ODynDelete (tc_rsrc c) (resourceNs c) (tc_Name c)) in
  match err with
  | Some err =>
      do! system_error (p_Name instance) (tc_Name c) "delete-error" in
      next (set_error err s)
  | None => next s
  end.

Definition prune_none : json_patch := PatchReplace "/spec/pruneObjectBehavior" "None".

Definition delete_with_hub_error (c : template_ctx) (s : sync_state)
    : prg (ctl sync_state reconciled) :=
  do! report_error (tc_Index c) (tc_Name c) (tc_ClusterScoped c) (hub_template_error c) in
  do! user_error (p_Name instance) (tc_Name c) "format-error" in
  let! patched :=
    if gvr_Resource (tc_rsrc c) ==? "configurationpolicies"
    then call (ODynPatch (tc_rsrc c) (resourceNs c) (tc_Name c) prune_none None)
    else Ret None in
  match patched with
  | Some err => next (set_error err s)
  | None =>
      let! err := call (ODynDelete (tc_rsrc c) (resourceNs c) (tc_Name c)) in
      match err with
      | Some err =>
          do! system_error (p_Name instance) (tc_Name c) "delete-error" in
          next (set_error err s)
      | None => next s
      end
  end.

(** The name of the first owner, if there is one. *)
Definition first_owner (u : unstructured) : string :=
  match u_OwnerReferences u with ownerref :: _ => or_Name ownerref | [] => "" end.

(** The owner references the template gets, and the name of the policy that owns the object. *)
Definition resolve_owner (c : template_ctx) (eObject t : unstructured) : unstructured * string :=
  let parentPolicy := str_index (u_Labels eObject) ParentPolicyLabel in
  let refName := first_owner eObject in
  let '(t, refName) :=
    if (negb (tc_ClusterScoped c) && (refName ==? "") && (parentPolicy ==? p_Name instance))%bool
    then (set_owner t, p_Name instance)
    else (u_set_Meta (meta_set_OwnerReferences (u_OwnerReferences eObject)) t, refName) in
  (t, if refName ==? "" then parentPolicy else refName).

Definition not_unique_msg (c : template_ctx) (t : unstructured) (refName : string) : string :=
  "Template name must be unique. Policy template with kind: " +:+ u_Kind t +:+ " name: " +:+
  tc_Name c +:+
  (if refName ==? "" then " already exists outside of a Policy"
   else " already exists in policy " +:+ refName).

Definition update_failed (c : template_ctx) (err : error) (s : sync_state)
    : prg (ctl sync_state reconciled) :=
  if IsConflict err then return_error err
  else
    do! report_error (tc_Index c) (tc_Name c) (tc_ClusterScoped c)
          ("Failed to update policy template " +:+ tc_Name c +:+ ": " +:+ err_msg err) in
    if IsInvalid err then
      do! user_error (p_Name instance) (tc_Name c) "format-error" in
      next s
    else
      do! system_error (p_Name instance) (tc_Name c) "patch-error" in
      next (set_error err s).

(** The end of a round that found or made the object right. *)
Definition in_sync_end (c : template_ctx) (s : sync_state) : prg (ctl sync_state reconciled) :=
  if tc_ClusterScoped c then
    do! (if isGkObj (tc_GVK c) then setCreatedGkConstraint true else Ret tt) in
    next (need_finalizer s)
  else next s.

(** The template as it should be on the cluster. *)
Definition desired_object (c : template_ctx) (t : unstructured) : unstructured :=
  let t := if isGkConstraintTemplate (tc_GVK c) then (ApplyObjectDefaults t).1 else t in
  overrideRemediationAction instance (set_labels t).

Definition compare_and_update (c : template_ctx) (eObject t : unstructured) (s : sync_state)
    : prg (ctl sync_state reconciled) :=
  let t := desired_object c t in
  let '(equivalent, t) := equivalentTemplates eObject t in
  if negb equivalent then
    let previousRV := m_ResourceVersion (u_Meta eObject) in
    let eObject := merge_template_into eObject t in
    let! updated := call (ODynUpdate (tc_rsrc c) (resourceNs c) eObject) in
    match updated with
    | Err err => update_failed c err s
    | Ok updatedObj =>
        if m_ResourceVersion (u_Meta updatedObj) !=? previousRV then
          let! s := synced_clusterwide c "updated" s in
          let! s := finish_sync c
            ("Policy template " +:+ tc_Name c +:+ " was updated successfully") eObject s in
          in_sync_end c s
        else in_sync_end c s
    end
  else
    let! s := finish_sync c "" eObject s in
    in_sync_end c s.

Definition sync_existing (c : template_ctx) (dependencyFailures : deps) (eObject t : unstructured)
    (s : sync_state) : prg (ctl sync_state reconciled) :=
  if negb (Nat.eqb (size dependencyFailures) 0) then delete_pending c dependencyFailures s
  else if hub_template_error c !=? "" then delete_with_hub_error c s
  else
    let '(t, refName) := resolve_owner c eObject t in
    if p_Name instance !=? refName then
      let errMsg := not_unique_msg c t refName in
      do! report_error (tc_Index c) (tc_Name c) (tc_ClusterScoped c) errMsg in
      do! user_error (p_Name instance) (tc_Name c) "format-error" in
      next (set_error (Error BadRequest errMsg) s)
    else compare_and_update c eObject t s.

(** The status event of an existing ConstraintTemplate comes first. *)
Definition template_exists (c : template_ctx) (dependencyFailures : deps) (eObject t : unstructured)
    (s : sync_state) : prg (ctl sync_state reconciled) :=
  if isGkConstraintTemplate (tc_GVK c) then
    let! sent := emitGKConstraintTemplateErrMsg r t (tc_rsrc c) (resourceNs c) instance
      (tc_Index c) (tc_Name c) in
    match sent with
    | Err err => return_error err
    | Ok true => sync_existing c dependencyFailures eObject t s
    | Ok false =>
        let! s := emit_ct_success c "created" s in
        sync_existing c dependencyFailures eObject t s
    end
  else sync_existing c dependencyFailures eObject t s.

(** ** One template *)

Definition get_failed (c : template_ctx) (err : error) (s : sync_state)
    : prg (ctl sync_state reconciled) :=
  if has_reason Canceled err
  then return_error (wrap "failed to get the object in the policy template: " err)
  else
    do! report_error (tc_Index c) (tc_Name c) (tc_ClusterScoped c)
          ("Failed to get the object in the policy template: " +:+ err_msg err) in
    do! system_error (p_Name instance) (tc_Name c) "get-error" in
    next (set_error err s).

(** The kind is supported: check the dependencies and look for the object. *)
Definition sync_supported (c : template_ctx) (templateDeps : deps) (raw : string) (s : sync_state)
    : prg (ctl sync_state reconciled) :=
  let! dependencyFailures := processDependencies templateDeps in
  match UnmarshalUnstructured raw with
  | Err err =>
      do! report_error (tc_Index c) (tc_Name c) (tc_ClusterScoped c)
            ("Failed to unmarshal the policy template: " +:+ err_msg err) in
      do! system_error (p_Name instance) (tc_Name c) "unmarshal-error" in
      next (set_error err s)
  | Ok t =>
      let gvk := tc_GVK c in
      let s := add_child (ObjID (gvk_Group gvk) (gvk_Version gvk) (gvk_Kind gvk) (resourceNs c)
                            (tc_Name c)) s in
      let! got := call (ODynGet (tc_rsrc c) (resourceNs c) (tc_Name c)) in
      match got with
      | Err err =>
          if IsNotFound err then create_template c dependencyFailures t s else get_failed c err s
      | Ok eObject => template_exists c dependencyFailures eObject t s
      end
  end.

Definition no_mapping_msg (gvk : GroupVersionKind) (err : error) : string :=
  (if (isGkObj gvk && DisableGkSync r)%bool
   then "A Gatekeeper policy-template was provided, but the Gatekeeper integration is disabled"
   else "Mapping not found, " +:+
     (if isGkConstraintTemplate gvk then "check if Gatekeeper is installed"
      else if isGkConstraint gvk then "check if the required ConstraintTemplate has been deployed"
      else "check if you have the CRD deployed")) +:+
  ": " +:+ err_msg err.

Definition unsupported_msg (gvk : GroupVersionKind) : string :=
  if (DisableGkSync r && isGkObj gvk)%bool
  then "not syncing kind " +:+ gvk_String gvk +:+ " because the Gatekeeper integration is disabled"
  else "policy-template kind is not supported: " +:+ gvk_String gvk.

(** The template has a name: find its resource and check that its kind may be synced. *)
Definition sync_named (tIndex : nat) (gvk : GroupVersionKind) (metaObj : unstructured)
    (templateDeps : deps) (raw : string) (s : sync_state) : prg (ctl sync_state reconciled) :=
  let tName := u_Name metaObj in
  let s := add_name tName s in
  let! mapping := GVRFromGVK gvk in
  match mapping with
  | Err err =>
      if has_reason NoVersionedResource err then
        do! report_error tIndex tName (isGkObj gvk) (no_mapping_msg gvk err) in
        do! user_error (p_Name instance) tName "crd-error" in
        next (set_error err s)
      else
        do! system_error (p_Name instance) "" "get-error" in
        return_error err
  | Ok (rsrc, namespaced) =>
      let isClusterScoped := negb namespaced in
      let! label := hasPolicyTemplateLabel rsrc in
      match label with
      | Err err =>
          do! system_error (nn_Name request) tName "get-error" in
          return_error err
      | Ok hasTemplateLabel =>
          if ((negb hasTemplateLabel && negb (IsAllowedPolicy (gvk_Group gvk) (gvk_Kind gvk))) ||
              (isGkObj gvk && DisableGkSync r))%bool then
            do! report_error tIndex tName isClusterScoped (unsupported_msg gvk) in
            do! user_error (p_Name instance) tName "crd-error" in
            next (set_error (Error OtherReason (unsupported_msg gvk)) s)
          else
            sync_supported (TemplateCtx tIndex gvk metaObj tName rsrc isClusterScoped)
              templateDeps raw s
      end
  end.

(** The body of the loop over the policy templates. *)
Definition sync_template (topLevelDeps : deps) (s : sync_state) (it : nat * PolicyTemplate)
    : prg (ctl sync_state reconciled) :=
  let '(tIndex, policyT) := it in
  match Decode (pt_Raw policyT) with
  | Err err =>
      let s := if IsMissingKind err then s else set_error err s in
      do! report_error tIndex (indexed_name tIndex) false
            ("Failed to decode policy template with err: " +:+ err_msg err) in
      do! user_error (p_Name instance) "" "format-error" in
      next s
  | Ok (gvk, object) =>
      let '(allDeps', templateDeps, conflict) :=
        extra_deps (ClusterNamespace r) (pt_ExtraDependencies policyT) (allDeps s) topLevelDeps in
      let s := set_allDeps allDeps' s in
      match conflict with
      | Some dep =>
          do! report_error tIndex (indexed_name tIndex) (isGkObj gvk)
                ("Failed to decode policy template with err: " +:+ err_msg (conflict_error dep)) in
          do! user_error (p_Name instance) "" "dependency-error" in
          next (set_error (conflict_error dep) s)
      | None =>
          match object with
          | None => Panic   (* metaObj is nil and its method is called *)
          | Some metaObj =>
              if u_Name metaObj ==? "" then
                let errMsg := "Failed to parse or get name from policy template at index " +:+
                              pretty tIndex in
                do! report_error tIndex (indexed_name tIndex) (isGkObj gvk) errMsg in
                do! user_error (p_Name instance) "" "format-error" in
                next (set_error (Error BadRequest errMsg) s)
              else sync_named tIndex gvk metaObj templateDeps (pt_Raw policyT) s
          end
      end
  end.

(** ** After the loop *)

Definition policyObjectID : ObjectIdentifier :=
  ObjID policy_group policy_version "Policy" (nn_Namespace request) (nn_Name request).

Definition update_watcher (s : sync_state) : prg (option error) :=
  if (negb (Nat.eqb (size (allDeps s)) 0) || negb (Nat.eqb (length (childTemplates s)) 0))%bool then
    let watchSet : gmap ObjectIdentifier unit :=
      foldl (λ m id, <[id := tt]> m) ((λ _, tt) <$> allDeps s) (childTemplates s) in
    call (OAddOrUpdateWatcher policyObjectID (map fst (range watchSet)))
  else call (ORemoveWatcher policyObjectID).

Definition add_finalizer (p : Policy) : Policy :=
  p_set_Meta (meta_set_Finalizers (m_Finalizers (p_Meta p) ++ [ClusterwideFinalizer])) p.

(** [r.Update(ctx, instance)] *)
Definition update_policy (p : Policy) : prg (option error) :=
  let! out := call (OPolicyUpdate Managed p) in
  Ret (match out with Ok _ => None | Err err => Some err end).

Definition update_finalizer (s : sync_state) : prg sync_state :=
  if negb (hasClusterwideFinalizer instance) then
    if addFinalizer s then
      let! err := update_policy (add_finalizer instance) in
      Ret (note_error err s)
    else Ret s
  else if negb (addFinalizer s) then
    match removeFinalizer instance ClusterwideFinalizer with
    | None => Panic
    | Some p =>
        let! err := update_policy p in
        Ret (note_error err s)
    end
  else Ret s.

Definition after_templates (s : sync_state) : prg reconciled :=
  let! err := update_watcher s in
  let! s :=
    match err with
    | Some err =>
        do! (if IsNotFound err then user_error (p_Name instance) "" "crd-error"
             else system_error (p_Name instance) "" "client-error") in
        Ret (set_error err s)
    | None => Ret s
    end in
  let! err := cleanUpExcessTemplates r instance (templateNames s) in
  let s := note_error err s in
  let! s := update_finalizer s in
  Ret (MkResult 0, resultError s).

(** ** The policy is there *)

(** No templates: only a finalizer may be left to remove. *)
Definition without_templates : prg reconciled :=
  if hasClusterwideFinalizer instance then
    match removeFinalizer instance ClusterwideFinalizer with
    | None => Panic
    | Some p =>
        let! err := update_policy p in
        Ret (MkResult 0, err)
    end
  else Ret done_ok.

Definition report_duplicate (dupName : string) : prg reconciled :=
  do! fold_each (λ _ tIndex,
        report_error tIndex dupName false
          "All policy-template names must be unique within a policy")
        (seq 0 (length (ps_PolicyTemplates (p_Spec instance)))) tt in
  Ret done_ok.

(** The policy is being deleted. *)
Definition delete_policy : prg reconciled :=
  if negb (hasClusterwideFinalizer instance) then Ret done_ok
  else
    let! err := finalizerCleanup instance in
    match err with
    | Some err => Ret (done_err err)
    | None =>
        match removeFinalizer instance ClusterwideFinalizer with
        | None => Panic
        | Some p =>
            let! err := update_policy p in
            match err with
            | Some err =>
                do! system_error (p_Name instance) "" "patch-error" in
                Ret (done_err err)
            | None => Ret done_ok
            end
        end
    end.

Definition sync_templates : prg reconciled :=
  let! topLevelDeps :=
    fold_each (add_top_level (ClusterNamespace r) (p_Name instance))
      (ps_Dependencies (p_Spec instance)) ∅ in
  let! out := for_each (sync_template topLevelDeps)
    (enumerate (ps_PolicyTemplates (p_Spec instance)))
    (SyncState None [] [] false topLevelDeps) in
  match out with
  | inr res => Ret res
  | inl s => after_templates s
  end.

Definition reconcile_instance : prg reconciled :=
  if Nat.eqb (length (ps_PolicyTemplates (p_Spec instance))) 0 then without_templates
  else
    let! err := call ODynamicNew in
    match err with
    | Some err =>
        do! system_error (p_Name instance) "" "client-error" in
        Ret (done_err err)
    | None =>
        let dupName := getDupName instance in
        if dupName !=? "" then report_duplicate dupName
        else if bool_decide (is_Some (m_DeletionTimestamp (p_Meta instance))) then delete_policy
        else
          let! uninstalling := call OReadUninstalling in
          if uninstalling : bool then Ret requeue_5m else sync_templates
    end.

End sync.

(** ** Reconcile *)

Section reconcile.
Context `{U : UnstructuredLib} `{D : DecodeLib} `{R : MapRange} `{F : FmtLib} `{S : SchemeLib}
  `{O : OwnerLib}.

Definition policy_gone (request : NamespacedName) : prg reconciled :=
  do! call (OCounterDelete policyUserErrorsCounter (nn_Name request)) in
  do! call (OCounterDelete policySystemErrorsCounter (nn_Name request)) in
  do! call (ORemoveWatcher (policyObjectID request)) in
  Ret done_ok.

Definition Reconcile (r : PolicyReconciler) (request : NamespacedName) : prg reconciled :=
  let! got := call (OPolicyGet Managed request) in
  match got with
  | Err err =>
      if IsNotFound err then policy_gone request
      else
        do! system_error (nn_Name request) "" "get-error" in
        Ret (done_err err)
  | Ok instance => reconcile_instance r request instance
  end.

End reconcile.

(** ** What the handler calls *)

(** Reading, reporting and bookkeeping on behalf of a policy. *)
Definition housekeeping (instance : Policy) (o : op) : Prop :=
  match o with
  | OPolicyGet Managed k | OEventf Managed k _ _ _ _ => k = policy_nn instance
  | OEventCreate ns e => ns = p_Namespace instance ∧ ref_UID (e_InvolvedObject e) = p_UID instance
  | ONow | OServerResources _ | OCRDGet _ _ | OCRDList _ _ _ | OConstraintTemplateList _
  | ODynamicNew | ODynGet _ _ _ | ODynList _ _ _ _ | OReadUninstalling | OReadCreatedGk
  | OWriteCreatedGk _ | OCounterInc _ _ _ _ | OAddOrUpdateWatcher _ _ | ORemoveWatcher _ => True
  | _ => False
  end.

(** Where the object of a template is: it has the name the template decodes to, in the resource that
    discovery named for its kind, in the namespace of the policy or in none. *)
Definition addresses `{DecodeLib} (instance : Policy) (t : trace) (p : PolicyTemplate)
    (rsrc : GroupVersionResource) (ns n : string) : Prop :=
  p ∈ ps_PolicyTemplates (p_Spec instance) ∧
  ∃ gvk obj answer namespaced,
    Decode (pt_Raw p) = Ok (gvk, Some obj) ∧ n = u_Name obj ∧
    ev (discovery_call gvk) answer ∈ t ∧ discovered gvk answer = Ok (rsrc, namespaced) ∧
    ns = if namespaced : bool then p_Namespace instance else "".

(** A list by the label of the parent policy answered with this object. *)
Definition listed_child (r : PolicyReconciler) (instance : Policy) (t : trace)
    (rsrc : GroupVersionResource) (ns n : string) : Prop :=
  (ns = "" ∨ ns = ClusterNamespace r) ∧
  ∃ items u, (rsrc, ns, items) ∈ omap (listed (p_Name instance)) t ∧ u ∈ items ∧ n = u_Name u.

(** The first owner of the object is the policy or, without any owner, its parent label names it. *)
Definition belongs (instance : Policy) (e : unstructured) : Prop :=
  first_owner e = p_Name instance ∨
  (first_owner e = "" ∧ str_index (u_Labels e) ParentPolicyLabel = p_Name instance).

(** Calls that are not updates of a policy. *)
Definition no_policy_update (o : op) : Prop := match o with OPolicyUpdate _ _ => False | _ => True end.

(** What the handler may call after the events [t]. *)
Definition template_sync_call `{DecodeLib} `{OwnerLib} (r : PolicyReconciler) (instance : Policy)
    (t : trace) (o : op) : Prop :=
  match o with
  | ODynCreate rsrc ns u =>
      ∃ p n tmpl, addresses instance t p rsrc ns n ∧
        UnmarshalUnstructured (pt_Raw p) = Ok tmpl ∧ u_Name u = u_Name tmpl ∧ u_Namespace u = ns ∧
        str_index (u_Labels u) ParentPolicyLabel = p_Name instance ∧
        (ns = "" ∨ ns = p_Namespace instance ∧
                   u_OwnerReferences u = [NewControllerRef instance policy_GVK])
  | ODynUpdate rsrc ns u =>
      ∃ p n e tmpl, addresses instance t p rsrc ns n ∧ ev (ODynGet rsrc ns n) (Ok e) ∈ t ∧
        (p_Name instance ≠ "" → belongs instance e) ∧ u = merge_template_into e tmpl ∧
        str_index (u_Labels u) ParentPolicyLabel = p_Name instance
  | ODynPatch rsrc ns n patch sub =>
      (∃ p, addresses instance t p rsrc ns n) ∧
      (patch = prune_none ∧ sub = None ∨ patch = status_reset ∧ sub = Some "status")
  | ODynDelete rsrc ns n =>
      (∃ p, addresses instance t p rsrc ns n) ∨ listed_child r instance t rsrc ns n
  | OPolicyUpdate Managed p => ∃ l, p = p_set_Meta (meta_set_Finalizers l) instance
  | _ => housekeeping instance o
  end.

Lemma override_meta instance t : u_Meta (overrideRemediationAction instance t) = u_Meta t.
Proof. unfold overrideRemediationAction. by repeat case_match. Qed.

Lemma str_index_insert k v m : str_index (<[k := v]> m) k = v.
Proof. unfold str_index. by rewrite lookup_insert_eq. Qed.

Section calls.
Context `{U : UnstructuredLib} `{D : DecodeLib} `{R : MapRange} `{F : FmtLib} `{S : SchemeLib}
  `{O : OwnerLib}.
Variable (r : PolicyReconciler) (request : NamespacedName) (instance : Policy).

Section housekeeping.
(** Any property that holds of the housekeeping calls. *)
Variable P : op → Prop.
Hypothesis HP : ∀ o, housekeeping instance o → P o.

Lemma emitTemplateEvent_calls i n b t c m :
  all_ops P (emitTemplateEvent r instance i n b t c m).
Proof.
  unfold emitTemplateEvent, record_template_event, SendEvent. simpl. split; [by apply HP|].
  intros [p|e]; simpl; [|done]. case_match; simpl; [done|]. split; [by apply HP|]. intros _.
  case_match; simpl; [|done]. split; [by apply HP|]. intros now. split; [by apply HP|done].
Qed.

Lemma report_error_calls i n b m : all_ops P (report_error r instance i n b m).
Proof. apply all_ops_bind; [apply emitTemplateEvent_calls|done]. Qed.

Lemma emitTemplatePending_calls i n b m : all_ops P (emitTemplatePending r instance i n b m).
Proof.
  unfold emitTemplatePending. case_match; [|done]. case_match; apply emitTemplateEvent_calls.
Qed.

Lemma counter_calls c p t k : all_ops P (call (OCounterInc c p t k)).
Proof. simpl. split; [by apply HP|done]. Qed.

Lemma set_gk_calls (b b' : bool) :
  all_ops P (if b then setCreatedGkConstraint b' else Ret tt).
Proof. destruct b; simpl; [|done]. split; [by apply HP|done]. Qed.

Lemma emitGK_calls t rsrc ns i n :
  all_ops P (emitGKConstraintTemplateErrMsg r t rsrc ns instance i n).
Proof.
  apply all_ops_bind; [by apply all_ops_call, HP|]. intros [u|e]; [|done].
  destruct (NestedBool _ _) as [[created ok] err].
  case_match; [|case_match; [|done]]; (apply all_ops_bind; [apply emitTemplateEvent_calls|done]).
Qed.

Lemma emit_ct_success_calls c v s : all_ops P (emit_ct_success r instance c v s).
Proof. apply all_ops_bind; [apply emitTemplateEvent_calls|done]. Qed.

Lemma synced_clusterwide_calls c v s : all_ops P (synced_clusterwide r instance c v s).
Proof.
  unfold synced_clusterwide. case_match; [|done]. apply all_ops_bind; [apply set_gk_calls|].
  intros _. case_match; [apply emit_ct_success_calls|done].
Qed.

Lemma in_sync_end_calls c s : all_ops P (in_sync_end c s).
Proof. unfold in_sync_end. case_match; [|done]. apply all_ops_bind; [apply set_gk_calls|done]. Qed.

Lemma processDependencies_calls d : all_ops P (processDependencies d).
Proof.
  apply all_ops_fold_each. intros m [dep wanted] _. apply all_ops_bind; [|done].
  apply all_ops_bind; [by apply GVRFromGVK_calls, HP|]. intros [[rsrc ns]|e]; [|done].
  simpl. split; [by apply HP|]. intros [u|e]; [done|]. by repeat case_match.
Qed.

Lemma hasPolicyTemplateLabel_calls rsrc : all_ops P (hasPolicyTemplateLabel rsrc).
Proof.
  unfold hasPolicyTemplateLabel. simpl. split; [by apply HP|]. intros [crd|e]; [done|].
  case_match; simpl; [|by case_match]. split; [by apply HP|]. intros [crd|e']; [done|].
  by case_match.
Qed.

Lemma create_failed_calls c e s : all_ops P (create_failed r instance c e s).
Proof.
  apply all_ops_bind; [apply report_error_calls|]. intros _.
  destruct (IsInvalid _); (apply all_ops_bind; [apply counter_calls|done]).
Qed.

Lemma update_failed_calls c e s : all_ops P (update_failed r instance c e s).
Proof.
  unfold update_failed. case_match; [done|]. apply all_ops_bind; [apply report_error_calls|].
  intros _. case_match; (apply all_ops_bind; [apply counter_calls|done]).
Qed.

Lemma get_failed_calls c e s : all_ops P (get_failed r instance c e s).
Proof.
  unfold get_failed. case_match; [done|]. apply all_ops_bind; [apply report_error_calls|].
  intros _. apply all_ops_bind; [apply counter_calls|done].
Qed.

(** An error report, the counter of it and what follows. *)
Lemma reported_calls {A} i n b m c p t k (q : prg A) :
  all_ops P q →
  all_ops P (do! report_error r instance i n b m in do! call (OCounterInc c p t k) in q).
Proof.
  intros Hq. apply all_ops_bind; [apply report_error_calls|]. intros _.
  apply all_ops_bind; [apply counter_calls|done].
Qed.

Lemma add_top_level_calls ns p d dep : all_ops P (add_top_level ns p d dep).
Proof.
  unfold add_top_level.
  destruct (match d !! dep_ID ns dep with Some _ => _ | None => _ end); [|done].
  apply all_ops_bind; [apply counter_calls|done].
Qed.

Lemma update_watcher_calls s : all_ops P (update_watcher request s).
Proof. unfold update_watcher. case_match; simpl; (split; [by apply HP|done]). Qed.

Lemma gatekeeper_gvrs_calls : all_ops P gatekeeper_gvrs.
Proof.
  unfold gatekeeper_gvrs, should_query_constraints, setCreatedGkConstraint.
  apply all_ops_bind.
  { simpl. split; [by apply HP|]. intros [b|]; simpl; [|done]. split; [by apply HP|].
    by intros [b'|]. }
  intros [|]; simpl; [|done]. split; [by apply HP|]. intros [items|e]; simpl.
  - apply all_ops_bind; [|done]. case_match; [done|]. simpl. split; [by apply HP|done].
  - destruct (IsNoMatchError e); simpl; [|done]. split; [by apply HP|].
    intros [items|e']; simpl; [split; [by apply HP|done]|].
    case_match; simpl; [split; [by apply HP|done]|done].
Qed.

Lemma crd_gvrs_calls : all_ops P crd_gvrs.
Proof.
  unfold crd_gvrs; simpl. split; [by apply HP|]. intros [items|e]; [done|]. case_match; [|done].
  simpl. split; [by apply HP|]. by intros [items|e'].
Qed.

End housekeeping.

Section writes.
(** A property of the calls that holds of housekeeping, and of the deletion and the patches of the
    object of one template. *)
Variables (P : op → Prop) (c : template_ctx).
Hypothesis HP : ∀ o, housekeeping instance o → P o.
Hypothesis Hdelete : P (ODynDelete (tc_rsrc c) (resourceNs instance c) (tc_Name c)).
Hypothesis Hpatch : ∀ p sub, p = prune_none ∧ sub = None ∨ p = status_reset ∧ sub = Some "status" →
  P (ODynPatch (tc_rsrc c) (resourceNs instance c) (tc_Name c) p sub).

Lemma finish_sync_calls m u s : all_ops P (finish_sync instance c m u s).
Proof.
  apply all_ops_bind.
  - unfold handleSyncSuccess. apply all_ops_bind.
    { case_match; [|done]. by apply all_ops_call, HP. }
    intros _. case_match; [done|]. case_match; [done|].
    destruct (NestedString _ _) as [[st ?] ?]. case_match; [done|].
    apply all_ops_bind; [|by intros [e|]]. apply all_ops_call, Hpatch. by right.
  - intros [e|]; [|done]. apply all_ops_bind; [by apply counter_calls|done].
Qed.

Lemma after_create_calls u s : all_ops P (after_create r instance c u s).
Proof.
  apply all_ops_bind; [by apply synced_clusterwide_calls|]. intros s'.
  apply all_ops_bind; [apply finish_sync_calls|done].
Qed.

Lemma create_template_calls d t s :
  P (ODynCreate (tc_rsrc c) (resourceNs instance c) (new_object r instance c t)) →
  all_ops P (create_template r instance c d t s).
Proof.
  intros Hcreate. unfold create_template. case_match.
  { apply all_ops_bind; [by apply emitTemplatePending_calls|done]. }
  case_match; [by apply reported_calls|].
  apply all_ops_bind; [by apply all_ops_call|]. intros [u|e]; [|by apply create_failed_calls].
  case_match; [|apply after_create_calls].
  apply all_ops_bind; [by apply emitGK_calls|]. intros [[|]|e]; [done|apply after_create_calls|done].
Qed.

Lemma delete_template_calls s :
  all_ops P (let! err := call (ODynDelete (tc_rsrc c) (resourceNs instance c) (tc_Name c)) in
             match err with
             | Some err =>
                 do! system_error (p_Name instance) (tc_Name c) "delete-error" in
                 next (set_error err s)
             | None => next s
             end).
Proof.
  apply all_ops_bind; [by apply all_ops_call|].
  intros [e|]; [|done]. apply all_ops_bind; [by apply counter_calls|done].
Qed.

Lemma delete_pending_calls d s : all_ops P (delete_pending r instance c d s).
Proof.
  apply all_ops_bind; [by apply emitTemplatePending_calls|]. intros e. apply delete_template_calls.
Qed.

Lemma delete_with_hub_error_calls s : all_ops P (delete_with_hub_error r instance c s).
Proof.
  apply reported_calls; [done|]. apply all_ops_bind.
  - case_match; [|done]. apply all_ops_call, Hpatch. by left.
  - intros [e|]; [done|]. apply delete_template_calls.
Qed.

Lemma resolve_owner_belongs e t t' refName :
  p_Name instance ≠ "" → resolve_owner instance c e t = (t', refName) → p_Name instance = refName →
  belongs instance e.
Proof.
  intros Hne. unfold resolve_owner, belongs.
  destruct (negb (tc_ClusterScoped c) && _ && _)%bool eqn:E1; intros [= _ <-] Hr.
  - breflect. auto.
  - destruct (first_owner e ==? "") eqn:E2; breflect; auto.
Qed.

(** Updates are covered when [P] holds of them. *)
Lemma compare_and_update_calls e t s :
  (∀ t', str_index (u_Labels t') ParentPolicyLabel = p_Name instance →
    P (ODynUpdate (tc_rsrc c) (resourceNs instance c) (merge_template_into e t'))) →
  all_ops P (compare_and_update r instance c e t s).
Proof.
  intros Hup. unfold compare_and_update.
  destruct (equivalentTemplates e (desired_object r instance c t)) as [eqv t'] eqn:E.
  assert (str_index (u_Labels t') ParentPolicyLabel = p_Name instance) as Hl.
  { unfold equivalentTemplates in E. injection E as _ <-. unfold u_Labels.
    change (u_Meta (fill_defaults ?x)) with (u_Meta x). unfold desired_object.
    rewrite override_meta. apply str_index_insert. }
  destruct eqv; simpl negb; cbv iota.
  - apply all_ops_bind; [apply finish_sync_calls|]. intros s'. by apply in_sync_end_calls.
  - apply all_ops_bind; [by apply all_ops_call, Hup|]. intros [u|err];
      [|by apply update_failed_calls].
    case_match; [|by apply in_sync_end_calls].
    apply all_ops_bind; [by apply synced_clusterwide_calls|]. intros s'.
    apply all_ops_bind; [apply finish_sync_calls|]. intros s''. by apply in_sync_end_calls.
Qed.

Lemma template_exists_calls d e t s :
  ((p_Name instance ≠ "" → belongs instance e) →
   ∀ t', str_index (u_Labels t') ParentPolicyLabel = p_Name instance →
    P (ODynUpdate (tc_rsrc c) (resourceNs instance c) (merge_template_into e t'))) →
  all_ops P (template_exists r instance c d e t s).
Proof.
  intros Hup.
  assert (∀ s', all_ops P (sync_existing r instance c d e t s')) as Hsync.
  { intros s'. unfold sync_existing. case_match; [apply delete_pending_calls|].
    case_match; [apply delete_with_hub_error_calls|].
    destruct (resolve_owner instance c e t) as [t' refName] eqn:E.
    case_match; breflect; [by apply reported_calls|].
    apply compare_and_update_calls. apply Hup. intros Hne. by eapply resolve_owner_belongs. }
  unfold template_exists. case_match; [|done].
  apply all_ops_bind; [by apply emitGK_calls|]. intros [[|]|err]; [done| |done].
  apply all_ops_bind; [by apply emit_ct_success_calls|done].
Qed.

End writes.

(** *** The calls of the handler after one another *)

Abbreviation may := (template_sync_call r instance).

Lemma addresses_mono t t' p rsrc ns n :
  addresses instance t p rsrc ns n → addresses instance (t ++ t') p rsrc ns n.
Proof.
  intros [Hp (gvk & obj & x & b & Hd & Hn & Hx & H)]. split; [done|].
  exists gvk, obj, x, b. split_and!; try done; [|apply H..]. apply elem_of_app. by left.
Qed.

Lemma call_mono t t' o : may t o → may (t ++ t') o.
Proof.
  pose proof (addresses_mono t t') as Ha.
  destruct o; cbn [template_sync_call]; try done.
  - intros (pt & n & tmpl & Hp & H). exists pt, n, tmpl. auto.
  - intros (pt & n & e & tmpl & Hp & He & H). exists pt, n, e, tmpl.
    split; [auto|]. split; [|done]. apply elem_of_app. by left.
  - intros [(pt & Hp) H]. split; [|done]. exists pt. auto.
  - intros [(pt & Hp)|(Hns & items & u & Hl & Hu)]; [left; exists pt; auto|right].
    split; [done|]. exists items, u. split; [|done]. rewrite omap_app. apply elem_of_app. by left.
Qed.

(** The loop over the templates and the cleanups do not update the policy. *)
Definition sync_call (t : trace) (o : op) : Prop := no_policy_update o ∧ may t o.

Lemma sync_call_mono t t' o : sync_call t o → sync_call (t ++ t') o.
Proof. intros [Hu Ho]. split; [done|by apply call_mono]. Qed.

Lemma housekeeping_sync t o : housekeeping instance o → sync_call t o.
Proof. by destruct o. Qed.

Lemma quiet_causal {A} t (p : prg A) : all_ops (housekeeping instance) p → causal sync_call t p.
Proof.
  intros Hp. apply all_ops_causal; [apply sync_call_mono|]. eapply all_ops_mono; [exact Hp|].
  apply housekeeping_sync.
Qed.

Lemma sync_may {A} t (p : prg A) : causal sync_call t p → causal may t p.
Proof. apply causal_mono. by intros t' o [_ ?]. Qed.

Lemma update_policy_causal t p l :
  p = p_set_Meta (meta_set_Finalizers l) instance → causal may t (update_policy p).
Proof. intros ->. simpl. split; [by eexists|done]. Qed.

Lemma remove_finalizer_causal {A} t f (k : option error → prg A) :
  (∀ t e, causal may t (k e)) →
  causal may t (match removeFinalizer instance f with
                | None => Panic
                | Some p => bind (update_policy p) k
                end).
Proof.
  intros Hk. unfold removeFinalizer. destruct (remove_loop _ _ _ _ _) as [l|]; [|done].
  apply causal_then; [by eapply update_policy_causal|]. auto.
Qed.

(** The object of a template, once discovery has named its resource. *)
Lemma sync_supported_causal t c d p s :
  addresses instance t p (tc_rsrc c) (resourceNs instance c) (tc_Name c) →
  causal sync_call t (sync_supported r instance c d (pt_Raw p) s).
Proof.
  intros Hc. apply causal_then; [by apply quiet_causal, processDependencies_calls|].
  intros t' failures. apply (addresses_mono t t') in Hc.
  destruct (UnmarshalUnstructured (pt_Raw p)) as [tmpl|e] eqn:Hraw;
    [|by apply quiet_causal, reported_calls].
  cbv zeta. split; [done|]. intros x. set (o := ODynGet _ _ _).
  assert (addresses instance ((t ++ t') ++ [ev o x]) p (tc_rsrc c) (resourceNs instance c) (tc_Name c))
    as Hc' by by apply addresses_mono.
  destruct x as [e|err]; cbn [bind].
  - apply all_ops_causal; [apply sync_call_mono|]. apply template_exists_calls.
    + apply housekeeping_sync.
    + split; [done|]. left. by exists p.
    + intros patch sub Hps. split; [done|]. split; [by exists p|done].
    + intros Hb t0 Ht0. split; [done|]. exists p, (tc_Name c), e, t0. split_and!; try done.
      apply elem_of_app. right. by left.
  - case_match; [|by apply quiet_causal, get_failed_calls].
    apply all_ops_causal; [apply sync_call_mono|]. apply create_template_calls.
    + apply housekeeping_sync.
    + intros patch sub Hps. split; [done|]. split; [by exists p|done].
    + split; [done|]. exists p, (tc_Name c), tmpl. split; [done|]. split; [done|].
      unfold new_object, u_Name, u_Namespace, u_Labels, u_OwnerReferences. simpl.
      rewrite override_meta. simpl. unfold resourceNs. destruct (tc_ClusterScoped c); simpl.
      * split_and!; [done|done|apply str_index_insert|by left].
      * split_and!; [done|done|apply str_index_insert|by right].
Qed.

Lemma sync_named_causal t i gvk m d p s :
  p ∈ ps_PolicyTemplates (p_Spec instance) → Decode (pt_Raw p) = Ok (gvk, Some m) →
  causal sync_call t (sync_named r request instance i gvk m d (pt_Raw p) s).
Proof.
  intros Hp Hd. apply causal_bind; [by apply quiet_causal, GVRFromGVK_calls|].
  apply GVRFromGVK_wp. intros x a [= <-]. destruct (discovered gvk x) as [[rsrc namespaced]|e] eqn:Hx.
  - apply causal_then; [by apply quiet_causal, hasPolicyTemplateLabel_calls|].
    intros t' [b|e]; [|by apply quiet_causal, all_ops_bind; [apply counter_calls|]].
    case_match; [by apply quiet_causal, reported_calls|].
    apply sync_supported_causal, addresses_mono. split; [done|].
    exists gvk, m, x, namespaced. split_and!; try done.
    + apply elem_of_app. right. by left.
    + by destruct namespaced.
  - case_match; apply quiet_causal; [by apply reported_calls|].
    apply all_ops_bind; [by apply counter_calls|done].
Qed.

Lemma sync_template_causal t top s it :
  it.2 ∈ ps_PolicyTemplates (p_Spec instance) →
  causal sync_call t (sync_template r request instance top s it).
Proof.
  destruct it as [i p]. intros Hp. unfold sync_template.
  destruct (Decode (pt_Raw p)) as [[gvk object]|e] eqn:Hd; [|by apply quiet_causal, reported_calls].
  destruct (extra_deps _ _ _ _) as [[all' tmpl] [dep|]]; [by apply quiet_causal, reported_calls|].
  destruct object as [m|]; [|done]. case_match; [by apply quiet_causal, reported_calls|].
  by apply sync_named_causal.
Qed.

Lemma cleanup_causal t names : causal sync_call t (cleanUpExcessTemplates r instance names).
Proof.
  apply causal_then; [by apply quiet_causal, gatekeeper_gvrs_calls|]. intros t1 gk.
  apply causal_then; [by apply quiet_causal, crd_gvrs_calls|]. intros t2 [crds|e]; [|done].
  apply causal_then; [|done]. apply causal_fold_each. intros t3 errs g _.
  unfold clean_resource. cbv zeta. split; [done|]. intros [items|e]; [|done]. cbn [bind].
  apply all_ops_causal; [apply sync_call_mono|].
  apply all_ops_fold_each. intros errs' u Hu. unfold delete_child. destruct (existsb _ names); [done|].
  apply all_ops_bind; [|by intros [e|]]. apply all_ops_call. split; [done|]. right. split.
  - case_match; auto.
  - exists items, u. split; [|done]. rewrite omap_app. apply elem_of_app. right. simpl.
    rewrite !bool_decide_refl. by left.
Qed.

Lemma after_templates_causal t s : causal may t (after_templates r request instance s).
Proof.
  apply causal_then; [by apply sync_may, quiet_causal, update_watcher_calls|]. intros t1 e.
  apply causal_then.
  { apply sync_may, quiet_causal. destruct e as [e|]; [|done]. apply all_ops_bind; [|done].
    case_match; by apply all_ops_call. }
  intros t2 s'. apply causal_then; [apply sync_may, cleanup_causal|]. intros t3 e'.
  apply causal_then; [|done]. unfold update_finalizer.
  destruct (negb (hasClusterwideFinalizer instance)), (addFinalizer _); simpl negb; cbv iota;
    try done.
  - apply causal_then; [|done]. by eapply update_policy_causal.
  - by apply remove_finalizer_causal.
Qed.

Lemma cleanup_template_causal t errs p :
  p ∈ ps_PolicyTemplates (p_Spec instance) → causal sync_call t (cleanup_template instance errs p).
Proof.
  intros Hp. unfold cleanup_template. destruct (Decode (pt_Raw p)) as [[gvk [obj|]]|e] eqn:Hd; [|done|].
  - apply causal_bind; [by apply quiet_causal, GVRFromGVK_calls|].
    apply GVRFromGVK_wp. intros x a [= <-]. destruct (discovered gvk x) as [[rsrc [|]]|e] eqn:Hx; [done| |].
    + split.
      { split; [done|]. left. exists p. split; [done|]. exists gvk, obj, x, false. split_and!; try done.
        apply elem_of_app. right. by left. }
      intros [e|]; [|done]. cbn [bind]. by case_match.
    + by case_match.
  - by apply quiet_causal.
Qed.

Lemma delete_policy_causal t : causal may t (delete_policy instance).
Proof.
  unfold delete_policy. case_match; [done|]. apply causal_then.
  - apply causal_then; [|done]. apply causal_fold_each. intros. by apply sync_may, cleanup_template_causal.
  - intros t' [e|]; [done|]. apply remove_finalizer_causal. intros t'' [e|]; [|done]. by simpl.
Qed.

Lemma reconcile_instance_causal t : causal may t (reconcile_instance r request instance).
Proof.
  unfold reconcile_instance. case_match.
  { unfold without_templates. case_match; [|done]. by apply remove_finalizer_causal. }
  apply causal_then; [by apply sync_may, quiet_causal, all_ops_call|]. intros t1 [e|].
  { apply sync_may, quiet_causal, all_ops_bind; [by apply all_ops_call|done]. }
  case_match.
  { apply sync_may, quiet_causal, all_ops_bind; [|done]. apply all_ops_fold_each. intros _ i _.
    by apply report_error_calls. }
  case_match; [apply delete_policy_causal|].
  apply causal_then; [by apply sync_may, quiet_causal, all_ops_call|].
  intros t2 [|]; [done|]. apply causal_then.
  { apply sync_may, quiet_causal, all_ops_fold_each. intros. by apply add_top_level_calls. }
  intros t3 top. apply causal_then.
  - apply causal_for_each. intros t4 s [i p] Hin. apply sync_may, sync_template_causal. simpl.
    apply enumerate_lookup in Hin. by eapply list_elem_of_lookup_2.
  - intros t4 [s|res]; [|done]. apply after_templates_causal.
Qed.

End calls.

(** An object that a get answered with. *)
Definition fetched (e : event ans) : option (GroupVersionResource * string * unstructured) :=
  let 'existT o x := e in
  match o return ans o → _ with
  | ODynGet rsrc ns _ => λ x, match x with Ok u => Some (rsrc, ns, u) | Err _ => None end
  | _ => λ _, None
  end x.

(** Every update of the trace is of an object that was read in it and belongs to the policy. *)
Definition updates_owned (instance : Policy) (t : trace) : Prop :=
  ∀ rsrc ns u, ODynUpdate rsrc ns u ∈ ops t →
    ∃ e t', (rsrc, ns, e) ∈ omap fetched t ∧ belongs instance e ∧ u = merge_template_into e t'.

Section facts.
Context `{U : UnstructuredLib} `{D : DecodeLib} `{R : MapRange} `{F : FmtLib} `{S : SchemeLib}
  `{O : OwnerLib}.
Variable (r : PolicyReconciler) (request : NamespacedName) (instance : Policy).

Lemma Reconcile_found {W} (h : env W) w :
  (h w (OPolicyGet Managed request)).2 = Ok instance →
  ∃ w', trace_of (run h w (Reconcile r request)) =
          ev (OPolicyGet Managed request) (Ok instance) ::
          trace_of (run h w' (reconcile_instance r request instance)) ∧
        result_of (run h w (Reconcile r request)) =
          result_of (run h w' (reconcile_instance r request instance)).
Proof.
  unfold Reconcile. rewrite run_bind. simpl (run h w (call _)).
  destruct (h w (OPolicyGet Managed request)) as [w' x]; simpl; intros ->.
  exists w'. by destruct (run h w' (reconcile_instance r request instance)) as [[??]?].
Qed.

Lemma Reconcile_calls {W} (h : env W) w :
  (h w (OPolicyGet Managed request)).2 = Ok instance →
  ∃ t, trace_of (run h w (Reconcile r request)) = ev (OPolicyGet Managed request) (Ok instance) :: t ∧
       justified (template_sync_call r instance) t.
Proof.
  intros Hget. destruct (Reconcile_found h w Hget) as (w' & Ht & _). eexists. split; [exact Ht|].
  apply causal_justified, reconcile_instance_causal.
Qed.

End facts.

(** ** Properties *)

(** C7: whatever the API server answers, the handler for a policy touches nothing that is not the
    policy's to handle, and every call is justified by what happened before it.  It creates an object
    only for a template, in the resource that discovery named for its kind, with the name of the
    template and the policy's name in the parent label; the object sits in the policy's namespace with
    the policy as its owner, or is cluster scoped.  It updates only an object that it has read at the
    place of a template and that belongs to the policy, and gives it that label.  It patches only the
    object of a template, and of it only the prune behaviour and the compliance status.  It deletes
    only the object of a template, or one that a list by the label of the parent policy returned.  Of
    the policy itself it changes the finalizers only, and every compliance event is about the policy,
    in its namespace. *)
Theorem template_sync_calls `{U : UnstructuredLib} `{D : DecodeLib} `{R : MapRange} `{F : FmtLib}
    `{S : SchemeLib} `{O : OwnerLib} {W} (h : env W) r w request instance :
  (h w (OPolicyGet Managed request)).2 = Ok instance →
  ∃ t, trace_of (run h w (Reconcile r request)) = ev (OPolicyGet Managed request) (Ok instance) :: t ∧
       justified (template_sync_call r instance) t.
Proof. apply Reconcile_calls. Qed.


(** C39: an error while reporting a pending template is lost, together with any error of an earlier
    template: when the event cannot be sent and the object is deleted, the reconcile goes on without
    an error to return. *)
Theorem pending_report_error_lost `{D : DecodeLib} `{R : MapRange} (f : ∀ o, ans o) r instance c
    failures s e :
  eval f (emitTemplatePending r instance (tc_Index c) (tc_Name c) (tc_ClusterScoped c)
            (generatePendingMsg failures)) = Returned (Some e) →
  f (ODynDelete (tc_rsrc c) (resourceNs instance c) (tc_Name c)) = None →
  ∃ s', eval f (delete_pending r instance c failures s) = Returned (Next s') ∧ resultError s' = None.
Proof.
  intros He Hdel. unfold delete_pending. rewrite eval_bind, He. cbv zeta.
  rewrite eval_bind. simpl (eval f (call _)). rewrite Hdel. by eexists.
Qed.

(** ** Witnesses *)

Definition fmt_ref : FmtLib := {| print_crdQuery := "{LabelSelector:policy-type=template}" |}.

(** Answers for a policy with templates [raws], on a cluster that knows ConfigurationPolicies and
    has the objects [objs]. *)
Definition demo_answers (pol : Policy) (objs : string → option unstructured) (o : op) : ans o :=
  match o return ans o with
  | OPolicyGet _ _ => Ok pol
  | OServerResources _ => Ok [MkAPIResource "configurationpolicies" "ConfigurationPolicy" true]
  | OCRDGet _ _ => Ok (MkCRD policy_group "configurationpolicies" ["v1"] true
                         {[PolicyTypeLabel := "template"]})
  | ODynGet _ _ name => match objs name with Some u => Ok u | None => Err not_found end
  | o => default_ans o
  end.

Definition demo_reconciler : PolicyReconciler := MkReconciler "managed" "pod" false.
Definition demo_request : NamespacedName := NN "managed" "p".

Abbreviation demo_Reconcile := (Reconcile (U := unstructured_ref) (D := name_decode)
  (R := range_ref) (F := fmt_ref) (S := empty_scheme) (O := owner_ref) demo_reconciler demo_request).

Lemma template_sync_calls_witness :
  let f := demo_answers (demo_instance "enforce" ["t"]) (λ _, None) in
  ∃ t, trace_of (run (const_env f) tt demo_Reconcile) =
         ev (OPolicyGet Managed demo_request) (Ok (demo_instance "enforce" ["t"])) :: t ∧
       justified (template_sync_call (H := name_decode) (H0 := owner_ref) demo_reconciler
         (demo_instance "enforce" ["t"])) t ∧
       existsb (λ o, match o with ODynCreate _ ns u => (ns ==? "managed") && (u_Name u ==? "t") | _ => false end)
         (ops t) = true.
Proof.
  destruct (template_sync_calls (U := unstructured_ref) (D := name_decode)
    (R := range_ref) (F := fmt_ref) (S := empty_scheme) (O := owner_ref)
    (const_env (demo_answers (demo_instance "enforce" ["t"]) (λ _, None)))
    demo_reconciler tt demo_request (demo_instance "enforce" ["t"]) eq_refl) as (t & Ht & Hj).
  exists t. split; [exact Ht|]. split; [exact Hj|].
  assert (t = tail (trace_of (run (const_env (demo_answers (demo_instance "enforce" ["t"]) (λ _, None)))
    tt demo_Reconcile))) as -> by (rewrite Ht; reflexivity).
  vm_compute. reflexivity.
Defined.

(** The object of the template is there without an owner, with the label of the policy: the run
    updates it. *)
Definition labelled_template : unstructured :=
  u_set_Meta (meta_set_Labels {[ParentPolicyLabel := "p"]}) demo_template.


Definition demo_ctx : template_ctx :=
  TemplateCtx 0 (u_GVK demo_template) demo_template "t"
    (GVR policy_group "v1" "configurationpolicies") false.
Definition demo_dep : ObjectIdentifier := ObjID policy_group "v1" "ConfigurationPolicy" "managed" "d".

(** The first failed report of a pending template, after an earlier error. *)
Lemma pending_report_error_lost_witness :
  ∃ s', eval default_ans (delete_pending (D := name_decode) (R := range_ref) demo_reconciler
          (demo_instance "enforce" ["t"]) demo_ctx {[demo_dep := "Compliant"]}
          (SyncState (Some not_found) [] [] false ∅)) = Returned (Next s') ∧ resultError s' = None.
Proof.
  apply (pending_report_error_lost (D := name_decode) (R := range_ref) default_ans demo_reconciler
    (demo_instance "enforce" ["t"]) demo_ctx {[demo_dep := "Compliant"]}
    (SyncState (Some not_found) [] [] false ∅) not_found); reflexivity.
Defined.
