(* ===== verification/TemplatePanics.v ===== *)
(** * controllers/templatesync: panics

    Template-sync indexes the templates of the policy, follows the pointer [createdGkConstraint], which
    is a field of the reconciler, and calls methods of the object a template decodes to.  This file
    shows that these are the only places that could go wrong, and that the first two do not. *)

From S2P Require Import Prelude Prog GoStrings K8s Effects Utils TemplateObjects TemplateActions TemplateSync.

(** ** The field createdGkConstraint

    It is nil at first, and only [setCreatedGkConstraint] writes it, which stores a pointer: once a
    read has found it set, it stays set.  The condition it is read in reads it twice. *)
Definition field_read (e : event ans) : option (option bool) :=
  let 'existT o x := e in
  match o return ans o → option (option bool) with OReadCreatedGk => λ b, Some b | _ => λ _, None end x.

(** The field was read as set, and then as nil. *)
Definition torn (t : trace) : Prop :=
  ∃ t1 t2 e1 e2 b, t = t1 ++ e1 :: e2 :: t2 ∧
    field_read e1 = Some (Some b) ∧ field_read e2 = Some None.

Definition field_stays {W} (h : env W) : Prop :=
  ∀ w w1 b w2 x, h w OReadCreatedGk = (w1, Some b) → h w1 OReadCreatedGk = (w2, x) → is_Some x.

Lemma torn_app t t' : torn t' → torn (t ++ t').
Proof.
  intros (t1 & t2 & e1 & e2 & b & -> & H). exists (t ++ t1), t2, e1, e2, b. by rewrite <- app_assoc.
Qed.

Lemma field_read_Some o (x : ans o) y :
  field_read (ev o x) = Some y → ∃ H : o = OReadCreatedGk, eq_rect o ans x _ H = y.
Proof.
  destruct o; cbn; intros Hx; try discriminate Hx. injection Hx as <-. by exists eq_refl.
Qed.

Lemma run_not_torn {W A} (h : env W) w (p : prg A) : field_stays h → ¬ torn (trace_of (run h w p)).
Proof.
  intros Hh (t1 & t2 & e1 & e2 & b & Ht & H1 & H2). revert w t1 Ht.
  induction p as [a| |o k IH]; intros w t1; cbn; [by destruct t1..|].
  destruct (h w o) as [w1 x] eqn:E. specialize (IH x w1).
  destruct (k x) as [a| |o' k']; cbn in *.
  1,2: destruct t1 as [|? [|? ?]]; intros [=].
  destruct (h w1 o') as [w2 y] eqn:E'. destruct (run h w2 (k' y)) as [[w3 t3] r3]. cbn in *.
  destruct t1 as [|e t1]; intros [= <- Ht]; [|by eapply IH]. subst e2.
  destruct (field_read_Some _ _ _ H1) as [-> Hx], (field_read_Some _ _ _ H2) as [-> Hy].
  cbn in Hx, Hy. subst x y. by destruct (Hh _ _ _ _ _ E E').
Qed.

(** ** The handler *)

Definition safe {A} (p : prg A) : Prop := calm torn p.

Lemma safe_bind {A B} (p : prg A) (k : A → prg B) : safe p → (∀ a, safe (k a)) → safe (bind p k).
Proof. apply calm_bind, torn_app. Qed.
Lemma safe_call {B} o (k : ans o → prg B) : (∀ x, safe (k x)) → safe (let! x := call o in k x).
Proof. apply calm_call_bind, torn_app. Qed.
Lemma safe_for_each {X S R} (body : S → X → prg (ctl S R)) xs s :
  (∀ s x, x ∈ xs → safe (body s x)) → safe (for_each body xs s).
Proof. apply calm_for_each, torn_app. Qed.
Lemma safe_fold_each {X S} (body : S → X → prg S) xs s :
  (∀ s x, x ∈ xs → safe (body s x)) → safe (fold_each body xs s).
Proof. apply calm_fold_each, torn_app. Qed.

Lemma safe_run {W A} (h : env W) w (p : prg A) :
  field_stays h → safe p → result_of (run h w p) ≠ Panicked.
Proof. intros Hh Hp. eapply calm_run; [exact Hp|]. by apply run_not_torn. Qed.

Lemma const_field_stays f : field_stays (const_env f).
Proof. intros w w1 b w2 x [= _ Hb] [= _ <-]. rewrite Hb. by eexists. Qed.

Lemma safe_eval {A} f (p : prg A) : safe p → eval f p ≠ Panicked.
Proof. intros Hp. rewrite <- eval_const. by apply safe_run; [apply const_field_stays|]. Qed.

Lemma GVRFromGVK_safe gvk : safe (GVRFromGVK gvk).
Proof. by apply GVRFromGVK_wp. Qed.

Section safe.
Context `{U : UnstructuredLib} `{D : DecodeLib} `{R : MapRange} `{F : FmtLib} `{S : SchemeLib}
  `{O : OwnerLib}.
Variable (r : PolicyReconciler) (request : NamespacedName) (instance : Policy).

Lemma emitTemplateEvent_safe i n b t c m :
  is_Some (ps_PolicyTemplates (p_Spec instance) !! i) →
  safe (emitTemplateEvent r instance i n b t c m).
Proof.
  intros [p Hp]. apply safe_call. intros [q|e]; [|done]. case_match; [done|].
  apply safe_call. intros _. cbv zeta. by rewrite Hp.
Qed.

Lemma emitTemplatePending_safe i n b m :
  is_Some (ps_PolicyTemplates (p_Spec instance) !! i) → safe (emitTemplatePending r instance i n b m).
Proof.
  intros Hi. unfold emitTemplatePending. destruct Hi as [p Hp] eqn:E. rewrite Hp.
  case_match; apply emitTemplateEvent_safe; by eexists.
Qed.

Variable i : nat.
Hypothesis Hi : is_Some (ps_PolicyTemplates (p_Spec instance) !! i).

Lemma report_error_safe n b m : safe (report_error r instance i n b m).
Proof. apply safe_bind; [by apply emitTemplateEvent_safe|done]. Qed.

Lemma reported_safe {A} n b m c p t k (q : prg A) :
  safe q → safe (do! report_error r instance i n b m in do! call (OCounterInc c p t k) in q).
Proof. intros Hq. apply safe_bind; [apply report_error_safe|]. intros _. by apply safe_call. Qed.

Lemma emitGK_safe t rsrc ns n : safe (emitGKConstraintTemplateErrMsg r t rsrc ns instance i n).
Proof.
  apply safe_call. intros [u|e]; [|done]. destruct (NestedBool _ _) as [[created ok] err].
  case_match; [|case_match; [|done]]; (apply safe_bind; [by apply emitTemplateEvent_safe|done]).
Qed.

Lemma handleSyncSuccess_safe n m rsrc ns g u :
  safe (handleSyncSuccess instance i n m rsrc ns g u).
Proof.
  unfold handleSyncSuccess. apply safe_bind; [by case_match|]. intros _.
  case_match; [done|]. case_match; [done|]. destruct (NestedString _ _) as [[st ?] ?].
  case_match; [done|]. apply safe_call. by intros [e|].
Qed.


Section one_template.
Variable c : template_ctx.
Hypothesis Hc : tc_Index c = i.

Lemma emit_ct_success_safe v s : safe (emit_ct_success r instance c v s).
Proof. apply safe_bind; [|done]. apply emitTemplateEvent_safe. by rewrite Hc. Qed.

Lemma synced_clusterwide_safe v s : safe (synced_clusterwide r instance c v s).
Proof.
  unfold synced_clusterwide. case_match; [|done]. apply safe_bind; [by case_match|]. intros _.
  case_match; [apply emit_ct_success_safe|done].
Qed.

Lemma finish_sync_safe m u s : safe (finish_sync instance c m u s).
Proof.
  apply safe_bind; [rewrite Hc; apply handleSyncSuccess_safe|]. intros [e|]; [|done].
  by apply safe_call.
Qed.

Lemma after_create_safe u s : safe (after_create r instance c u s).
Proof.
  apply safe_bind; [apply synced_clusterwide_safe|]. intros s'.
  apply safe_bind; [apply finish_sync_safe|done].
Qed.

Lemma create_template_safe d t s : safe (create_template r instance c d t s).
Proof.
  unfold create_template. rewrite Hc. case_match.
  { apply safe_bind; [by apply emitTemplatePending_safe|done]. }
  case_match; [by apply reported_safe|]. apply safe_call. intros [u|e].
  - case_match; [|apply after_create_safe]. apply safe_bind; [apply emitGK_safe|].
    intros [[|]|e]; [done|apply after_create_safe|done].
  - unfold create_failed. rewrite Hc. apply safe_bind; [apply report_error_safe|]. intros _.
    destruct (IsInvalid _); by apply safe_call.
Qed.

Lemma in_sync_end_safe s : safe (in_sync_end c s).
Proof. unfold in_sync_end. case_match; [|done]. apply safe_bind; [by case_match|done]. Qed.

Lemma compare_and_update_safe e t s : safe (compare_and_update r instance c e t s).
Proof.
  unfold compare_and_update. destruct (equivalentTemplates _ _) as [eqv t'].
  destruct eqv; simpl negb; cbv iota.
  - apply safe_bind; [apply finish_sync_safe|]. intros s'. apply in_sync_end_safe.
  - apply safe_call. intros [u|err].
    + case_match; [|apply in_sync_end_safe].
      apply safe_bind; [apply synced_clusterwide_safe|]. intros s'.
      apply safe_bind; [apply finish_sync_safe|]. intros s''. apply in_sync_end_safe.
    + unfold update_failed. rewrite Hc. case_match; [done|].
      apply safe_bind; [apply report_error_safe|]. intros _. case_match; by apply safe_call.
Qed.

Lemma delete_template_safe s :
  safe (let! err := call (ODynDelete (tc_rsrc c) (resourceNs instance c) (tc_Name c)) in
        match err with
        | Some err =>
            do! system_error (p_Name instance) (tc_Name c) "delete-error" in
            next (set_error err s)
        | None => next s
        end).
Proof. apply safe_call. intros [e|]; [|done]. by apply safe_call. Qed.

Lemma template_exists_safe d e t s : safe (template_exists r instance c d e t s).
Proof.
  assert (∀ s', safe (sync_existing r instance c d e t s')) as Hsync.
  { intros s'. unfold sync_existing. case_match.
    { unfold delete_pending. rewrite Hc. apply safe_bind; [by apply emitTemplatePending_safe|].
      intros err. apply delete_template_safe. }
    case_match.
    { unfold delete_with_hub_error. rewrite Hc. apply reported_safe.
      apply safe_bind; [by case_match|]. intros [err|]; [done|]. apply delete_template_safe. }
    destruct (resolve_owner instance c e t) as [t' refName]. rewrite Hc.
    case_match; [by apply reported_safe|apply compare_and_update_safe]. }
  unfold template_exists. rewrite Hc. case_match; [|done]. apply safe_bind; [apply emitGK_safe|].
  intros [[|]|err]; [done| |done]. apply safe_bind; [apply emit_ct_success_safe|done].
Qed.

Lemma processDependencies_safe d : safe (processDependencies d).
Proof.
  apply safe_fold_each. intros m [dep wanted] _. apply safe_bind; [|done].
  apply safe_bind; [apply GVRFromGVK_safe|]. intros [[rsrc ns]|e]; [|done].
  apply safe_call. intros [u|e]; [done|]. by repeat case_match.
Qed.

Lemma sync_supported_safe d raw s : safe (sync_supported r instance c d raw s).
Proof.
  apply safe_bind; [apply processDependencies_safe|]. intros failures. rewrite Hc.
  destruct (UnmarshalUnstructured raw) as [t|e]; [|by apply reported_safe].
  apply safe_call. intros [e|err]; [apply template_exists_safe|].
  case_match; [apply create_template_safe|]. unfold get_failed. rewrite Hc. case_match; [done|].
  by apply reported_safe.
Qed.

End one_template.

(** The template is an object, or does not decode at all. *)
Definition is_object (p : PolicyTemplate) : Prop := ∀ k, Decode (pt_Raw p) ≠ Ok (k, None).

Lemma sync_template_safe top s p :
  is_object p → safe (sync_template r request instance top s (i, p)).
Proof.
  intros Hp. unfold sync_template.
  destruct (Decode (pt_Raw p)) as [[gvk object]|e] eqn:E; [|by apply reported_safe].
  destruct (extra_deps _ _ _ _) as [[all' tmpl] [dep|]]; [by apply reported_safe|].
  destruct object as [m|]; [|by destruct (Hp gvk)]. case_match; [by apply reported_safe|].
  apply safe_bind; [apply GVRFromGVK_safe|]. intros [[rsrc ns]|e].
  - apply safe_bind.
    { apply safe_call. intros [crd|e]; [done|]. case_match; [|by case_match].
      apply safe_call. intros [crd|e']; [done|by case_match]. }
    intros [b|e]; [|by apply safe_call]. case_match; [by apply reported_safe|].
    by apply sync_supported_safe.
  - case_match; [by apply reported_safe|by apply safe_call].
Qed.

End safe.

Section safe_handler.
Context `{U : UnstructuredLib} `{D : DecodeLib} `{R : MapRange} `{F : FmtLib} `{S : SchemeLib}
  `{O : OwnerLib}.
Variable (r : PolicyReconciler) (request : NamespacedName) (instance : Policy).

Lemma gatekeeper_gvrs_safe : safe gatekeeper_gvrs.
Proof.
  apply safe_bind.
  { intros [b|]; [|done]. intros [b'|]; [done|]. intros _.
    by exists [], [], (ev OReadCreatedGk (Some b)), (ev OReadCreatedGk None), b. }
  intros [|]; [|done]. apply safe_call. intros [items|e].
  - apply safe_bind; [|done]. by case_match.
  - case_match; [|done]. apply safe_call. intros [items|e']; [done|]. by case_match.
Qed.

Lemma cleanup_safe names : safe (cleanUpExcessTemplates r instance names).
Proof.
  apply safe_bind; [apply gatekeeper_gvrs_safe|]. intros gk. apply safe_bind.
  { apply safe_call. intros [items|e]; [done|]. case_match; [|done].
    apply safe_call. by intros [items|e']. }
  intros [crds|e]; [|done]. apply safe_bind; [|done]. apply safe_fold_each. intros errs g _.
  apply safe_call. intros [items|e]; [|done]. apply safe_fold_each. intros errs' u _.
  unfold delete_child. case_match; [|done]. apply safe_call. by intros [e|].
Qed.

Lemma remove_finalizer_safe {A} (k : option error → prg A) :
  (∀ e, safe (k e)) →
  safe (match removeFinalizer instance ClusterwideFinalizer with
          | None => Panic
          | Some p => bind (update_policy p) k
          end).
Proof.
  intros Hk. rewrite remove_finalizer_filter. apply safe_bind; [|done]. by apply safe_call.
Qed.

Lemma after_templates_safe s : safe (after_templates r request instance s).
Proof.
  apply safe_bind; [unfold update_watcher; by case_match|]. intros e. apply safe_bind.
  { destruct e; [|done]. by case_match. }
  intros s'. apply safe_bind; [apply cleanup_safe|]. intros e'. apply safe_bind; [|done].
  unfold update_finalizer.
  destruct (negb (hasClusterwideFinalizer instance)), (addFinalizer _); simpl negb; cbv iota;
    try done. by apply remove_finalizer_safe.
Qed.

Lemma delete_policy_safe : safe (delete_policy instance).
Proof.
  unfold delete_policy. case_match; [done|]. apply safe_bind.
  - apply safe_bind; [|done]. apply safe_fold_each. intros errs p _. unfold cleanup_template.
    destruct (Decode _) as [[gvk [obj|]]|e]; [|done|].
    + apply safe_bind; [apply GVRFromGVK_safe|]. intros [[rsrc [|]]|e]; [done| |].
      * apply safe_call. intros [e|]; [|done]. case_match; [by apply safe_call|done].
      * case_match; [done|by apply safe_call].
    + apply safe_call. intros b. by apply safe_call.
  - intros [e|]; [done|]. apply remove_finalizer_safe. intros [e|]; [|done]. by apply safe_call.
Qed.

Lemma reconcile_instance_safe :
  Forall is_object (ps_PolicyTemplates (p_Spec instance)) →
  safe (reconcile_instance r request instance).
Proof.
  intros Hobj. unfold reconcile_instance. case_match.
  { unfold without_templates. case_match; [|done]. by apply remove_finalizer_safe. }
  apply safe_call. intros [e|]; [by apply safe_call|]. case_match.
  { apply safe_bind; [|done]. apply safe_fold_each. intros _ i Hi%elem_of_seq.
    apply report_error_safe. apply lookup_lt_is_Some. lia. }
  case_match; [apply delete_policy_safe|]. apply safe_call. intros [|]; [done|].
  apply safe_bind.
  { apply safe_fold_each. intros m dep _. unfold add_top_level.
    destruct (match m !! _ with Some _ => _ | None => _ end); [by apply safe_call|done]. }
  intros top. apply safe_bind; [|intros [s|res]; [apply after_templates_safe|done]].
  apply safe_for_each. intros s [i p] Hin%enumerate_lookup; simpl in Hin.
  apply sync_template_safe; [by eexists|]. rewrite Forall_forall in Hobj. apply Hobj.
  by eapply list_elem_of_lookup_2.
Qed.

End safe_handler.

(** ** Properties *)

(** C15: a reconcile of template-sync never panics when every template that decodes is a single
    object: no slice is indexed out of range and no nil pointer is followed, whatever the policy is
    and whatever the API server answers, to the same call at different times, too.  Of the
    environment nothing is assumed but that the field [createdGkConstraint], which is only ever set
    to a pointer, stays set between its two reads. *)
Theorem template_sync_no_panic `{U : UnstructuredLib} `{D : DecodeLib} `{R : MapRange} `{F : FmtLib}
    `{S : SchemeLib} `{O : OwnerLib} {W} (h : env W) r w request :
  field_stays h →
  (∀ instance, (h w (OPolicyGet Managed request)).2 = Ok instance →
    Forall is_object (ps_PolicyTemplates (p_Spec instance))) →
  result_of (run h w (Reconcile r request)) ≠ Panicked.
Proof.
  intros Hh Hobj. destruct ((h w (OPolicyGet Managed request)).2) as [instance|e] eqn:E.
  - destruct (Reconcile_found r request instance h w E) as (w' & _ & ->).
    apply safe_run; [done|]. by apply reconcile_instance_safe, Hobj.
  - unfold Reconcile. rewrite run_bind. simpl (run h w (call _)).
    destruct (h w (OPolicyGet Managed request)) as [w1 x]. cbn in E. subst x. cbv beta iota zeta.
    assert (safe (if IsNotFound e then policy_gone request
                  else do! system_error (nn_Name request) "" "get-error" in Ret (done_err e))) as Hs.
    { case_match; [|by apply safe_call].
      unfold policy_gone. by repeat (apply safe_call; intros _). }
    pose proof (safe_run h w1 _ Hh Hs) as Hr. by destruct (run h w1 _) as [[w2 t] res].
Qed.

(** ** A concrete run *)

(** Two templates are created on a server that counts its calls and lists ConstraintTemplates only
    every other time. *)
Definition moody_env : env nat := λ n o,
  (S n, match o return ans o with
        | OConstraintTemplateList _ => if Nat.even n then Ok [] else Err not_found
        | OReadCreatedGk => Some (Nat.even n)
        | o => demo_answers (demo_instance "enforce" ["t"; "u"]) (λ _, None) o
        end).

Lemma template_sync_no_panic_witness :
  result_of (run moody_env 0%nat demo_Reconcile) ≠ Panicked.
Proof.
  apply (template_sync_no_panic (U := unstructured_ref) (D := name_decode)
    (R := range_ref) (F := fmt_ref) (S := empty_scheme) (O := owner_ref)
    moody_env demo_reconciler 0%nat demo_request).
  - intros w w1 b w2 x [= _ _] [= _ <-]. eexists. reflexivity.
  - intros instance [= <-]. repeat constructor; discriminate.
Defined.
