(* ===== verification/TemplatePending.v ===== *)
(** * controllers/templatesync: templates with unmet dependencies

    What [sync_supported] does with a template whose dependencies are not all met, for an API server
    that answers the same call always the same. *)

From S2P Require Import Prelude Prog GoStrings K8s Effects Utils TemplateObjects TemplateActions TemplateSync.
From S2P Require Import TemplatePanics.

(** Neither creates nor updates an object. *)
Definition no_sync (o : op) : Prop :=
  match o with ODynCreate _ _ _ | ODynUpdate _ _ _ => False | _ => True end.

Section pending.
Context `{U : UnstructuredLib} `{D : DecodeLib} `{R : MapRange} `{F : FmtLib} `{S : SchemeLib}
  `{O : OwnerLib}.
Variable (r : PolicyReconciler) (instance : Policy) (f : ∀ o, ans o).

Lemma pending_no_sync c failures s t :
  size failures ≠ 0%nat →
  all_ops no_sync (create_template r instance c failures t s) ∧
  ∀ e, all_ops no_sync (template_exists r instance c failures e t s).
Proof.
  intros Hsize. assert (∀ o, housekeeping instance o → no_sync o) as HP by (by intros []).
  assert (negb (Nat.eqb (size failures) 0) = true) as Hn
    by (by apply negb_true_iff, Nat.eqb_neq).
  split.
  - unfold create_template. rewrite Hn. apply all_ops_bind; [by apply emitTemplatePending_calls|done].
  - intros e.
    assert (∀ s', all_ops no_sync (sync_existing r instance c failures e t s')) as Hsync.
    { intros s'. unfold sync_existing. rewrite Hn. by apply delete_pending_calls. }
    unfold template_exists. case_match; [|done].
    apply all_ops_bind; [by apply emitGK_calls|]. intros [[|]|err]; [done| |done].
    apply all_ops_bind; [by apply emit_ct_success_calls|done].
Qed.

(** An existing object of a pending template is deleted, whatever happens to the events. *)
Lemma delete_pending_deletes c failures s :
  is_Some (ps_PolicyTemplates (p_Spec instance) !! tc_Index c) →
  ODynDelete (tc_rsrc c) (resourceNs instance c) (tc_Name c) ∈
    ops (trace_of (run (const_env f) tt (delete_pending r instance c failures s))).
Proof.
  intros Hi. apply const_bind_elem; [by apply safe_eval, emitTemplatePending_safe|].
  intros e. cbv zeta. rewrite run_const_call. destruct (run (const_env f) tt _) as [[??]?]. by left.
Qed.

Lemma pending_deletes c failures e t s :
  size failures ≠ 0%nat → is_Some (ps_PolicyTemplates (p_Spec instance) !! tc_Index c) →
  f (ODynGet (tc_rsrc c) (resourceNs instance c) (tc_Name c)) = Ok e →
  (isGkConstraintTemplate (tc_GVK c) = true → u_Name t = tc_Name c) →
  ODynDelete (tc_rsrc c) (resourceNs instance c) (tc_Name c) ∈
    ops (trace_of (run (const_env f) tt (template_exists r instance c failures e t s))).
Proof.
  intros Hsize Hi Hget Hname.
  assert (∀ s, sync_existing r instance c failures e t s = delete_pending r instance c failures s) as Hsync.
  { intros s'. unfold sync_existing. by rewrite (proj2 (negb_true_iff _)) by by apply Nat.eqb_neq. }
  unfold template_exists. destruct (isGkConstraintTemplate _); [|rewrite Hsync; by apply delete_pending_deletes].
  assert (∃ b, eval f (emitGKConstraintTemplateErrMsg r t (tc_rsrc c) (resourceNs instance c) instance
    (tc_Index c) (tc_Name c)) = Returned (Ok b)) as [b Hb].
  { unfold emitGKConstraintTemplateErrMsg. rewrite Hname by done. rewrite eval_bind. simpl (eval f (call _)).
    rewrite Hget. cbv beta iota. destruct (NestedBool _ _) as [[created ok] err].
    assert (∀ m, ∃ b, eval f (do! emitTemplateError r instance (tc_Index c) (tc_Name c) true m in
      Ret (Ok true)) = Returned (Ok b)) as Herr.
    { intros m. exists true. rewrite eval_bind. unfold emitTemplateError.
      pose proof (safe_eval f _ (emitTemplateEvent_safe r instance (tc_Index c) (tc_Name c) true "Warning"
        NonCompliant ("template-error; " +:+ m) Hi)) as Hs. by destruct (eval f _). }
    case_match; [apply Herr|]. case_match; [apply Herr|by eexists]. }
  apply const_bind_elem_ret with (a := Ok b); [done|]. destruct b.
  - rewrite Hsync. by apply delete_pending_deletes.
  - apply const_bind_elem; [by apply safe_eval, (emit_ct_success_safe r instance (tc_Index c))|]. intros s'. rewrite Hsync.
    by apply delete_pending_deletes.
Qed.

Lemma sync_supported_run c templateDeps raw s failures :
  eval f (processDependencies templateDeps) = Returned failures →
  ∃ t0, trace_of (run (const_env f) tt (sync_supported r instance c templateDeps raw s)) =
    trace_of (run (const_env f) tt (processDependencies templateDeps)) ++ t0 ∧
  match UnmarshalUnstructured raw with
  | Err _ => Forall no_sync (ops t0)
  | Ok t =>
      let s' := add_child (ObjID (gvk_Group (tc_GVK c)) (gvk_Version (tc_GVK c))
                  (gvk_Kind (tc_GVK c)) (resourceNs instance c) (tc_Name c)) s in
      let get := ODynGet (tc_rsrc c) (resourceNs instance c) (tc_Name c) in
      match f get with
      | Err err => if IsNotFound err
          then t0 = ev get (f get) ::
            trace_of (run (const_env f) tt (create_template r instance c failures t s'))
          else Forall no_sync (ops t0)
      | Ok e => t0 = ev get (f get) ::
            trace_of (run (const_env f) tt (template_exists r instance c failures e t s'))
      end
  end.
Proof.
  intros Hdeps. assert (∀ o, housekeeping instance o → no_sync o) as HP by (by intros []).
  unfold sync_supported. rewrite run_bind.
  pose proof (eval_const f (processDependencies templateDeps)) as Hres. rewrite Hdeps in Hres.
  destruct (run (const_env f) tt (processDependencies templateDeps)) as [[[] t1] res1].
  cbn in Hres. subst res1.
  match goal with |- context [run (const_env f) tt ?q] => set (p := q) end.
  exists (trace_of (run (const_env f) tt p)). split.
  { by destruct (run (const_env f) tt p) as [[??]?]. }
  subst p. destruct (UnmarshalUnstructured raw) as [t|e].
  - cbv zeta. set (get := ODynGet _ _ _). rewrite run_const_call.
    destruct (f get) as [e|err] eqn:Hget.
    + by destruct (run (const_env f) tt (template_exists _ _ _ _ _ _ _)) as [[??]?].
    + destruct (IsNotFound err).
      * by destruct (run (const_env f) tt (create_template _ _ _ _ _ _)) as [[??]?].
      * pose proof (all_ops_run (const_env f) tt _ _ (get_failed_calls r instance no_sync HP c err
          (add_child (ObjID (gvk_Group (tc_GVK c)) (gvk_Version (tc_GVK c))
                  (gvk_Kind (tc_GVK c)) (resourceNs instance c) (tc_Name c)) s))) as Hq.
        destruct (run (const_env f) tt (get_failed _ _ _ _ _)) as [[??]?].
        cbn in Hq |- *. by constructor.
  - apply all_ops_run, reported_calls; [done|]. done.
Qed.

End pending.

(** ** Properties *)

(** C9: a template with an unmet dependency is not synced: nothing is created or updated for it, and
    an object that exists for it is deleted, after the event that says the template is pending.  This
    holds for ConstraintTemplates, too, for which a status event comes first, when the two decoders
    of the template agree on its name.  The template has an index of the policy's, as in the loop
    that calls this, and the API server is one that answers the same call always the same. *)
Theorem pending_blocks_sync `{U : UnstructuredLib} `{!UnstructuredLaws U} `{D : DecodeLib}
    `{R : MapRange} `{!MapRangeLaws R} `{F : FmtLib} `{S : SchemeLib} `{O : OwnerLib}
    (f : ∀ o, ans o) r instance c templateDeps raw s dep wanted :
  templateDeps !! dep = Some wanted → ¬ satisfied f dep wanted →
  is_Some (ps_PolicyTemplates (p_Spec instance) !! tc_Index c) →
  let t := ops (trace_of (run (const_env f) tt
    (sync_supported r instance c templateDeps raw s))) in
  Forall no_sync t ∧
  (∀ tmpl u, UnmarshalUnstructured raw = Ok tmpl →
    f (ODynGet (tc_rsrc c) (resourceNs instance c) (tc_Name c)) = Ok u →
    (isGkConstraintTemplate (tc_GVK c) = true → u_Name tmpl = tc_Name c) →
    ODynDelete (tc_rsrc c) (resourceNs instance c) (tc_Name c) ∈ t).
Proof.
  intros Hdep Hunsat Hidx. cbv zeta.
  destruct (processDependencies_exact_aux f templateDeps) as (failures & Hev & Hfail).
  specialize (Hfail dep). rewrite Hdep in Hfail.
  assert (size failures ≠ 0%nat) as Hsize.
  { intros Hz%map_size_empty_inv. apply Hunsat, Hfail. by rewrite Hz, lookup_empty. }
  destruct (sync_supported_run r instance f c templateDeps raw s failures Hev) as (t0 & -> & Ht0).
  rewrite ops_app. split.
  - apply Forall_app. split; [apply all_ops_run, (processDependencies_calls instance no_sync);
      by intros []|].
    destruct (UnmarshalUnstructured raw) as [t|e]; [|done]. cbv zeta in Ht0.
    destruct (f (ODynGet _ _ _)) as [e|err].
    + subst t0. constructor; [done|]. apply all_ops_run. by apply pending_no_sync.
    + destruct (IsNotFound err); [|done]. subst t0. constructor; [done|]. apply all_ops_run.
      by apply pending_no_sync.
  - intros tmpl u Hraw Hget Hct. rewrite Hraw in Ht0. cbv zeta in Ht0. rewrite Hget in Ht0.
    subst t0. apply elem_of_app. right. change (ops (?x :: ?l)) with (projT1 x :: ops l). right.
    by apply pending_deletes.
Qed.

(** ** A concrete run *)

Lemma pending_blocks_sync_witness :
  let f := demo_answers (demo_instance "enforce" ["t"]) (λ n, if n ==? "t" then Some demo_template else None) in
  ODynDelete (tc_rsrc demo_ctx) "managed" "t" ∈
    ops (trace_of (run (const_env f) tt (sync_supported (U := unstructured_ref) (D := name_decode)
      (R := range_ref) (S := empty_scheme) (O := owner_ref) demo_reconciler
      (demo_instance "enforce" ["t"]) demo_ctx {[demo_dep := "Compliant"]} "t"
      (SyncState None [] [] false ∅)))).
Proof.
  refine (proj2 (pending_blocks_sync (U := unstructured_ref) (D := name_decode) (R := range_ref)
    (F := fmt_ref) (S := empty_scheme) (O := owner_ref)
    (demo_answers (demo_instance "enforce" ["t"]) (λ n, if n ==? "t" then Some demo_template else None))
    demo_reconciler (demo_instance "enforce" ["t"]) demo_ctx {[demo_dep := "Compliant"]} "t"
    (SyncState None [] [] false ∅) demo_dep "Compliant" _ _ _) _ demo_template eq_refl _ _).
  - apply lookup_singleton_eq.
  - intros (rsrc & ns & Hd & H). vm_compute in Hd. injection Hd as <- <-. vm_compute in H.
    destruct H as (_ & H & _). discriminate H.
  - eexists. reflexivity.
  - reflexivity.
  - reflexivity.
Defined.

