(* ===== verification/TemplateFinalizer.v ===== *)
(** * controllers/templatesync: the cleanup finalizer

    A policy whose templates leave cluster-scoped objects gets a finalizer, so that these objects can
    be deleted before the policy goes.  This file shows when the finalizer is added and removed after
    the templates were synced, and when it is removed from a policy that is being deleted.  The API
    server is one that answers the same call always the same. *)

From S2P Require Import Prelude Prog GoStrings K8s Effects Utils TemplateObjects TemplateActions TemplateSync.
From S2P Require Import TemplatePanics.

(** The updates of the policy in a trace. *)
Definition policy_updates (t : trace) : list Policy :=
  omap (λ o, match o with OPolicyUpdate Managed p => Some p | _ => None end) (ops t).

(** The policy without the finalizer. *)
Definition without_finalizer (p : Policy) : Policy :=
  p_set_Meta (meta_set_Finalizers (filter (λ x, x ≠ ClusterwideFinalizer) (m_Finalizers (p_Meta p)))) p.

(** ** Lemmas *)

Lemma filtered_has_none pol : hasClusterwideFinalizer (without_finalizer pol) = false.
Proof.
  apply existsb_false, Forall_forall. intros x. simpl. rewrite list_elem_of_filter.
  intros [? _]. by apply bool_decide_eq_false.
Qed.

Lemma policy_updates_app t1 t2 : policy_updates (t1 ++ t2) = policy_updates t1 ++ policy_updates t2.
Proof. unfold policy_updates. by rewrite ops_app, omap_app. Qed.

Lemma no_policy_updates (t : trace) : Forall no_policy_update (ops t) → policy_updates t = [].
Proof.
  unfold policy_updates. induction (ops t) as [|o l IH]; [done|]. intros [Ho Hl]%Forall_cons.
  specialize (IH Hl). by destruct o.
Qed.

Lemma quiet_updates {W A} (h : env W) w (p : prg A) :
  all_ops no_policy_update p → policy_updates (trace_of (run h w p)) = [].
Proof. intros Hp. by apply no_policy_updates, all_ops_run. Qed.

Lemma housekeeping_quiet {A} instance (p : prg A) :
  all_ops (housekeeping instance) p → all_ops no_policy_update p.
Proof. intros Hp. eapply all_ops_mono; [exact Hp|]. by intros []. Qed.

Lemma sync_quiet `{D : DecodeLib} `{O : OwnerLib} {A} r instance (p : prg A) :
  causal (sync_call r instance) [] p → all_ops no_policy_update p.
Proof. apply causal_all_ops. by intros t o [Hu _]. Qed.

(** The updates of two parts of a run, when the first part returns. *)
Lemma updates_bind {A B} (f : ∀ o, ans o) (p : prg A) (k : A → prg B) a :
  eval f p = Returned a →
  policy_updates (trace_of (run (const_env f) tt (bind p k))) =
  policy_updates (trace_of (run (const_env f) tt p)) ++
  policy_updates (trace_of (run (const_env f) tt (k a))).
Proof.
  intros Hp. rewrite run_bind. rewrite <- (eval_const f p) in Hp.
  destruct (run (const_env f) tt p) as [[[] t] r]. cbn in Hp. subst r.
  destruct (run (const_env f) tt (k a)) as [[w' t'] r']. apply policy_updates_app.
Qed.

Lemma updates_bind_panic {A B} (f : ∀ o, ans o) (p : prg A) (k : A → prg B) :
  eval f p = Panicked →
  policy_updates (trace_of (run (const_env f) tt (bind p k))) =
  policy_updates (trace_of (run (const_env f) tt p)).
Proof.
  intros Hp. rewrite run_bind. rewrite <- (eval_const f p) in Hp.
  destruct (run (const_env f) tt p) as [[[] t] r]. cbn in Hp. by subst r.
Qed.

(** Sending the update of a policy. *)
Lemma update_policy_updates (f : ∀ o, ans o) p :
  policy_updates (trace_of (run (const_env f) tt (update_policy p))) = [p].
Proof. reflexivity. Qed.
Lemma update_policy_eval (f : ∀ o, ans o) p :
  eval f (update_policy p) =
  Returned (match f (OPolicyUpdate Managed p) with Ok _ => None | Err e => Some e end).
Proof. reflexivity. Qed.

(** ** The policy is being deleted *)

Section deletion.
Context `{D : DecodeLib}.

(** The finalizer may go: the policy has no templates at all, or the client can be built, the names
    are unique, and nothing is left of any template. *)
Definition removable (f : ∀ o, ans o) (instance : Policy) : Prop :=
  ps_PolicyTemplates (p_Spec instance) = [] ∨
  (f ODynamicNew = None ∧ getDupName instance = "" ∧
   Forall (cleaned f) (ps_PolicyTemplates (p_Spec instance))).

(** The outcome of a reconcile with updates [l] and result [res]. *)
Definition finalizer_outcome (f : ∀ o, ans o) (instance : Policy) (l : list Policy)
    (res : outcome reconciled) : Prop :=
  (removable f instance ∧ l = [without_finalizer instance] ∧
   res = Returned (MkResult 0, match f (OPolicyUpdate Managed (without_finalizer instance)) with
                               | Ok _ => None | Err e => Some e end)) ∨
  (¬ removable f instance ∧ l = [] ∧
   if bool_decide (f ODynamicNew = None) && (getDupName instance !=? "")
   then res = Returned done_ok else ∃ e, res = Returned (done_err e)).

Lemma finalizerCleanup_quiet pol : all_ops no_policy_update (finalizerCleanup pol).
Proof.
  apply all_ops_bind; [|done]. apply all_ops_fold_each. intros errs t _.
  unfold cleanup_template. destruct (Decode _) as [[gvk [obj|]]|e]; [|done|].
  - apply all_ops_bind; [by apply GVRFromGVK_calls|]. intros [[rsrc [|]]|e]; [done| |].
    + apply all_ops_bind; [by apply all_ops_call|]. intros [e|]; [|done]. by case_match.
    + by case_match.
  - apply all_ops_bind; [by apply all_ops_call|]. intros b.
    apply all_ops_bind; [by apply all_ops_call|done].
Qed.

Lemma delete_policy_outcome (f : ∀ o, ans o) instance :
  hasClusterwideFinalizer instance = true → ps_PolicyTemplates (p_Spec instance) ≠ [] →
  f ODynamicNew = None → getDupName instance = "" →
  finalizer_outcome f instance
    (policy_updates (trace_of (run (const_env f) tt (delete_policy instance))))
    (eval f (delete_policy instance)).
Proof.
  intros Hfin Hne Hnew Hdup. unfold delete_policy. rewrite Hfin. cbv [negb].
  destruct (finalizerCleanup_exact_aux f instance) as (err & Hev & Herr).
  rewrite (updates_bind f _ _ err) by done.
  rewrite eval_bind, Hev, quiet_updates by apply finalizerCleanup_quiet.
  unfold finalizer_outcome, removable. rewrite Hdup, bool_decide_refl, andb_false_r.
  destruct err as [e|].
  - right. split; [|split; [done|by exists e]]. intros [?|(_ & _ & Hc)]; [done|]. by apply Herr in Hc.
  - left. split; [right; split_and!; [done|done|by apply Herr]|].
    rewrite remove_finalizer_filter. fold (without_finalizer instance).
    rewrite (updates_bind f _ _ _ (update_policy_eval f _)), update_policy_updates, eval_bind.
    rewrite update_policy_eval. by destruct (f (OPolicyUpdate _ _)).
Qed.

Lemma report_duplicate_outcome (f : ∀ o, ans o) r instance dup :
  policy_updates (trace_of (run (const_env f) tt (report_duplicate r instance dup))) = [] ∧
  eval f (report_duplicate r instance dup) = Returned done_ok.
Proof.
  assert (∀ o, housekeeping instance o → no_policy_update o) as HP by by intros [].
  split.
  - apply quiet_updates, all_ops_bind; [|done]. apply all_ops_fold_each. intros. by apply report_error_calls.
  - unfold report_duplicate. rewrite eval_bind.
    match goal with |- context [eval f ?p] => assert (eval f p ≠ Panicked) as Hs end.
    { apply safe_eval, safe_fold_each. intros _ i Hi%elem_of_seq.
      apply report_error_safe, lookup_lt_is_Some. lia. }
    by destruct (eval f _) as [[]|].
Qed.

Lemma reconcile_deleted (f : ∀ o, ans o) r request instance
    `{U : UnstructuredLib} `{R : MapRange} `{F : FmtLib} `{S : SchemeLib} `{O : OwnerLib} :
  is_Some (m_DeletionTimestamp (p_Meta instance)) → hasClusterwideFinalizer instance = true →
  finalizer_outcome f instance
    (policy_updates (trace_of (run (const_env f) tt (reconcile_instance r request instance))))
    (eval f (reconcile_instance r request instance)).
Proof.
  intros Hdel Hfin. unfold reconcile_instance.
  destruct (Nat.eqb_spec (length (ps_PolicyTemplates (p_Spec instance))) 0) as [Hz|Hz].
  { apply nil_length_inv in Hz. left. split; [by left|]. unfold without_templates.
    rewrite Hfin, remove_finalizer_filter. fold (without_finalizer instance).
    rewrite (updates_bind f _ _ _ (update_policy_eval f _)), update_policy_updates, eval_bind.
    by rewrite update_policy_eval. }
  assert (ps_PolicyTemplates (p_Spec instance) ≠ []) as Hne by by intros Hnil; rewrite Hnil in Hz.
  rewrite (updates_bind f (call ODynamicNew) _ (f ODynamicNew) eq_refl), eval_bind.
  change (policy_updates _ ++ ?l) with l. change (eval f (call ODynamicNew)) with (Returned (f ODynamicNew)).
  cbv iota. destruct (f ODynamicNew) as [e|] eqn:Hnew.
  { right. rewrite Hnew. split; [|split; [done|by exists e]]. intros [?|[? _]]; [done|congruence]. }
  destruct (getDupName instance ==? "") eqn:Hdup; breflect; cbn [negb].
  - rewrite bool_decide_eq_true_2 by done. by apply delete_policy_outcome.
  - destruct (report_duplicate_outcome f r instance (getDupName instance)) as [-> ->]. right.
    rewrite Hnew. split; [intros [?|(_ & ? & _)]; done|]. split; [done|].
    case_bool_decide; [|done]. by case_bool_decide.
Qed.

End deletion.

(** ** The templates are synced *)

Section synced.
Context `{U : UnstructuredLib} `{!UnstructuredLaws U} `{D : DecodeLib} `{R : MapRange} `{!MapRangeLaws R}
  `{F : FmtLib} `{S : SchemeLib} `{O : OwnerLib}.
Variable (f : ∀ o, ans o) (r : PolicyReconciler) (request : NamespacedName) (instance : Policy).

(** The dependencies of the policy: of two that conflict the first one counts. *)
Definition top_level_deps (l : list PolicyDependency) : deps :=
  foldl (λ m dep, match m !! dep_ID (ClusterNamespace r) dep with
                  | Some _ => m
                  | None => <[dep_ID (ClusterNamespace r) dep := dep_Compliance dep]> m
                  end) ∅ l.

(** Those of a template, if they do not conflict. *)
Definition template_deps (top : deps) (p : PolicyTemplate) : option deps :=
  let '(_, d, conflict) := extra_deps (ClusterNamespace r) (pt_ExtraDependencies p) ∅ top in
  match conflict with Some _ => None | None => Some d end.

(** Where discovery puts the object of a template. *)
Definition place (it : nat * PolicyTemplate) : option template_ctx :=
  match Decode (pt_Raw it.2) with
  | Ok (gvk, Some obj) =>
      match discovered gvk (f (discovery_call gvk)) with
      | Ok (rsrc, namespaced) => Some (TemplateCtx it.1 gvk obj (u_Name obj) rsrc (negb namespaced))
      | Err _ => None
      end
  | _ => None
  end.

(** The kind may be synced. *)
Definition syncable (c : template_ctx) : Prop :=
  tc_Name c ≠ "" ∧ (isGkObj (tc_GVK c) = true → DisableGkSync r = false) ∧
  ∃ label, eval f (hasPolicyTemplateLabel (tc_rsrc c)) = Returned (Ok label) ∧
    (label = true ∨ IsAllowedPolicy (gvk_Group (tc_GVK c)) (gvk_Kind (tc_GVK c)) = true).

(** Gatekeeper reports that it has accepted the ConstraintTemplate. *)
Definition accepted (c : template_ctx) (name : string) : Prop :=
  ∃ u, f (ODynGet (tc_rsrc c) (resourceNs instance c) name) = Ok u ∧
       json_at (u_Object u) ["status"; "created"] = Found (JBool true).

(** The existing object belongs to the policy and is as the template wants it, or the update to that
    succeeds. *)
Definition kept_in_place (c : template_ctx) (e tmpl : unstructured) : Prop :=
  let '(owned, refName) := resolve_owner instance c e tmpl in
  let '(equivalent, t) := equivalentTemplates e (desired_object r instance c owned) in
  refName = p_Name instance ∧
  (equivalent = true ∨
   ∃ u, f (ODynUpdate (tc_rsrc c) (resourceNs instance c) (merge_template_into e t)) = Ok u).

(** The reconcile finds or brings the object in place.  A missing one is created, and when it is a
    ConstraintTemplate Gatekeeper accepts it; one that is there is kept in place, and when it is a
    ConstraintTemplate its status can be read. *)
Definition in_place (c : template_ctx) (tmpl : unstructured) : Prop :=
  match f (ODynGet (tc_rsrc c) (resourceNs instance c) (tc_Name c)) with
  | Err err =>
      IsNotFound err = true ∧
      (∃ u, f (ODynCreate (tc_rsrc c) (resourceNs instance c) (new_object r instance c tmpl)) = Ok u) ∧
      (isGkConstraintTemplate (tc_GVK c) = true → accepted c (u_Name tmpl))
  | Ok e =>
      kept_in_place c e tmpl ∧
      (isGkConstraintTemplate (tc_GVK c) = true →
       ∃ u, f (ODynGet (tc_rsrc c) (resourceNs instance c) (u_Name tmpl)) = Ok u)
  end.

(** After the reconcile of the template its object is on the cluster for the policy. *)
Definition in_place_for (deps_of : deps) (c : template_ctx) (raw : string) : Prop :=
  (∀ dep wanted, deps_of !! dep = Some wanted → satisfied f dep wanted) ∧
  ∃ tmpl, UnmarshalUnstructured raw = Ok tmpl ∧ hub_template_error c = "" ∧ in_place c tmpl.

(** The template leaves a cluster-scoped object. *)
Definition leaves_clusterwide (top : deps) (it : nat * PolicyTemplate) : Prop :=
  ∃ c d, place it = Some c ∧ tc_ClusterScoped c = true ∧ syncable c ∧
    template_deps top it.2 = Some d ∧ in_place_for d c (pt_Raw it.2).

(** *** The flag the loop sets *)

(** The round ends with the flag set when it was set before, or when [P] holds. *)
Definition sets (P : Prop) (s : sync_state) (o : outcome (ctl sync_state reconciled)) : Prop :=
  match o with
  | Returned (Next s') => addFinalizer s' = true ↔ addFinalizer s = true ∨ P
  | Returned (Break _) => False
  | Returned (Exit _) | Panicked => True
  end.

Lemma sets_iff P P' s o : (P ↔ P') → sets P s o → sets P' s o.
Proof. intros HP. destruct o as [[s'|s'|x]|]; cbn; tauto. Qed.

#[local] Instance sets_proper : Proper (iff ==> eq ==> eq ==> iff) sets.
Proof. intros P P' HP s ? <- o ? <-. by split; apply sets_iff. Qed.

Lemma sets_next (P : Prop) s s' :
  (addFinalizer s' = true ↔ addFinalizer s = true ∨ P) → sets P s (eval f (next s')).
Proof. done. Qed.

Lemma sets_same (P : Prop) s s' : addFinalizer s' = addFinalizer s → ¬ P → sets P s (eval f (next s')).
Proof. intros Hs HP. apply sets_next. rewrite Hs. tauto. Qed.

Lemma sets_bind {A} P s (p : prg A) k :
  (∀ a, eval f p = Returned a → sets P s (eval f (k a))) → sets P s (eval f (bind p k)).
Proof. intros Hk. rewrite eval_bind. destruct (eval f p) as [a|]; [by apply Hk|done]. Qed.

Lemma sets_reported P s i n b m c p t k q :
  sets P s (eval f q) →
  sets P s (eval f (do! report_error r instance i n b m in do! call (OCounterInc c p t k) in q)).
Proof. intros Hq. apply sets_bind. intros [] _. apply sets_bind. intros [] _. exact Hq. Qed.

Lemma note_error_flag e s : addFinalizer (note_error e s) = addFinalizer s.
Proof. by destruct e. Qed.

(** Only the flag of the state before counts. *)
Lemma sets_flag P s s' o : addFinalizer s' = addFinalizer s → sets P s' o → sets P s o.
Proof. intros Hs. unfold sets. by rewrite Hs. Qed.

Section one_template.
Variable c : template_ctx.

Lemma emit_ct_success_flag v s s' :
  eval f (emit_ct_success r instance c v s) = Returned s' → addFinalizer s' = addFinalizer s.
Proof.
  unfold emit_ct_success. rewrite eval_bind. destruct (eval f _) as [e|]; [|done].
  intros [= <-]. apply note_error_flag.
Qed.

Lemma synced_clusterwide_flag v s s' :
  eval f (synced_clusterwide r instance c v s) = Returned s' →
  addFinalizer s' = addFinalizer s || tc_ClusterScoped c.
Proof.
  unfold synced_clusterwide. destruct (tc_ClusterScoped c).
  2: intros [= <-]; by rewrite orb_false_r.
  rewrite eval_bind, orb_true_r. cbv zeta. set (q := match isGkObj _ with true => _ | false => _ end).
  destruct (eval f q); [|done].
  destruct (isGkConstraintTemplate _); [|by intros [= <-]]. by intros H%emit_ct_success_flag.
Qed.

Lemma finish_sync_flag m u s s' :
  eval f (finish_sync instance c m u s) = Returned s' → addFinalizer s' = addFinalizer s.
Proof.
  unfold finish_sync. rewrite eval_bind. destruct (eval f _) as [[e|]|]; [|by intros [= <-]|done].
  rewrite eval_bind. simpl (eval f (system_error _ _ _)). by intros [= <-].
Qed.

Lemma in_sync_end_sets s s0 :
  addFinalizer s = addFinalizer s0 ∨ addFinalizer s = addFinalizer s0 || tc_ClusterScoped c →
  sets (tc_ClusterScoped c = true) s0 (eval f (in_sync_end c s)).
Proof.
  unfold in_sync_end. destruct (tc_ClusterScoped c); intros Hs.
  - apply sets_bind. intros _ _. apply sets_next. simpl. tauto.
  - apply sets_same; [|done]. destruct Hs as [->| ->]; [done|apply orb_false_r].
Qed.

Lemma after_create_sets u s : sets (tc_ClusterScoped c = true) s (eval f (after_create r instance c u s)).
Proof.
  apply sets_bind. intros s1 H1%synced_clusterwide_flag. apply sets_bind. intros s2 H2%finish_sync_flag.
  apply sets_next. rewrite H2, H1. by rewrite orb_true_iff.
Qed.

Lemma emitGK_outcome t n :
  match f (ODynGet (tc_rsrc c) (resourceNs instance c) (u_Name t)) with
  | Ok u => ∀ res, eval f (emitGKConstraintTemplateErrMsg r t (tc_rsrc c) (resourceNs instance c) instance
              (tc_Index c) n) = Returned res → ∃ b, res = Ok b ∧ (b = false ↔ accepted c (u_Name t))
  | Err e => eval f (emitGKConstraintTemplateErrMsg r t (tc_rsrc c) (resourceNs instance c) instance
              (tc_Index c) n) = Returned (Err e)
  end.
Proof.
  unfold emitGKConstraintTemplateErrMsg, accepted. rewrite eval_bind. simpl (eval f (call _)). cbv beta iota.
  destruct (f (ODynGet _ _ _)) as [u|e]; [|done]. intros res.
  assert ((∃ u', Ok u = Ok u' ∧ json_at (u_Object u') ["status"; "created"] = Found (JBool true))
    ↔ json_at (u_Object u) ["status"; "created"] = Found (JBool true)) as Hex.
  { split; [by intros (? & [= <-] & H)|by exists u]. }
  setoid_rewrite Hex. destruct (NestedBool _ _) as [[created ok] err] eqn:E.
  apply (reads_nested_cases false get_bool _ _ _ _ _ _ NestedBool_reads) in E. rewrite orb_comm in E.
  assert (∀ m, eval f (do! emitTemplateError r instance (tc_Index c) n true m in Ret (Ok true)) =
    Returned res → res = Ok true) as Herr.
  { intros m. rewrite eval_bind. destruct (eval f _); [|done]. by intros [= <-]. }
  destruct (_ || _)%bool.
  - intros ->%Herr. exists true. split; [done|]. split; [done|]. intros Hb. by apply E in Hb.
  - destruct E as (v & Hv & Hg). rewrite Hv. destruct v; simplify_eq/=. destruct created; simpl negb.
    + intros [= <-]. by exists false.
    + intros ->%Herr. exists true. split; [done|]. split; [done|]. congruence.
Qed.

(** A missing object. *)
Lemma create_template_sets d t s err :
  f (ODynGet (tc_rsrc c) (resourceNs instance c) (tc_Name c)) = Err err → IsNotFound err = true →
  sets (tc_ClusterScoped c = true ∧ size d = 0%nat ∧ hub_template_error c = "" ∧ in_place c t) s
    (eval f (create_template r instance c d t s)).
Proof.
  intros Hget Hnf. unfold create_template, in_place. rewrite Hget.
  assert (u_Name (new_object r instance c t) = u_Name t) as Hn.
  { unfold new_object, u_Name. simpl. rewrite override_meta. simpl. by destruct (tc_ClusterScoped c). }
  destruct (Nat.eqb_spec (size d) 0) as [Hd|Hd]; cbn [negb].
  2:{ apply sets_bind. intros e _. apply sets_same; [apply note_error_flag|tauto]. }
  destruct (hub_template_error c ==? "") eqn:Hhub; breflect.
  2:{ apply sets_reported, sets_same; [done|tauto]. }
  cbn [negb]. apply sets_bind. intros [u|e] Hc; simpl in Hc; injection Hc as Hc.
  - destruct (isGkConstraintTemplate (tc_GVK c)).
    + apply sets_bind. pose proof (emitGK_outcome (new_object r instance c t) (tc_Name c)) as Hgk.
      rewrite Hn in Hgk. intros res Hres. destruct (f (ODynGet _ _ (u_Name t))) as [u'|e'].
      2:{ rewrite Hgk in Hres. by injection Hres as <-. }
      destruct (Hgk _ Hres) as (b & -> & Hb). destruct b.
      * apply sets_same; [done|]. intros (_ & _ & _ & _ & _ & H). by apply Hb in H.
      * apply (sets_iff (tc_ClusterScoped c = true)), after_create_sets.
        assert (accepted c (u_Name t)) by by apply Hb. rewrite Hc. naive_solver.
    + apply (sets_iff (tc_ClusterScoped c = true)), after_create_sets. rewrite Hc. naive_solver.
  - unfold create_failed. apply sets_bind. intros [] _.
    destruct (IsInvalid _); apply sets_bind; intros [] _; (apply sets_same; [done|]);
      rewrite Hc; intros (_ & _ & _ & _ & [? ?] & _); done.
Qed.

(** An object that is there and owned by the policy. *)
Lemma compare_and_update_sets e t s :
  let '(equivalent, t') := equivalentTemplates e (desired_object r instance c t) in
  sets (tc_ClusterScoped c = true ∧
        (equivalent = true ∨
         ∃ u, f (ODynUpdate (tc_rsrc c) (resourceNs instance c) (merge_template_into e t')) = Ok u)) s
    (eval f (compare_and_update r instance c e t s)).
Proof.
  unfold compare_and_update.
  destruct (equivalentTemplates e (desired_object r instance c t)) as [[|] t']; simpl negb; cbv iota zeta.
  - apply sets_bind. intros s1 H1%finish_sync_flag.
    eapply sets_iff; [|apply in_sync_end_sets; left; exact H1]. tauto.
  - apply sets_bind. intros [u|err] Hu; simpl in Hu; injection Hu as Hu.
    + apply (sets_iff (tc_ClusterScoped c = true)); [rewrite Hu; naive_solver|].
      case_match; [|apply in_sync_end_sets; by left].
      apply sets_bind. intros s1 H1%synced_clusterwide_flag. apply sets_bind.
      intros s2 H2%finish_sync_flag. apply in_sync_end_sets. right. by rewrite H2.
    + assert (¬ (tc_ClusterScoped c = true ∧ (false = true ∨ ∃ u, f (ODynUpdate (tc_rsrc c)
        (resourceNs instance c) (merge_template_into e t')) = Ok u))) as Hno by (rewrite Hu; naive_solver).
      unfold update_failed. case_match; [done|]. apply sets_bind. intros [] _.
      case_match; apply sets_bind; intros [] _; (apply sets_same; [done|exact Hno]).
Qed.

Lemma sets_delete (P : Prop) s s0 :
  addFinalizer s = addFinalizer s0 → ¬ P →
  sets P s0 (eval f (let! err := call (ODynDelete (tc_rsrc c) (resourceNs instance c) (tc_Name c)) in
    match err with
    | Some err =>
        do! system_error (p_Name instance) (tc_Name c) "delete-error" in
        next (set_error err s)
    | None => next s
    end)).
Proof.
  intros Hs HP. apply sets_bind. intros [e|] _; [|by apply sets_same].
  apply sets_bind. intros [] _. by apply sets_same.
Qed.

Lemma sync_existing_sets d e t s :
  sets (tc_ClusterScoped c = true ∧ size d = 0%nat ∧ hub_template_error c = "" ∧ kept_in_place c e t) s
    (eval f (sync_existing r instance c d e t s)).
Proof.
  unfold sync_existing, kept_in_place.
  destruct (Nat.eqb_spec (size d) 0) as [Hd|Hd]; cbn [negb].
  2:{ apply sets_bind. intros [e'|] _; (apply sets_delete; [done|tauto]). }
  destruct (hub_template_error c ==? "") eqn:Hhub; breflect; cbn [negb].
  2:{ apply sets_reported, sets_bind. intros [e'|] _; [apply sets_same|apply sets_delete]; (done || tauto). }
  destruct (resolve_owner instance c e t) as [owned refName].
  pose proof (compare_and_update_sets e owned s) as Hcmp.
  destruct (equivalentTemplates e (desired_object r instance c owned)) as [eqv t'].
  destruct (p_Name instance ==? refName) eqn:Hr; breflect; cbn [negb].
  - eapply sets_iff; [|exact Hcmp]. subst. tauto.
  - apply sets_reported, sets_same; [done|]. intros (_ & _ & _ & Hn & _). by destruct Hr.
Qed.

Lemma template_exists_sets d e t s :
  f (ODynGet (tc_rsrc c) (resourceNs instance c) (tc_Name c)) = Ok e →
  sets (tc_ClusterScoped c = true ∧ size d = 0%nat ∧ hub_template_error c = "" ∧ in_place c t) s
    (eval f (template_exists r instance c d e t s)).
Proof.
  intros Hget. unfold template_exists, in_place. rewrite Hget.
  destruct (isGkConstraintTemplate (tc_GVK c)).
  - apply sets_bind. pose proof (emitGK_outcome t (tc_Name c)) as Hgk. intros res Hres.
    destruct (f (ODynGet _ _ (u_Name t))) as [u'|e']; [|rewrite Hgk in Hres; by injection Hres as <-].
    assert (true = true → ∃ u, Ok u' = @Ok unstructured u) as Hread by by exists u'.
    destruct (Hgk _ Hres) as ([|] & -> & _).
    + eapply sets_iff; [|apply sync_existing_sets]. tauto.
    + apply sets_bind. intros s' H'%emit_ct_success_flag. apply (sets_flag _ s s'); [done|].
      eapply sets_iff; [|apply sync_existing_sets]. tauto.
  - eapply sets_iff; [|apply sync_existing_sets]. assert (false ≠ true) by done. tauto.
Qed.

Lemma sync_supported_sets d raw s :
  sets (tc_ClusterScoped c = true ∧ in_place_for d c raw) s
    (eval f (sync_supported r instance c d raw s)).
Proof.
  unfold sync_supported, in_place_for.
  destruct (processDependencies_exact_aux f d) as (failures & Hev & Hfail).
  apply sets_bind. intros failures' Hev'. assert (failures' = failures) as -> by congruence.
  assert (size failures = 0%nat ↔ ∀ dep wanted, d !! dep = Some wanted → satisfied f dep wanted) as Hsize.
  { rewrite map_size_empty_iff, map_empty. split.
    - intros Hno dep wanted Hd. specialize (Hfail dep). rewrite Hd in Hfail. by apply Hfail.
    - intros Hsat dep. specialize (Hfail dep). destruct (d !! dep) as [w|] eqn:Hd; [|done].
      by apply Hfail, Hsat. }
  rewrite <- Hsize. destruct (UnmarshalUnstructured raw) as [t|e].
  2:{ apply sets_reported, sets_same; [done|]. by intros (_ & _ & ? & ? & _). }
  cbv zeta. match goal with |- context [add_child ?id s] => apply (sets_flag _ s (add_child id s)); [done|] end.
  apply (sets_iff (tc_ClusterScoped c = true ∧ size failures = 0%nat ∧ hub_template_error c = "" ∧
    in_place c t)).
  { split; [intros (? & ? & ? & ?); eauto 10|]. intros (? & ? & t' & [= <-] & ?). tauto. }
  apply sets_bind. intros got Hgot. simpl in Hgot. injection Hgot as Hgot.
  destruct got as [e|err]; [by apply template_exists_sets|].
  destruct (IsNotFound err) eqn:Hnf; [by eapply create_template_sets|].
  unfold get_failed. case_match; [done|]. apply sets_reported, sets_same; [done|].
  unfold in_place. rewrite Hgot, Hnf. by intros (_ & _ & _ & ? & _).
Qed.

End one_template.

(** The dependencies of a template do not depend on those of the templates before it. *)
Lemma extra_deps_all cn l all all' template :
  (extra_deps cn l all template).1.2 = (extra_deps cn l all' template).1.2 ∧
  (extra_deps cn l all template).2 = (extra_deps cn l all' template).2.
Proof.
  revert all all' template. induction l as [|dep l IH]; intros; simpl; [done|].
  destruct (match template !! _ with Some _ => _ | None => _ end); [done|apply IH].
Qed.

Lemma template_deps_spec top p all all' d conflict :
  extra_deps (ClusterNamespace r) (pt_ExtraDependencies p) all top = (all', d, conflict) →
  template_deps top p = match conflict with Some _ => None | None => Some d end.
Proof.
  intros E. unfold template_deps.
  destruct (extra_deps_all (ClusterNamespace r) (pt_ExtraDependencies p) all ∅ top) as [H1 H2].
  rewrite E in H1, H2. destruct (extra_deps _ _ ∅ _) as [[??]?]. by simplify_eq/=.
Qed.

Lemma sync_named_sets i gvk m d raw s :
  u_Name m ≠ "" →
  sets (∃ rsrc namespaced, discovered gvk (f (discovery_call gvk)) = Ok (rsrc, namespaced) ∧
    let c := TemplateCtx i gvk m (u_Name m) rsrc (negb namespaced) in
    tc_ClusterScoped c = true ∧ syncable c ∧ in_place_for d c raw) s
    (eval f (sync_named r request instance i gvk m d raw s)).
Proof.
  intros Hne. unfold sync_named. cbv zeta. apply (sets_flag _ s (add_name (u_Name m) s)); [done|].
  apply sets_bind. intros mapping Hmap. rewrite GVRFromGVK_eval in Hmap. injection Hmap as Hmap.
  rewrite Hmap. destruct mapping as [[rsrc namespaced]|err].
  2:{ case_match; [|by apply sets_bind]. apply sets_reported, sets_same; [done|].
      by intros (? & ? & ? & _). }
  apply sets_bind. intros label Hlabel. destruct label as [label|err]; [|by apply sets_bind].
  set (c := TemplateCtx i gvk m (u_Name m) rsrc (negb namespaced)).
  assert (syncable c ↔ (negb label && negb (IsAllowedPolicy (gvk_Group gvk) (gvk_Kind gvk)) ||
    isGkObj gvk && DisableGkSync r)%bool = false) as Hsync.
  { unfold syncable, c. cbn [tc_Name tc_GVK tc_rsrc]. rewrite Hlabel, orb_false_iff, !andb_false_iff, !negb_false_iff.
    destruct (isGkObj gvk), (DisableGkSync r), label; naive_solver. }
  apply (sets_iff (syncable c ∧ tc_ClusterScoped c = true ∧ in_place_for d c raw)).
  { split; [intros (? & ? & ?); by exists rsrc, namespaced|]. intros (? & ? & [= <- <-] & ?). tauto. }
  rewrite Hsync. destruct (_ || _)%bool.
  - apply sets_reported, sets_same; [done|]. by intros [? _].
  - eapply sets_iff; [|apply sync_supported_sets]. tauto.
Qed.

Lemma sync_template_sets top s it :
  sets (leaves_clusterwide top it) s (eval f (sync_template r request instance top s it)).
Proof.
  unfold leaves_clusterwide, place, sync_template. destruct it as [i p]. cbn [fst snd].
  destruct (Decode (pt_Raw p)) as [[gvk object]|e].
  2:{ apply sets_reported. apply sets_same; [by case_match|]. by intros (? & ? & ? & _). }
  destruct (extra_deps _ _ _ _) as [[all' d] conflict] eqn:E. rewrite (template_deps_spec _ _ _ _ _ _ E).
  apply (sets_flag _ s (set_allDeps all' s)); [done|].
  destruct conflict as [dep|].
  { apply sets_reported, sets_same; [done|]. by intros (? & ? & _ & _ & _ & ? & _). }
  destruct object as [m|]; [|done]. destruct (u_Name m ==? "") eqn:Hn; breflect.
  - apply sets_reported, sets_same; [done|]. intros (c & ? & Hc & _ & [Hne _] & _).
    destruct (discovered _ _) as [[??]|]; simplify_eq/=.
  - eapply sets_iff; [|by apply sync_named_sets]. cbv zeta. split.
    + intros (rsrc & namespaced & -> & H). eexists _, d. split_and!; done || apply H.
    + intros (c & ? & Hc & Hscope & Hsync & [= <-] & Hp).
      destruct (discovered _ _) as [[rsrc namespaced]|]; [|done]. injection Hc as <-. eauto 10.
Qed.

(** The loop over the templates. *)
Lemma loop_sets top xs s :
  match eval f (for_each (sync_template r request instance top) xs s) with
  | Returned (inl s') =>
      addFinalizer s' = true ↔ addFinalizer s = true ∨ Exists (leaves_clusterwide top) xs
  | _ => True
  end.
Proof.
  revert s. induction xs as [|it xs IH]; intros s; simpl.
  { rewrite Exists_nil. tauto. }
  rewrite eval_bind. pose proof (sync_template_sets top s it) as Hs.
  destruct (eval f (sync_template _ _ _ _ _ _)) as [[s'|s'|x]|]; try done.
  specialize (IH s'). destruct (eval f _) as [[]|]; try done. rewrite Exists_cons. cbn in Hs. tauto.
Qed.

Lemma top_level_eval :
  eval f (fold_each (add_top_level (ClusterNamespace r) (p_Name instance))
            (ps_Dependencies (p_Spec instance)) ∅) =
  Returned (top_level_deps (ps_Dependencies (p_Spec instance))).
Proof.
  apply eval_fold_each. intros m dep. unfold add_top_level.
  destruct (m !! dep_ID (ClusterNamespace r) dep) as [w|] eqn:Hm; [|done].
  destruct (w ==? dep_Compliance dep) eqn:Hw; breflect; [|done]. subst w. simpl. f_equal.
  by apply insert_id.
Qed.

(** *** After the loop *)

(** The policy with the finalizer, or without it. *)
Definition with_finalizer (needed : bool) (p : Policy) : Policy :=
  if needed then p_set_Meta (meta_set_Finalizers (m_Finalizers (p_Meta p) ++ [ClusterwideFinalizer])) p
  else without_finalizer p.

Definition finalizer_updates (needed : bool) : list Policy :=
  if hasClusterwideFinalizer instance ==? needed then [] else [with_finalizer needed instance].

Lemma update_finalizer_updates s :
  policy_updates (trace_of (run (const_env f) tt (update_finalizer instance s))) =
  finalizer_updates (addFinalizer s).
Proof.
  unfold update_finalizer, finalizer_updates. rewrite remove_finalizer_filter.
  by destruct (hasClusterwideFinalizer instance), (addFinalizer s).
Qed.

Lemma after_templates_updates s :
  policy_updates (trace_of (run (const_env f) tt (after_templates r request instance s))) =
  finalizer_updates (addFinalizer s).
Proof.
  assert (∀ o, housekeeping instance o → no_policy_update o) as HP by by intros [].
  unfold after_templates.
  destruct (eval f (update_watcher request s)) as [err|] eqn:Ew.
  2:{ exfalso. revert Ew. unfold update_watcher. by case_match. }
  rewrite (updates_bind f _ _ _ Ew), quiet_updates by by apply (update_watcher_calls request instance).
  set (noted := match err with Some _ => _ | None => _ end).
  assert (∃ s1, eval f noted = Returned s1 ∧ addFinalizer s1 = addFinalizer s) as (s1 & Es & Hs).
  { unfold noted. destruct err as [e|]; [|by eexists]. rewrite eval_bind. destruct (IsNotFound e); by eexists. }
  rewrite (updates_bind f _ _ _ Es). rewrite quiet_updates.
  2:{ unfold noted. destruct err as [e|]; [|done]. apply all_ops_bind; [|done].
      case_match; by apply all_ops_call. }
  destruct (eval f (cleanUpExcessTemplates r instance (templateNames s1))) as [err'|] eqn:Ec.
  2:{ by apply safe_eval in Ec; [|apply cleanup_safe]. }
  rewrite (updates_bind f _ _ _ Ec). rewrite quiet_updates by by apply (sync_quiet r instance), cleanup_causal.
  cbv zeta. rewrite <- Hs, <- (note_error_flag err' s1). set (s2 := note_error err' s1).
  destruct (eval f (update_finalizer instance s2)) as [s3|] eqn:Eu.
  - rewrite (updates_bind f _ _ _ Eu), update_finalizer_updates. apply app_nil_r.
  - rewrite (updates_bind_panic f _ _ Eu). apply update_finalizer_updates.
Qed.

Lemma loop_quiet top :
  all_ops no_policy_update (for_each (sync_template r request instance top)
    (enumerate (ps_PolicyTemplates (p_Spec instance))) (SyncState None [] [] false top)).
Proof.
  apply (sync_quiet r instance), causal_for_each. intros t s [i p] Hin. apply sync_template_causal. simpl.
  apply enumerate_lookup in Hin. by eapply list_elem_of_lookup_2.
Qed.

End synced.

(** ** Properties *)

(** C12: a policy that is being deleted and has the cleanup finalizer loses it, and no other
    finalizer, exactly when the policy has no templates, or when the client can be built, the template
    names are unique and nothing is left of any template; an error of that update is returned.
    Otherwise the policy is not updated: with duplicate template names the reconcile ends without an
    error, so that nothing tries again, and in all other cases it returns an error.  The API server is
    one that answers the same call always the same. *)
Theorem finalizer_removed_after_cleanup `{U : UnstructuredLib} `{D : DecodeLib} `{R : MapRange}
    `{F : FmtLib} `{S : SchemeLib} `{O : OwnerLib} (f : ∀ o, ans o) r request instance :
  f (OPolicyGet Managed request) = Ok instance →
  is_Some (m_DeletionTimestamp (p_Meta instance)) → hasClusterwideFinalizer instance = true →
  let '(_, t, res) := run (const_env f) tt (Reconcile r request) in
  finalizer_outcome f instance (policy_updates t) res.
Proof.
  intros Hget Hdel Hfin. destruct (Reconcile_found r request instance (const_env f) tt Hget)
    as ([] & Ht & Hres).
  destruct (run (const_env f) tt (Reconcile r request)) as [[w t] res]. cbn [trace_of result_of fst snd] in *.
  subst t res. change (policy_updates (ev ?o ?x :: ?l)) with (policy_updates l).
  rewrite eval_const. by apply reconcile_deleted.
Qed.

(** C14: the finalizer follows the objects.  When all templates were gone through, the policy needs
    the finalizer exactly when one of them leaves a cluster-scoped object: its kind is known, may be
    synced and is cluster scoped, its dependencies are met and do not conflict, and its object was
    created, was right, or could be updated.  The policy is updated when it needs the finalizer and
    has none, or the other way round, and the update adds or removes this finalizer and no other.
    When the loop stops early the policy is left alone.  So a cluster-scoped object that is there but
    could not be read or updated does not keep the finalizer.  The API server is one that answers the
    same call always the same. *)
Theorem finalizer_follows_objects `{U : UnstructuredLib} `{!UnstructuredLaws U} `{D : DecodeLib}
    `{R : MapRange} `{!MapRangeLaws R} `{F : FmtLib} `{S : SchemeLib} `{O : OwnerLib}
    (f : ∀ o, ans o) r request instance :
  let top := top_level_deps r (ps_Dependencies (p_Spec instance)) in
  let templates := enumerate (ps_PolicyTemplates (p_Spec instance)) in
  let t := trace_of (run (const_env f) tt (sync_templates r request instance)) in
  match eval f (for_each (sync_template r request instance top) templates
                  (SyncState None [] [] false top)) with
  | Returned (inl _) =>
      ∃ needed, (needed = true ↔ Exists (leaves_clusterwide f r instance top) templates) ∧
        policy_updates t =
          if hasClusterwideFinalizer instance ==? needed then [] else [with_finalizer needed instance]
  | _ => policy_updates t = []
  end.
Proof.
  cbv zeta. unfold sync_templates. set (top := top_level_deps _ _).
  assert (∀ o, housekeeping instance o → no_policy_update o) as HP by by intros [].
  rewrite (updates_bind f _ _ _ (top_level_eval f r instance)), quiet_updates.
  2:{ apply all_ops_fold_each. intros. by apply (add_top_level_calls instance). }
  fold top. set (loop := for_each _ _ _).
  assert (policy_updates (trace_of (run (const_env f) tt loop)) = []) as Hq
    by apply quiet_updates, loop_quiet.
  pose proof (loop_sets f r request instance top (enumerate (ps_PolicyTemplates (p_Spec instance)))
    (SyncState None [] [] false top)) as Hs. fold loop in Hs.
  destruct (eval f loop) as [[s|x]|] eqn:E.
  - exists (addFinalizer s). split; [rewrite Hs; simpl; naive_solver|].
    by rewrite (updates_bind f _ _ _ E), Hq, after_templates_updates.
  - by rewrite (updates_bind f _ _ _ E), Hq.
  - by rewrite (updates_bind_panic f _ _ E), Hq.
Qed.

(** ** Concrete runs *)

Definition deleted_policy : Policy :=
  p_set_Meta (λ m, Meta (m_Name m) (m_Namespace m) ∅ ∅ ["other"; ClusterwideFinalizer] [] "" "" 0
    (Some 1%Z)) (demo_instance "enforce" ["t"]).

Lemma finalizer_removed_after_cleanup_witness :
  let f := demo_answers deleted_policy (λ _, None) in
  let '(_, t, res) := run (const_env f) tt demo_Reconcile in
  finalizer_outcome (D := name_decode) f deleted_policy (policy_updates t) res ∧
  map (λ p, m_Finalizers (p_Meta p)) (policy_updates t) = [["other"]].
Proof.
  pose proof (finalizer_removed_after_cleanup (U := unstructured_ref) (D := name_decode)
    (R := range_ref) (F := fmt_ref) (S := empty_scheme) (O := owner_ref)
    (demo_answers deleted_policy (λ _, None)) demo_reconciler demo_request deleted_policy
    eq_refl (ex_intro _ _ eq_refl) eq_refl) as H.
  cbv zeta. assert (map (λ p, m_Finalizers (p_Meta p)) (policy_updates (trace_of (run (const_env
    (demo_answers deleted_policy (λ _, None))) tt demo_Reconcile))) = [["other"]]) as Hf
    by (vm_compute; reflexivity).
  destruct (run _ _ _) as [[w t] res]. split; [exact H|exact Hf].
Defined.

(** The kind of the template is cluster scoped. *)
Definition clusterwide_answers (o : op) : ans o :=
  match o return ans o with
  | OServerResources _ => Ok [MkAPIResource "configurationpolicies" "ConfigurationPolicy" false]
  | o => demo_answers (demo_instance "enforce" ["t"]) (λ _, None) o
  end.

(** Its object is created, and the policy gets the finalizer. *)
Lemma finalizer_follows_objects_witness :
  let f := clusterwide_answers in
  let instance := demo_instance "enforce" ["t"] in
  let t := trace_of (run (const_env f) tt (sync_templates (U := unstructured_ref) (D := name_decode)
    (R := range_ref) (F := fmt_ref) (S := empty_scheme) (O := owner_ref) demo_reconciler demo_request
    instance)) in
  Exists (leaves_clusterwide (U := unstructured_ref) (D := name_decode) (S := empty_scheme)
    (O := owner_ref) f demo_reconciler instance ∅) [(0%nat, Template "t" [] false)] ∧
  policy_updates t = [with_finalizer true instance].
Proof.
  pose proof (finalizer_follows_objects (U := unstructured_ref) (D := name_decode)
    (R := range_ref) (F := fmt_ref) (S := empty_scheme) (O := owner_ref) clusterwide_answers
    demo_reconciler demo_request (demo_instance "enforce" ["t"])) as H.
  cbv zeta in *. set (f := clusterwide_answers) in *.
  assert (policy_updates (trace_of (run (const_env f) tt (sync_templates (U := unstructured_ref)
    (D := name_decode) (R := range_ref) (F := fmt_ref) (S := empty_scheme) (O := owner_ref)
    demo_reconciler demo_request (demo_instance "enforce" ["t"])))) =
    [with_finalizer true (demo_instance "enforce" ["t"])]) as Ht by (vm_compute; reflexivity).
  rewrite Ht in H. split; [|exact Ht]. destruct (eval _ _) as [[s|]|]; [|discriminate H..].
  destruct H as ([|] & Hn & Hu); [by apply Hn|discriminate Hu].
Defined.
