(* ===== verification/GatekeeperSync.v ===== *)
(** * controllers/gatekeepersync

    The gatekeeper-sync controller relays the audit results of Gatekeeper constraints as compliance
    events.  This file has the whole [Reconcile] handler of [gatekeeper_constraint_sync.go] with
    [sendComplianceEvent], [webhookEnabled] and [getEnforcementAction], and the event filter of
    [policy_predicate.go].  The cache of sent messages is shared by all reconciles: its accesses are
    calls of the model. *)

From S2P Require Import Prelude Prog GoStrings K8s Effects Utils ApiServer.

Definition GatekeeperWebhookName : string := "gatekeeper-validating-webhook-configuration".
Definition crdGVK : GroupVersionKind :=
  GVK "apiextensions.k8s.io" "v1" "CustomResourceDefinition".

(** [sha1.Sum] and the [%s] of a value in a JSON object, which may be missing. *)
Class GatekeeperLib := {
  sha1 : string → string;
  print_value : option json → string }.
Class GatekeeperLaws (L : GatekeeperLib) : Prop := {
  print_string : ∀ s, print_value (Some (JStr s)) = s }.

(** ** sendComplianceEvent *)

Section gatekeeper.
Context `{U : UnstructuredLib} `{D : DecodeLib} `{L : GatekeeperLib}.
Variable sender : ComplianceEventSender.

(** The action; an error is logged and the action is empty then. *)
Definition getEnforcementAction (constraint : unstructured) : string * option error :=
  let '(action, found, err) := NestedString (u_Object constraint) ["spec"; "enforcementAction"] in
  match err with
  | Some err => ("", Some (wrap "invalid spec.enforcementAction: " err))
  | None => if negb found then ("deny", None) else (action, None)
  end.

Definition webhookEnabled : prg (result bool) :=
  let! webhookConfig := call (OWebhookGet GatekeeperWebhookName) in
  match webhookConfig with
  | Ok webhooks =>
      Ret (Ok (existsb (λ webhook, webhook ==? "validation.gatekeeper.sh") webhooks))
  | Err err => if IsNotFound err then Ret (Ok false) else Ret (Err err)
  end.

(** The message with its compliance when the webhook does not enforce a constraint. *)
Definition webhook_disabled_msg (enforcementAction msg : string) : string :=
  "The Gatekeeper validating webhook is disabled but the constraint's spec.enforcementAction is " +:+
  enforcementAction +:+ ". " +:+ msg.

(** The test on the details of the refreshed policy; [None] is a nil pointer that is followed. *)
Definition needs_event (refreshedPolicy : Policy) (templateIndex : nat) (compliance msg : string)
    : option bool :=
  let details := st_Details (p_Status refreshedPolicy) in
  if Nat.ltb (length details) (templateIndex + 1) then Some true
  else
    match mjoin (details !! templateIndex) with
    | None => None
    | Some d =>
        match dpt_History d with
        | [] => Some true
        | h :: _ => Some (ch_Message h !=? (compliance +:+ "; " +:+ msg))
        end
    end.

Definition policy_owner (p : Policy) : OwnerReference :=
  OwnerRef (p_APIVersion p) (p_Kind p) (p_Name p) (p_UID p) "".

(** The second half of [sendComplianceEvent]. *)
Definition send_if_new (policy : Policy) (constraint : unstructured) (templateIndex : nat)
    (msg compliance : string) : prg (option error) :=
  let! refreshed := call (OPolicyGet Managed (NN (p_Namespace policy) (p_Name policy))) in
  let refreshedPolicy := match refreshed with Ok p => p | Err _ => policy end in
  let owner := policy_owner refreshedPolicy in
  let kn := PolicyKindName (p_Name policy) (u_Kind constraint) (u_Name constraint) in
  match needs_event refreshedPolicy templateIndex compliance msg with
  | None => Panic
  | Some true =>
      let msgSHA1 := sha1 msg in
      let! existing := call (OMsgLoad kn) in
      if existing ==? Some msgSHA1 then Ret None
      else
        let reason := EventReason (u_Namespace constraint) (u_Name constraint) in
        let! err := SendEvent sender (Some constraint) owner reason msg compliance in
        match err with
        | Some err => Ret (Some err)
        | None =>
            do! call (OMsgStore kn msgSHA1) in
            Ret None
        end
  | Some false =>
      do! call (OMsgDelete kn) in
      Ret None
  end.

Definition sendComplianceEvent (policy : Policy) (constraint : unstructured) (templateIndex : nat)
    (msg compliance : string) : prg (option error) :=
  let '(enforcementAction, _) := getEnforcementAction constraint in
  if enforcementAction ==? "deny" then
    let! enabled := webhookEnabled in
    match enabled with
    | Err err => Ret (Some err)
    | Ok true => send_if_new policy constraint templateIndex msg compliance
    | Ok false =>
        send_if_new policy constraint templateIndex (webhook_disabled_msg enforcementAction msg)
          NonCompliant
    end
  else send_if_new policy constraint templateIndex msg compliance.

(** ** Reconcile *)

(** One round of the loop over the violations: the message so far; [None] is a failed type
    assertion. *)
Definition add_violation (msg : string) (violation : json) : option string :=
  match violation with
  | JObj v =>
      let msg := if msg !=? "" then msg +:+ "; " else msg in
      let name :=
        match v !! "namespace", v !! "name" with
        | Some (JStr ns), Some (JStr n) => Some (ns +:+ "/" +:+ n)
        | Some _, _ => None
        | None, Some (JStr n) => Some n
        | None, _ => None
        end in
      (λ name,
        msg +:+ print_value (v !! "enforcementAction") +:+ " - " +:+ print_value (v !! "message") +:+
        " (on " +:+ print_value (v !! "kind") +:+ " " +:+ name +:+ ")") <$> name
  | _ => Some msg
  end.

Definition violations_msg (violations : list json) : option string :=
  foldl (λ msg v, msg ≫= λ msg, add_violation msg v) (Some "") violations.

(** The status event of one constraint that was found. *)
Definition relay_audit (policy : Policy) (templateIndex : nat) (constraint : unstructured)
    : prg (option error) :=
  let '(_, auditRan, _) := NestedInt64 (u_Object constraint) ["status"; "totalViolations"] in
  if negb auditRan then Ret None
  else
    let '(violations, _, err) := NestedSlice (u_Object constraint) ["status"; "violations"] in
    match err with
    | Some _ =>
        sendComplianceEvent policy constraint templateIndex "The constraint status is invalid"
          NonCompliant
    | None =>
        match violations with
        | [] =>
            sendComplianceEvent policy constraint templateIndex "The constraint has no violations"
              Compliant
        | _ =>
            match violations_msg violations with
            | None => Panic
            | Some msg => sendComplianceEvent policy constraint templateIndex msg NonCompliant
            end
        end
    end.

(** The body of the loop over the templates; the state is [constraintsSet]. *)
Definition relay_template (policyObjID : ObjectIdentifier) (policy : Policy)
    (constraintsSet : gset policyKindName) (it : nat * PolicyTemplate)
    : prg (ctl (gset policyKindName) reconciled) :=
  let '(templateIndex, template) := it in
  match UnmarshalObject (pt_Raw template) with
  | Err _ => Ret (Next constraintsSet)
  | Ok templateUnstructured =>
      let templateGVK := u_GVK templateUnstructured in
      if gvk_Group templateGVK !=? GConstraint then Ret (Next constraintsSet)
      else
        let constraintName := u_Name templateUnstructured in
        let pkn := PolicyKindName (p_Name policy) (gvk_Kind templateGVK) constraintName in
        let constraintsSet := {[pkn]} ∪ constraintsSet in
        let crdName := ToLower (gvk_Kind templateGVK) +:+ "." +:+ GConstraint in
        let! crd := call (OWatchGet policyObjID crdGVK "" crdName) in
        match crd with
        | Err err => Ret (Exit (done_err err))
        | Ok None => Ret (Next constraintsSet)
        | Ok (Some _) =>
            let! constraint := call (OWatchGet policyObjID templateGVK
              (u_Namespace templateUnstructured) constraintName) in
            match constraint with
            | Err err => Ret (Exit (done_err err))
            | Ok None => Ret (Next constraintsSet)
            | Ok (Some constraint) =>
                let! err := relay_audit policy templateIndex constraint in
                match err with
                | Some err => Ret (Exit (done_err err))
                | None => Ret (Next constraintsSet)
                end
            end
        end
  end.

(** [r.lastSentMessages.Range(...)]: the visited keys that satisfy [drop] are deleted. *)
Definition clear_messages (drop : policyKindName → bool) : prg unit :=
  let! keys := call OMsgRange in
  fold_each (λ _ key, if drop key then call (OMsgDelete key) else Ret tt) keys tt.

Definition relay_templates (policyObjID : ObjectIdentifier) (policy : Policy) : prg reconciled :=
  let! out := for_each (relay_template policyObjID policy)
    (enumerate (ps_PolicyTemplates (p_Spec policy))) ∅ in
  match out with
  | inr res => Ret res
  | inl constraintsSet =>
      do! clear_messages (λ key,
            (pkn_Policy key ==? p_Name policy) && negb (bool_decide (key ∈ constraintsSet))) in
      Ret done_ok
  end.

(** The policy is gone: forget its messages and its watches. *)
Definition policy_gone (policyObjID : ObjectIdentifier) (request : NamespacedName)
    : prg reconciled :=
  do! clear_messages (λ key, pkn_Policy key ==? nn_Name request) in
  let! err := call (ORemoveWatcher policyObjID) in
  match err with
  | Some err => if has_reason InvalidInput err then Ret done_ok else Ret (done_err err)
  | None => Ret done_ok
  end.

Definition policyObjID (request : NamespacedName) : ObjectIdentifier :=
  ObjID policy_group policy_version "Policy" (nn_Namespace request) (nn_Name request).

Definition Reconcile (request : NamespacedName) : prg reconciled :=
  let! uninstalling := call OReadUninstalling in
  if uninstalling : bool then Ret requeue_5m
  else
    let id := policyObjID request in
    let! got := call (OPolicyGet Managed request) in
    match got with
    | Err err => if IsNotFound err then policy_gone id request else Ret (done_err err)
    | Ok policy =>
        let! err := call (OStartQueryBatch id) in
        match err with
        | Some err => Ret (done_err err)
        | None =>
            defer (relay_templates id policy)
              (do! call (OEndQueryBatch id) in Ret tt)
        end
    end.

(** ** The event filter *)

Definition hasGatekeeperConstraints (policy : Policy) : bool :=
  existsb (λ template,
    match UnmarshalObject (pt_Raw template) with
    | Err _ => false
    | Ok u => gvk_Group (u_GVK u) ==? GConstraint
    end) (ps_PolicyTemplates (p_Spec policy)).

Inductive policy_event :=
| CreateEvent (Object : Policy)
| UpdateEvent (ObjectOld ObjectNew : Policy)
| DeleteEvent (Object : Policy).

Definition policyPredicates (e : policy_event) : bool :=
  match e with
  | CreateEvent policy => hasGatekeeperConstraints policy
  | UpdateEvent oldPolicy updatedPolicy =>
      if m_Generation (p_Meta oldPolicy) ==? m_Generation (p_Meta updatedPolicy) then false
      else hasGatekeeperConstraints oldPolicy || hasGatekeeperConstraints updatedPolicy
  | DeleteEvent _ => true
  end.

End gatekeeper.


(** ** The cache of sent messages *)

Definition is_message_op (o : op) : bool :=
  match o with OMsgRange | OMsgLoad _ | OMsgStore _ _ | OMsgDelete _ => true | _ => false end.

(** What a [sync.Map] promises to a goroutine that has it for itself. *)
Class MessageCache {W} (h : env W) := {
  messages : W → gmap policyKindName string;
  message_load : ∀ w k w' x, h w (OMsgLoad k) = (w', x) →
    messages w' = messages w ∧ x = messages w !! k;
  message_range : ∀ w w' x, h w OMsgRange = (w', x) →
    messages w' = messages w ∧ ∀ k, k ∈ x ↔ is_Some (messages w !! k);
  message_store : ∀ w k d w' x, h w (OMsgStore k d) = (w', x) →
    messages w' = <[k := d]> (messages w);
  message_delete : ∀ w k w' x, h w (OMsgDelete k) = (w', x) →
    messages w' = delete k (messages w);
  message_frame : ∀ w o w' x, is_message_op o = false → h w o = (w', x) →
    messages w' = messages w }.

(** An environment with a cache that answers every other call as [f] does. *)
Definition cached_env (f : ∀ o, ans o) : env (gmap policyKindName string) := λ m o,
  match o return gmap policyKindName string * ans o with
  | OMsgRange => (m, (map_to_list m).*1)
  | OMsgLoad k => (m, m !! k)
  | OMsgStore k d => (<[k := d]> m, tt)
  | OMsgDelete k => (delete k m, tt)
  | o => (m, f o)
  end.

#[export, program] Instance cached_env_cache f : MessageCache (cached_env f) := {|
  messages := λ m, m |}.
Next Obligation. intros f w k w' x [= <- <-]. done. Qed.
Next Obligation.
  intros f w w' x H; unfold cached_env in H; simplify_eq. split; [done|]. intros k.
  rewrite list_elem_of_fmap. setoid_rewrite elem_of_map_to_list'. split.
  - intros ([k' d] & -> & H). by exists d.
  - intros [d H]. by exists (k, d).
Qed.
Next Obligation. intros f w k d w' x H; unfold cached_env in H. by simplify_eq. Qed.
Next Obligation. intros f w k w' x H; unfold cached_env in H. by simplify_eq. Qed.
Next Obligation.
  intros f w o w' x Ho H. unfold cached_env in H. by destruct o; simpl in *; simplify_eq.
Qed.

(** Changes of the cache that concern one policy. *)
Definition own_message (policy : string) (o : op) : Prop :=
  match o with
  | OMsgStore k _ | OMsgDelete k => pkn_Policy k = policy
  | _ => True
  end.

Section cache.
Context {W} (h : env W) `{!MessageCache h}.

Lemma own_message_run {A} policy (p : prg A) w k :
  all_ops (own_message policy) p → pkn_Policy k ≠ policy →
  messages (state_of (run h w p)) !! k = messages w !! k.
Proof.
  intros Hp Hk. revert w. induction p as [a| |o q IH]; intros w; simpl in *; [done..|].
  destruct Hp as [Ho Hq]. destruct (h w o) as [w1 x] eqn:E.
  specialize (IH x (Hq x) w1). destruct (run h w1 (q x)) as [[w2 t] r]. cbn in *. rewrite IH.
  destruct (is_message_op o) eqn:Em; [|by rewrite (message_frame _ _ _ _ Em E)].
  destruct o; try done; simpl in Ho.
  - by destruct (message_range _ _ _ E) as [-> _].
  - by destruct (message_load _ _ _ _ E) as [-> _].
  - rewrite (message_store _ _ _ _ _ E). apply lookup_insert_ne. by intros ->.
  - rewrite (message_delete _ _ _ _ E). apply lookup_delete_ne. by intros ->.
Qed.

Lemma clear_keys_run drop keys w k :
  let w' := state_of (run h w (fold_each (λ _ key,
    if (drop key : bool) then call (OMsgDelete key) else Ret tt) keys tt)) in
  messages w' !! k = if drop k && bool_decide (k ∈ keys) then None else messages w !! k.
Proof.
  revert w. induction keys as [|key keys IH]; intros w; cbn [fold_each].
  { rewrite bool_decide_eq_false_2, andb_false_r by set_solver. done. }
  rewrite run_bind. destruct (drop key) eqn:Hd; cbn [run call].
  - destruct (h w (OMsgDelete key)) as [w1 []] eqn:E. specialize (IH w1). cbn.
    destruct (run h w1 _) as [[w2 t] r]. cbn in *. rewrite IH, (message_delete _ _ _ _ E).
    destruct (decide (k = key)) as [->|Hne].
    + rewrite Hd, lookup_delete_eq, (bool_decide_eq_true_2 (key ∈ key :: keys)) by set_solver.
      by destruct (true && bool_decide (key ∈ keys)).
    + rewrite lookup_delete_ne by done.
      by rewrite (bool_decide_ext (k ∈ key :: keys) (k ∈ keys)) by set_solver.
  - specialize (IH w). cbn. destruct (run h w _) as [[w2 t] r]. cbn in *. rewrite IH.
    destruct (decide (k = key)) as [->|Hne]; [by rewrite Hd|].
    by rewrite (bool_decide_ext (k ∈ key :: keys) (k ∈ keys)) by set_solver.
Qed.

Lemma clear_messages_run drop w k :
  messages (state_of (run h w (clear_messages drop))) !! k =
  if drop k then None else messages w !! k.
Proof.
  unfold clear_messages. cbn [bind call run]. destruct (h w OMsgRange) as [w1 keys] eqn:E.
  apply message_range in E as [Hw1 Hkeys].
  pose proof (clear_keys_run drop keys w1 k) as Hk. cbv zeta in Hk.
  destruct (run h w1 _) as [[w2 t] r]. cbn in *. rewrite Hk, Hw1. destruct (drop k); [|done]. simpl.
  case_bool_decide as Hin; [done|]. rewrite Hkeys in Hin. by apply eq_None_not_Some.
Qed.

End cache.

(** ** The calls of the controller *)

Section calls.
Context `{U : UnstructuredLib} `{D : DecodeLib} `{L : GatekeeperLib}.

(** What the controller does inside the query batch of a policy. *)
Definition relay_call (sender : ComplianceEventSender) (id : ObjectIdentifier) (policy : string)
    (o : op) : Prop :=
  match o with
  | OPolicyGet Managed _ | OWebhookGet _ | ONow | OMsgRange | OMsgLoad _ => True
  | OWatchGet id' _ _ _ => id' = id
  | OMsgStore k _ | OMsgDelete k => pkn_Policy k = policy
  | OEventCreate ns e =>
      ns = ces_ClusterNamespace sender ∧ e_Namespace e = ns ∧
      e_Action e = "ComplianceStateUpdate"
  | _ => False
  end.

Lemma relay_call_own sender id policy o : relay_call sender id policy o → own_message policy o.
Proof. by destruct o. Qed.

Lemma send_if_new_calls sender id policy constraint i msg compliance :
  all_ops (relay_call sender id (p_Name policy))
    (send_if_new sender policy constraint i msg compliance).
Proof.
  unfold send_if_new. simpl. split; [done|]. intros x.
  destruct (needs_event _ _ _ _) as [[|]|]; simpl; [|by repeat split|done].
  split; [done|]. intros d. case_match; simpl; [done|]. split; [done|]. intros now.
  split; [done|]. by intros [e|].
Qed.

Lemma sendComplianceEvent_calls sender id policy constraint i msg compliance :
  all_ops (relay_call sender id (p_Name policy))
    (sendComplianceEvent sender policy constraint i msg compliance).
Proof.
  unfold sendComplianceEvent. destruct (getEnforcementAction _) as [action e].
  case_match; [|apply send_if_new_calls]. unfold webhookEnabled.
  apply all_ops_bind; [simpl; split; [done|]; intros x; by repeat case_match|].
  intros [[|]|]; [apply send_if_new_calls..|done].
Qed.

Lemma relay_audit_calls sender id policy i constraint :
  all_ops (relay_call sender id (p_Name policy)) (relay_audit sender policy i constraint).
Proof.
  unfold relay_audit. repeat case_match; try done; apply sendComplianceEvent_calls.
Qed.

Lemma relay_template_calls sender id policy s it :
  all_ops (relay_call sender id (p_Name policy)) (relay_template sender id policy s it).
Proof.
  unfold relay_template. destruct it as [i template]. case_match; [|done]. case_match; [done|].
  apply all_ops_bind; [by apply all_ops_call|]. intros [[crd|]|]; [|done..].
  apply all_ops_bind; [by apply all_ops_call|]. intros [[c|]|]; [|done..].
  apply all_ops_bind; [apply relay_audit_calls|]. by intros [e|].
Qed.

Lemma clear_messages_calls sender id policy drop :
  (∀ k, drop k = true → pkn_Policy k = policy) →
  all_ops (relay_call sender id policy) (clear_messages drop).
Proof.
  intros Hdrop. unfold clear_messages. apply all_ops_bind; [by apply all_ops_call|]. intros keys.
  apply all_ops_fold_each. intros _ k _. destruct (drop k) eqn:E; [|done].
  apply all_ops_call. by apply Hdrop.
Qed.

Lemma relay_templates_calls sender id policy :
  all_ops (relay_call sender id (p_Name policy)) (relay_templates sender id policy).
Proof.
  unfold relay_templates. apply all_ops_bind.
  - apply all_ops_for_each. intros s it _. apply relay_template_calls.
  - intros [s|r]; [|done]. apply all_ops_bind; [|done]. apply clear_messages_calls.
    intros k Hk. by breflect.
Qed.

End calls.

(** ** Reports *)

Section reports.
Context `{U : UnstructuredLib} `{D : DecodeLib} `{L : GatekeeperLib}.

(** A constraint that a policy names, as a key of the cache. *)
Definition names_constraint (policy : Policy) (k : policyKindName) : Prop :=
  ∃ template u, template ∈ ps_PolicyTemplates (p_Spec policy) ∧
    UnmarshalObject (pt_Raw template) = Ok u ∧ gvk_Group (u_GVK u) = GConstraint ∧
    k = PolicyKindName (p_Name policy) (gvk_Kind (u_GVK u)) (u_Name u).

(** What is reported for a constraint: its own result, or that the webhook does not enforce it. *)
Definition report (constraint : unstructured) (webhooks : result (list string))
    (msg compliance : string) : result (string * string) :=
  if (getEnforcementAction constraint).1 !=? "deny" then Ok (msg, compliance)
  else
    match webhooks with
    | Err e =>
        if IsNotFound e then Ok (webhook_disabled_msg "deny" msg, NonCompliant) else Err e
    | Ok l =>
        Ok (if bool_decide ("validation.gatekeeper.sh" ∈ l) then (msg, compliance)
            else (webhook_disabled_msg "deny" msg, NonCompliant))
    end.

Lemma sendComplianceEvent_report {W} (h : env W) sender w policy constraint i msg compliance :
  (getEnforcementAction constraint).1 = "deny" →
  run h w (sendComplianceEvent sender policy constraint i msg compliance) =
  let '(w1, x) := h w (OWebhookGet GatekeeperWebhookName) in
  let '(w2, t, r) := run h w1
    match report constraint x msg compliance with
    | Ok (msg', compliance') => send_if_new sender policy constraint i msg' compliance'
    | Err e => Ret (Some e)
    end in (w2, ev (OWebhookGet GatekeeperWebhookName) x :: t, r).
Proof.
  unfold report, sendComplianceEvent. destruct (getEnforcementAction constraint) as [action e].
  simpl. intros ->. rewrite bool_decide_refl. unfold webhookEnabled. simpl.
  destruct (h w _) as [w1 [l|err]]; simpl.
  - destruct (existsb _ l) eqn:E.
    + apply existsb_elem in E as (x & Hx & ?). breflect; subst.
      by rewrite bool_decide_eq_true_2.
    + rewrite bool_decide_eq_false_2; [done|]. intros Hin. apply existsb_false in E.
      rewrite Forall_forall in E. apply E in Hin. by breflect.
  - by destruct (IsNotFound err).
Qed.

Lemma sendComplianceEvent_plain sender policy constraint i msg compliance :
  (getEnforcementAction constraint).1 ≠ "deny" →
  sendComplianceEvent sender policy constraint i msg compliance =
  send_if_new sender policy constraint i msg compliance.
Proof.
  unfold sendComplianceEvent. destruct (getEnforcementAction constraint) as [action e]. simpl.
  intros ?. by rewrite bool_decide_eq_false_2.
Qed.

(** The event for a report, and the policy it is about. *)
Definition refreshed (f : ∀ o, ans o) (policy : Policy) : Policy :=
  match f (OPolicyGet Managed (p_key policy)) with Ok p => p | Err _ => policy end.
Definition report_key (policy : Policy) (constraint : unstructured) : policyKindName :=
  PolicyKindName (p_Name policy) (u_Kind constraint) (u_Name constraint).
Definition report_event (f : ∀ o, ans o) (sender : ComplianceEventSender) (policy : Policy)
    (constraint : unstructured) (msg compliance : string) : op :=
  OEventCreate (ces_ClusterNamespace sender)
    (compliance_event sender (Some constraint) (policy_owner (refreshed f policy))
       (EventReason (u_Namespace constraint) (u_Name constraint)) msg compliance (f ONow)).

Definition is_event_create (o : op) : bool :=
  match o with OEventCreate _ _ => true | _ => false end.
Definition created_events (t : trace) : list op := filter (λ o, is_event_create o = true) (ops t).

(** The cache, the events and the result after a report. *)
Definition reported (f : ∀ o, ans o) (sender : ComplianceEventSender)
    (cache : gmap policyKindName string) (policy : Policy) (constraint : unstructured)
    (needed : bool) (msg compliance : string)
    : gmap policyKindName string * list op * option error :=
  let k := report_key policy constraint in
  let o := report_event f sender policy constraint msg compliance in
  if negb needed then (delete k cache, [], None)
  else if cache !! k ==? Some (sha1 msg) then (cache, [], None)
  else
    match (f o : option error) with
    | None => (<[k := sha1 msg]> cache, [o], None)
    | Some e => (cache, [o], Some e)
    end.

Lemma send_if_new_reported f sender cache policy constraint i msg compliance needed :
  needs_event (refreshed f policy) i compliance msg = Some needed →
  let '(cache', t, r) :=
    run (cached_env f) cache (send_if_new sender policy constraint i msg compliance) in
  ∃ err, reported f sender cache policy constraint needed msg compliance =
           (cache', created_events t, err) ∧ r = Returned err.
Proof.
  intros Hn. unfold send_if_new, reported. simpl.
  unfold refreshed, p_key, report_key, report_event in *. rewrite Hn. destruct needed; simpl.
  - destruct (bool_decide _); simpl; [by eexists|]. unfold created_events, refreshed, p_key.
    set (o := OEventCreate _ _).
    destruct (f o) as [e|]; simpl; by eexists.
  - by eexists.
Qed.

(** The newest message the status of a policy has for a template. *)
Definition newest_message (p : Policy) (i : nat) : option string :=
  ch_Message <$> (mjoin (st_Details (p_Status p) !! i) ≫= head ∘ dpt_History).

Lemma needs_event_newest p i compliance msg :
  st_Details (p_Status p) !! i ≠ Some None →
  needs_event p i compliance msg =
  Some (newest_message p i !=? Some (compliance +:+ "; " +:+ msg)).
Proof.
  intros Hi. unfold needs_event, newest_message. case_match eqn:Hl.
  - apply Nat.ltb_lt in Hl. rewrite lookup_ge_None_2 by lia. done.
  - destruct (st_Details (p_Status p) !! i) as [[d|]|] eqn:E; [|done|].
    + simpl. destruct (dpt_History d) as [|h l]; [done|]. simpl. do 2 f_equal.
      apply bool_decide_ext. split; [by intros ->|by intros [= ->]].
    + apply lookup_ge_None_1 in E. apply Nat.ltb_ge in Hl. lia.
Qed.

(** The run of [sendComplianceEvent] when [report] succeeds. *)
Lemma sendComplianceEvent_reported f sender cache policy constraint i msg compliance msg' compliance' :
  st_Details (p_Status (refreshed f policy)) !! i ≠ Some None →
  report constraint (f (OWebhookGet GatekeeperWebhookName)) msg compliance = Ok (msg', compliance') →
  let '(cache', t, r) :=
    run (cached_env f) cache (sendComplianceEvent sender policy constraint i msg compliance) in
  ∃ err,
    reported f sender cache policy constraint
      (newest_message (refreshed f policy) i !=? Some (compliance' +:+ "; " +:+ msg'))
      msg' compliance' = (cache', created_events t, err) ∧ r = Returned err.
Proof.
  intros Hi Hrep. pose proof (needs_event_newest _ _ compliance' msg' Hi) as Hn.
  pose proof (send_if_new_reported f sender cache policy constraint _ _ _ _ Hn) as H.
  destruct (decide ((getEnforcementAction constraint).1 = "deny")) as [Hd|Hd].
  - rewrite sendComplianceEvent_report by done. cbn [cached_env]. rewrite Hrep.
    destruct (run _ cache _) as [[cache' t] r]. exact H.
  - rewrite sendComplianceEvent_plain by done. unfold report in Hrep.
    rewrite bool_decide_eq_false_2 in Hrep by done. simpl in Hrep. by simplify_eq.
Qed.

(** ** Properties *)

(** C26: the report of an audit result.  A constraint that should be enforced (its action is [deny])
    while the webhook is off is reported as NonCompliant with a text that says so; any other is
    reported as it is.  When the newest message of the status is already this report, no event is
    sent and the cache forgets the constraint; otherwise an event is sent exactly when the cache
    has another message for the constraint, and the cache takes over the message exactly when the
    event was created.  An error of a call is returned and changes nothing. *)
Theorem gatekeeper_report_exact f sender cache policy constraint i msg compliance :
  st_Details (p_Status (refreshed f policy)) !! i ≠ Some None →
  let '(cache', t, r) :=
    run (cached_env f) cache (sendComplianceEvent sender policy constraint i msg compliance) in
  match report constraint (f (OWebhookGet GatekeeperWebhookName)) msg compliance with
  | Err e => cache' = cache ∧ created_events t = [] ∧ r = Returned (Some e)
  | Ok (msg', compliance') =>
      ∃ err,
        reported f sender cache policy constraint
          (newest_message (refreshed f policy) i !=? Some (compliance' +:+ "; " +:+ msg'))
          msg' compliance' = (cache', created_events t, err) ∧ r = Returned err
  end.
Proof.
  intros Hi. destruct (report _ _ _ _) as [[msg' compliance']|e] eqn:Hrep.
  - by apply sendComplianceEvent_reported.
  - rewrite sendComplianceEvent_report.
    + cbn [cached_env]. by rewrite Hrep.
    + unfold report in Hrep. case_match; [done|]. by breflect.
Qed.

(** What the cache of sent messages is for.  Reporting the same result again after a report
    that succeeded sends no event while the first one has not reached the status; but when the
    first report found its message in the status and the status has lost it since, the event is
    sent anew. *)
Theorem gatekeeper_report_once (f1 f2 : ∀ o, ans o) sender cache policy constraint i
    msg compliance msg' compliance' :
  f1 (OWebhookGet GatekeeperWebhookName) = f2 (OWebhookGet GatekeeperWebhookName) →
  report constraint (f1 (OWebhookGet GatekeeperWebhookName)) msg compliance = Ok (msg', compliance') →
  st_Details (p_Status (refreshed f1 policy)) !! i ≠ Some None →
  st_Details (p_Status (refreshed f2 policy)) !! i ≠ Some None →
  let text := Some (compliance' +:+ "; " +:+ msg') in
  let send := sendComplianceEvent sender policy constraint i msg compliance in
  let '(cache1, _, r1) := run (cached_env f1) cache send in
  let '(_, t2, _) := run (cached_env f2) cache1 send in
  r1 = Returned None →
  (newest_message (refreshed f1 policy) i ≠ text → created_events t2 = []) ∧
  (newest_message (refreshed f1 policy) i = text →
   newest_message (refreshed f2 policy) i ≠ text →
   created_events t2 = [report_event f2 sender policy constraint msg' compliance']).
Proof.
  intros Hf Hrep Hi1 Hi2 text send. subst text send.
  pose proof (sendComplianceEvent_reported f1 sender cache policy constraint i msg compliance _ _
    Hi1 Hrep) as H1.
  destruct (run (cached_env f1) cache _) as [[cache1 t1] r1]. rewrite Hf in Hrep.
  pose proof (sendComplianceEvent_reported f2 sender cache1 policy constraint i msg compliance _ _
    Hi2 Hrep) as H2.
  destruct (run (cached_env f2) cache1 _) as [[cache2 t2] r2].
  destruct H1 as (e1 & H1 & ->), H2 as (e2 & H2 & ->). intros [= ->]. unfold reported in H1, H2.
  split.
  - intros Hne. rewrite bool_decide_eq_false_2 in H1 by done. simpl in H1.
    assert (cache1 !! report_key policy constraint = Some (sha1 msg')) as Hc.
    { clear H2. case_bool_decide; [by simplify_eq|]. destruct (f1 (report_event _ _ _ _ _ _)); simplify_eq.
      apply lookup_insert_eq. }
    rewrite Hc, bool_decide_refl in H2. by destruct (negb _); simplify_eq.
  - intros Heq Hne. rewrite bool_decide_eq_true_2 in H1 by done.
    rewrite bool_decide_eq_false_2 in H2 by done. simpl in *. simplify_eq.
    rewrite lookup_delete_eq, bool_decide_eq_false_2 in H2 by done.
    by destruct (f2 (report_event _ _ _ _ _ _)); simplify_eq.
Qed.

End reports.

Section reconcile.
Context `{U : UnstructuredLib} `{D : DecodeLib} `{L : GatekeeperLib}.
Context {W} (h : env W).

#[local] Opaque defer relay_templates policy_gone.

(** The handler around its query batch. *)
Lemma gk_Reconcile_run sender w request :
  let id := policyObjID request in
  run h w (Reconcile sender request) =
  let '(w1, uninstalling) := h w OReadUninstalling in
  let e1 := ev OReadUninstalling uninstalling in
  if (uninstalling : bool) then (w1, [e1], Returned requeue_5m)
  else
    let '(w2, got) := h w1 (OPolicyGet Managed request) in
    let e2 := ev (OPolicyGet Managed request) got in
    match got with
    | Err e =>
        if IsNotFound e then
          let '(w3, t, r) := run h w2 (policy_gone id request) in (w3, e1 :: e2 :: t, r)
        else (w2, [e1; e2], Returned (done_err e))
    | Ok policy =>
        let '(w3, err) := h w2 (OStartQueryBatch id) in
        let e3 := ev (OStartQueryBatch id) err in
        match err with
        | Some e => (w3, [e1; e2; e3], Returned (done_err e))
        | None =>
            let '(w4, t, r) := run h w3 (relay_templates sender id policy) in
            let '(w5, x) := h w4 (OEndQueryBatch id) in
            (w5, e1 :: e2 :: e3 :: t ++ [ev (OEndQueryBatch id) x], r)
        end
    end.
Proof.
  cbv zeta. unfold Reconcile. simpl. destruct (h w OReadUninstalling) as [w1 [|]]; [done|]. simpl.
  destruct (h w1 _) as [w2 [p|e]]; simpl.
  - destruct (h w2 _) as [w3 [e|]]; [done|]. simpl. rewrite run_defer.
    destruct (run h w3 _) as [[w4 t] r]. simpl. by destruct (h w4 _) as [w5 x].
  - destruct (IsNotFound e); [|done]. by destruct (run h w2 _) as [[w3 t] r].
Qed.

#[local] Transparent relay_templates policy_gone.

(** The constraints the loop collects are named by the policy. *)
Lemma relay_loop_names sender id policy :
  wp (for_each (relay_template sender id policy)
        (enumerate (ps_PolicyTemplates (p_Spec policy))) ∅)
     (λ _ r, match r with
             | Returned (inl s) => ∀ k, k ∈ s → names_constraint policy k
             | _ => True
             end).
Proof.
  set (P := λ s : gset policyKindName, ∀ k, k ∈ s → names_constraint policy k).
  apply (wp_for_each _ _ _ (λ _ its s, P s ∧
    (∀ it, it ∈ its → it.2 ∈ ps_PolicyTemplates (p_Spec policy)))
    (λ _ r, match r with Returned (inl s) => P s | _ => True end) []).
  - split; [by intros k ?%elem_of_empty|]. intros [i template].
    unfold enumerate. rewrite elem_of_lookup_imap. intros (? & ? & [= -> ->] & H).
    by eapply list_elem_of_lookup_2.
  - intros t [i template] its s [Hs Hits]. unfold relay_template.
    assert (∀ it, it ∈ its → it.2 ∈ ps_PolicyTemplates (p_Spec policy)) as Hits' by set_solver.
    destruct (UnmarshalObject _) as [u|] eqn:Hu; [|done]. case_match; [done|]. breflect.
    set (s' := {[_]} ∪ s). assert (P s') as Hs'.
    { intros k [->%elem_of_singleton|Hk]%elem_of_union; [|by apply Hs].
      exists template, u. split_and!; [apply (Hits (i, template)); set_solver|done..]. }
    simpl. intros [[crd|]|]; [|done..]. simpl. intros [[c|]|]; [|done..].
    apply wp_bind. eapply (wp_mono _ (λ _ _, True)); [apply wp_true|].
    by intros t' [[e|]|] _.
  - by intros t s [Hs _].
Qed.

Lemma relay_exit_err sender id policy :
  wp (for_each (relay_template sender id policy)
        (enumerate (ps_PolicyTemplates (p_Spec policy))) ∅)
     (λ _ r, match r with Returned (inr res) => ∃ e, res = done_err e | _ => True end).
Proof.
  apply (wp_for_each _ _ _ (λ _ _ _, True)
    (λ _ r, match r with Returned (inr res) => ∃ e, res = done_err e | _ => True end) []); [done| |done].
  intros t [i template] its s _. unfold relay_template.
  destruct (UnmarshalObject _); [|done]. case_match; [done|]. simpl.
  intros [[crd|]|e]; [|done|by exists e]. simpl. intros [[c|]|e]; [|done|by exists e].
  apply wp_bind. eapply (wp_mono _ (λ _ _, True)); [apply wp_true|].
  intros t' [[e|]|] _; [by exists e|done..].
Qed.

(** The clean-up of the cache at the end of a reconcile. *)
Lemma relay_templates_cache `{!MessageCache h} sender id policy w k :
  let '(w', _, r) := run h w (relay_templates sender id policy) in
  r = Returned done_ok → pkn_Policy k = p_Name policy → is_Some (messages w' !! k) →
  names_constraint policy k.
Proof.
  unfold relay_templates. rewrite run_bind.
  pose proof (wp_run h w _ _ (relay_loop_names sender id policy)) as Hl.
  pose proof (relay_exit_err sender id policy) as He.
  apply (wp_run h w) in He.
  destruct (run h w (for_each _ _ _)) as [[w1 t1] [[s|res]|]]; cbn in Hl, He; [| |done].
  - set (drop := λ key, _ && negb _). rewrite run_bind.
    pose proof (clear_messages_run h drop w1 k) as Hc.
    destruct (run h w1 (clear_messages drop)) as [[w2 t2] [u|]]; cbn in *; [|done].
    intros _ Hk. rewrite Hc. subst drop. cbv beta. rewrite bool_decide_eq_true_2 by done. simpl.
    case_bool_decide; simpl; [by intros; apply Hl|]. by intros [? ?].
  - cbn. intros [= ->]. by destruct He as [e ?].
Qed.

Lemma policy_gone_cache `{!MessageCache h} id request w k :
  let '(w', _, r) := run h w (policy_gone id request) in
  messages w' !! k = if pkn_Policy k ==? nn_Name request then None else messages w !! k.
Proof.
  unfold policy_gone. rewrite run_bind.
  pose proof (clear_messages_run h (λ key, pkn_Policy key ==? nn_Name request) w k) as Hc.
  destruct (run h w (clear_messages _)) as [[w1 t1] [u|]]; cbn in *; [|done].
  destruct (h w1 (ORemoveWatcher id)) as [w2 x] eqn:E. apply message_frame in E; [|done].
  destruct x as [e|]; [destruct (has_reason InvalidInput e)|]; cbn; by rewrite E.
Qed.

(** C27: what gatekeeper-sync remembers.  A reconcile does not touch the messages remembered for
    other policies.  After one that returns without an error, every message remembered for the
    policy belongs to a Gatekeeper constraint that the policy names; none is left when the policy
    is gone. *)
Theorem gatekeeper_cache_current `{!PolicyServer h} `{!MessageCache h} sender w request k :
  let '(w', _, r) := run h w (Reconcile sender request) in
  (pkn_Policy k ≠ nn_Name request → messages w' !! k = messages w !! k) ∧
  (r = Returned done_ok → pkn_Policy k = nn_Name request → is_Some (messages w' !! k) →
   ∃ policy, policies w Managed !! request = Some policy ∧ names_constraint policy k).
Proof.
  rewrite gk_Reconcile_run; cbv zeta.
  destruct (h w OReadUninstalling) as [w1 b] eqn:E1.
  pose proof (policy_frame _ OReadUninstalling _ _ eq_refl E1) as Hp1. apply message_frame in E1 as Hm1; [|done].
  destruct b; [by rewrite Hm1|].
  destruct (h w1 (OPolicyGet Managed request)) as [w2 got] eqn:E2.
  apply message_frame in E2 as Hm2; [|done]. apply policy_get in E2 as [_ E2]. rewrite Hp1 in E2.
  rewrite <- Hm1, <- Hm2. destruct got as [policy|e].
  - assert (p_Name policy = nn_Name request) as Hn by by rewrite <- (policy_key _ _ _ _ E2).
    destruct (h w2 (OStartQueryBatch _)) as [w3 err] eqn:E3.
    apply message_frame in E3 as Hm3; [|done]. rewrite <- Hm3. destruct err; [done|].
    pose proof (relay_templates_cache sender (policyObjID request) policy w3 k) as Hc.
    pose proof (own_message_run h (p_Name policy) _ w3 k (all_ops_mono _ _ _
      (relay_templates_calls sender (policyObjID request) policy) (relay_call_own _ _ _))) as Ho.
    destruct (run h w3 _) as [[w4 t4] r4]. cbn in Ho.
    destruct (h w4 _) as [w5 x] eqn:E5. apply message_frame in E5 as ->; [|done].
    rewrite Hn in *. split; [done|]. intros ???. exists policy. auto.
  - destruct (IsNotFound e) eqn:He; [|done].
    pose proof (policy_gone_cache (policyObjID request) request w2 k) as Hc.
    destruct (run h w2 _) as [[w3 t3] r3]. rewrite Hc. split; intros.
    + by rewrite bool_decide_eq_false_2.
    + rewrite bool_decide_eq_true_2 in * by done. by destruct H1.
Qed.

(** C28: the calls of gatekeeper-sync, whatever they are answered.  Before its query batch it only
    reads the flag and the policy; a batch that was started is ended exactly once, last of all and
    also on a panic; inside it, objects are watched on behalf of this policy only, messages of this
    policy only are remembered or forgotten, and the only writes are compliance events in the
    namespace of the cluster. *)
Theorem gatekeeper_sync_calls `{!PolicyServer h} sender w request :
  let id := policyObjID request in
  let t := trace_of (run h w (Reconcile sender request)) in
  ops t = [OReadUninstalling] ∨
  (∃ e, t = [ev OReadUninstalling false; ev (OPolicyGet Managed request) (Err e)] ∧
        IsNotFound e = false) ∨
  (∃ e t', t = ev OReadUninstalling false :: ev (OPolicyGet Managed request) (Err e) :: t' ∧
     IsNotFound e = true ∧
     Forall (λ o, o = ORemoveWatcher id ∨ relay_call sender id (nn_Name request) o) (ops t')) ∨
  (∃ policy e, t = [ev OReadUninstalling false; ev (OPolicyGet Managed request) (Ok policy);
                    ev (OStartQueryBatch id) (Some e)]) ∨
  (∃ policy t' x,
     t = ev OReadUninstalling false :: ev (OPolicyGet Managed request) (Ok policy) ::
         ev (OStartQueryBatch id) None :: t' ++ [ev (OEndQueryBatch id) x] ∧
     Forall (relay_call sender id (nn_Name request)) (ops t')).
Proof.
  cbv zeta. rewrite gk_Reconcile_run; cbv zeta.
  destruct (h w OReadUninstalling) as [w1 [|]]; [by left|right].
  destruct (h w1 _) as [w2 got] eqn:E2. apply policy_get in E2 as [_ E2].
  destruct got as [policy|e].
  - do 2 right. assert (p_Name policy = nn_Name request) as Hn by by rewrite <- (policy_key _ _ _ _ E2).
    destruct (h w2 _) as [w3 [e|]]; [left; by exists policy, e|right].
    pose proof (all_ops_run h w3 _ _ (relay_templates_calls sender (policyObjID request) policy)) as Hc.
    destruct (run h w3 _) as [[w4 t4] r4]. destruct (h w4 _) as [w5 x].
    exists policy, t4, x. by rewrite <- Hn.
  - destruct (IsNotFound e) eqn:He; [right; left|left; by exists e].
    assert (all_ops (λ o, o = ORemoveWatcher (policyObjID request) ∨
      relay_call sender (policyObjID request) (nn_Name request) o)
      (policy_gone (policyObjID request) request)) as Hg.
    { apply all_ops_bind.
      - eapply all_ops_mono; [apply (clear_messages_calls sender); intros k ?; by breflect|by right].
      - intros _. apply all_ops_bind; [apply all_ops_call; by left|]. intros [?|]; [by case_match|done]. }
    apply (all_ops_run h w2) in Hg. destruct (run h w2 _) as [[w3 t3] r3]. by exists e, t3.
Qed.

End reconcile.

(** ** The text of a list of violations *)

Record violation := Violation {
  v_Action : string; v_Message : string; v_Kind : string;
  v_Namespace : option string; v_Name : string }.

Definition encodes (j : json) (v : violation) : Prop :=
  ∃ m, j = JObj m ∧ m !! "enforcementAction" = Some (JStr (v_Action v)) ∧
    m !! "message" = Some (JStr (v_Message v)) ∧ m !! "kind" = Some (JStr (v_Kind v)) ∧
    m !! "namespace" = JStr <$> v_Namespace v ∧ m !! "name" = Some (JStr (v_Name v)).

Definition violation_text (v : violation) : string :=
  v_Action v +:+ " - " +:+ v_Message v +:+ " (on " +:+ v_Kind v +:+ " " +:+
  (if v_Namespace v is Some ns then ns +:+ "/" +:+ v_Name v else v_Name v) +:+ ")".

Definition is_object (j : json) : bool := match j with JObj _ => true | _ => false end.

Section violations.
Context `{L : GatekeeperLib} `{!GatekeeperLaws L}.

Lemma add_violation_encoded msg j v :
  encodes j v →
  add_violation msg j =
  Some ((if msg !=? "" then msg +:+ "; " else msg) +:+ violation_text v).
Proof.
  intros (m & -> & Ha & Hm & Hk & Hns & Hn). unfold add_violation, violation_text.
  rewrite Ha, Hm, Hk, Hns, Hn, !print_string. by destruct (v_Namespace v).
Qed.

Lemma violation_text_ne v : violation_text v ≠ "".
Proof. unfold violation_text. by destruct (v_Action v). Qed.

Lemma violations_fold js vs acc :
  acc ≠ "" → Forall2 encodes (filter (λ j, is_object j = true) js) vs →
  foldl (λ msg v, msg ≫= λ msg, add_violation msg v) (Some acc) js =
  Some (Join (acc :: map violation_text vs) "; ").
Proof.
  revert vs acc. induction js as [|j js IH]; intros vs acc Hacc Hjs.
  { inversion Hjs; subst. done. }
  cbn [foldl mbind option_bind]. destruct (is_object j) eqn:Hj.
  - rewrite filter_cons_True in Hjs by done. inversion Hjs as [|? v ? vs' Hv Hvs]; subst.
    rewrite (add_violation_encoded _ _ _ Hv), bool_decide_eq_false_2 by done. cbn [negb].
    rewrite (IH vs'); [|by destruct acc|done]. f_equal. destruct vs'; simpl;
      by rewrite <- ?str_app_assoc.
  - rewrite filter_cons_False in Hjs by (by rewrite Hj).
    assert (add_violation acc j = Some acc) as -> by (by destruct j). by apply IH.
Qed.

(** The text of an event about violations lists every violation once, in order, with its
    action, message, kind and name, separated by semicolons; entries of the list that are not
    objects are left out. *)
Theorem gatekeeper_violations_text js vs :
  Forall2 encodes (filter (λ j, is_object j = true) js) vs →
  violations_msg js = Some (Join (map violation_text vs) "; ").
Proof.
  unfold violations_msg. revert vs. induction js as [|j js IH]; intros vs Hjs.
  { inversion Hjs; subst. done. }
  cbn [foldl mbind option_bind]. destruct (is_object j) eqn:Hj.
  - rewrite filter_cons_True in Hjs by done. inversion Hjs as [|? v ? vs' Hv Hvs]; subst.
    rewrite (add_violation_encoded _ _ _ Hv). by apply violations_fold, Hvs; apply violation_text_ne.
  - rewrite filter_cons_False in Hjs by (by rewrite Hj).
    assert (add_violation "" j = Some "") as -> by (by destruct j). by apply IH.
Qed.

End violations.

(** ** Concrete runs *)

Definition demo_gk_lib : GatekeeperLib := {|
  sha1 := λ s, s;
  print_value := λ v, match v with Some (JStr s) => s | _ => "%!s(<nil>)" end |}.
#[export] Instance demo_gk_laws : GatekeeperLaws demo_gk_lib.
Proof. by split. Qed.

Definition demo_constraint (status : gmap string json) : unstructured :=
  Unstructured (GVK GConstraint "v1beta1" "K8sRequired") (new_meta "ns-must-have-gk" "")
    {["status" := JObj status]}.

(** A decoder that takes the raw text for the name of a constraint. *)
Definition gk_decode : DecodeLib :=
  let u raw := Unstructured (GVK GConstraint "v1beta1" "K8sRequired") (new_meta raw "") ∅ in
  {| Decode := λ raw, Ok (u_GVK (u raw), Some (u raw));
     UnmarshalUnstructured := λ raw, Ok (u raw);
     UnmarshalObject := λ raw, Ok (u raw) |}.

Definition demo_gk_sender : ComplianceEventSender := Sender "managed" "addon" "gatekeeper-sync".
Definition demo_gk_request : NamespacedName := NN "managed" "ns.policy".
Definition demo_gk_policy (details : list (option DetailsPerTemplate)) : Policy :=
  MkPolicy "policy.open-cluster-management.io/v1" "Policy" (new_meta "ns.policy" "managed")
    (Spec "inform" [Template "ns-must-have-gk" [] false] [] "") (Status "" details "").
Definition demo_gk_details (msg : string) : list (option DetailsPerTemplate) :=
  [Some (Details (new_meta "ns-must-have-gk" "") "" [History 0 msg "ev"])].

Definition demo_violation : violation :=
  Violation "deny" "you must provide labels: gk" "Namespace" None "default".
Definition demo_violation_json : json := JObj (list_to_map
  [("enforcementAction", JStr "deny"); ("message", JStr "you must provide labels: gk");
   ("kind", JStr "Namespace"); ("name", JStr "default")]).

(** The answers of a cluster with the constraint, its CRD, and one policy with [details]. *)
Definition gk_answers (details : list (option DetailsPerTemplate)) (webhooks : list string) (o : op)
    : ans o :=
  match o return ans o with
  | OPolicyGet Managed k =>
      if k ==? demo_gk_request then Ok (demo_gk_policy details) else Err not_found
  | OPolicyCreate _ _ | OPolicyUpdate _ _ | OPolicyStatusUpdate _ _ =>
      Err (Error OtherReason "read only")
  | OPolicyDelete _ _ => Some (Error OtherReason "read only")
  | OWatchGet _ k _ _ =>
      if gvk_Group k ==? GConstraint
      then Ok (Some (demo_constraint (list_to_map
             [("totalViolations", JInt 1); ("violations", JArr [demo_violation_json])])))
      else Ok (Some (demo_constraint ∅))
  | OWebhookGet _ => Ok webhooks
  | o => default_ans o
  end.

#[export, program] Instance gk_answers_policies details webhooks :
  PolicyServer (cached_env (gk_answers details webhooks)) := {|
  policies := λ _ c, match c with
                     | Managed => {[demo_gk_request := demo_gk_policy details]}
                     | Hub => ∅
                     end |}.
Next Obligation.
  intros details webhooks w [] k p H; [by apply lookup_empty_Some in H|].
  by apply lookup_singleton_Some in H as [<- <-].
Qed.
Next Obligation.
  intros details webhooks w [] k p H; [by apply lookup_empty_Some in H|].
  apply lookup_singleton_Some in H as [<- <-]. by intros [? ?].
Qed.
Next Obligation.
  intros details webhooks w c k w' x H. unfold cached_env, gk_answers in H. simplify_eq.
  split; [done|]. destruct c; simpl; [done|]. case_bool_decide as Hk; subst.
  - apply lookup_singleton_eq.
  - intros _. by apply lookup_singleton_ne.
Qed.
Next Obligation. intros details webhooks w c p w' x [= <- <-]. done. Qed.
Next Obligation. intros details webhooks w c p w' x [= <- <-]. done. Qed.
Next Obligation. intros details webhooks w c p w' x [= <- <-]. done. Qed.
Next Obligation. intros details webhooks w c p w' x [= <- <-]. done. Qed.
Next Obligation. done. Qed.

Definition demo_report (cache : gmap policyKindName string)
    (details : list (option DetailsPerTemplate)) (webhooks : list string)
    : gmap policyKindName string * trace * outcome (option error) :=
  run (cached_env (gk_answers details webhooks)) cache
    (sendComplianceEvent (U := unstructured_ref) (L := demo_gk_lib) demo_gk_sender
       (demo_gk_policy []) (demo_constraint ∅) 0 "no violations" Compliant).

(** The webhook is off: the audit result is reported as not enforced, and remembered. *)
Lemma gatekeeper_report_exact_witness :
  length (created_events (trace_of (demo_report ∅ [] []))) = 1 ∧
  let '(cache', t, r) := demo_report ∅ [] [] in
  ∃ err, reported (L := demo_gk_lib) (gk_answers [] []) demo_gk_sender ∅ (demo_gk_policy [])
    (demo_constraint ∅) true (webhook_disabled_msg "deny" "no violations") NonCompliant =
    (cache', created_events t, err) ∧ r = Returned err.
Proof.
  split; [vm_compute; reflexivity|].
  apply (gatekeeper_report_exact (U := unstructured_ref) (L := demo_gk_lib) (gk_answers [] [])
    demo_gk_sender ∅ (demo_gk_policy []) (demo_constraint ∅) 0 "no violations" Compliant).
  vm_compute. discriminate.
Defined.

(** The event was sent and is not in the status yet: it is not sent again. *)
Lemma gatekeeper_report_once_witness :
  let on := ["validation.gatekeeper.sh"] in
  let '(cache1, t1, _) := demo_report ∅ [] on in
  length (created_events t1) = 1 ∧ created_events (trace_of (demo_report cache1 [] on)) = [].
Proof.
  intros on. split; [vm_compute; reflexivity|].
  pose proof (gatekeeper_report_once (U := unstructured_ref) (L := demo_gk_lib)
    (gk_answers [] on) (gk_answers [] on) demo_gk_sender ∅ (demo_gk_policy []) (demo_constraint ∅) 0
    "no violations" Compliant "no violations" Compliant eq_refl) as H.
  destruct H as [H _]; [vm_compute; reflexivity|vm_compute; discriminate..|reflexivity|].
  apply H. vm_compute. discriminate.
Defined.

Definition demo_gk_run (cache : gmap policyKindName string) :=
  run (cached_env (gk_answers [] [])) cache
    (Reconcile (U := unstructured_ref) (D := gk_decode) (L := demo_gk_lib) demo_gk_sender
       demo_gk_request).

Definition stale_key : policyKindName := PolicyKindName "ns.policy" "K8sRequired" "removed".

(** The message of a constraint that was removed from the policy is forgotten. *)
Lemma gatekeeper_cache_current_witness :
  ({[stale_key := "x"]} : gmap policyKindName string) !! stale_key = Some "x" ∧
  result_of (demo_gk_run {[stale_key := "x"]}) = Returned done_ok ∧
  state_of (demo_gk_run {[stale_key := "x"]}) !! stale_key = None.
Proof.
  split; [reflexivity|]. assert (result_of (demo_gk_run {[stale_key := "x"]}) = Returned done_ok) as Hr
    by (vm_compute; reflexivity). split; [exact Hr|].
  pose proof (gatekeeper_cache_current (U := unstructured_ref) (D := gk_decode) (L := demo_gk_lib)
    (cached_env (gk_answers [] [])) demo_gk_sender {[stale_key := "x"]} demo_gk_request stale_key) as H.
  fold (demo_gk_run {[stale_key := "x"]}) in H.
  destruct (demo_gk_run {[stale_key := "x"]}) as [[w' t] r]. cbn in Hr |- *.
  destruct H as [_ H]. destruct (w' !! stale_key) as [d|] eqn:E; [|reflexivity]. exfalso.
  destruct (H Hr eq_refl (ex_intro _ d E)) as (p & Hp & template & u & Hin & Hu & _ & Hk).
  change (Some (demo_gk_policy []) = Some p) in Hp. injection Hp as <-. simpl in Hin.
  apply list_elem_of_singleton in Hin as ->. by simplify_eq/=.
Defined.

(** An entry that is not an object is left out. *)
Lemma gatekeeper_violations_text_witness :
  violations_msg (L := demo_gk_lib) [demo_violation_json; JNull; demo_violation_json] =
  Some ("deny - you must provide labels: gk (on Namespace default); " +:+
        "deny - you must provide labels: gk (on Namespace default)").
Proof.
  apply (gatekeeper_violations_text (L := demo_gk_lib) [demo_violation_json; JNull; demo_violation_json]
    [demo_violation; demo_violation]).
  assert (encodes demo_violation_json demo_violation) as H.
  { eexists. repeat split. }
  repeat constructor; exact H.
Defined.
