(* ===== verification/Uninstall.v ===== *)
(** * controllers/uninstall

    [watcher.go]: the handler that sets the flag all controllers look at while the addon is being
    removed.  [triggeruninstall.go]: the command that annotates the Deployment and deletes the
    policies.  Its two loops have no bound of their own: they end because the context has a
    deadline.  They are modelled with fuel, and [Deadline] says what a context promises; with it,
    enough fuel is shown to give a result. *)

From S2P Require Import Prelude Prog GoStrings K8s Effects Utils.
From S2P Require Import SpecSync SecretSync StatusSync GatekeeperSync.

Definition AnnotationKey : string := "policy.open-cluster-management.io/uninstalling".

(** ** watcher.go *)

(** Reading a Go map that may be nil: the value, or the empty string. *)
Definition map_get (m : option (gmap string string)) (k : string) : string :=
  default "" (m ≫= lookup k).

Definition Reconcile (obj : ObjectIdentifier) : prg reconciled :=
  let! deployment := call (ODeploymentGet (oid_Namespace obj) (oid_Name obj)) in
  match deployment with
  | Err err =>
      if IsNotFound err then
        do! call (OWriteUninstalling true) in
        Ret done_ok
      else Ret (done_err err)
  | Ok deployment =>
      if map_get (d_Annotations deployment) AnnotationKey ==? "true" then
        do! call (OWriteUninstalling true) in
        Ret done_ok
      else
        do! call (OWriteUninstalling false) in
        Ret done_ok
  end.

(** ** triggeruninstall.go *)

(** The variables the flags are parsed into. *)
Record uninstall_flags := UninstallFlags {
  deploymentName : string;
  deploymentNamespace : string;
  policyNamespace : string;
  timeoutSeconds : N }.

(** The end of [parseUninstallFlags]; the library that parses the command line gives [parsed]. *)
Definition parseUninstallFlags (parsed : result uninstall_flags) : result uninstall_flags :=
  match parsed with
  | Err err => Err err
  | Ok v =>
      if (deploymentName v ==? "") || (deploymentNamespace v ==? "") || (policyNamespace v ==? "")
      then Err (Error OtherReason
        "--deployment-name, --deployment-namespace, --policy-namespace must all have values")
      else if N.ltb (timeoutSeconds v) 30
      then Err (Error OtherReason "--timeout-seconds must be set to at least 30 seconds")
      else Ok v
  end.

(** A [for] loop without a condition: [None] is a loop that has not ended yet. *)
Fixpoint loop {R} (fuel : nat) (body : prg (option R)) : prg (option R) :=
  match fuel with
  | O => Ret None
  | S fuel' =>
      let! out := body in
      match out with
      | Some res => Ret (Some res)
      | None => loop fuel' body
      end
  end.

Definition canceled : error :=
  Error OtherReason "context canceled before the uninstallation preparation was complete".

(** One round of the loop of [setUninstallAnnotation]; [Some] is a [return] or the [break].
    Writing to a nil map panics. *)
Definition annotate_round (v : uninstall_flags) : prg (option (option error)) :=
  let! done := call OCtxDone in
  if done : bool then Ret (Some (Some canceled))
  else
    let! got := call (ODeploymentGet (deploymentNamespace v) (deploymentName v)) in
    match got with
    | Err err => Ret (Some (Some err))
    | Ok deployment =>
        match d_Annotations deployment with
        | None => Panic
        | Some annotations =>
            let annotations := <[AnnotationKey := "true"]> annotations in
            let! err := call (ODeploymentUpdate (deploymentNamespace v)
              (MkDeployment (Some annotations) (d_rest deployment))) in
            match err with
            | Some err =>
                if IsServerTimeout err || IsTimeout err || IsConflict err then Ret None
                else Ret (Some (Some err))
            | None => Ret (Some None)
            end
        end
    end.

Definition setUninstallAnnotation (fuel : nat) (v : uninstall_flags) : prg (option (option error)) :=
  loop fuel (annotate_round v).

Definition policyGVR : GroupVersionResource := GVR policy_group policy_version "policies".

(** One round of the loop of [deletePolicies]. *)
Definition delete_round (v : uninstall_flags) : prg (option (option error)) :=
  let! done := call OCtxDone in
  if done : bool then Ret (Some (Some canceled))
  else
    let! policies := call (ODynList policyGVR (policyNamespace v) "" "") in
    match policies with
    | Err err => if IsServerTimeout err || IsTimeout err then Ret None else Ret (Some (Some err))
    | Ok items =>
        if Nat.eqb (length items) 0 then Ret (Some None)
        else
          do! call (ODynDeleteCollection policyGVR (policyNamespace v)) in
          do! call (OSleep (2 * second)) in
          Ret None
    end.

Definition deletePolicies (fuel : nat) (v : uninstall_flags) : prg (option (option error)) :=
  loop fuel (delete_round v).

(** [Trigger]; [config] is the error of reading the client configuration, if any. *)
Definition Trigger (fuel : nat) (parsed : result uninstall_flags) (config : option error)
    : prg (option (option error)) :=
  match parseUninstallFlags parsed with
  | Err err => Ret (Some (Some err))
  | Ok v =>
      match config with
      | Some err => Ret (Some (Some err))
      | None =>
          let! annotated := setUninstallAnnotation fuel v in
          match annotated with
          | None => Ret None
          | Some (Some err) => Ret (Some (Some err))
          | Some None =>
              do! call (OSleep (5 * second)) in
              deletePolicies fuel v
          end
      end
  end.

(** ** The flag *)

(** A variable of the process, seen by one goroutine at a time: it has the value written last. *)
Class UninstallFlag {W} (h : env W) := {
  flag : W → bool;
  flag_read : ∀ w, (h w OReadUninstalling).2 = flag w;
  flag_write : ∀ w b w' x, h w (OWriteUninstalling b) = (w', x) → flag w' = b;
  flag_frame : ∀ w o w' x, (∀ b, o ≠ OWriteUninstalling b) → h w o = (w', x) → flag w' = flag w }.

(** A reconcile that only looks at the flag and asks to be called again. *)
Definition idles {W} (h : env W) (w : W) (p : prg reconciled) : Prop :=
  ops (trace_of (run h w p)) = [OReadUninstalling] ∧ result_of (run h w p) = Returned requeue_5m.

Lemma idles_when_set {W} (h : env W) `{!UninstallFlag h} w (k : bool → prg reconciled) :
  flag w = true → k true = Ret requeue_5m → idles h w (let! b := call OReadUninstalling in k b).
Proof.
  intros Hf Hk. unfold idles. cbn [bind call run]. pose proof (flag_read w) as Hr.
  destruct (h w OReadUninstalling) as [w1 b]. simpl in Hr. subst b. rewrite Hf, Hk. done.
Qed.

(** ** The loops *)

(** A context with a deadline: it is found open only finitely often. *)
Class Deadline {W} (h : env W) := {
  checks_left : W → nat;
  deadline_check : ∀ w w', h w OCtxDone = (w', false) → checks_left w' < checks_left w;
  deadline_mono : ∀ w o w' x, h w o = (w', x) → checks_left w' ≤ checks_left w }.

Section loops.
Context {W} (h : env W).

Lemma deadline_run `{!Deadline h} {A} (p : prg A) w :
  checks_left (state_of (run h w p)) ≤ checks_left w.
Proof.
  revert w. induction p as [a| |o k IH]; intros w; cbn; [done..|].
  destruct (h w o) as [w1 x] eqn:E. apply deadline_mono in E. specialize (IH x w1).
  destruct (run h w1 (k x)) as [[w2 t] r]. cbn in *. lia.
Qed.

(** A round that checks the context first, and is left when the context is done. *)
Definition checked {R} (done : R) (rest : prg (option R)) : prg (option R) :=
  let! b := call OCtxDone in if (b : bool) then Ret (Some done) else rest.

Lemma loop_ends `{!Deadline h} {R} (done : R) rest fuel w :
  checks_left w < fuel →
  result_of (run h w (loop fuel (checked done rest))) ≠ Returned None.
Proof.
  revert w. induction fuel as [|fuel IH]; intros w Hw; [lia|]. cbn [loop]. rewrite run_bind.
  unfold checked at 1. cbn [bind call run].
  destruct (h w OCtxDone) as [w1 [|]] eqn:E; cbn; [done|]. apply deadline_check in E.
  pose proof (deadline_run rest w1) as Hr.
  destruct (run h w1 rest) as [[w2 t2] [[res|]|]]; cbn in *; [done| |done].
  specialize (IH w2 ltac:(lia)). by destruct (run h w2 _) as [[w3 t3] r3].
Qed.

(** A loop ends with its last round. *)
Lemma loop_last {R} fuel (body : prg (option R)) w (out : outcome (option R)) :
  out ≠ Returned None → result_of (run h w (loop fuel body)) = out →
  ∃ w1 t0, result_of (run h w1 body) = out ∧
    trace_of (run h w (loop fuel body)) = t0 ++ trace_of (run h w1 body).
Proof.
  intros Hout. revert w. induction fuel as [|fuel IH]; intros w; cbn [loop]; [by intros <-|].
  rewrite run_bind. destruct (run h w body) as [[w1 t1] [[res|]|]] eqn:E; cbn.
  - intros <-. exists w, []. by rewrite E, app_nil_r.
  - specialize (IH w1). destruct (run h w1 (loop fuel body)) as [[w2 t2] r2]. cbn in *.
    intros Hr. destruct (IH Hr) as (w3 & t0 & ? & ->). exists w3, (t1 ++ t0).
    by rewrite <- app_assoc.
  - intros <-. exists w, []. by rewrite E.
Qed.

(** How a round of each loop can end. *)
Lemma annotate_round_ends v w :
  let '(_, t, r) := run h w (annotate_round v) in
  (r = Returned (Some None) →
   ∃ d t0 annotations,
     t = t0 ++ [ev (ODeploymentGet (deploymentNamespace v) (deploymentName v)) (Ok d);
                ev (ODeploymentUpdate (deploymentNamespace v)
                      (MkDeployment (Some (<[AnnotationKey := "true"]> annotations)) (d_rest d))) None] ∧
     d_Annotations d = Some annotations) ∧
  (r = Panicked →
   ∃ d t0, t = t0 ++ [ev (ODeploymentGet (deploymentNamespace v) (deploymentName v)) (Ok d)] ∧
     d_Annotations d = None).
Proof.
  unfold annotate_round. simpl. destruct (h w _) as [w1 [|]]; [done|]. simpl.
  destruct (h w1 _) as [w2 [d|e]]; [|done]. destruct (d_Annotations d) as [m|] eqn:Hm; simpl.
  - destruct (h w2 _) as [w3 [e|]]; simpl; [by destruct (_ || _)|]. split; [|done]. intros _.
    by exists d, [ev OCtxDone false], m.
  - split; [done|]. intros _. by exists d, [ev OCtxDone false].
Qed.

Lemma delete_round_ends v w :
  let '(_, t, r) := run h w (delete_round v) in
  r ≠ Panicked ∧
  (r = Returned (Some None) →
   t = [ev OCtxDone false; ev (ODynList policyGVR (policyNamespace v) "" "") (Ok [])]).
Proof.
  unfold delete_round. simpl. destruct (h w _) as [w1 [|]]; [done|]. simpl.
  destruct (h w1 _) as [w2 [items|e]]; simpl; [|by destruct (_ || _)].
  destruct items; simpl; [done|]. destruct (h w2 _) as [w3 x]. simpl. by destruct (h w3 _) as [w4 y].
Qed.

(** How the loops end. *)
Lemma annotate_ends `{!Deadline h} v fuel w :
  checks_left w < fuel →
  let '(_, t, r) := run h w (setUninstallAnnotation fuel v) in
  match r with
  | Panicked =>
      ∃ d t0, t = t0 ++ [ev (ODeploymentGet (deploymentNamespace v) (deploymentName v)) (Ok d)] ∧
        d_Annotations d = None
  | Returned None => False
  | Returned (Some (Some _)) => True
  | Returned (Some None) =>
      ∃ d t0 annotations,
        t = t0 ++ [ev (ODeploymentGet (deploymentNamespace v) (deploymentName v)) (Ok d);
                   ev (ODeploymentUpdate (deploymentNamespace v)
                     (MkDeployment (Some (<[AnnotationKey := "true"]> annotations)) (d_rest d))) None] ∧
        d_Annotations d = Some annotations
  end.
Proof.
  intros Hw. unfold setUninstallAnnotation.
  pose proof (loop_ends (Some canceled) _ fuel w Hw : _ (run h w (loop fuel (annotate_round v))) ≠ _)
    as Hne.
  pose proof (loop_last fuel (annotate_round v) w _ Hne eq_refl) as (w1 & t0 & Hr & Ht).
  pose proof (annotate_round_ends v w1) as Hend.
  destruct (run h w (loop _ _)) as [[w2 t] r], (run h w1 _) as [[w3 t1] r1]. cbn in *. subst.
  destruct Hend as [Hok Hpanic]. destruct r as [[[e|]|]|]; [done| |done|].
  - destruct (Hok eq_refl) as (d & t' & m & -> & ?). exists d, (t0 ++ t'), m. by rewrite <- app_assoc.
  - destruct (Hpanic eq_refl) as (d & t' & -> & ?). exists d, (t0 ++ t'). by rewrite <- app_assoc.
Qed.

Lemma delete_ends `{!Deadline h} v fuel w :
  checks_left w < fuel →
  let '(_, t, r) := run h w (deletePolicies fuel v) in
  match r with
  | Panicked | Returned None => False
  | Returned (Some (Some _)) => True
  | Returned (Some None) =>
      ∃ t0, t = t0 ++ [ev (ODynList policyGVR (policyNamespace v) "" "") (Ok [])]
  end.
Proof.
  intros Hw. unfold deletePolicies.
  pose proof (loop_ends (Some canceled) _ fuel w Hw : _ (run h w (loop fuel (delete_round v))) ≠ _)
    as Hne.
  pose proof (loop_last fuel (delete_round v) w _ Hne eq_refl) as (w1 & t0 & Hr & Ht).
  pose proof (delete_round_ends v w1) as Hend.
  destruct (run h w (loop _ _)) as [[w2 t] r], (run h w1 _) as [[w3 t1] r1]. cbn in *. subst.
  destruct Hend as [Hpanic Hok]. destruct r as [[[e|]|]|]; [done| |done..].
  rewrite (Hok eq_refl). exists (t0 ++ [ev OCtxDone false]). by rewrite <- app_assoc.
Qed.

End loops.

(** ** Properties *)

(** C29: the watcher and the controllers together.  After the watcher has looked at a Deployment
    that is gone or carries the annotation, spec-sync, secret-sync, status-sync and gatekeeper-sync
    do nothing but ask for a retry in five minutes; after it has looked at any other Deployment the
    flag is off, and when the Deployment could not be read the flag is what it was. *)
Theorem uninstall_watcher_stops_controllers {W} (h : env W) `{!UninstallFlag h}
    `{U : UnstructuredLib} `{T : TimeLib} `{D : DecodeLib} `{L : GatekeeperLib} w obj :
  let '(w1, got) := h w (ODeploymentGet (oid_Namespace obj) (oid_Name obj)) in
  let '(w', _, r) := run h w (Reconcile obj) in
  match got with
  | Err e => if IsNotFound e then r = Returned done_ok ∧ flag w' = true
             else r = Returned (done_err e) ∧ flag w' = flag w
  | Ok d => r = Returned done_ok ∧ flag w' = (map_get (d_Annotations d) AnnotationKey ==? "true")
  end ∧
  (flag w' = true → ∀ spec secret status realloc sender request,
     idles h w' (SpecSync.Reconcile spec request) ∧
     idles h w' (SecretSync.Reconcile secret request) ∧
     idles h w' (StatusSync.Reconcile realloc status request) ∧
     idles h w' (GatekeeperSync.Reconcile sender request)).
Proof.
  destruct (h w _) as [w1 got] eqn:E1.
  destruct (run h w (Reconcile obj)) as [[w' t] r] eqn:E. split.
  - revert E. unfold Reconcile. cbn [bind call run]. rewrite E1. apply (flag_frame w) in E1; [|done].
    destruct got as [d|e]; [destruct (map_get _ _ ==? _)|destruct (IsNotFound e)]; cbn;
      try (destruct (h w1 _) as [w2 []] eqn:E2; pose proof (flag_write _ _ _ _ E2));
      intros; by simplify_eq.
  - intros Hf spec secret status realloc sender request. split_and!; by refine (idles_when_set h w' _ Hf _).
Qed.

(** C30: the uninstall command ends.  The context has a deadline, so with enough fuel for the checks
    before it, the command returns, or panics because the Deployment has no annotations at all.
    When it returns without an error, the flags were valid, the annotation was written to the
    Deployment that had just been read, and the last call found no policy left. *)
Theorem trigger_uninstall_complete {W} (h : env W) `{!Deadline h} fuel parsed config w :
  checks_left w < fuel →
  let '(_, t, r) := run h w (Trigger fuel parsed config) in
  match r with
  | Panicked =>
      ∃ v d t0, parsed = Ok v ∧
        t = t0 ++ [ev (ODeploymentGet (deploymentNamespace v) (deploymentName v)) (Ok d)] ∧
        d_Annotations d = None
  | Returned None => False
  | Returned (Some (Some _)) => True
  | Returned (Some None) =>
      ∃ v d annotations t0 t1,
        parsed = Ok v ∧ policyNamespace v ≠ "" ∧ (30 ≤ timeoutSeconds v)%N ∧
        d_Annotations d = Some annotations ∧
        t = t0 ++ ev (ODeploymentGet (deploymentNamespace v) (deploymentName v)) (Ok d) ::
            ev (ODeploymentUpdate (deploymentNamespace v)
                  (MkDeployment (Some (<[AnnotationKey := "true"]> annotations)) (d_rest d))) None ::
            t1 ++ [ev (ODynList policyGVR (policyNamespace v) "" "") (Ok [])]
  end.
Proof.
  intros Hw. unfold Trigger, parseUninstallFlags. destruct parsed as [v|e]; [|done].
  destruct (_ || _) eqn:Hv; [done|]. destruct (N.ltb _ _) eqn:Ht; [done|].
  apply N.ltb_ge in Ht. breflect. destruct config as [e|]; [done|]. rewrite run_bind.
  pose proof (annotate_ends h v fuel w Hw) as Ha.
  pose proof (deadline_run h (setUninstallAnnotation fuel v) w) as Hd.
  destruct (run h w (setUninstallAnnotation fuel v)) as [[w1 t1] [[[e|]|]|]]; cbn in Hd, Ha |- *;
    [done| |done|].
  - destruct Ha as (d & t0 & m & -> & Hm).
    destruct (h w1 (OSleep _)) as [w2 []] eqn:E2. apply (deadline_mono w1) in E2.
    pose proof (delete_ends h v fuel w2 ltac:(lia)) as He.
    destruct (run h w2 (deletePolicies fuel v)) as [[w3 t3] [[[e|]|]|]]; cbn in *; [done| |done..].
    destruct He as [t4 ->]. exists v, d, m, t0, (ev (OSleep (5 * second)) () :: t4).
    split_and!; try done. by rewrite <- app_assoc.
  - destruct Ha as (d & t0 & -> & ?). by exists v, d, t0.
Qed.

(** ** Concrete runs *)

Record uninstall_world := UWorld {
  uw_flag : bool;
  uw_checks : nat;
  uw_annotations : option (gmap string string);
  uw_policies : list unstructured }.

(** A cluster with one Deployment and some policies, and a context that ends after [uw_checks]. *)
Definition uninstall_env : env uninstall_world := λ w o,
  match o return uninstall_world * ans o with
  | OReadUninstalling => (w, uw_flag w)
  | OWriteUninstalling b => (UWorld b (uw_checks w) (uw_annotations w) (uw_policies w), tt)
  | OCtxDone =>
      match uw_checks w with
      | O => (w, true)
      | S n => (UWorld (uw_flag w) n (uw_annotations w) (uw_policies w), false)
      end
  | ODeploymentGet _ _ => (w, Ok (MkDeployment (uw_annotations w) ""))
  | ODeploymentUpdate _ d =>
      (UWorld (uw_flag w) (uw_checks w) (d_Annotations d) (uw_policies w), None)
  | ODynList _ _ _ _ => (w, Ok (uw_policies w))
  | ODynDeleteCollection _ _ => (UWorld (uw_flag w) (uw_checks w) (uw_annotations w) [], None)
  | o => (w, default_ans o)
  end.

#[export, program] Instance uninstall_env_flag : UninstallFlag uninstall_env := {| flag := uw_flag |}.
Next Obligation. done. Qed.
Next Obligation. intros w b w' x [= <- _]. done. Qed.
Next Obligation.
  intros w o w' x Ho H. unfold uninstall_env in H. destruct o; simplify_eq; try done; [by edestruct Ho|].
  by case_match; simplify_eq.
Qed.

#[export, program] Instance uninstall_env_deadline : Deadline uninstall_env := {|
  checks_left := uw_checks |}.
Next Obligation.
  intros w w' H. unfold uninstall_env in H. case_match eqn:E; simplify_eq. cbn. lia.
Qed.
Next Obligation.
  intros w o w' x H. unfold uninstall_env in H. destruct o; simplify_eq; cbn; try done.
  case_match eqn:E; simplify_eq; cbn; lia.
Qed.

Definition demo_flags : uninstall_flags :=
  UninstallFlags "governance-policy-framework-addon" "open-cluster-management-agent-addon" "managed" 300.
Definition demo_uninstall : uninstall_world :=
  UWorld false 5 (Some ∅) [Unstructured (GVK policy_group "v1" "Policy") (new_meta "ns.policy" "managed") ∅].
Definition demo_self : ObjectIdentifier :=
  ObjID "apps" "v1" "Deployment" "open-cluster-management-agent-addon"
    "governance-policy-framework-addon".
Definition demo_trigger : uninstall_world * trace * outcome (option (option error)) :=
  run uninstall_env demo_uninstall (Trigger 6 (Ok demo_flags) None).

(** The policy is deleted in one round and the second round finds none. *)
Lemma trigger_uninstall_complete_witness :
  result_of demo_trigger = Returned (Some None) ∧
  ∃ v t', Ok demo_flags = Ok v ∧ policyNamespace v ≠ "" ∧
    trace_of demo_trigger = t' ++ [ev (ODynList policyGVR (policyNamespace v) "" "") (Ok [])].
Proof.
  assert (result_of demo_trigger = Returned (Some None)) as Hr by (vm_compute; reflexivity).
  split; [exact Hr|].
  pose proof (trigger_uninstall_complete uninstall_env 6 (Ok demo_flags) None demo_uninstall) as H.
  fold demo_trigger in H. destruct demo_trigger as [[w' t] r]. cbn in Hr |- *. subst r.
  destruct H as (v & d & m & t0 & t1 & Hv & Hns & _ & _ & ->); [vm_compute; lia|].
  eexists v, _. split; [exact Hv|]. split; [exact Hns|].
  rewrite !app_comm_cons, app_assoc. reflexivity.
Defined.

(** Once the Deployment is annotated, the watcher stops the controllers. *)
Lemma uninstall_watcher_stops_controllers_witness :
  let w := state_of demo_trigger in
  let w' := state_of (run uninstall_env w (Reconcile demo_self)) in
  flag w = false ∧ flag w' = true ∧
  idles uninstall_env w' (SpecSync.Reconcile SpecSync.demo_reconciler demo_gk_request).
Proof.
  intros w w'. split; [vm_compute; reflexivity|].
  assert (flag w' = true) as Hf by (vm_compute; reflexivity). split; [exact Hf|].
  pose proof (uninstall_watcher_stops_controllers uninstall_env (U := unstructured_ref) (T := time_ref)
    (D := gk_decode) (L := demo_gk_lib) w demo_self) as H.
  subst w'. destruct (uninstall_env w _) as [w1 got].
  destruct (run uninstall_env w (Reconcile demo_self)) as [[w' t] r].
  apply (proj2 H Hf SpecSync.demo_reconciler (SecretSync.MkReconciler "") StatusSync.demo_reconciler
    (λ _, false) demo_gk_sender demo_gk_request).
Defined.
