(* ===== verification/Options.v ===== *)
(** * tool

    [options.go]: how the options follow from the flags and the environment, after the flags were
    parsed.  [operator-sdk-port.go]: the namespace of the operator. *)

From S2P Require Import Prelude GoStrings K8s.

(** The floating-point type of a rate and the conversion of small integers, which is exact. *)
Class FloatLib := { float32 : Type; float32_of : Z → float32 }.

(** Unsigned 32-bit wrap-around. *)
Definition wrapU32 (z : Z) : Z := z `mod` 2 ^ 32.

Section options.
Context `{F : FloatLib}.

(** [SyncerOptions]; an unsigned integer is a Z in its range. *)
Record SyncerOptions := MkOptions {
  ClusterNamespaceOnHub : string;
  HubConfigFilePathName : string;
  ManagedConfigFilePathName : string;
  OnMulticlusterhub : bool;
  DisableGkSync : bool;
  EnableLease : bool;
  EnableLeaderElection : bool;
  ProbeAddr : string;
  MetricsAddr : string;
  SecureMetrics : bool;
  ClusterNamespace : string;
  DeploymentName : string;
  EvaluationConcurrency : Z;
  ClientQPS : float32;
  ClientBurst : Z }.

(** The options before a flag is parsed ([ProcessFlags]). *)
Definition flag_defaults : SyncerOptions :=
  MkOptions "" "" "" false false false true ":8080" "localhost:8383" false "" "" 2 (float32_of 30) 45.

(** The environment of the process ([os.LookupEnv], and [os.Getenv] with an empty default), and
    which flags were set. *)
Variable lookupEnv : string → option string.
Definition getenv (name : string) : string := default "" (lookupEnv name).
Variable changed : string → bool.

(** The rates follow the concurrency unless they are set. *)
Definition scale_rates (o : SyncerOptions) : SyncerOptions :=
  if changed "evaluation-concurrency" then
    let qps := if negb (changed "client-max-qps")
               then float32_of (EvaluationConcurrency o * 15) else ClientQPS o in
    let burst := if negb (changed "client-burst")
                 then wrapU32 (EvaluationConcurrency o * 22 + 1) else ClientBurst o in
    MkOptions (ClusterNamespaceOnHub o) (HubConfigFilePathName o) (ManagedConfigFilePathName o)
      (OnMulticlusterhub o) (DisableGkSync o) (EnableLease o) (EnableLeaderElection o) (ProbeAddr o)
      (MetricsAddr o) (SecureMetrics o) (ClusterNamespace o) (DeploymentName o)
      (EvaluationConcurrency o) qps burst
  else o.

(** A path that is not set by a flag is read from the environment. *)
Definition or_env (path name : string) : string :=
  if path ==? "" then getenv name else path.

(** [ProcessAndParse] after [pflag.Parse]: [o] has the parsed flags and [disableSpecSync] the
    deprecated one.  The options are a global variable, which is changed also when an error is
    returned. *)
Definition ProcessAndParse (disableSpecSync : bool) (o : SyncerOptions)
    : SyncerOptions * option error :=
  let o := scale_rates o in
  let deploymentName :=
    if getenv "DEPLOYMENT_NAME" ==? "" then "governance-policy-framework-addon"
    else getenv "DEPLOYMENT_NAME" in
  let onMulticlusterhub :=
    OnMulticlusterhub o || disableSpecSync || (getenv "ON_MULTICLUSTERHUB" ==? "true") in
  let set onHub hubConfig managedConfig :=
    MkOptions onHub hubConfig managedConfig onMulticlusterhub (DisableGkSync o) (EnableLease o)
      (EnableLeaderElection o) (ProbeAddr o) (MetricsAddr o) (SecureMetrics o) (ClusterNamespace o)
      deploymentName (EvaluationConcurrency o) (ClientQPS o) (ClientBurst o) in
  if ClusterNamespace o ==? "" then
    (set (ClusterNamespaceOnHub o) (HubConfigFilePathName o) (ManagedConfigFilePathName o),
     Some (Error OtherReason "the --cluster-namespace flag must be provided"))
  else
    (set (if ClusterNamespaceOnHub o ==? "" then ClusterNamespace o else ClusterNamespaceOnHub o)
       (or_env (HubConfigFilePathName o) "HUB_CONFIG")
       (or_env (ManagedConfigFilePathName o) "MANAGED_CONFIG"), None).

(** ** operator-sdk-port.go *)

Definition isRunModeLocal : bool := getenv "OSDK_FORCE_RUN_MODE" ==? "local".

Inductive namespace_error := ErrRunLocal | ErrNoNamespace | ErrRead (e : error).

(** [namespace_file] is what reading the file of the service account gives; the reason of an error
    is [NotFound] when [os.IsNotExist] holds. *)
Definition GetOperatorNamespace (namespace_file : result string) : string + namespace_error :=
  if isRunModeLocal then inr ErrRunLocal
  else
    match namespace_file with
    | Err e => if IsNotFound e then inr ErrNoNamespace else inr (ErrRead e)
    | Ok nsBytes => inl (TrimSpace nsBytes)
    end.

(** ** Properties *)

Definition in_uint8 (z : Z) : Prop := (0 ≤ z < 2 ^ 8)%Z.

(** The first string, or the second when it is empty. *)
Definition or_else (a b : string) : string := if decide (a = "") then b else a.

(** Nothing but the rates changes. *)
Lemma scale_rates_frame o :
  scale_rates o =
  MkOptions (ClusterNamespaceOnHub o) (HubConfigFilePathName o) (ManagedConfigFilePathName o)
    (OnMulticlusterhub o) (DisableGkSync o) (EnableLease o) (EnableLeaderElection o) (ProbeAddr o)
    (MetricsAddr o) (SecureMetrics o) (ClusterNamespace o) (DeploymentName o)
    (EvaluationConcurrency o) (ClientQPS (scale_rates o)) (ClientBurst (scale_rates o)).
Proof. unfold scale_rates. case_match; [done|by destruct o]. Qed.

Lemma scale_rates_rates o :
  in_uint8 (EvaluationConcurrency o) →
  ClientQPS (scale_rates o) =
    (if changed "evaluation-concurrency" && negb (changed "client-max-qps")
     then float32_of (EvaluationConcurrency o * 15) else ClientQPS o) ∧
  ClientBurst (scale_rates o) =
    (if changed "evaluation-concurrency" && negb (changed "client-burst")
     then EvaluationConcurrency o * 22 + 1 else ClientBurst o)%Z.
Proof.
  intros Hc. unfold scale_rates. destruct (changed "evaluation-concurrency"); [|done]. cbn.
  split; [done|]. case_match; [|done]. unfold wrapU32, in_uint8 in *. apply Z.mod_small. lia.
Qed.


End options.

(** ** Concrete runs *)

Definition float_ref : FloatLib := {| float32 := Z; float32_of := λ z, z |}.

