(* ===== verification/Managers.v ===== *)
(** * main.go: the Gatekeeper manager

    The loop that runs the Gatekeeper manager while Gatekeeper is installed
    ([manageGatekeeperSyncManager]).  The loop and the goroutines it starts run side by side: they
    are a transition system, whose steps are a turn of the loop up to its [select], one case of the
    [select], one turn of a goroutine, and the end of the context of the process. *)

From S2P Require Import Prelude K8s.

(** ** manageGatekeeperSyncManager *)

(** A goroutine has the context it was given, and is at the top of its loop or inside
    [runGatekeeperSyncManager]. *)
Record goroutine := Goroutine { g_ctx : nat; g_running : bool }.

(** Where the loop is. *)
Inductive position := AtTop | AtSelect | LoopReturned.

#[export] Instance position_eq_dec : EqDecision position.
Proof. solve_decision. Defined.

(** The variables of the function; contexts are numbered as they are created, and a context is done
    when it or its parent was cancelled. *)
Record mgr_state := MgrState {
  pc : position;
  watcher : bool;
  gatekeeperInstalled : bool;
  mgrRunning : bool;
  mgrCtx : nat;
  ctx_cancelled : gset nat;
  parent_done : bool;
  goroutines : list goroutine;
  wg : Z }.

Definition ctx_done (s : mgr_state) (c : nat) : bool :=
  parent_done s || bool_decide (c ∈ ctx_cancelled s).

(** [if watcher == nil]: the state, or [None] for [continue]. *)
Definition start_watch (listed : result nat) (watchErr : option error) (s : mgr_state)
    : option mgr_state :=
  if watcher s then Some s
  else
    match listed, watchErr with
    | Err _, _ | _, Some _ => None
    | Ok items, None =>
        Some (MgrState (pc s) true (Nat.ltb 0 items) (mgrRunning s) (mgrCtx s) (ctx_cancelled s)
                (parent_done s) (goroutines s) (wg s))
    end.

(** [if gatekeeperInstalled && !mgrRunning] *)
Definition start_manager (s : mgr_state) : mgr_state :=
  if gatekeeperInstalled s && negb (mgrRunning s) then
    MgrState (pc s) (watcher s) (gatekeeperInstalled s) true (mgrCtx s) (ctx_cancelled s)
      (parent_done s) (goroutines s ++ [Goroutine (mgrCtx s) false]) (wg s + 1)
  else s.

(** [if !gatekeeperInstalled && mgrRunning] *)
Definition stop_manager (s : mgr_state) : mgr_state :=
  if negb (gatekeeperInstalled s) && mgrRunning s then
    MgrState (pc s) (watcher s) (gatekeeperInstalled s) false (S (mgrCtx s))
      ({[mgrCtx s]} ∪ ctx_cancelled s) (parent_done s) (goroutines s) (wg s)
  else s.

Definition goto (p : position) (s : mgr_state) : mgr_state :=
  MgrState p (watcher s) (gatekeeperInstalled s) (mgrRunning s) (mgrCtx s) (ctx_cancelled s)
    (parent_done s) (goroutines s) (wg s).

(** A turn of the loop up to the [select]; [continue] stays at the top. *)
Definition loop_turn (listed : result nat) (watchErr : option error) (s : mgr_state) : mgr_state :=
  match start_watch listed watchErr s with
  | None => s
  | Some s => goto AtSelect (stop_manager (start_manager s))
  end.

(** The cases of the [select], and the types of a watch event. *)
Inductive watch_type := Added | Deleted | OtherType.
Inductive select_case := CtxDone | WatcherDone | WatchResult (type : watch_type).

Definition select_ready (c : select_case) (s : mgr_state) : bool :=
  match c with CtxDone => parent_done s | _ => true end.

Definition select_turn (c : select_case) (s : mgr_state) : mgr_state :=
  match c with
  | CtxDone =>
      MgrState LoopReturned (watcher s) (gatekeeperInstalled s) (mgrRunning s) (mgrCtx s)
        ({[mgrCtx s]} ∪ ctx_cancelled s) (parent_done s) (goroutines s) (wg s)
  | WatcherDone =>
      MgrState AtTop false (gatekeeperInstalled s) (mgrRunning s) (mgrCtx s) (ctx_cancelled s)
        (parent_done s) (goroutines s) (wg s)
  | WatchResult type =>
      let installed :=
        match type with Added => true | Deleted => false | OtherType => gatekeeperInstalled s end in
      MgrState AtTop (watcher s) installed (mgrRunning s) (mgrCtx s) (ctx_cancelled s)
        (parent_done s) (goroutines s) (wg s)
  end.

(** One turn of a goroutine: the manager returns, or the context is looked at, and the goroutine
    ends or runs the manager. *)
Definition goroutine_turn (i : nat) (s : mgr_state) : option mgr_state :=
  g ← goroutines s !! i;
  let with_goroutines l n :=
    MgrState (pc s) (watcher s) (gatekeeperInstalled s) (mgrRunning s) (mgrCtx s) (ctx_cancelled s)
      (parent_done s) l n in
  Some (if g_running g then
          with_goroutines (<[i := Goroutine (g_ctx g) false]> (goroutines s)) (wg s)
        else if ctx_done s (g_ctx g) then
          with_goroutines (delete i (goroutines s)) (wg s - 1)%Z
        else with_goroutines (<[i := Goroutine (g_ctx g) true]> (goroutines s)) (wg s)).

Definition close_parent (s : mgr_state) : mgr_state :=
  MgrState (pc s) (watcher s) (gatekeeperInstalled s) (mgrRunning s) (mgrCtx s) (ctx_cancelled s)
    true (goroutines s) (wg s).

Definition mgr_init (wg0 : Z) : mgr_state := MgrState AtTop false false false 0 ∅ false [] wg0.

Inductive mgr_step : mgr_state → mgr_state → Prop :=
| step_loop s listed watchErr : pc s = AtTop → mgr_step s (loop_turn listed watchErr s)
| step_select s c : pc s = AtSelect → select_ready c s = true → mgr_step s (select_turn c s)
| step_goroutine s i s' : goroutine_turn i s = Some s' → mgr_step s s'
| step_close s : mgr_step s (close_parent s).

Definition mgr_reachable (wg0 : Z) : mgr_state → Prop := rtc mgr_step (mgr_init wg0).

(** ** Lemmas *)

(** The contexts of the goroutines that have not ended. *)
Definition ctxs (s : mgr_state) : list nat := map g_ctx (goroutines s).
Definition current (s : mgr_state) : list nat := filter (λ c, c = mgrCtx s) (ctxs s).

Record mgr_inv (wg0 : Z) (s : mgr_state) : Prop := {
  inv_wg : wg s = (wg0 + Z.of_nat (length (ctxs s)))%Z;
  inv_ctxs : Forall (λ c, c = mgrCtx s ∨ c < mgrCtx s ∧ c ∈ ctx_cancelled s) (ctxs s);
  inv_cancelled : parent_done s = false → ∀ c, c ∈ ctx_cancelled s → c < mgrCtx s;
  inv_current : parent_done s = false → length (current s) = if mgrRunning s then 1 else 0;
  inv_select : pc s = AtSelect → mgrRunning s = gatekeeperInstalled s;
  inv_returned : pc s = LoopReturned → parent_done s = true }.

Lemma mgr_init_inv wg0 : mgr_inv wg0 (mgr_init wg0).
Proof. split; cbn; try done; lia. Qed.

Lemma start_manager_inv wg0 s :
  pc s = AtTop → mgr_inv wg0 s → mgr_inv wg0 (start_manager s).
Proof.
  intros Hpc Hinv. unfold start_manager. case_match eqn:E; [|exact Hinv].
  breflect. destruct Hinv as [Hwg Hctxs Hcan Hcur Hsel Hret]. split; unfold current, ctxs in *; cbn; rewrite ?map_app, ?Hpc; try done.
  - rewrite length_app. cbn. lia.
  - apply Forall_app. split; [done|]. constructor; [by left|constructor].
  - intros Hp. rewrite filter_app, length_app, Hcur by done. cbn.
    rewrite decide_True by done. by case_match.
Qed.

Lemma filter_none {A} (P : A → Prop) `{!∀ x, Decision (P x)} l :
  Forall (λ x, ¬ P x) l → filter P l = [].
Proof. induction 1 as [|x l Hx _ IH]; [done|]. by rewrite filter_cons_False. Qed.

Lemma stop_manager_inv wg0 s :
  pc s = AtTop → mgr_inv wg0 s → mgr_inv wg0 (stop_manager s).
Proof.
  intros Hpc Hinv. unfold stop_manager. case_match eqn:E; [|exact Hinv].
  breflect. destruct Hinv as [Hwg Hctxs Hcan Hcur Hsel Hret]. split; unfold current, ctxs in *; cbn; rewrite ?Hpc; try done.
  - eapply Forall_impl; [exact Hctxs|]. intros c [->|[? ?]]; right; split; try lia; set_solver.
  - intros Hp c [->%elem_of_singleton|Hc]%elem_of_union; [lia|]. specialize (Hcan Hp c Hc). lia.
  - intros Hp. rewrite filter_none; [done|]. eapply Forall_impl; [exact Hctxs|]. cbn. lia.
Qed.

(** After the two tests the manager runs exactly when Gatekeeper is installed. *)
Lemma start_stop_running s :
  let s' := stop_manager (start_manager s) in mgrRunning s' = gatekeeperInstalled s'.
Proof.
  unfold stop_manager, start_manager. by destruct (gatekeeperInstalled s) eqn:E1, (mgrRunning s) eqn:E2;
    simpl; rewrite ?E1, ?E2; simpl; rewrite ?E1, ?E2.
Qed.

Lemma loop_turn_inv wg0 listed watchErr s :
  pc s = AtTop → mgr_inv wg0 s → mgr_inv wg0 (loop_turn listed watchErr s).
Proof.
  intros Hpc Hinv. unfold loop_turn. destruct (start_watch _ _ _) as [s1|] eqn:E; [|done].
  assert (pc s1 = AtTop ∧ mgr_inv wg0 s1) as [Hpc1 Hinv1].
  { unfold start_watch in E. repeat case_match; simplify_eq; try done.
    destruct Hinv. split; [done|]. split; cbn; rewrite ?Hpc; done. }
  assert (pc (start_manager s1) = AtTop) as Hpc2 by (unfold start_manager; by case_match).
  pose proof (start_stop_running s1) as Hrun. cbv zeta in Hrun.
  apply (start_manager_inv wg0) in Hinv1; [|done]. apply (stop_manager_inv wg0) in Hinv1; [|done].
  by destruct Hinv1 as [Hwg Hctxs Hcan Hcur _ _]; split.
Qed.

Lemma select_turn_inv wg0 c s :
  select_ready c s = true → mgr_inv wg0 s → mgr_inv wg0 (select_turn c s).
Proof.
  intros Hready [Hwg Hctxs Hcan Hcur Hsel Hret]. destruct c as [| |type]; split; cbn in *; try done.
  - eapply Forall_impl; [exact Hctxs|]. intros c [->|[? ?]]; [by left|right]. set_solver.
  - by rewrite Hready.
Qed.

Lemma goroutine_turn_inv wg0 i s s' :
  goroutine_turn i s = Some s' → mgr_inv wg0 s → mgr_inv wg0 s'.
Proof.
  intros H [Hwg Hctxs Hcan Hcur Hsel Hret]. unfold goroutine_turn in H.
  destruct (goroutines s !! i) as [g|] eqn:Hi; [|done]. cbn in H. injection H as <-.
  assert (∀ b, map g_ctx (<[i := Goroutine (g_ctx g) b]> (goroutines s)) = ctxs s) as Hsame.
  { intros b. unfold ctxs. rewrite list_fmap_insert. apply list_insert_id.
    by rewrite list_lookup_fmap, Hi. }
  destruct (g_running g); [split; unfold current, ctxs in *; cbn; rewrite ?Hsame; done|].
  destruct (ctx_done s (g_ctx g)) eqn:Hd;
    [|split; unfold current, ctxs in *; cbn; rewrite ?Hsame; done].
  assert (ctxs s ≡ₚ g_ctx g :: map g_ctx (delete i (goroutines s))) as Hperm.
  { unfold ctxs. rewrite (delete_Permutation (goroutines s) i g Hi) at 1. done. }
  split; unfold current in *; cbn; try done.
  - rewrite Hwg, Hperm. cbn. unfold ctxs. cbn. lia.
  - rewrite Hperm in Hctxs. by inversion Hctxs.
  - intros Hp. unfold ctx_done in Hd. rewrite Hp in Hd. breflect. simpl in Hd.
    apply bool_decide_eq_true in Hd. apply Hcan in Hd; [|done]. specialize (Hcur Hp).
    rewrite Hperm, filter_cons_False in Hcur by lia. exact Hcur.
Qed.

Lemma mgr_reachable_inv wg0 s : mgr_reachable wg0 s → mgr_inv wg0 s.
Proof.
  intros H. unfold mgr_reachable in H. remember (mgr_init wg0) as s0 eqn:E.
  assert (mgr_inv wg0 s0) as H0 by (subst; apply mgr_init_inv). clear E.
  induction H as [|s0 s1 s2 Hstep _ IH]; [done|]. apply IH.
  destruct Hstep; eauto using loop_turn_inv, select_turn_inv, goroutine_turn_inv.
  by destruct H0; split.
Qed.

(** The goroutines that may still run the manager. *)
Definition open_goroutines (s : mgr_state) : list nat := filter (λ c, ctx_done s c = false) (ctxs s).

Lemma open_current wg0 s :
  mgr_inv wg0 s → open_goroutines s = if parent_done s then [] else current s.
Proof.
  intros Hinv. unfold open_goroutines, current, ctx_done. destruct (parent_done s) eqn:Hp; simpl.
  - apply filter_none. by apply Forall_true.
  - pose proof (inv_cancelled _ _ Hinv Hp) as Hcan.
    induction (inv_ctxs _ _ Hinv) as [|c l [->|[Hc Hin]] _ IH]; [done| |].
    + rewrite !filter_cons_True; [by rewrite IH|done|].
      apply bool_decide_eq_false_2. intros Hin. apply Hcan in Hin. lia.
    + rewrite !filter_cons_False; [done|lia|]. by rewrite bool_decide_eq_true_2.
Qed.

(** A turn of some goroutine, and what is left for the goroutines to do when all contexts are done. *)
Definition go_step (s s' : mgr_state) : Prop := ∃ i, goroutine_turn i s = Some s'.
Definition work (l : list goroutine) : nat :=
  sum_list_with (λ g, if g_running g then 2 else 1) l.
Arguments sum_list_with {_} _ !_ /.

Lemma work_delete l i g :
  l !! i = Some g → work l = (if g_running g then 2 else 1) + work (delete i l).
Proof.
  revert i. induction l as [|g' l IH]; intros [|i] Hi; simplify_eq/=; [done|].
  unfold work in *. simpl. rewrite (IH i Hi). lia.
Qed.

Lemma work_insert l i g g' :
  l !! i = Some g → g_running g = true → g_running g' = false → work (<[i := g']> l) < work l.
Proof.
  intros Hi Hg Hg'. unfold work. revert i Hi.
  induction l as [|g0 l IH]; intros [|i] Hi; simplify_eq/=.
  - rewrite Hg, Hg'. lia.
  - specialize (IH i Hi). simpl in IH. lia.
Qed.

Lemma go_step_work s s' :
  parent_done s = true → go_step s s' →
  parent_done s' = true ∧ work (goroutines s') < work (goroutines s).
Proof.
  intros Hp [i H]. unfold goroutine_turn in H.
  destruct (goroutines s !! i) as [g|] eqn:Hi; [|done]. cbn in H. injection H as <-.
  destruct (g_running g) eqn:Hg; [split; [done|]; cbn; by eapply work_insert|].
  unfold ctx_done. rewrite Hp. cbn. split; [done|].
  rewrite (work_delete _ _ _ Hi), Hg. apply Nat.lt_succ_diag_r.
Qed.

Lemma go_step_exists s : goroutines s ≠ [] → ∃ s', go_step s s'.
Proof.
  intros H. destruct (goroutines s) as [|g l] eqn:E; [done|].
  eexists _, 0. unfold goroutine_turn. rewrite E. reflexivity.
Qed.

(** ** Properties *)

(** C31: who may run the Gatekeeper manager.  In every state the program can reach, at most one
    goroutine of the loop has an open context: it exists exactly while the manager is meant to run
    and the process goes on, and it has the loop's current context.  Every other goroutine has been
    cancelled: it may still be inside a run that has not returned, but it never starts another one,
    and its next turn ends that run or the goroutine.  Whenever the loop waits for news, the manager
    is meant to run exactly when Gatekeeper was last seen installed; the wait group counts the
    goroutines that have not ended; and the loop returns only when the process ends. *)
Theorem gatekeeper_manager_follows_installation wg0 s :
  mgr_reachable wg0 s →
  length (open_goroutines s) = (if mgrRunning s && negb (parent_done s) then 1 else 0) ∧
  (∀ i g, goroutines s !! i = Some g → ctx_done s (g_ctx g) = false → g_ctx g = mgrCtx s) ∧
  (∀ i g s', goroutines s !! i = Some g → ctx_done s (g_ctx g) = true → goroutine_turn i s = Some s' →
    goroutines s' = if g_running g then <[i := Goroutine (g_ctx g) false]> (goroutines s)
                    else delete i (goroutines s)) ∧
  (pc s = AtSelect → mgrRunning s = gatekeeperInstalled s) ∧
  wg s = (wg0 + Z.of_nat (length (goroutines s)))%Z ∧
  (pc s = LoopReturned → parent_done s = true).
Proof.
  intros H%mgr_reachable_inv. split_and!; try by destruct H.
  - rewrite (open_current wg0) by done. pose proof (inv_current _ _ H) as Hc.
    destruct (parent_done s), (mgrRunning s); simpl; auto.
  - intros i g Hi Hd. pose proof (inv_ctxs _ _ H) as Hall. rewrite Forall_forall in Hall.
    destruct (Hall (g_ctx g)) as [?|[_ Hc]]; [|done|].
    { apply list_elem_of_fmap. exists g. split; [done|]. by eapply list_elem_of_lookup_2. }
    unfold ctx_done in Hd. by rewrite (bool_decide_eq_true_2 _ Hc), orb_true_r in Hd.
  - intros i g s' Hi Hd Ht. unfold goroutine_turn in Ht. rewrite Hi in Ht. cbn in Ht.
    rewrite Hd in Ht. by destruct (g_running g); simplify_eq.
  - rewrite (inv_wg _ _ H). unfold ctxs. by rewrite length_map.
Qed.

(** Two runs may overlap.  When Gatekeeper is uninstalled and installed again before the cancelled
    manager has returned, a second goroutine runs the manager next to the first. *)
Definition overlap_state : mgr_state :=
  MgrState AtSelect true true true 1 {[0]} false [Goroutine 0 true; Goroutine 1 true] 2.

Theorem gatekeeper_managers_may_overlap : mgr_reachable 0 overlap_state.
Proof.
  apply (rtc_l _ _ (loop_turn (Ok 1) None (mgr_init 0))); [by constructor|].
  eapply rtc_l; [apply (step_goroutine _ 0); reflexivity|]. cbn.
  eapply rtc_l; [apply (step_select _ (WatchResult Deleted)); reflexivity|]. cbn.
  eapply rtc_l; [apply (step_loop _ (Ok 0) None); reflexivity|]. cbn.
  eapply rtc_l; [apply (step_select _ (WatchResult Added)); reflexivity|]. cbn.
  eapply rtc_l; [apply (step_loop _ (Ok 1) None); reflexivity|]. cbn.
  eapply rtc_l; [apply (step_goroutine _ 1); reflexivity|]. cbn.
  unfold overlap_state. match goal with |- rtc _ ?x ?y => assert (x = y) as ->; [|constructor] end.
  f_equal; set_solver.
Qed.

(** C32: when the process ends, the goroutines of the Gatekeeper manager end, too.  Once its context
    is done, every order in which they take turns (a turn being over when the manager returns) is
    finite; one can always take another turn while there are any; and when none is left the wait
    group is back where it was. *)
Theorem gatekeeper_manager_drains wg0 s :
  mgr_reachable wg0 s → parent_done s = true →
  (∀ n s', nsteps go_step n s s' → n ≤ work (goroutines s)) ∧
  (∀ s', rtc go_step s s' → (∃ s'', go_step s' s'') ∨ goroutines s' = [] ∧ wg s' = wg0).
Proof.
  intros Hr Hp. split.
  - intros n s' H. clear Hr. induction H as [|n s1 s2 s3 Hstep _ IH]; [lia|].
    destruct (go_step_work _ _ Hp Hstep) as [Hp' Hlt]. specialize (IH Hp'). lia.
  - intros s' H. assert (mgr_reachable wg0 s') as Hr'.
    { unfold mgr_reachable in *. etrans; [exact Hr|]. eapply rtc_subrel; [|exact H]. intros x y [i ?]. by econstructor. }
    destruct (decide (goroutines s' = [])) as [Hnil|Hne]; [right|left; by apply go_step_exists].
    split; [done|]. apply mgr_reachable_inv in Hr'. rewrite (inv_wg _ _ Hr'). unfold ctxs.
    rewrite Hnil. cbn. lia.
Qed.

(** The loop may outlive its context.  When the watcher is found closed before the context is, the
    loop goes back to listing, and as long as that fails, which it does with a context that is done,
    it never looks at the context again. *)
Theorem gatekeeper_manager_may_spin s errs :
  pc s = AtSelect →
  mgr_step s (select_turn WatcherDone s) ∧
  foldl (λ s e, loop_turn (Err e) None s) (select_turn WatcherDone s) errs = select_turn WatcherDone s ∧
  pc (select_turn WatcherDone s) ≠ LoopReturned.
Proof.
  intros Hpc. split; [by constructor|]. split; [|done]. by induction errs.
Qed.

(** ** Concrete runs *)

(** Gatekeeper is installed: one goroutine runs the manager. *)
Definition demo_running : mgr_state :=
  MgrState AtSelect true true true 0 ∅ false [Goroutine 0 true] 4.

Lemma demo_running_reachable : mgr_reachable 3 demo_running.
Proof.
  apply (rtc_l _ _ (loop_turn (Ok 1) None (mgr_init 3))); [by constructor|].
  apply rtc_once, (step_goroutine _ 0). reflexivity.
Qed.

(** With two runs that overlap, one goroutine has an open context: the other is on its way out. *)
Lemma gatekeeper_manager_follows_installation_witness :
  length (goroutines overlap_state) = 2 ∧ length (open_goroutines overlap_state) = 1 ∧
  mgrRunning overlap_state = gatekeeperInstalled overlap_state.
Proof.
  pose proof (gatekeeper_manager_follows_installation 0 overlap_state gatekeeper_managers_may_overlap)
    as (H & _ & _ & Hsel & _). split; [reflexivity|]. split; [exact H|exact (Hsel eq_refl)].
Defined.

Lemma gatekeeper_manager_drains_witness :
  let s := close_parent demo_running in
  (∀ n s', nsteps go_step n s s' → n ≤ 2) ∧
  goroutines s ≠ [] ∧
  ∃ s', nsteps go_step 2 s s' ∧ wg s' = 3%Z.
Proof.
  intros s. assert (mgr_reachable 3 s) as Hr.
  { eapply rtc_r; [exact demo_running_reachable|constructor]. }
  destruct (gatekeeper_manager_drains 3 s Hr eq_refl) as [Hn Hend].
  split; [exact Hn|]. split; [discriminate|]. eexists. split.
  - eapply nsteps_l; [exists 0; reflexivity|]. eapply nsteps_l; [exists 0; reflexivity|]. constructor.
  - reflexivity.
Defined.
