(* ===== verification/HealthProxy.v ===== *)
(** * main.go: the health proxy

    [startHealthProxy]: the handler of its endpoints, and the life of its HTTP server.  The server,
    the goroutine that shuts it down, the other goroutines the process waits for and [main] itself
    run side by side and share a wait group; they are a transition system. *)

From S2P Require Import Prelude K8s.

(** ** The endpoints *)

(** What asking one manager gives: an error, or a status code and a body that may be unreadable. *)
Inductive probe :=
| ProbeFailed (e : error)
| ProbeAnswered (status : Z) (body : option string).

Record http_response := Response { http_status : Z; http_body : string }.
(** [http.Error], which ends the text with a newline. *)
Definition http_Error (text : string) (code : Z) : http_response :=
  Response code (text +:+ String (Ascii.ascii_of_nat 10) "").
Definition StatusOK : Z := 200.
Definition StatusInternalServerError : Z := 500.

(** The handler of an endpoint, with the addresses in the order the map gave them. *)
Fixpoint serve_health (ask : string → probe) (addresses : list string) : http_response :=
  match addresses with
  | [] => Response StatusOK "ok"
  | address :: addresses' =>
      match ask address with
      | ProbeFailed err => http_Error ("manager: " +:+ err_msg err) StatusInternalServerError
      | ProbeAnswered status body =>
          if status !=? StatusOK then http_Error (default "not ok" body) status
          else serve_health ask addresses'
      end
  end.

(** ** The server *)

(** The goroutine of [main] that calls [startHealthProxy]: [ListenAndServe] has not returned, or has
    with [ErrServerClosed] or another error; then the function has called [wg.Done] and returned the
    error; then the goroutine has ended, after the server was closed or failed. *)
Inductive proxy_position := Serving | ServerReturned (closed : bool) | ReturnedError | ProxyEnded (closed : bool).

(** The goroutine that shuts the server down. *)
Inductive stopper_position := WaitsForContext | ShuttingDown | ShutdownReturned | StopperEnded.

(** [main] after the proxy was started: it still calls [wg.Go] some times, for the managers and the
    uninstall watcher; then it is in [wg.Wait]; then it goes on. *)
Inductive main_position := Starting (n : nat) | Waiting | GoesOn.

(** [others] counts the goroutines of [main] in the wait group that have not ended, [gatekeepers]
    those that the loop of [manageGatekeeperSyncManager] has added, and [server_closed] tells whether
    [Shutdown] was called.  Goroutines that are not in the wait group are left out: the lease updater,
    the loop itself, the dynamic watchers and the cache of the hub. *)
Record proxy_state := ProxyState {
  proxy : proxy_position;
  stopper : stopper_position;
  server_closed : bool;
  ctx_over : bool;
  main : main_position;
  others : nat;
  gatekeepers : nat;
  counter : Z }.

(** One goroutine was added for the proxy, and [main] has [n] to start. *)
Definition proxy_init (n : nat) : proxy_state :=
  ProxyState Serving WaitsForContext false false (Starting n) 0 0 1.

(** What the context and the server may do: a signal ends the context; the server returns
    [ErrServerClosed] only after [Shutdown] was called, and another error at any time. *)
Definition serve_returns (closed : bool) (s : proxy_state) : option proxy_state :=
  match proxy s with
  | Serving =>
      if closed && negb (server_closed s) then None
      else Some (ProxyState (ServerReturned closed) (stopper s) (server_closed s) (ctx_over s) (main s)
                   (others s) (gatekeepers s) (counter s))
  | _ => None
  end.

Definition end_context (s : proxy_state) : proxy_state :=
  ProxyState (proxy s) (stopper s) (server_closed s) true (main s) (others s) (gatekeepers s) (counter s).

(** One step of the goroutine that serves: the test of the error with [wg.Done], and what [main]
    does with the error it is returned. *)
Definition proxy_turn (s : proxy_state) : option proxy_state :=
  match proxy s with
  | ServerReturned true =>
      Some (ProxyState (ProxyEnded true) (stopper s) (server_closed s) (ctx_over s) (main s) (others s)
              (gatekeepers s) (counter s))
  | ServerReturned false =>
      Some (ProxyState ReturnedError (stopper s) (server_closed s) (ctx_over s) (main s) (others s)
              (gatekeepers s) (counter s - 1))
  | ReturnedError =>
      Some (ProxyState (ProxyEnded false) (stopper s) (server_closed s) true (main s) (others s)
              (gatekeepers s) (counter s))
  | Serving | ProxyEnded _ => None
  end.

(** One step of the goroutine that shuts the server down. *)
Definition stopper_turn (s : proxy_state) : option proxy_state :=
  match stopper s with
  | WaitsForContext =>
      if ctx_over s then
        Some (ProxyState (proxy s) ShuttingDown true (ctx_over s) (main s) (others s) (gatekeepers s)
                (counter s))
      else None
  | ShuttingDown =>
      Some (ProxyState (proxy s) ShutdownReturned (server_closed s) (ctx_over s) (main s) (others s)
              (gatekeepers s) (counter s))
  | ShutdownReturned =>
      Some (ProxyState (proxy s) StopperEnded (server_closed s) (ctx_over s) (main s) (others s)
              (gatekeepers s) (counter s - 1))
  | StopperEnded => None
  end.

(** [main] starts a goroutine or gets to [wg.Wait], which returns when the counter is zero. *)
Definition main_turn (s : proxy_state) : option proxy_state :=
  match main s with
  | Starting (S n) =>
      Some (ProxyState (proxy s) (stopper s) (server_closed s) (ctx_over s) (Starting n) (S (others s))
              (gatekeepers s) (counter s + 1))
  | Starting O =>
      Some (ProxyState (proxy s) (stopper s) (server_closed s) (ctx_over s) Waiting (others s)
              (gatekeepers s) (counter s))
  | Waiting =>
      if (counter s ==? 0)%Z then
        Some (ProxyState (proxy s) (stopper s) (server_closed s) (ctx_over s) GoesOn (others s)
                (gatekeepers s) (counter s))
      else None
  | GoesOn => None
  end.

(** A goroutine of [main] ends. *)
Definition other_ends (s : proxy_state) : option proxy_state :=
  match others s with
  | O => None
  | S n =>
      Some (ProxyState (proxy s) (stopper s) (server_closed s) (ctx_over s) (main s) n (gatekeepers s)
              (counter s - 1))
  end.

(** The loop for Gatekeeper adds a goroutine, at any time, and one of them ends. *)
Definition gatekeeper_starts (s : proxy_state) : proxy_state :=
  ProxyState (proxy s) (stopper s) (server_closed s) (ctx_over s) (main s) (others s)
    (S (gatekeepers s)) (counter s + 1).
Definition gatekeeper_ends (s : proxy_state) : option proxy_state :=
  match gatekeepers s with
  | O => None
  | S n =>
      Some (ProxyState (proxy s) (stopper s) (server_closed s) (ctx_over s) (main s) (others s) n
              (counter s - 1))
  end.

Inductive proxy_step : proxy_state → proxy_state → Prop :=
| proxy_step_serve closed s s' : serve_returns closed s = Some s' → proxy_step s s'
| proxy_step_signal s : proxy_step s (end_context s)
| proxy_step_proxy s s' : proxy_turn s = Some s' → proxy_step s s'
| proxy_step_stopper s s' : stopper_turn s = Some s' → proxy_step s s'
| proxy_step_main s s' : main_turn s = Some s' → proxy_step s s'
| proxy_step_other s s' : other_ends s = Some s' → proxy_step s s'
| proxy_step_gatekeeper s : proxy_step s (gatekeeper_starts s)
| proxy_step_gatekeeper_end s s' : gatekeeper_ends s = Some s' → proxy_step s s'.

Definition proxy_reachable (n : nat) : proxy_state → Prop := rtc proxy_step (proxy_init n).

(** ** Lemmas *)

(** The goroutine that serves has called [wg.Done] for a server that failed. *)
Definition failed (s : proxy_state) : bool :=
  match proxy s with ReturnedError | ProxyEnded false => true | _ => false end.
Definition stopped (s : proxy_state) : bool :=
  match stopper s with StopperEnded => true | _ => false end.

Record proxy_inv (s : proxy_state) : Prop := {
  inv_counter : counter s = (Z.of_nat (others s + gatekeepers s) + 1 - Z.b2z (failed s) - Z.b2z (stopped s))%Z;
  inv_stopper : stopper s ≠ WaitsForContext → server_closed s = true ∧ ctx_over s = true;
  inv_main : failed s = false → main s = GoesOn → others s = 0 ∧ stopped s = true }.

Lemma proxy_init_inv n : proxy_inv (proxy_init n).
Proof. by split. Qed.

(** Case analysis on where the goroutines are before a turn. *)
Ltac proxy_cases s H :=
  destruct s as [[|[]| |[]] [] closed over [[|m]| |] n g c]; cbn in H; try discriminate H;
  repeat match type of H with
  | context [if ?b then _ else _] => destruct b eqn:?; try discriminate H
  | context [match n with O => _ | S _ => _ end] => destruct n; try discriminate H
  | context [match g with O => _ | S _ => _ end] => destruct g; try discriminate H
  end; injection H as <-.

(** What the cases leave: the counter, and what does not change. *)
Ltac proxy_done Hs Hm :=
  cbn in *; breflect; split; cbn in *; try done; try lia;
  try (intros ?; destruct Hs; done);
  try (intros Hf Hmain; destruct (Hm Hf Hmain); try lia; done).

Lemma proxy_step_inv s s' : proxy_step s s' → proxy_inv s → proxy_inv s'.
Proof.
  intros Hstep [Hc Hs Hm]. unfold failed, stopped in *.
  destruct Hstep as [b s s' H|s|s s' H|s s' H|s s' H|s s' H|s|s s' H].
  - unfold serve_returns in H. proxy_cases s H; proxy_done Hs Hm.
  - split; cbn; [exact Hc| |exact Hm]. intros Hst. split; [apply (Hs Hst)|done].
  - unfold proxy_turn in H. proxy_cases s H; proxy_done Hs Hm.
  - unfold stopper_turn in H. proxy_cases s H; proxy_done Hs Hm.
  - unfold main_turn in H. proxy_cases s H; proxy_done Hs Hm.
    all: intros _ _; lia.
  - unfold other_ends in H. proxy_cases s H; proxy_done Hs Hm.
  - split; cbn; [|exact Hs|exact Hm]. unfold failed, stopped. cbn. lia.
  - unfold gatekeeper_ends in H. proxy_cases s H; proxy_done Hs Hm.
Qed.

Lemma proxy_reachable_inv n s : proxy_reachable n s → proxy_inv s.
Proof.
  unfold proxy_reachable. intros H. remember (proxy_init n) as s0 eqn:E.
  assert (proxy_inv s0) as H0 by (subst; apply proxy_init_inv). clear E.
  induction H as [|s0 s1 s2 Hstep _ IH]; [done|]. eauto using proxy_step_inv.
Qed.

(** [main] starts its goroutines and waits, and they end one by one. *)
Lemma main_starts p st closed over n k g c :
  rtc proxy_step (ProxyState p st closed over (Starting n) k g c)
    (ProxyState p st closed over Waiting (n + k) g (c + Z.of_nat n)).
Proof.
  revert k c. induction n as [|n IH]; intros k c.
  - replace (c + Z.of_nat 0)%Z with c by lia. by apply rtc_once, proxy_step_main.
  - eapply rtc_l; [by eapply proxy_step_main|]. cbn.
    replace (c + Z.of_nat (S n))%Z with (c + 1 + Z.of_nat n)%Z by lia.
    replace (S (n + k)) with (n + S k) by lia. apply IH.
Qed.

Lemma others_end p st closed over m n k g c :
  rtc proxy_step (ProxyState p st closed over m (k + n) g c)
    (ProxyState p st closed over m n g (c - Z.of_nat k)).
Proof.
  revert c. induction k as [|k IH]; intros c.
  - replace (c - Z.of_nat 0)%Z with c by lia. constructor.
  - eapply rtc_l; [by eapply proxy_step_other|]. cbn.
    replace (c - Z.of_nat (S k))%Z with (c - 1 - Z.of_nat k)%Z by lia. apply IH.
Qed.

(** ** Properties *)

(** The health endpoint answers with success exactly when every manager does, whatever the order in
    which they are asked. *)
Theorem health_ok_iff ask addresses :
  serve_health ask addresses = Response StatusOK "ok" ↔
  ∀ a, a ∈ addresses → ∃ body, ask a = ProbeAnswered StatusOK body.
Proof.
  induction addresses as [|a l IH]; cbn.
  - split; [by intros _ a ?%not_elem_of_nil|done].
  - setoid_rewrite elem_of_cons. destruct (ask a) as [e|status body] eqn:Ha.
    + split; [done|]. intros H. destruct (H a) as [? ?]; [by left|congruence].
    + case_bool_decide as Hs; cbn.
      * subst. rewrite IH. split; [intros H b [->|Hb]; eauto|intros H b Hb; auto].
      * split; [unfold http_Error; intros [= ? _]; congruence|]. intros H. destruct (H a) as [? ?]; [by left|congruence].
Qed.

(** C34: while the health server does not fail, [main] waits for the goroutines of the wait group.
    The counter is never negative.  When [wg.Wait] returns, the managers and the uninstall watcher
    have ended, no goroutine for Gatekeeper is left, and the server was shut down in an orderly way
    after the end of the context; and but for the goroutines that the loop for Gatekeeper may still
    add, this stays so. *)
Theorem health_proxy_waits n s :
  proxy_reachable n s → failed s = false →
  (0 ≤ counter s)%Z ∧
  (main s = Waiting → is_Some (main_turn s) → others s = 0 ∧ gatekeepers s = 0 ∧ stopper s = StopperEnded) ∧
  (main s = GoesOn → others s = 0 ∧ counter s = Z.of_nat (gatekeepers s) ∧
     stopper s = StopperEnded ∧ server_closed s = true ∧ ctx_over s = true).
Proof.
  intros H%proxy_reachable_inv Hf. destruct H as [Hc Hs Hm]. rewrite Hf in Hc.
  unfold stopped in *. split_and!.
  - rewrite Hc. destruct (stopper s); cbn; lia.
  - intros Hw [s' Ht]. unfold main_turn in Ht. rewrite Hw in Ht. case_match; [|done]. breflect.
    destruct (stopper s); cbn in Hc; split_and!; done || lia.
  - intros Hg. destruct (Hm Hf Hg) as [Ho Hst]. destruct (stopper s); try done.
    destruct Hs as [? ?]; [done|]. cbn in Hc. split_and!; done || lia.
Qed.

(** The loop for Gatekeeper may add a goroutine that [main] does not wait for: [wg.Add] is called
    with the counter at zero after [wg.Wait] has returned. *)
Theorem gatekeeper_added_after_wait n :
  ∃ s, proxy_reachable n s ∧ main s = GoesOn ∧ counter s = 0%Z ∧
    proxy_step s (gatekeeper_starts s) ∧ gatekeepers (gatekeeper_starts s) = 1.
Proof.
  exists (ProxyState Serving StopperEnded true true GoesOn 0 0 0%Z).
  split_and!; try done; [|apply proxy_step_gatekeeper].
  unfold proxy_reachable, proxy_init. etrans; [apply main_starts|]. etrans; [apply others_end|].
  eapply rtc_l; [apply proxy_step_signal|]. cbn.
  do 3 (eapply rtc_l; [by apply proxy_step_stopper|]; cbn).
  apply rtc_once, proxy_step_main. unfold main_turn. cbn.
  rewrite bool_decide_eq_true_2 by lia. by replace (_ - _ - _)%Z with 0%Z by lia.
Qed.

(** C40: when the health server fails to start, the wait group is told twice.  However many other
    goroutines there are, [main] may go on while one of them still runs, and the end of that one
    makes the counter negative, which is a panic. *)
Theorem health_proxy_failure_unbalanced n :
  ∃ s s', proxy_reachable (S n) s ∧ failed s = true ∧
    main s = GoesOn ∧ others s = 1 ∧ proxy_step s s' ∧ (counter s' < 0)%Z.
Proof.
  set (s m k c := ProxyState (ProxyEnded false) StopperEnded true true m k 0 c).
  exists (s GoesOn 1 0%Z), (s GoesOn 0 (-1)%Z).
  assert (proxy_step (s GoesOn 1 0%Z) (s GoesOn 0 (-1)%Z)) by (by apply proxy_step_other).
  split_and!; try done. unfold proxy_reachable, proxy_init.
  etrans; [apply main_starts|].
  eapply rtc_l; [by apply (proxy_step_serve false)|]. cbn.
  eapply rtc_l; [by apply proxy_step_proxy|]. cbn.
  eapply rtc_l; [by apply proxy_step_proxy|]. cbn.
  do 3 (eapply rtc_l; [by apply proxy_step_stopper|]; cbn).
  replace (S (n + 0)) with (n + 1) by lia. etrans; [apply others_end|].
  apply rtc_once, proxy_step_main. unfold main_turn. cbn.
  rewrite bool_decide_eq_true_2 by lia. unfold s. f_equal. f_equal. lia.
Qed.

(** ** Concrete runs *)

(** A manager is started, a signal comes, the manager ends and the server is shut down: [main] goes
    on. *)
Lemma health_proxy_waits_witness :
  let s := ProxyState Serving StopperEnded true true GoesOn 0 0 0 in
  (0 ≤ counter s)%Z ∧ others s = 0 ∧ counter s = 0%Z.
Proof.
  intros s. assert (proxy_reachable 1 s) as Hr.
  { unfold proxy_reachable, proxy_init. etrans; [apply main_starts|].
    eapply rtc_l; [apply proxy_step_signal|]. cbn.
    eapply rtc_l; [by eapply proxy_step_other|]. cbn.
    do 3 (eapply rtc_l; [by apply proxy_step_stopper|]; cbn).
    apply rtc_once, proxy_step_main. reflexivity. }
  destruct (health_proxy_waits 1 s Hr eq_refl) as (Hc & _ & Hw). split; [exact Hc|].
  destruct (Hw eq_refl) as (Ho & Hz & _). split; [exact Ho|exact Hz].
Defined.
