(* ===== verification/EventCache.v ===== *)
(** * main.go: the events the managers keep and send

    [getManager] tells the cache which events of the cluster namespace to keep, and which of their
    fields ([FieldSelector], [Transform]); status-sync reads its events from that cache.  [main]
    replaces the key by which the event recorder recognises repeated events ([SpamKeyFunc]). *)

From S2P Require Import Prelude GoStrings K8s Utils StatusHistory StatusEvents.

(** ** Field selectors *)

(** One requirement of a selector: a field equals, or does not equal, a value. *)
Inductive requirement :=
| FieldEquals (field value : string)
| FieldNotEquals (field value : string).

(** The selectable fields of an Event that the selectors name. *)
Definition event_field (e : Event) (field : string) : string :=
  if field ==? "involvedObject.kind" then ref_Kind (e_InvolvedObject e)
  else if field ==? "reason" then e_Reason e
  else if field ==? "metadata.name" then e_Name e
  else "".

Definition meets (get : string → string) (r : requirement) : bool :=
  match r with
  | FieldEquals f v => get f ==? v
  | FieldNotEquals f v => get f !=? v
  end.

Definition selects (s : list requirement) (e : Event) : bool := forallb (meets (event_field e)) s.

(** The selector for events that [getManager] parses. *)
Definition event_selector : list requirement :=
  [FieldEquals "involvedObject.kind" "Policy";
   FieldNotEquals "reason" "PolicySpecSync";
   FieldNotEquals "reason" "PolicyTemplateSync";
   FieldNotEquals "reason" "PolicyStatusSync"].

(** [Transform]: the fields that are kept, the others zero. *)
Definition cache_transform (e : Event) : Event := {|
  e_Name := e_Name e;
  e_Namespace := e_Namespace e;
  e_InvolvedObject := e_InvolvedObject e;
  e_Reason := e_Reason e;
  e_Message := e_Message e;
  e_Component := "";
  e_Host := "";
  e_FirstTimestamp := zero_time;
  e_LastTimestamp := e_LastTimestamp e;
  e_Count := 0;
  e_Type := "";
  e_Action := "";
  e_ReportingController := "";
  e_ReportingInstance := "";
  e_Related := None |}.

(** What a list from the cache returns when the API server has [events]. *)
Definition cached_events (events : list Event) : list Event :=
  map cache_transform (List.filter (selects event_selector) events).

(** ** The key of the spam filter *)

Definition SpamKeyFunc (e : Event) : string :=
  let o := e_InvolvedObject e in
  Join [e_Component e; e_Host e; ref_Kind o; ref_Namespace o; ref_Name o; ref_UID o;
        ref_APIVersion o; e_Reason e; e_Message e] "".

(** ** Lemmas *)

(** The bookkeeping events of the controllers are not compliance events. *)
Lemma sync_reason_no_template reason :
  reason ∈ ["PolicySpecSync"; "PolicyTemplateSync"; "PolicyStatusSync"] →
  template_of_reason reason = None.
Proof. rewrite !elem_of_cons, elem_of_nil. by intros [->|[->|[->|[]]]]. Qed.

Lemma cache_transform_add instance m e :
  add_event instance m (cache_transform e) = add_event instance m e.
Proof. reflexivity. Qed.

(** An event of the policy that the cache drops would have been skipped anyway. *)
Lemma dropped_event_add instance m e :
  (ref_UID (e_InvolvedObject e) = p_UID instance → ref_Kind (e_InvolvedObject e) = "Policy") →
  selects event_selector e = false → add_event instance m e = m.
Proof.
  intros Hkind Hsel. unfold add_event. case_match eqn:Hu; [|done]. breflect.
  rewrite sync_reason_no_template; [done|]. unfold selects, event_selector, event_field in Hsel.
  cbn in Hsel. rewrite (Hkind Hu), bool_decide_refl in Hsel. cbn in Hsel.
  rewrite !andb_false_iff, !negb_false_iff, !bool_decide_eq_true in Hsel.
  rewrite !elem_of_cons. naive_solver.
Qed.

(** ** Properties *)

(** C24: status-sync sees through the cache what it would see on the API server.  Of the events of
    a policy (whose UID no other kind of object has), those the selector drops never name a
    template, and the transformation keeps all that is read: the histories by template are the
    same. *)
Theorem event_cache_faithful instance events :
  (∀ e, e ∈ events → ref_UID (e_InvolvedObject e) = p_UID instance →
        ref_Kind (e_InvolvedObject e) = "Policy") →
  foldl (add_event instance) ∅ (cached_events events) = foldl (add_event instance) ∅ events.
Proof.
  intros Hkind. unfold cached_events. generalize (∅ : gmap string (list ComplianceHistory)).
  induction events as [|e l IH]; intros m; [done|]. cbn [List.filter foldl].
  assert (∀ e', e' ∈ l → ref_UID (e_InvolvedObject e') = p_UID instance →
    ref_Kind (e_InvolvedObject e') = "Policy") as Hl by (intros e' ?; apply Hkind; by right).
  destruct (selects event_selector e) eqn:Hs; cbn [map foldl].
  - by rewrite cache_transform_add, IH.
  - rewrite IH by done. f_equal. symmetry. apply dropped_event_add; [|done]. apply Hkind. by left.
Qed.

(** The spam filter tells apart two events that differ in their message only. *)
Theorem spam_key_message e e' :
  SpamKeyFunc e = SpamKeyFunc e' → e_Component e = e_Component e' → e_Host e = e_Host e' →
  e_InvolvedObject e = e_InvolvedObject e' → e_Reason e = e_Reason e' → e_Message e = e_Message e'.
Proof.
  unfold SpamKeyFunc. intros H Hc Hh Ho Hr. rewrite Hc, Hh, Ho, Hr in H. cbn [Join] in H.
  assert (∀ s a b, s +:+ a = s +:+ b → a = b) as Hinj.
  { induction s as [|c s IH]; intros a b Hab; [exact Hab|]. apply IH. by injection Hab. }
  repeat (apply Hinj in H). exact H.
Qed.

(** ** A concrete run *)

Definition demo_event (kind uid reason : string) : Event := {|
  e_Name := "ns.policy.17"; e_Namespace := "managed";
  e_InvolvedObject := ObjRef kind "managed" "ns.policy" uid "v1";
  e_Reason := reason; e_Message := "Compliant; ok"; e_Component := "c"; e_Host := "h";
  e_FirstTimestamp := 5; e_LastTimestamp := 7; e_Count := 1; e_Type := "Normal"; e_Action := "";
  e_ReportingController := ""; e_ReportingInstance := ""; e_Related := None |}.

(** One event is kept and two are dropped; the histories are the same. *)
Lemma event_cache_faithful_witness :
  let p := MkPolicy "v1" "Policy" (new_meta "ns.policy" "managed") (Spec "" [] [] "") (Status "" [] "") in
  let l := [demo_event "Policy" "" "policy: managed/t"; demo_event "Policy" "" "PolicyStatusSync";
            demo_event "Pod" "x" "policy: managed/t"] in
  length (cached_events l) = 1 ∧
  foldl (add_event p) ∅ (cached_events l) = foldl (add_event p) ∅ l.
Proof.
  intros p l. split; [vm_compute; reflexivity|]. apply (event_cache_faithful p l).
  assert (Forall (λ e, ref_UID (e_InvolvedObject e) = p_UID p →
    ref_Kind (e_InvolvedObject e) = "Policy") l) as H.
  { repeat constructor. discriminate. }
  rewrite Forall_forall in H. exact H.
Defined.
