(* ===== verification/Startup.v ===== *)
(** * main.go: the start of the process

    [main], [getManager], [getHubManager], [addControllers], [runGatekeeperSyncManager],
    [getFreeLocalAddr], the [SetupWithManager] of every controller, [StartWatcher] of
    [controllers/uninstall/watcher.go], and the registration of the counters of template-sync.  They are programs over
    calls of their own: building clients, managers, caches and watchers, starting goroutines, and
    the map of health addresses with its lock.  [os.Exit] ends a program with an exit code; a
    constructor named [...OrDie] panics on an error. *)

From S2P Require Import Prelude Prog GoStrings K8s Effects Utils EventCache.
From S2P Require Import SpecSync SecretSync StatusSync TemplateObjects TemplateActions GatekeeperSync.
From S2P Require Import Options.

(** ** Data *)

Inductive which_manager := ManagedMgr | HubMgr | GatekeeperMgr.
Inductive dep_watcher := StatusWatcher | TemplateWatcher | ConstraintsWatcher | DeploymentWatcher.

#[export] Instance which_manager_eq_dec : EqDecision which_manager.
Proof. solve_decision. Defined.
#[export] Instance dep_watcher_eq_dec : EqDecision dep_watcher.
Proof. solve_decision. Defined.

(** What a cache keeps of the objects of one kind: by label, or by namespace and field. *)
Inductive by_object :=
| ByLabel (key value : string)
| ByField (s : list requirement)
| ByNamespace (ns : string) (s : list requirement) (transformed : bool).

Record cache_options := CacheOptions {
  ByObject : list (string * by_object);
  DefaultNamespaces : list string }.

(** The sources a controller gets requests from besides its own kind. *)
Inductive raw_source := SpecSyncSource | StatusSyncSource | WatcherSource (w : dep_watcher).

(** A controller with the fields of its reconciler that its [Reconcile] reads; a channel that is
    not nil is [true]. *)
Inductive reconciler :=
| RSpec (r : SpecSync.PolicyReconciler) (StatusSyncRequests : bool)
| RSecret (r : SecretReconciler)
| RStatus (r : StatusSync.PolicyReconciler)
| RTemplate (r : TemplateObjects.PolicyReconciler)
| RGatekeeper (s : ComplianceEventSender).

(** What is handed to the builder of a controller. *)
Record controller_setup := Setup {
  cs_Manager : which_manager;
  cs_Name : string;
  cs_For : string;
  cs_WatchesEvents : bool;
  cs_EventFilter : bool;
  cs_MaxConcurrentReconciles : Z;
  cs_SkipNameValidation : bool;
  cs_Sources : list raw_source;
  cs_Reconciler : reconciler }.

(** The goroutines that are started. *)
Inductive task :=
| LeaseUpdater (ns hubNs : string)
| GatekeeperLoop
| HealthProxy
| RunManager (m : which_manager)
| UninstallWatcher (ns : string)
| RunHubCache
| RunWatcher (w : dep_watcher).

Section startup.
Context `{F : FloatLib}.

Record RestConfig := MkRestConfig {
  rc_CertFile : string; rc_QPS : float32; rc_Burst : Z; rc_rest : string }.

Record metrics_options := MetricsOptions {
  BindAddress : string; FilterProvider : bool; SecureServing : bool; CertDir : string }.

Record manager_options := ManagerOptions {
  LeaderElection : bool;
  LeaderElectionID : string;
  LeaderElectionConfig : option RestConfig;
  Metrics : metrics_options;
  HealthProbeBindAddress : string;
  DisableFor : list string;
  Cache : cache_options }.

(** ** Calls *)

Inductive start_op :=
| STrigger (args : list string)
| SBuildForCtrl
| SBuildForKlog
| SBuildConfigFromFlags (path : string)
| SGetConfig
| SNamespaceFile
| SResolveTCPAddr
| SListenTCP
| SLock
| SUnlock
| SHealthAdd (address : string)
| SHealthDelete (address : string)
| SNewForConfig (cfg : RestConfig)
| SServerVersion
| SNewManager (m : which_manager) (cfg : RestConfig) (o : manager_options)
| SNewConfigChecker (name : string) (files : list string)
| SAddHealthzCheck (m : which_manager)
| SAddReadyzCheck (m : which_manager)
| SNewHubCache (o : cache_options)
| SNewHubClient
| SStartRecording (c : cluster) (component : string)
| SNewDynamicWatcher (w : dep_watcher)
| SWaitStarted (w : dep_watcher)
| SHostname
| SSetup (c : controller_setup)
| SGo (t : task) (counted : bool)
| SStartManager (m : which_manager)
| SCancelWatcher
| SAwaitStarted (w : dep_watcher)
| SAddOrUpdateWatcher (self : ObjectIdentifier) (watched : list ObjectIdentifier)
| SAwaitDone (w : dep_watcher)
| SRegister (counter : string)
| SWait.

(** What registering a counter may fail with. *)
Inductive register_error := AlreadyRegistered | RegisterFailed (e : error).

(** The answer of [SWait] is [errorExit] at the time all counted goroutines have ended.  The
    answers of [SAwaitStarted] and [SAwaitDone] tell the case of the [select]: nothing when the
    watcher has started or the context is done, and the error that came over the channel of the
    watcher. *)
Definition start_ans (o : start_op) : Type :=
  match o with
  | SBuildConfigFromFlags _ | SGetConfig => result RestConfig
  | SNamespaceFile | SServerVersion | SHostname => result string
  | SListenTCP => result N
  | SLock | SUnlock | SHealthAdd _ | SHealthDelete _ | SWaitStarted _ | SGo _ _ | SCancelWatcher =>
      unit
  | SWait => bool
  | STrigger _ | SBuildForCtrl | SBuildForKlog | SResolveTCPAddr | SNewForConfig _
  | SNewManager _ _ _ | SNewConfigChecker _ _ | SAddHealthzCheck _ | SAddReadyzCheck _
  | SNewHubCache _ | SNewHubClient | SStartRecording _ _ | SNewDynamicWatcher _ | SSetup _
  | SStartManager _ | SAwaitStarted _ | SAddOrUpdateWatcher _ _ | SAwaitDone _ => option error
  | SRegister _ => option register_error
  end.

#[local] Abbreviation sprg := (prog start_ans).
#[local] Abbreviation scall := (@Prog.call start_op start_ans).

(** The result of a program that may have called [os.Exit]. *)
Inductive started (A : Type) := Exited (code : Z) | Went (a : A).
#[local] Arguments Exited {A} code.
#[local] Arguments Went {A} a.

(** [os.Exit(1)] on an error. *)
Definition or_exit {A B} (p : sprg (result A)) (k : A → sprg (started B)) : sprg (started B) :=
  let! x := p in match x with Ok a => k a | Err _ => Ret (Exited 1) end.
Definition check {B} (p : sprg (option error)) (k : sprg (started B)) : sprg (started B) :=
  let! x := p in match x with Some _ => Ret (Exited 1) | None => k end.
(** [NewForConfigOrDie] *)
Definition or_die {B} (cfg : RestConfig) (k : sprg B) : sprg B :=
  let! x := scall (SNewForConfig cfg) in match x with Some _ => Panic | None => k end.
(** A function that may have exited. *)
Definition after {A B} (p : sprg (started A)) (k : A → sprg (started B)) : sprg (started B) :=
  let! x := p in match x with Exited code => Ret (Exited code) | Went a => k a end.

End startup.

Arguments Exited {A} code.
Arguments Went {A} a.

Notation "'let?' x ':=' p 'in' q" := (or_exit p (λ x, q))
  (at level 10, x pattern, p at level 100, q at level 200,
   format "'[v' 'let?'  x  ':='  p  'in' '/' q ']'") : prog_scope.
Notation "'check?' p 'in' q" := (check p q)
  (at level 10, p at level 100, q at level 200,
   format "'[v' 'check?'  p  'in' '/' q ']'") : prog_scope.
Notation "'then!' x ':=' p 'in' q" := (after p (λ x, q))
  (at level 10, x pattern, p at level 100, q at level 200,
   format "'[v' 'then!'  x  ':='  p  'in' '/' q ']'") : prog_scope.

(** ** SetupWithManager *)

Definition SpecSync_ControllerName : string := "policy-spec-sync".
Definition SecretSync_ControllerName : string := "secret-sync".
Definition StatusSync_ControllerName : string := "policy-status-sync".
Definition TemplateSync_ControllerName : string := TemplateActions.ControllerName.
Definition GatekeeperSync_ControllerName : string := "gatekeeper-constraint-status-sync".

(** The sources that are not nil. *)
Definition sources (l : list (option raw_source)) : list raw_source := omap id l.

Section programs.
Context `{F : FloatLib}.

#[local] Abbreviation sprg := (prog start_ans).
#[local] Abbreviation scall := (@Prog.call start_op start_ans).

Definition SpecSync_SetupWithManager (mgr : which_manager) (concurrency : Z)
    (r : SpecSync.PolicyReconciler) (channel : bool) (additionalSource : option raw_source)
    : sprg (option error) :=
  scall (SSetup (Setup mgr SpecSync_ControllerName "Policy" false false concurrency false
    (sources [additionalSource]) (RSpec r channel))).

Definition SecretSync_SetupWithManager (mgr : which_manager) (concurrency : Z)
    (r : SecretReconciler) : sprg (option error) :=
  scall (SSetup (Setup mgr SecretSync_ControllerName "Secret" false false concurrency false []
    (RSecret r))).

Definition StatusSync_SetupWithManager (mgr : which_manager) (concurrency : Z)
    (r : StatusSync.PolicyReconciler) (additionalSources : list (option raw_source))
    : sprg (option error) :=
  scall (SSetup (Setup mgr StatusSync_ControllerName "Policy" true false concurrency false
    (sources additionalSources) (RStatus r))).

Definition TemplateSync_Setup (mgr : which_manager) (concurrency : Z)
    (r : TemplateObjects.PolicyReconciler) (depEvents : raw_source) : sprg (option error) :=
  scall (SSetup (Setup mgr TemplateSync_ControllerName "Policy" false true concurrency false
    [depEvents] (RTemplate r))).

Definition GatekeeperSync_SetupWithManager (mgr : which_manager) (concurrency : Z)
    (s : ComplianceEventSender) (constraintEvents : raw_source) : sprg (option error) :=
  scall (SSetup (Setup mgr GatekeeperSync_ControllerName "Policy" false true concurrency true
    [constraintEvents] (RGatekeeper s))).

(** ** main.go: helpers *)

(** [getFreeLocalAddr] *)
Definition getFreeLocalAddr : sprg (result string) :=
  let! err := scall SResolveTCPAddr in
  match err with
  | Some err => Ret (Err err)
  | None =>
      let! l := scall SListenTCP in
      match l with
      | Err err => Ret (Err err)
      | Ok port => Ret (Ok ("127.0.0.1:" +:+ pretty port))
      end
  end.

(** [hostname, _ := os.Hostname()] *)
Definition hostname_or_empty : sprg string :=
  let! x := scall SHostname in
  match x with Ok name => Ret name | Err _ => Ret "" end.

Section process.
(** The environment of the process, which flags were set, and the comparison of versions. *)
Variables (lookupEnv : string → option string) (changed : string → bool).
Variable semver_Compare : string → string → Z.

(** [GetOperatorNamespace], which does not read the file in local mode. *)
Definition operator_namespace : sprg (string + namespace_error) :=
  if isRunModeLocal lookupEnv then Ret (inr ErrRunLocal)
  else
    let! file := scall SNamespaceFile in
    Ret (GetOperatorNamespace lookupEnv file).

Definition configFiles (o : SyncerOptions) (hubCfg : RestConfig) : list string :=
  HubConfigFilePathName o :: (if rc_CertFile hubCfg !=? "" then [rc_CertFile hubCfg] else []).

Definition secret_field : list requirement := [FieldEquals "metadata.name" SecretName].

(** The end of [getManager] and [getHubManager]. *)
Definition finish_manager (m : which_manager) (checker : string) (o : SyncerOptions)
    (hubCfg : RestConfig) : sprg (started unit) :=
  check? scall (SNewConfigChecker checker (configFiles o hubCfg)) in
  check? scall (SAddHealthzCheck m) in
  check? scall (SAddReadyzCheck m) in
  Ret (Went tt).

Definition manager_cache (o : SyncerOptions) : cache_options :=
  CacheOptions
    [("CustomResourceDefinition", ByLabel PolicyTypeLabel "template");
     ("Event", ByNamespace (ClusterNamespace o) event_selector true);
     ("Secret", ByNamespace (ClusterNamespace o) secret_field false)]
    [ClusterNamespace o].

Definition manager_options_of (base : manager_options) (healthAddr : string) (o : SyncerOptions)
    : manager_options :=
  ManagerOptions (LeaderElection base) "governance-policy-framework-addon.open-cluster-management.io"
    (LeaderElectionConfig base) (Metrics base) healthAddr
    ["ConstraintTemplate.v1"; "ConstraintTemplate.v1beta1"] (manager_cache o).

Definition getManager (base : manager_options) (healthAddr : string) (hubCfg managedCfg : RestConfig)
    (o : SyncerOptions) : sprg (started unit) :=
  check? scall (SNewManager ManagedMgr managedCfg (manager_options_of base healthAddr o)) in
  finish_manager ManagedMgr "governance-policy-framework-addon" o hubCfg.

Definition hub_cache (o : SyncerOptions) : cache_options :=
  CacheOptions [("Secret", ByNamespace (ClusterNamespaceOnHub o) secret_field false)]
    [ClusterNamespaceOnHub o].

(** [options.Metrics.BindAddress = "0"] *)
Definition no_metrics (m : metrics_options) : metrics_options :=
  MetricsOptions "0" (FilterProvider m) (SecureServing m) (CertDir m).

Definition hub_manager_options_of (base : manager_options) (healthAddr : string)
    (managedCfg : RestConfig) (o : SyncerOptions) : manager_options :=
  ManagerOptions (LeaderElection base) "governance-policy-framework-addon2.open-cluster-management.io"
    (Some managedCfg) (no_metrics (Metrics base)) healthAddr (DisableFor base) (hub_cache o).

Definition getHubManager (base : manager_options) (healthAddr : string)
    (hubCfg managedCfg : RestConfig) (o : SyncerOptions) : sprg (started unit) :=
  check? scall (SNewManager HubMgr hubCfg (hub_manager_options_of base healthAddr managedCfg o)) in
  finish_manager HubMgr "governance-policy-framework-addon2" o hubCfg.

(** ** addControllers *)

(** A dynamic watcher is started, and the program waits until it has. *)
Definition start_watcher (w : dep_watcher) : sprg unit :=
  do! scall (SGo (RunWatcher w) false) in
  scall (SWaitStarted w).

(** The client for the hub; [hubMgr] tells whether there is a manager for it. *)
Definition hub_client (hubMgr : bool) (o : SyncerOptions) : sprg (started unit) :=
  if hubMgr then Ret (Went tt)
  else
    check? scall (SNewHubCache (hub_cache o)) in
    do! scall (SGo RunHubCache false) in
    check? scall SNewHubClient in
    Ret (Went tt).

Definition if_set (b : bool) (s : raw_source) : option raw_source := if b then Some s else None.

(** The part of [addControllers] after "When running on the hub, no more controllers are needed". *)
Definition add_hub_controllers (hubMgr : bool) (managedCfg : RestConfig) (o : SyncerOptions)
    : sprg (started unit) :=
  or_die managedCfg (
  check? scall (SStartRecording Managed SpecSync_ControllerName) in
  check? SpecSync_SetupWithManager HubMgr (EvaluationConcurrency o)
           (SpecSync.MkReconciler (ClusterNamespace o)) hubMgr (if_set hubMgr SpecSyncSource) in
  check? SecretSync_SetupWithManager HubMgr (EvaluationConcurrency o)
           (SecretSync.MkReconciler (ClusterNamespace o)) in
  Ret (Went tt)).

Definition addControllers (hubCfg managedCfg : RestConfig) (hubMgr : bool) (o : SyncerOptions)
    : sprg (started unit) :=
  then! _ := hub_client hubMgr o in
  or_die hubCfg (
  check? scall (SStartRecording Hub StatusSync_ControllerName) in
  check? scall (SNewDynamicWatcher StatusWatcher) in
  do! start_watcher StatusWatcher in
  check? StatusSync_SetupWithManager ManagedMgr (EvaluationConcurrency o)
           (StatusSync.MkReconciler (ClusterNamespaceOnHub o) (OnMulticlusterhub o) hubMgr)
           [if_set hubMgr StatusSyncSource; Some (WatcherSource StatusWatcher)] in
  check? scall (SNewDynamicWatcher TemplateWatcher) in
  let! instanceName := hostname_or_empty in
  or_die managedCfg (
  do! start_watcher TemplateWatcher in
  check? TemplateSync_Setup ManagedMgr (EvaluationConcurrency o)
           (TemplateObjects.MkReconciler (ClusterNamespace o) instanceName (DisableGkSync o))
           (WatcherSource TemplateWatcher) in
  if OnMulticlusterhub o then Ret (Went tt)
  else add_hub_controllers hubMgr managedCfg o)).

(** ** main *)

Definition set_rates (o : SyncerOptions) (cfg : RestConfig) : RestConfig :=
  MkRestConfig (rc_CertFile cfg) (ClientQPS o) (ClientBurst o) (rc_rest cfg).

Definition base_options (o : SyncerOptions) : manager_options :=
  ManagerOptions (EnableLeaderElection o) "" None
    (if SecureMetrics o then MetricsOptions (MetricsAddr o) true true "/var/run/metrics-cert"
     else MetricsOptions (MetricsAddr o) false false "") "" [] (CacheOptions [] []).

(** The lease that reports the status of the addon. *)
Definition start_lease (managedCfg : RestConfig) (o : SyncerOptions) : sprg (started unit) :=
  if EnableLease o then
    let! ns := operator_namespace in
    match ns with
    | inr ErrNoNamespace | inr ErrRunLocal => Ret (Went tt)
    | inr (ErrRead _) => Ret (Exited 1)
    | inl operatorNs =>
        or_die managedCfg (
        do! scall (SGo (LeaseUpdater operatorNs (ClusterNamespaceOnHub o)) false) in
        Ret (Went tt))
    end
  else Ret (Went tt).

(** The managers; the result tells whether there is one for the hub.  The lock of the health
    addresses is held in between. *)
Definition start_managers (hubCfg managedCfg : RestConfig) (o : SyncerOptions)
    : sprg (started bool) :=
  let? mgrHealthAddr := getFreeLocalAddr in
  do! scall SLock in
  do! scall (SHealthAdd mgrHealthAddr) in
  then! _ := getManager (base_options o) mgrHealthAddr hubCfg managedCfg o in
  then! hubMgr :=
    if negb (OnMulticlusterhub o) then
      let? hubMgrHealthAddr := getFreeLocalAddr in
      do! scall (SHealthAdd hubMgrHealthAddr) in
      then! _ := getHubManager (base_options o) hubMgrHealthAddr hubCfg managedCfg o in
      Ret (Went true)
    else Ret (Went false) in
  do! scall SUnlock in
  Ret (Went hubMgr).

Definition start_gatekeeper (managedCfg : RestConfig) (o : SyncerOptions) : sprg (started unit) :=
  if negb (DisableGkSync o) then
    or_die managedCfg (
    let? gitVersion := scall SServerVersion in
    if (0 <=? semver_Compare gitVersion "v1.16.0")%Z then
      or_die managedCfg (
      do! scall (SGo GatekeeperLoop false) in
      Ret (Went tt))
    else Ret (Went tt))
  else Ret (Went tt).

(** The goroutines of the process, and the wait for them. *)
Definition run_managers (o : SyncerOptions) : sprg (started unit) :=
  do! scall (SGo HealthProxy true) in
  do! scall (SGo (RunManager ManagedMgr) true) in
  let! ns := operator_namespace in
  let start operatorNs :=
    do! scall (SGo (UninstallWatcher operatorNs) true) in
    do! (if negb (OnMulticlusterhub o) then scall (SGo (RunManager HubMgr) true) else Ret tt) in
    let! errorExit := scall SWait in
    if errorExit : bool then Ret (Exited 1) else Ret (Went tt) in
  match ns with
  | inl operatorNs => start operatorNs
  | inr ErrRunLocal => start "open-cluster-management-agent-addon"
  | inr _ => Ret (Exited 1)
  end.

Definition start_controllers (o : SyncerOptions) : sprg (started unit) :=
  let? hubCfg := scall (SBuildConfigFromFlags (HubConfigFilePathName o)) in
  let? managedCfg :=
    if ManagedConfigFilePathName o ==? "" then scall SGetConfig
    else scall (SBuildConfigFromFlags (ManagedConfigFilePathName o)) in
  let managedCfg := set_rates o managedCfg in
  then! _ := start_lease managedCfg o in
  then! hubMgr := start_managers hubCfg managedCfg o in
  then! _ := start_gatekeeper managedCfg o in
  then! _ := addControllers hubCfg managedCfg hubMgr o in
  run_managers o.

(** [args] is [os.Args]; [parsed] are the flags as [pflag.Parse] left them. *)
Definition main (args : list string) (disableSpecSync : bool) (parsed : SyncerOptions)
    : sprg (started unit) :=
  if (Nat.leb 2 (length args) && (nth 1 args "" ==? "trigger-uninstall"))%bool then
    check? scall (STrigger (drop 2 args)) in
    Ret (Went tt)
  else
    let '(o, flagErr) := ProcessAndParse lookupEnv changed disableSpecSync parsed in
    let! err := scall SBuildForCtrl in
    match err with
    | Some _ => Panic
    | None =>
        do! scall SBuildForKlog in
        match flagErr with
        | Some _ => Ret (Exited 1)
        | None => start_controllers o
        end
    end.

End process.

(** ** runGatekeeperSyncManager *)

Definition gatekeeper_cache (o : SyncerOptions) : cache_options :=
  CacheOptions
    [("ValidatingWebhookConfiguration", ByField [FieldEquals "metadata.name" GatekeeperWebhookName])]
    [ClusterNamespace o].

Definition gatekeeper_manager_options_of (base : manager_options) (healthAddr : string)
    (o : SyncerOptions) : manager_options :=
  ManagerOptions (LeaderElection base) "governance-policy-framework-addon3.open-cluster-management.io"
    (LeaderElectionConfig base) (no_metrics (Metrics base)) healthAddr (DisableFor base)
    (gatekeeper_cache o).

(** [None] when the error is nil. *)
Definition try {A} (p : sprg (option error)) (k : sprg (option A)) (wrong : error → sprg (option A))
    : sprg (option A) :=
  let! x := p in match x with Some err => wrong err | None => k end.

(** The manager is started with its health address registered; [Start] blocks until it stops. *)
Definition start_with_health (healthAddress : string) : sprg (option error) :=
  do! scall SLock in
  do! scall (SHealthAdd healthAddress) in
  do! scall SUnlock in
  let! err := scall (SStartManager GatekeeperMgr) in
  do! scall SLock in
  do! scall (SHealthDelete healthAddress) in
  do! scall SUnlock in
  match err with
  | Some err =>
      do! scall SCancelWatcher in
      Ret (Some err)
  | None => Ret None
  end.

Definition runGatekeeperSyncManager (base : manager_options) (managedCfg : RestConfig)
    (o : SyncerOptions) : sprg (option error) :=
  let fail err := Ret (Some err) in
  let! addr := getFreeLocalAddr in
  match addr with
  | Err err => Ret (Some err)
  | Ok healthAddress =>
      try (scall (SNewManager GatekeeperMgr managedCfg
                    (gatekeeper_manager_options_of base healthAddress o)))
        (try (scall (SAddHealthzCheck GatekeeperMgr))
          (try (scall (SAddReadyzCheck GatekeeperMgr))
            (or_die managedCfg (
             let! instanceName := hostname_or_empty in
             try (scall (SNewDynamicWatcher ConstraintsWatcher))
               (defer
                 (do! start_watcher ConstraintsWatcher in
                  try (GatekeeperSync_SetupWithManager GatekeeperMgr (EvaluationConcurrency o)
                         (Sender (ClusterNamespace o) instanceName GatekeeperSync_ControllerName)
                         (WatcherSource ConstraintsWatcher))
                    (start_with_health healthAddress)
                    (λ err, do! scall SCancelWatcher in Ret (Some err)))
                 (scall SCancelWatcher))
               fail)) fail) fail) fail
  end.

(** ** controllers/uninstall/watcher.go *)

(** [StartWatcher]; [cfg] is the configuration of the manager. *)
Definition StartWatcher (cfg : RestConfig) (namespace : string) (o : SyncerOptions)
    : sprg (option error) :=
  let fail err := Ret (Some err) in
  let self := ObjID "apps" "v1" "Deployment" namespace (DeploymentName o) in
  try (scall (SNewForConfig cfg))
    (try (scall (SNewDynamicWatcher DeploymentWatcher))
      (do! scall (SGo (RunWatcher DeploymentWatcher) false) in
       try (scall (SAwaitStarted DeploymentWatcher))
         (try (scall (SAddOrUpdateWatcher self [self]))
           (try (scall (SAwaitDone DeploymentWatcher)) (Ret None : sprg (option error)) fail)
           fail) fail) fail) fail.

(** ** controllers/templatesync/template_metric.go *)

Definition policySystemErrorsCounter : string := "policy_system_errors_total".
Definition policyUserErrorsCounter : string := "policy_user_errors_total".

Definition register_counter (name : string) : sprg unit :=
  let! regErr := scall (SRegister name) in
  match regErr with
  | Some (RegisterFailed _) => Panic
  | Some AlreadyRegistered | None => Ret tt
  end.

(** [init] *)
Definition metric_init : sprg unit :=
  do! register_counter policySystemErrorsCounter in
  register_counter policyUserErrorsCounter.

End programs.
