(* ===== verification/StartupPlan.v ===== *)
(** * The start of the process: what it is held to

    The plan a start follows, step by step, whatever its calls answer; the lock and the addresses of
    the health proxy; the run of the Gatekeeper manager, the uninstall watcher and the counters. *)

From S2P Require Import Prelude Prog GoStrings K8s Effects Utils EventCache.
From S2P Require Import SpecSync SecretSync StatusSync TemplateObjects TemplateActions GatekeeperSync.
From S2P Require Import Options Startup.

(** ** What a start is held to *)

(** The map of health addresses with its lock, and the addresses at each time a manager is started
    by a call.  A second [Lock], an [Unlock] without the lock, and a write without it are faults. *)
Record health_state := HealthState {
  lock_held : bool;
  healthAddresses : gset string;
  while_running : list (gset string) }.

Section specification.
Context `{F : FloatLib}.

Definition health_step (s : health_state) (o : start_op) : option health_state :=
  let '(HealthState held addresses running) := s in
  match o with
  | SLock => if held then None else Some (HealthState true addresses running)
  | SUnlock => if held then Some (HealthState false addresses running) else None
  | SHealthAdd a => if held then Some (HealthState true ({[a]} ∪ addresses) running) else None
  | SHealthDelete a => if held then Some (HealthState true (addresses ∖ {[a]}) running) else None
  | SStartManager _ => Some (HealthState held addresses (running ++ [addresses]))
  | _ => Some s
  end.

Definition health_after (s : health_state) (l : list start_op) : option health_state :=
  foldl (λ s o, s ← s; health_step s o) (Some s) l.

(** The steps that decide what runs, the wait for the goroutines last. *)
Inductive milestone :=
| MManager (m : which_manager) (cfg : RestConfig) (o : manager_options)
| MController (c : controller_setup)
| MGoroutine (t : task)
| MWait.

Definition milestone_of (o : start_op) : list milestone :=
  match o with
  | SNewManager m cfg o => [MManager m cfg o]
  | SSetup c => [MController c]
  | SGo t true => [MGoroutine t]
  | SWait => [MWait]
  | _ => []
  end.

Definition milestones (l : list start_op) : list milestone := l ≫= milestone_of.

(** What the start is told by its environment. *)
Record start_data := StartData {
  d_hubCfg : RestConfig;
  d_managedCfg : RestConfig;
  d_addr : string;
  d_hubAddr : string;
  d_instance : string;
  d_namespace : string }.

Definition unless (b : bool) {A} (l : list A) : list A := if b then [] else l.

(** The metrics are served by the first manager only, with certificates when they are secure. *)
Definition plan_metrics (o : SyncerOptions) (address : string) : metrics_options :=
  if SecureMetrics o then MetricsOptions address true true "/var/run/metrics-cert"
  else MetricsOptions address false false "".

(** The managers.  The first caches, of the cluster namespace only, the policies, the compliance
    events and the one Secret, besides the CRDs of templates; it reads ConstraintTemplates without a
    cache.  The one for the hub caches the cluster's namespace there, and elects its leader on the
    managed cluster. *)
Definition plan_managers (o : SyncerOptions) (d : start_data) : list milestone :=
  let secret := [FieldEquals "metadata.name" "policy-encryption-key"] in
  MManager ManagedMgr (d_managedCfg d)
    (ManagerOptions (EnableLeaderElection o) "governance-policy-framework-addon.open-cluster-management.io"
       None (plan_metrics o (MetricsAddr o)) (d_addr d)
       ["ConstraintTemplate.v1"; "ConstraintTemplate.v1beta1"]
       (CacheOptions
          [("CustomResourceDefinition", ByLabel "policy.open-cluster-management.io/policy-type" "template");
           ("Event", ByNamespace (ClusterNamespace o) event_selector true);
           ("Secret", ByNamespace (ClusterNamespace o) secret false)]
          [ClusterNamespace o])) ::
  unless (OnMulticlusterhub o)
    [MManager HubMgr (d_hubCfg d)
       (ManagerOptions (EnableLeaderElection o)
          "governance-policy-framework-addon2.open-cluster-management.io" (Some (d_managedCfg d))
          (plan_metrics o "0") (d_hubAddr d) []
          (CacheOptions [("Secret", ByNamespace (ClusterNamespaceOnHub o) secret false)]
             [ClusterNamespaceOnHub o]))].

(** They are the options the managers are created with. *)
Lemma plan_managers_options o d :
  plan_managers o d =
  MManager ManagedMgr (d_managedCfg d) (manager_options_of (base_options o) (d_addr d) o) ::
  unless (OnMulticlusterhub o)
    [MManager HubMgr (d_hubCfg d)
       (hub_manager_options_of (base_options o) (d_hubAddr d) (d_managedCfg d) o)].
Proof.
  unfold plan_managers, manager_options_of, hub_manager_options_of, base_options, plan_metrics, no_metrics.
  by destruct (SecureMetrics o).
Qed.

(** The controllers; spec-sync and status-sync ask each other only when both run. *)
Definition plan_controllers (o : SyncerOptions) (d : start_data) : list milestone :=
  let onHub := OnMulticlusterhub o in
  let n := EvaluationConcurrency o in
  [MController (Setup ManagedMgr "policy-status-sync" "Policy" true false n false
     (unless onHub [StatusSyncSource] ++ [WatcherSource StatusWatcher])
     (RStatus (StatusSync.MkReconciler (ClusterNamespaceOnHub o) onHub (negb onHub))));
   MController (Setup ManagedMgr "policy-template-sync" "Policy" false true n false
     [WatcherSource TemplateWatcher]
     (RTemplate (TemplateObjects.MkReconciler (ClusterNamespace o) (d_instance d) (DisableGkSync o))))] ++
  unless onHub
    [MController (Setup HubMgr "policy-spec-sync" "Policy" false false n false [SpecSyncSource]
       (RSpec (SpecSync.MkReconciler (ClusterNamespace o)) true));
     MController (Setup HubMgr "secret-sync" "Secret" false false n false []
       (RSecret (SecretSync.MkReconciler (ClusterNamespace o))))].

Definition plan_goroutines (o : SyncerOptions) (d : start_data) : list milestone :=
  map MGoroutine ([HealthProxy; RunManager ManagedMgr; UninstallWatcher (d_namespace d)] ++
                  unless (OnMulticlusterhub o) [RunManager HubMgr]).

Definition start_plan (o : SyncerOptions) (d : start_data) : list milestone :=
  plan_managers o d ++ plan_controllers o d ++ plan_goroutines o d ++ [MWait].

Definition plan_addresses (o : SyncerOptions) (d : start_data) : gset string :=
  list_to_set (unless (OnMulticlusterhub o) [d_hubAddr d] ++ [d_addr d]).

(** The rates of the client for the managed cluster are those of the options. *)
Definition rates_set (o : SyncerOptions) (d : start_data) : Prop :=
  rc_QPS (d_managedCfg d) = ClientQPS o ∧ rc_Burst (d_managedCfg d) = ClientBurst o.

End specification.

(** ** Following the start step by step *)

Section leads.
Context `{F : FloatLib}.
#[local] Abbreviation sprg := (prog start_ans).
#[local] Abbreviation scall := (@Prog.call start_op start_ans).

(** The milestones so far and the health addresses, which a fault loses. *)
Definition progress : Type := list milestone * option health_state.
Definition advance (s : progress) (o : start_op) : progress :=
  (s.1 ++ milestone_of o, h ← s.2; health_step h o).
Definition advances (s : progress) (l : list start_op) : progress := foldl advance s l.

Lemma advances_spec s l : advances s l = (s.1 ++ milestones l, foldl (λ h o, h ← h; health_step h o) s.2 l).
Proof.
  revert s. induction l as [|o l IH]; intros [ms h]; cbn; [by rewrite app_nil_r|].
  unfold advances in IH. rewrite IH. cbn. by rewrite <-app_assoc.
Qed.

(** The states a run may stop in by a panic. *)
Variable Fine : progress → Prop.

Definition leads {A} (s : progress) (p : sprg A) (K : A → progress → Prop) : Prop :=
  wp p (λ t r, match r with
               | Returned a => K a (advances s (ops t))
               | Panicked => Fine (advances s (ops t))
               end).

Lemma leads_ret {A} s (a : A) (K : A → progress → Prop) : K a s → leads s (Ret a) K.
Proof. done. Qed.

Lemma leads_panic {A} s (K : A → progress → Prop) : Fine s → leads s Panic K.
Proof. done. Qed.

Lemma leads_mono {A} s (p : sprg A) (K K' : A → progress → Prop) :
  leads s p K → (∀ a s', K a s' → K' a s') → leads s p K'.
Proof. intros Hp HK. eapply wp_mono; [exact Hp|]. intros t [a|]; cbn; auto. Qed.

Lemma leads_bind {A B} s (p : sprg A) (k : A → sprg B) K :
  leads s p (λ a s', leads s' (k a) K) → leads s (bind p k) K.
Proof.
  intros Hp. apply wp_bind. eapply wp_mono; [exact Hp|]. intros t [a|]; [|done]. intros Hk.
  eapply wp_mono; [exact Hk|]. intros t' r. unfold advances. by rewrite ops_app, foldl_app.
Qed.

(** A call the progress does not depend on, and one it does. *)
Lemma leads_silent s o (K : start_ans o → progress → Prop) :
  (∀ h, health_step h o = Some h) → milestone_of o = [] → (∀ x, K x s) → leads s (scall o) K.
Proof.
  intros Hh Hm HK x. destruct s as [ms h]. unfold advances, advance. cbn. rewrite Hm, app_nil_r.
  assert ((h0 ← h; health_step h0 o) = h) as -> by (destruct h; cbn; auto). apply HK.
Qed.

Lemma leads_call s o (K : start_ans o → progress → Prop) :
  (∀ x, K x (advance s o)) → leads s (scall o) K.
Proof. done. Qed.

Lemma leads_or_die {A} s cfg (k : sprg A) K :
  Fine s → leads s k K → leads s (or_die cfg k) K.
Proof.
  intros Hf Hk. apply leads_bind, leads_silent; [by intros []|done|]. intros [err|]; [exact Hf|exact Hk].
Qed.

(** A program that may exit: the exits are fine. *)
Definition continues {A} (K : A → progress → Prop) (x : started A) (s : progress) : Prop :=
  match x with Exited _ => Fine s | Went a => K a s end.

Lemma leads_check {A} s (p : sprg (option error)) (k : sprg (started A)) K :
  leads s p (λ err s', Fine s' ∧ leads s' k (continues K)) → leads s (check p k) (continues K).
Proof.
  intros Hp. apply leads_bind. eapply leads_mono; [exact Hp|].
  intros [err|] s' [Hf Hk]; [exact Hf|exact Hk].
Qed.

Lemma leads_or_exit {A B} s (p : sprg (result A)) (k : A → sprg (started B)) K :
  leads s p (λ x s', match x with Ok a => leads s' (k a) (continues K) | Err _ => Fine s' end) →
  leads s (or_exit p k) (continues K).
Proof. intros Hp. apply leads_bind. eapply leads_mono; [exact Hp|]. by intros [a|err]. Qed.

Lemma leads_after {A B} s (p : sprg (started A)) (k : A → sprg (started B)) K :
  leads s p (continues (λ a s', leads s' (k a) (continues K))) →
  leads s (after p k) (continues K).
Proof. intros Hp. apply leads_bind. eapply leads_mono; [exact Hp|]. by intros [code|a]. Qed.

Lemma leads_getFreeLocalAddr s K :
  (∀ x, K x s) → leads s getFreeLocalAddr K.
Proof.
  intros HK. apply leads_bind, leads_silent; [by intros []|done|]. intros [err|]; [apply HK|].
  apply leads_bind, leads_silent; [by intros []|done|]. intros [port|err]; apply HK.
Qed.

Lemma leads_hostname s K : (∀ x, K x s) → leads s hostname_or_empty K.
Proof.
  intros HK. apply leads_bind, leads_silent; [by intros []|done|]. intros [name|err]; apply HK.
Qed.

Lemma leads_operator_namespace lookupEnv s K :
  (∀ x, K x s) → leads s (operator_namespace lookupEnv) K.
Proof.
  intros HK. unfold operator_namespace. case_match; [apply HK|].
  apply leads_bind, leads_silent; [by intros []|done|]. intros file. apply HK.
Qed.

Lemma leads_start_watcher s w K : (∀ x, K x s) → leads s (start_watcher w) K.
Proof.
  intros HK. apply leads_bind, leads_silent; [by intros []|done|]. intros _.
  apply leads_silent; [by intros []|done|]. exact HK.
Qed.

Lemma leads_finish_manager s m checker o cfg (K : unit → progress → Prop) :
  Fine s → K tt s → leads s (finish_manager m checker o cfg) (continues K).
Proof.
  intros Hf HK. unfold finish_manager.
  repeat (apply leads_check, leads_silent; [by intros []|done|]; intros _; split; [exact Hf|]).
  exact HK.
Qed.

End leads.

(** Pass a call the progress does not depend on. *)
Ltac lead_silent :=
  match goal with |- leads _ _ (Prog.call ?o) _ => apply (leads_silent _ _ o) end;
  [by intros []|done|].

(** ** The phases of the start *)

Section phases.
Context `{F : FloatLib}.
#[local] Abbreviation sprg := (prog start_ans).
#[local] Abbreviation scall := (@Prog.call start_op start_ans).
Variables (lookupEnv : string → option string) (changed : string → bool).
Variable semver_Compare : string → string → Z.
Variable o : SyncerOptions.

Definition on_plan (s : progress) : Prop :=
  (∃ d, rates_set o d ∧ s.1 `prefix_of` start_plan o d) ∧ is_Some s.2.

#[local] Abbreviation leads := (leads on_plan).
#[local] Abbreviation continues := (continues on_plan).

Definition managers_up (d : start_data) : progress :=
  (plan_managers o d, Some (HealthState false (plan_addresses o d) [])).
Definition controllers_up (d : start_data) : progress :=
  (plan_managers o d ++ plan_controllers o d, Some (HealthState false (plan_addresses o d) [])).

(** Show that the milestones so far are a prefix of the plan for [d]. *)
Ltac on_plan d :=
  split; [exists d; split; [done|];
          unfold managers_up, controllers_up, start_plan, plan_controllers, plan_goroutines;
          rewrite ?plan_managers_options; unfold unless;
          match goal with
          | E : OnMulticlusterhub o = _ |- _ => rewrite E
          | _ => destruct (OnMulticlusterhub o)
          end; eexists; reflexivity
         |done].

Lemma leads_lease managedCfg s (K : unit → progress → Prop) :
  on_plan s → K tt s → leads s (start_lease lookupEnv managedCfg o) (continues K).
Proof.
  intros Hs HK. unfold start_lease. case_match; [|exact HK].
  apply leads_bind, leads_operator_namespace. intros [ns|[| |err]]; [|exact HK..|exact Hs].
  apply leads_or_die; [exact Hs|]. apply leads_bind. lead_silent. intros _. exact HK.
Qed.

Lemma leads_gatekeeper managedCfg s (K : unit → progress → Prop) :
  on_plan s → K tt s → leads s (start_gatekeeper semver_Compare managedCfg o) (continues K).
Proof.
  intros Hs HK. unfold start_gatekeeper. case_match; [|exact HK].
  apply leads_or_die; [exact Hs|]. apply leads_or_exit. lead_silent.
  intros [version|err]; [|exact Hs]. case_match; [|exact HK].
  apply leads_or_die; [exact Hs|]. apply leads_bind. lead_silent. intros _. exact HK.
Qed.

Lemma leads_managers hubCfg managedCfg (K : bool → progress → Prop) :
  rc_QPS managedCfg = ClientQPS o → rc_Burst managedCfg = ClientBurst o →
  (∀ d, rates_set o d → K (negb (OnMulticlusterhub o)) (managers_up d)) →
  leads ([], Some (HealthState false ∅ [])) (start_managers hubCfg managedCfg o) (continues K).
Proof.
  intros Hq Hb HK. unfold start_managers.
  set (d a b := StartData hubCfg managedCfg a b "" "").
  assert (∀ a b, rates_set o (d a b)) as Hd by done.
  apply leads_or_exit, leads_getFreeLocalAddr. intros [a|err]; [|on_plan (d "" "")].
  apply leads_bind, leads_call. intros _. apply leads_bind, leads_call. intros _.
  apply leads_after. unfold getManager. apply leads_check, leads_call. intros _. split; [on_plan (d a "")|].
  apply leads_finish_manager; [on_plan (d a "")|]. destruct (OnMulticlusterhub o) eqn:E; cbn [negb].
  - apply leads_after, leads_ret, leads_bind, leads_call. intros _. cbn.
    specialize (HK (d a "") (Hd _ _)). unfold managers_up, plan_addresses in HK.
    rewrite !plan_managers_options in HK. unfold unless in HK.
    rewrite E in HK. exact HK.
  - apply leads_after, leads_or_exit, leads_getFreeLocalAddr. intros [b|err]; [|on_plan (d a "")].
    apply leads_bind, leads_call. intros _. apply leads_after. unfold getHubManager.
    apply leads_check, leads_call. intros _. split; [on_plan (d a b)|].
    apply leads_finish_manager; [on_plan (d a b)|].
    apply leads_ret, leads_bind, leads_call. intros _. cbn.
    specialize (HK (d a b) (Hd _ _)). unfold managers_up, plan_addresses in HK.
    rewrite !plan_managers_options in HK. unfold unless in HK.
    rewrite E in HK. exact HK.
Qed.

Definition with_instance (d : start_data) (name : string) : start_data :=
  StartData (d_hubCfg d) (d_managedCfg d) (d_addr d) (d_hubAddr d) name (d_namespace d).
Definition with_namespace (d : start_data) (ns : string) : start_data :=
  StartData (d_hubCfg d) (d_managedCfg d) (d_addr d) (d_hubAddr d) (d_instance d) ns.

Lemma leads_hub_client d hubMgr (K : unit → progress → Prop) :
  rates_set o d → K tt (managers_up d) → leads (managers_up d) (hub_client hubMgr o) (continues K).
Proof.
  intros Hd HK. unfold hub_client. destruct hubMgr; [exact HK|].
  apply leads_check. lead_silent. intros _. split; [on_plan d|]. apply leads_bind. lead_silent.
  intros _. apply leads_check. lead_silent. intros _. split; [on_plan d|]. exact HK.
Qed.

Lemma leads_controllers hubCfg managedCfg d (K : unit → progress → Prop) :
  rates_set o d → (∀ d, rates_set o d → K tt (controllers_up d)) →
  leads (managers_up d) (addControllers hubCfg managedCfg (negb (OnMulticlusterhub o)) o) (continues K).
Proof.
  intros Hd HK. unfold addControllers. apply leads_after, leads_hub_client; [done|].
  apply leads_or_die; [on_plan d|].
  apply leads_check. lead_silent. intros _. split; [on_plan d|].
  apply leads_check. lead_silent. intros _. split; [on_plan d|].
  apply leads_bind, leads_start_watcher. intros _.
  apply leads_check, leads_call. intros _. split; [on_plan d|].
  apply leads_check. lead_silent. intros _. split; [on_plan d|].
  apply leads_bind, leads_hostname. intros name.
  apply leads_or_die; [on_plan d|]. apply leads_bind, leads_start_watcher. intros _.
  specialize (HK (with_instance d name) Hd). unfold controllers_up, plan_controllers in HK.
  apply leads_check, leads_call. intros _. split; [on_plan (with_instance d name)|].
  destruct (OnMulticlusterhub o) eqn:E.
  - apply leads_ret. refine (eq_ind _ (K tt) HK _ _). unfold managers_up. rewrite !plan_managers_options. unfold unless. by rewrite E.
  - unfold add_hub_controllers. apply leads_or_die; [on_plan (with_instance d name)|].
    apply leads_check. lead_silent. intros _. split; [on_plan (with_instance d name)|].
    apply leads_check, leads_call. intros _. split; [on_plan (with_instance d name)|].
    apply leads_check, leads_call. intros _. split; [on_plan (with_instance d name)|].
    apply leads_ret. refine (eq_ind _ (K tt) HK _ _). unfold managers_up. rewrite !plan_managers_options. unfold unless. by rewrite E.
Qed.

(** What a process has done that ends without an error. *)
Definition plan_done (s : progress) : Prop :=
  ∃ d, rates_set o d ∧ s = (start_plan o d, Some (HealthState false (plan_addresses o d) [])).

Lemma leads_run d :
  rates_set o d → leads (controllers_up d) (run_managers lookupEnv o) (continues (λ _, plan_done)).
Proof.
  intros Hd. unfold run_managers. apply leads_bind, leads_call. intros _.
  apply leads_bind, leads_call. intros _. apply leads_bind, leads_operator_namespace. intros ns.
  assert (∀ operatorNs, leads
    (advance (advance (controllers_up d) (SGo HealthProxy true)) (SGo (RunManager ManagedMgr) true))
    (do! scall (SGo (UninstallWatcher operatorNs) true) in
     do! (if negb (OnMulticlusterhub o) then scall (SGo (RunManager HubMgr) true) else Ret tt) in
     let! errorExit := scall SWait in
     if errorExit : bool then Ret (Exited 1) else Ret (Went tt)) (continues (λ _, plan_done))) as Hrun.
  { intros operatorNs. apply leads_bind, leads_call. intros _.
    destruct (OnMulticlusterhub o) eqn:E.
    - apply leads_bind, leads_ret, leads_bind, leads_call. intros [].
      + on_plan (with_namespace d operatorNs).
      + exists (with_namespace d operatorNs). split; [done|]. unfold controllers_up, start_plan, plan_goroutines,
          plan_controllers. rewrite !plan_managers_options. unfold unless. by rewrite E.
    - apply leads_bind, leads_call. intros _. apply leads_bind, leads_call. intros [].
      + on_plan (with_namespace d operatorNs).
      + exists (with_namespace d operatorNs). split; [done|]. unfold controllers_up, start_plan, plan_goroutines,
          plan_controllers. rewrite !plan_managers_options. unfold unless. by rewrite E. }
  destruct ns as [ns|[| |err]]; [apply Hrun|apply Hrun|..]; on_plan d.
Qed.

Lemma leads_start_controllers :
  leads ([], Some (HealthState false ∅ [])) (start_controllers lookupEnv semver_Compare o)
    (continues (λ _, plan_done)).
Proof.
  unfold start_controllers. assert (on_plan ([], Some (HealthState false ∅ []))) as Hnil.
  { pose (cfg := MkRestConfig "" (ClientQPS o) (ClientBurst o) "").
    on_plan (StartData cfg cfg "" "" "" ""). }
  apply leads_or_exit. lead_silent. intros [hubCfg|err]; [|exact Hnil].
  apply leads_or_exit.
  assert (∀ x : result RestConfig, match x with
    | Ok a => leads ([], Some (HealthState false ∅ []))
        (then! _ := start_lease lookupEnv (set_rates o a) o in
         then! hubMgr := start_managers hubCfg (set_rates o a) o in
         then! _ := start_gatekeeper semver_Compare (set_rates o a) o in
         then! _ := addControllers hubCfg (set_rates o a) hubMgr o in
         run_managers lookupEnv o) (continues (λ _, plan_done))
    | Err _ => on_plan ([], Some (HealthState false ∅ [])) end) as H.
  { intros [managedCfg|err]; [|exact Hnil]. apply leads_after, leads_lease; [done|].
    apply leads_after, leads_managers; [done..|]. intros d Hd.
    apply leads_after, leads_gatekeeper; [on_plan d|].
    apply leads_after, leads_controllers; [done|]. intros d' Hd'. by apply leads_run. }
  case_match; lead_silent; exact H.
Qed.

End phases.

(** ** Properties *)

Section properties.
Context `{F : FloatLib}.
Variables (lookupEnv : string → option string) (changed : string → bool).
Variable semver_Compare : string → string → Z.

Definition no_addresses : health_state := HealthState false ∅ [].

Lemma leads_run_trace {W A} Fine (h : handler start_ans W) w s (p : prog start_ans A) K :
  leads Fine s p K →
  match result_of (run h w p) with
  | Returned a => K a (advances s (ops (trace_of (run h w p))))
  | Panicked => Fine (advances s (ops (trace_of (run h w p))))
  end.
Proof. intros Hp. exact (wp_run h w p _ Hp). Qed.

Lemma leads_main args disableSpecSync parsed :
  let o := (ProcessAndParse lookupEnv changed disableSpecSync parsed).1 in
  leads (on_plan o) ([], Some no_addresses) (main lookupEnv changed semver_Compare args disableSpecSync parsed)
    (continues (on_plan o) (λ _ s,
       on_plan o s ∧ (nth 1 args "" ≠ "trigger-uninstall" → plan_done o s))).
Proof.
  intros o. assert (on_plan o ([], Some no_addresses)) as Hnil.
  { split; [|done]. pose (cfg := MkRestConfig "" (ClientQPS o) (ClientBurst o) "").
    exists (StartData cfg cfg "" "" "" ""). split; [done|]. apply prefix_nil. }
  unfold main. case_match eqn:E; breflect.
  - apply leads_check. lead_silent. intros _. split; [exact Hnil|]. by apply leads_ret.
  - destruct (ProcessAndParse _ _ _ _) as [o' flagErr] eqn:Ho. cbn in o. subst o.
    apply leads_bind. lead_silent. intros [err|]; [by apply leads_panic|].
    apply leads_bind. lead_silent. intros _. destruct flagErr; [by apply leads_ret|].
    eapply leads_mono; [apply leads_start_controllers|]. intros [code|a] s; [done|].
    intros (d & Hd & ->). split; [|intros _; by exists d].
    split; [|done]. by exists d.
Qed.

(** C16: the process starts by its plan, whatever its environment answers.  The managers come first,
    then the controllers, each once and on its manager, with the settings of the options, and then
    the goroutines the process waits for, the managers among them; running on a multicluster hub
    there is no manager for the hub and neither spec-sync nor secret-sync, and status-sync has
    nobody to ask for a sync of the spec.  A start that fails stops on the way.  A process that ends
    without an error, other than the uninstall command, has carried out the whole plan.  The lock of
    the health addresses is neither taken twice nor missing when they are written, and the addresses
    are those of the managers. *)
Theorem startup_follows_plan {W} (h : handler start_ans W) w args disableSpecSync parsed :
  let o := (ProcessAndParse lookupEnv changed disableSpecSync parsed).1 in
  let r := run h w (main lookupEnv changed semver_Compare args disableSpecSync parsed) in
  let t := ops (trace_of r) in
  (∃ d, rates_set o d ∧ milestones t `prefix_of` start_plan o d) ∧
  is_Some (health_after no_addresses t) ∧
  (nth 1 args "" ≠ "trigger-uninstall" → result_of r = Returned (Went tt) →
   ∃ d, rates_set o d ∧ milestones t = start_plan o d ∧
        health_after no_addresses t = Some (HealthState false (plan_addresses o d) [])).
Proof.
  intros o r t. pose proof (leads_run_trace _ h w _ _ _ (leads_main args disableSpecSync parsed)) as H.
  fold o r t in H. rewrite !advances_spec in H. cbn [fst snd app] in H.
  destruct (result_of r) as [[code|[]]|]; cbn in H.
  - destruct H as [Hplan Hh]. split_and!; done.
  - destruct H as [[Hplan Hh] Hdone]. split_and!; [done..|]. intros Hargs _.
    destruct (Hdone Hargs) as (d & Hd & Heq). injection Heq as Hms Hhs. eauto.
  - destruct H as [Hplan Hh]. split_and!; done.
Qed.

(** The managers of a plan elect their leaders separately, and at most one of them serves metrics. *)
Theorem plan_managers_apart o d m cfg mo m' cfg' mo' :
  MManager m cfg mo ∈ start_plan o d → MManager m' cfg' mo' ∈ start_plan o d → m ≠ m' →
  LeaderElectionID mo ≠ LeaderElectionID mo' ∧
  (BindAddress (Metrics mo) = "0" ∨ BindAddress (Metrics mo') = "0").
Proof.
  unfold start_plan, plan_controllers, plan_goroutines. rewrite plan_managers_options.
  unfold unless. intros H H' Hm.
  destruct (OnMulticlusterhub o); cbn in H, H'; rewrite !elem_of_cons, elem_of_nil in H, H';
    destruct_or?; simplify_eq; auto.
Qed.

End properties.

Section gatekeeper.
Context `{F : FloatLib}.

Lemma health_after_app s l1 l2 :
  health_after s (l1 ++ l2) = (s' ← health_after s l1; health_after s' l2).
Proof.
  unfold health_after. rewrite foldl_app. destruct (foldl _ (Some s) l1) as [s'|]; [done|].
  cbn. induction l2 as [|o l2 IH]; [done|exact IH].
Qed.

(** No element of a list of calls is of this form. *)
Ltac not_there H := repeat (apply elem_of_cons in H as [H|H]; [discriminate H|]); by apply not_elem_of_nil in H.

(** The calls [t] of a run from the health addresses [s]: either nothing has changed and the manager
    was not started, or it was started with the address it was created with, which is gone now. *)
Definition gives_back (base : manager_options) (cfg : RestConfig) (o : SyncerOptions)
    (s : health_state) (t : list start_op) : Prop :=
  health_after s t = Some s ∧ SStartManager GatekeeperMgr ∉ t ∨
  ∃ address,
    SNewManager GatekeeperMgr cfg (gatekeeper_manager_options_of base address o) ∈ t ∧
    health_after s t =
    Some (HealthState (lock_held s) (healthAddresses s ∖ {[address]})
            (while_running s ++ [{[address]} ∪ healthAddresses s])).

(** C33: a run of the Gatekeeper manager gives back what it took.  Whatever its calls answer, the
    lock is free again; the address it serves its health at is registered while the manager runs,
    and only then, and it is the address the manager was given; and once the watcher of the
    constraints was started, its context is cancelled at the end, also on a panic. *)
Theorem gatekeeper_health_restored {W} (h : handler start_ans W) w base cfg o addresses running :
  let t := ops (trace_of (run h w (runGatekeeperSyncManager base cfg o))) in
  let before := HealthState false addresses running in
  gives_back base cfg o before t ∧
  (SGo (RunWatcher ConstraintsWatcher) false ∈ t → last t = Some SCancelWatcher).
Proof.
  cbv zeta. set (before := HealthState false addresses running).
  refine (wp_run h w _ (λ t _, gives_back base cfg o before (ops t) ∧
    (SGo (RunWatcher ConstraintsWatcher) false ∈ ops t → last (ops t) = Some SCancelWatcher)) _).
  unfold runGatekeeperSyncManager, getFreeLocalAddr, try, or_die, hostname_or_empty, start_watcher,
    GatekeeperSync_SetupWithManager, start_with_health.
  repeat (cbn; intros x; try (destruct x)).
  all: cbn; unfold gives_back; split;
    [|first [by intros _|intros H; exfalso; not_there H]].
  all: try (left; split; [reflexivity|]; intros H; not_there H).
  all: right; eexists; split; [rewrite !elem_of_cons; eauto 10|]; cbn.
  all: do 2 f_equal; set_solver.
Qed.

(** The uninstall watcher watches the Deployment of the addon itself and nothing else, and it gives
    up without an error only when the context is done, the watch being in place. *)
Theorem start_watcher_watches_self {W} (h : handler start_ans W) w cfg ns o :
  let self := ObjID "apps" "v1" "Deployment" ns (DeploymentName o) in
  let r := run h w (StartWatcher cfg ns o) in
  (∀ id watched, SAddOrUpdateWatcher id watched ∈ ops (trace_of r) → id = self ∧ watched = [self]) ∧
  (result_of r = Returned None →
   ∃ t, trace_of r = t ++ [ev (SAddOrUpdateWatcher self [self]) None; ev (SAwaitDone DeploymentWatcher) None]).
Proof.
  intros self r. subst r.
  refine (wp_run h w _ (λ t x, (∀ id watched, SAddOrUpdateWatcher id watched ∈ ops t →
    id = self ∧ watched = [self]) ∧ (x = Returned None → ∃ t', t = t' ++ _)) _).
  unfold StartWatcher, try.
  repeat (cbn; intros x; try (destruct x)).
  all: split; [intros id watched H; cbn in H; rewrite !elem_of_cons, elem_of_nil in H; destruct_or?; by simplify_eq|].
  all: intros Hx; try discriminate Hx. cbn. by eexists [_; _; _; _].
Qed.

(** A registration that failed for another reason than a counter that exists. *)
Definition register_failed (e : event start_ans) : bool :=
  match e with
  | existT (SRegister _) (Some (RegisterFailed _)) => true
  | _ => false
  end.

(** Both counters are registered, and the process panics exactly when one of them cannot be; a
    counter that another controller registered does no harm. *)
Theorem metric_init_panics {W} (h : handler start_ans W) w :
  let r := run h w metric_init in
  (result_of r = Panicked ↔ existsb register_failed (trace_of r) = true) ∧
  (result_of r = Returned tt →
   ops (trace_of r) = [SRegister policySystemErrorsCounter; SRegister policyUserErrorsCounter]).
Proof.
  intros r. subst r.
  refine (wp_run h w _ (λ t x, (x = Panicked ↔ existsb register_failed t = true) ∧
    (x = Returned tt → ops t = _)) _).
  unfold metric_init, register_counter. repeat (cbn; intros x; destruct x as [[|?]|]).
  all: by split; [split|].
Qed.

End gatekeeper.

(** ** Concrete runs *)

Definition demo_options (onHub : bool) : SyncerOptions (F := float_ref) :=
  (MkOptions (F := float_ref) "onhub" "/hub" "" onHub false false true ":8080" "localhost:8383" true
    "managed" "" 2 30 45)%Z.

Definition demo_cfg : RestConfig (F := float_ref) := (MkRestConfig (F := float_ref) "" 20 30 "")%Z.

(** Every call succeeds; the ports are given out in order. *)
Definition demo_start : handler (start_ans (F := float_ref)) N :=
  λ w o,
    (match o with SListenTCP => w + 1 | _ => w end,
     match o return start_ans o with
     | SBuildConfigFromFlags _ | SGetConfig => Ok demo_cfg
     | SNamespaceFile | SServerVersion | SHostname => Ok "v1.30.0"
     | SListenTCP => Ok w
     | SLock | SUnlock | SHealthAdd _ | SHealthDelete _ | SWaitStarted _ | SGo _ _ | SCancelWatcher => tt
     | SWait => false
     | _ => None
     end)%N.

Definition demo_main (onHub : bool) :=
  run demo_start 4000%N
    (main (λ _, None) (λ _, false) (λ _ _, 1%Z) ["addon"] false (demo_options onHub)).

(** A start with a hub, and one on a multicluster hub: eleven and seven steps of their plans. *)
Lemma startup_follows_plan_witness :
  length (milestones (ops (trace_of (demo_main false)))) = 11 ∧
  length (milestones (ops (trace_of (demo_main true)))) = 7 ∧
  ∃ d, milestones (ops (trace_of (demo_main false))) = start_plan (demo_options false) d.
Proof.
  split; [vm_compute; reflexivity|]. split; [vm_compute; reflexivity|].
  destruct (startup_follows_plan (F := float_ref) (λ _, None) (λ _, false) (λ _ _, 1%Z) demo_start
    4000%N ["addon"] false (demo_options false)) as (_ & _ & H).
  destruct H as (d & _ & Hd & _); [discriminate|vm_compute; reflexivity|].
  exists d. exact Hd.
Defined.

Lemma gatekeeper_health_restored_witness :
  let t := ops (trace_of (run demo_start 4000%N
    (runGatekeeperSyncManager (base_options (demo_options false)) demo_cfg (demo_options false)))) in
  last t = Some SCancelWatcher ∧
  health_after (HealthState false {["a"]} []) t =
    Some (HealthState false {["a"]} [{["127.0.0.1:4000"; "a"]}]).
Proof.
  intros t. split; [|vm_compute; reflexivity].
  apply (gatekeeper_health_restored (F := float_ref) demo_start 4000%N _ _ _ {["a"]} []).
  apply (list_elem_of_lookup_2 _ 8). vm_compute. reflexivity.
Defined.
