(* ===== verification/System.v ===== *)
(** * The controllers together

    Reconciles of all controllers run side by side on one pair of clusters, call by call in any
    order, next to other parties.  The state of the system is the world and the rest of each run.
    Two invariants hold of every run: which calls it makes, whatever it is answered, and which it
    makes as long as the stored statuses are well formed.  The last part puts spec-sync and
    status-sync in sequence. *)

From S2P Require Import Prelude Prog GoStrings K8s Effects Utils ApiServer.
From S2P Require Import StatusHistory StatusEvents.
From S2P Require Import SpecSync SecretSync StatusSync TemplateObjects TemplateActions TemplateSync.
From S2P Require Import GatekeeperSync Uninstall.

(** ** The system *)

Section system.
Context `{U : UnstructuredLib} `{T : TimeLib} `{D : DecodeLib} `{L : GatekeeperLib}
  `{R : MapRange} `{F : FmtLib} `{S : SchemeLib} `{O : OwnerLib}.

(** A reconcile that a controller is asked for. *)
Inductive job :=
| SpecSyncJob (r : SpecSync.PolicyReconciler) (request : NamespacedName)
| SecretSyncJob (r : SecretReconciler) (request : NamespacedName)
| StatusSyncJob (realloc : nat → bool) (r : StatusSync.PolicyReconciler) (request : NamespacedName)
| TemplateSyncJob (r : TemplateObjects.PolicyReconciler) (request : NamespacedName)
| GatekeeperSyncJob (s : ComplianceEventSender) (request : NamespacedName)
| UninstallJob (obj : ObjectIdentifier).

Definition start (j : job) : prg reconciled :=
  match j with
  | SpecSyncJob r request => SpecSync.Reconcile r request
  | SecretSyncJob r request => SecretSync.Reconcile r request
  | StatusSyncJob realloc r request => StatusSync.Reconcile realloc r request
  | TemplateSyncJob r request => TemplateSync.Reconcile r request
  | GatekeeperSyncJob s request => GatekeeperSync.Reconcile s request
  | UninstallJob obj => Uninstall.Reconcile obj
  end.

Abbreviation runs := (list (job * prg reconciled)).

Section steps.
Context {W : Type} (h : env W).

(** A run starts, makes its next call, or is over. *)
Inductive addon_step : W * runs → W * runs → Prop :=
| addon_start w rs j : addon_step (w, rs) (w, rs ++ [(j, start j)])
| addon_call w rs i j o k :
    rs !! i = Some (j, Do o k) →
    addon_step (w, rs) ((h w o).1, <[i := (j, k (h w o).2)]> rs)
| addon_return w rs i j a : rs !! i = Some (j, Ret a) → addon_step (w, rs) (w, delete i rs)
| addon_panic w rs i j : rs !! i = Some (j, Panic) → addon_step (w, rs) (w, delete i rs).

(** What the other parties do to the world. *)
Variable others : W → W → Prop.

Inductive sys_step : W * runs → W * runs → Prop :=
| sys_addon s s' : addon_step s s' → sys_step s s'
| sys_others w w' rs : others w w' → sys_step (w, rs) (w', rs).

Definition sys_reachable (w0 : W) : W * runs → Prop := rtc sys_step (w0, []).

(** A property of the world and one of the runs that the steps keep. *)
Lemma system_invariant (J : W → Prop) (I : job → prg reconciled → Prop) w0 s :
  J w0 → (∀ j, I j (start j)) →
  (∀ j o k w, J w → I j (Do o k) → J (h w o).1 ∧ I j (k (h w o).2)) →
  (∀ w w', others w w' → J w → J w') →
  sys_reachable w0 s → J s.1 ∧ ∀ j p, (j, p) ∈ s.2 → I j p.
Proof.
  intros H0 Hstart Hcall Hothers. unfold sys_reachable.
  assert (∀ x y, rtc sys_step x y → J x.1 ∧ (∀ j p, (j, p) ∈ x.2 → I j p) →
                 J y.1 ∧ ∀ j p, (j, p) ∈ y.2 → I j p) as Hall.
  2:{ intros H. apply (Hall _ _ H). cbn. split; [done|]. by intros j p ?%not_elem_of_nil. }
  intros x y H. induction H as [|x y z Hstep _ IH]; [done|]. intros [HJ HI]. apply IH. clear IH.
  assert (∀ (rs : runs) i, (∀ j p, (j, p) ∈ rs → I j p) → ∀ j p, (j, p) ∈ delete i rs → I j p) as Hdel.
  { intros rs i Hrs j p Hin. apply Hrs. eapply sublist_subseteq; [apply sublist_delete|exact Hin]. }
  destruct Hstep as [x y Hstep|w w' rs Hw]; [|split; [by eapply Hothers|exact HI]].
  destruct Hstep as [w rs j|w rs i j o k Hi|w rs i j a Hi|w rs i j Hi]; simpl in *.
  - split; [done|]. intros j' p [Hin|Hin%list_elem_of_singleton]%elem_of_app; [auto|]. by simplify_eq.
  - destruct (Hcall j o k w HJ) as [HJ' HI']; [eapply HI, list_elem_of_lookup_2, Hi|].
    split; [done|]. intros j' p Hin. apply list_elem_of_lookup_1 in Hin as [i' Hi'].
    destruct (decide (i' = i)) as [->|Hne].
    + rewrite list_lookup_insert_eq in Hi' by (by eapply lookup_lt_Some). by simplify_eq.
    + rewrite list_lookup_insert_ne in Hi' by done. eapply HI, list_elem_of_lookup_2, Hi'.
  - split; [done|]. by apply Hdel.
  - split; [done|]. by apply Hdel.
Qed.

(** An order of steps: a job starts, or the run at a position takes a step. *)
Definition sys_turn (s : W * runs) (c : job + nat) : option (W * runs) :=
  let '(w, rs) := s in
  match c with
  | inl j => Some (w, rs ++ [(j, start j)])
  | inr i =>
      match rs !! i with
      | None => None
      | Some (j, Do o k) => Some ((h w o).1, <[i := (j, k (h w o).2)]> rs)
      | Some (_, Ret _) | Some (_, Panic) => Some (w, delete i rs)
      end
  end.

Fixpoint schedule (s : W * runs) (l : list (job + nat)) : option (W * runs) :=
  match l with
  | [] => Some s
  | c :: l' => s' ← sys_turn s c; schedule s' l'
  end.

Lemma sys_turn_step s c s' : sys_turn s c = Some s' → addon_step s s'.
Proof.
  destruct s as [w rs]. destruct c as [j|i]; cbn; [intros [= <-]; constructor|].
  destruct (rs !! i) as [[j [a| |o k]]|] eqn:E; intros; simplify_eq; by econstructor.
Qed.

Lemma schedule_reachable w0 l s : schedule (w0, []) l = Some s → sys_reachable w0 s.
Proof.
  unfold sys_reachable. generalize (w0, [] : runs) as s0. induction l as [|c l IH]; intros s0; cbn.
  - intros [= ->]. constructor.
  - destruct (sys_turn s0 c) as [s1|] eqn:E; [|done]. intros H. cbn in H.
    eapply rtc_l; [eapply sys_addon, sys_turn_step, E|by apply IH].
Qed.

End steps.

(** ** The calls of the runs *)

(** Nothing but statuses and events is written to the hub. *)
Definition off_hub (o : op) : Prop :=
  match o with
  | OPolicyCreate Hub _ | OPolicyUpdate Hub _ | OPolicyDelete Hub _
  | OSecretCreate Hub _ | OSecretUpdate Hub _ | OSecretDelete Hub _ => False
  | _ => True
  end.

(** No status is written through the typed client, either. *)
Definition off_status (o : op) : Prop :=
  match o with OPolicyStatusUpdate _ _ => False | _ => off_hub o end.

Lemma off_status_hub o : off_status o → off_hub o.
Proof. by destruct o. Qed.

Definition writes_status (j : job) : bool :=
  match j with StatusSyncJob _ _ _ => true | _ => false end.

Lemma template_sync_off r request : all_ops off_status (TemplateSync.Reconcile r request).
Proof.
  unfold TemplateSync.Reconcile; simpl. split; [done|]. intros [instance|e].
  - apply (causal_all_ops (template_sync_call r instance) off_status []);
      [by intros t []; simpl; try case_match|apply reconcile_instance_causal].
  - case_match; simpl; [|done]. split; [done|]. intros _. split; [done|]. intros _. by split.
Qed.

Lemma gatekeeper_sync_off s request : all_ops off_status (GatekeeperSync.Reconcile s request).
Proof.
  unfold GatekeeperSync.Reconcile; simpl. split; [done|]. intros [|]; [done|]. split; [done|].
  assert (∀ id policy, ∀ o, relay_call s id policy o → off_status o) as Hrelay
    by (by intros id policy []).
  intros [policy|e].
  - simpl. split; [done|]. intros [e|]; [done|]. apply all_ops_defer; [|by repeat split].
    eapply all_ops_mono; [apply relay_templates_calls|apply Hrelay].
  - case_match; [|done]. apply all_ops_bind.
    + eapply all_ops_mono; [apply (clear_messages_calls s (policyObjID request) (nn_Name request))|apply Hrelay].
      intros k ?. by breflect.
    + intros _. simpl. split; [done|]. intros [?|]; by repeat case_match.
Qed.

Lemma quiet_job j : writes_status j = false → all_ops off_status (start j).
Proof.
  destruct j as [r k|r k|realloc r k|r k|s k|obj]; cbn [start]; intros Hj; [| |done|..].
  - eapply all_ops_mono; [apply spec_sync_all_calls|]. by intros []; simpl; try case_match.
  - eapply all_ops_mono; [apply secret_sync_all_calls|]. by intros []; simpl; try case_match.
  - apply template_sync_off.
  - apply gatekeeper_sync_off.
  - unfold Uninstall.Reconcile; simpl. split; [done|]. by intros [d|e]; case_match; simpl.
Qed.

Lemma status_sync_off realloc r request : all_ops off_hub (StatusSync.Reconcile realloc r request).
Proof. apply status_sync_all. by intros []. Qed.

Lemma start_off_hub j : all_ops off_hub (start j).
Proof.
  destruct (writes_status j) eqn:E; [destruct j; try discriminate E; apply status_sync_off|].
  eapply all_ops_mono; [by apply quiet_job|apply off_status_hub].
Qed.

(** ** Well-formed statuses *)

(** The entries are there and well formed, and the overall state follows from them (and from an
    earlier state) as soon as there are any. *)
Definition good_entry (od : option DetailsPerTemplate) : Prop := ∃ d, od = Some d ∧ good_details d.

Definition status_wf (st : PolicyStatus) : Prop :=
  Forall good_entry (st_Details st) ∧
  (st_Details st = [] ∨
   ∃ old, overall_compliance (st_Details st) old = Some (st_ComplianceState st)).

Lemma no_status_wf : status_wf no_status.
Proof. split; [constructor|by left]. Qed.

Lemma status_wf_Some st : status_wf st → Forall is_Some (st_Details st).
Proof. intros [H _]. eapply Forall_impl; [exact H|]. intros od (d & -> & _). by eexists. Qed.

(** What a run may be answered when all stored statuses are well formed, and what it owes. *)
Definition honest (o : op) : ans o → Prop :=
  match o with
  | OPolicyGet _ _ | OPolicyCreate _ _ | OPolicyUpdate _ _ | OPolicyStatusUpdate _ _ =>
      λ x, match x with Ok p => status_wf (p_Status p) | Err _ => True end
  | _ => λ _, True
  end.
Definition writes_wf (o : op) : Prop :=
  match o with OPolicyStatusUpdate _ p => status_wf (p_Status p) | _ => True end.

#[local] Abbreviation tame := (obeys honest writes_wf).

Lemma off_status_wf o : off_status o → writes_wf o.
Proof. by destruct o. Qed.

(** A program without status updates. *)
Lemma tame_quiet {A} (B : Prop) (p : prg A) :
  all_ops off_status p → wp p (λ _ x, x = Panicked → B) → tame B (λ _, True) p.
Proof.
  intros Hp HB. apply obeys_wp.
  - eapply all_ops_mono; [exact Hp|apply off_status_wf].
  - eapply wp_mono; [exact HB|]. intros _ [a|]; auto.
Qed.

Lemma getInstances_tame r request :
  tame False (λ x, match x with
    | Ok (Some (m, hub)) => status_wf (p_Status m)
    | _ => True
    end) (getInstances r request).
Proof.
  assert (∀ Q : _ → Prop, Q (Ok None) → tame False Q (skip_and_trigger r request)) as Hskip.
  { intros Q HQ. unfold skip_and_trigger. case_match; [|done]. simpl. by split. }
  unfold getInstances. simpl. split; [done|]. intros [m|e]; cbn [honest]; intros Hm.
  - case_match; [exact Hm|]. simpl. split; [done|]. intros [hub|e] _.
    + case_match; [by apply Hskip|exact Hm].
    + case_match; [by apply Hskip|done].
  - case_match; [|done]. case_match; [done|]. simpl. split; [done|]. intros [hub|e'] _.
    + by apply Hskip.
    + by case_match.
Qed.

Section time_laws.
Context `{!TimeLaws T}.

Lemma details_good l details : Forall2 details_for l details → Forall good_entry details.
Proof. induction 1 as [|?? ?? (d & -> & _ & Hd) _ IH]; constructor; [by exists d|done]. Qed.

Lemma getDetails_tame realloc instance :
  Forall is_Some (st_Details (p_Status instance)) →
  tame False (λ x, match x with Ok d => Forall good_entry d | Err _ => True end)
    (getDetails realloc instance).
Proof.
  intros Hnil. apply obeys_wp; [by apply getDetails_calls|].
  eapply wp_mono; [apply getDetails_spec|]. intros t x H. destruct x as [[d|e]|]; [|done|by destruct H].
  by eapply details_good.
Qed.

Lemma update_hub_tame r instance hub :
  status_wf (p_Status instance) → (OnMulticlusterhub r = true ∨ is_Some hub) →
  tame False (λ _, True) (update_hub r instance hub).
Proof.
  intros Hwf Hhub. unfold update_hub. destruct (OnMulticlusterhub r); [done|].
  destruct Hhub as [?|[p ->]]; [done|]. simpl. split; [done|]. intros x _.
  assert (∀ p', tame False (λ _ : option error, True)
    (if negb (DeepEqual (p_Status p') (p_Status instance)) then
       let! out := call (OPolicyStatusUpdate Hub (p_set_Status (p_Status instance) p')) in
       match out with
       | Err err => Ret (Some err)
       | Ok hubInstance =>
           do! record_status Hub hubInstance
             ("Policy " +:+ p_Name hubInstance +:+ " status was updated to " +:+
              st_ComplianceState (p_Status hubInstance) +:+ " in cluster namespace " +:+
              p_Namespace hubInstance) in
           Ret None
       end
     else Ret None)) as H.
  { intros p'. case_match; [|done]. split; [exact Hwf|]. intros [q|e] _; [|done]. by split. }
  destruct x; apply H.
Qed.

Lemma updateStatuses_tame r instance hub old :
  Forall good_entry (st_Details (p_Status instance)) → (OnMulticlusterhub r = true ∨ is_Some hub) →
  tame False (λ _, True) (updateStatuses r instance hub old).
Proof.
  intros Hd Hhub. unfold updateStatuses.
  assert (Forall is_Some (st_Details (p_Status instance))) as Hnil.
  { eapply Forall_impl; [exact Hd|]. intros od (d & -> & _). by eexists. }
  destruct (overall_compliance_total _ (st_ComplianceState (p_Status instance)) Hnil) as [state Hs].
  rewrite Hs. set (i1 := set_details _ _ _).
  assert (status_wf (p_Status i1)) as Hwf by (split; [exact Hd|right; by eexists]).
  case_match; [|by apply update_hub_tame]. split; [exact Hwf|]. cbn [honest].
  intros [i2|e] Hi2; [|done]. split; [done|]. intros u _. by apply update_hub_tame.
Qed.

Lemma status_sync_tame realloc r request : tame False (λ _, True) (StatusSync.Reconcile realloc r request).
Proof.
  unfold StatusSync.Reconcile. split; [done|]. intros [|] _; [done|]. split; [done|].
  intros [e|] _; [done|]. apply obeys_defer; [|by repeat split].
  unfold reconcile_batch. eapply obeys_bind; [apply getInstances_tame|].
  intros [[[instance hub]|]|e]; [|done..]. intros Hwf. case_match eqn:E; [done|].
  assert (OnMulticlusterhub r = true ∨ is_Some hub) as Hhub.
  { destruct (OnMulticlusterhub r), hub; [by left|by left|right; by eexists|discriminate]. }
  eapply obeys_bind; [by apply getDetails_tame, status_wf_Some|].
  intros [details|e]; [|done]. intros Hd.
  eapply obeys_bind; [by apply updateStatuses_tame|]. by intros [e|].
Qed.

(** The handlers that panic on some templates and constraints. *)
Definition may_panic (j : job) : Prop :=
  match j with TemplateSyncJob _ _ | GatekeeperSyncJob _ _ => True | _ => False end.

Lemma start_tame j : tame (may_panic j) (λ _, True) (start j).
Proof.
  destruct (writes_status j) eqn:E; [destruct j; try discriminate E; apply status_sync_tame|].
  apply tame_quiet; [by apply quiet_job|].
  destruct j as [r k|r k|realloc r k|r k|s k|obj]; cbn [start may_panic]; try discriminate E.
  - eapply wp_mono; [apply spec_sync_returns|]. by intros.
  - eapply wp_mono; [apply secret_sync_returns|]. by intros.
  - eapply wp_mono; [apply wp_true|]. by intros.
  - eapply wp_mono; [apply wp_true|]. by intros.
  - unfold Uninstall.Reconcile; simpl. by intros [d|e]; case_match; simpl.
Qed.

End time_laws.

(** ** The world *)

Section world.
Context {W : Type} (h : env W) `{!PolicyServer h}.

Definition statuses_wf (w : W) : Prop :=
  ∀ c k p, policies w c !! k = Some p → status_wf (p_Status p).

Lemma statuses_wf_same w w' : (∀ c, policies w' c = policies w c) → statuses_wf w → statuses_wf w'.
Proof. intros Hw H c k p. rewrite Hw. apply H. Qed.

Lemma statuses_wf_on w w' c m :
  only_on (policies w') (policies w) c m → (∀ k p, m !! k = Some p → status_wf (p_Status p)) →
  statuses_wf w → statuses_wf w'.
Proof.
  intros [Hm Ho] Hwf H c' k p Hp. destruct (decide (c' = c)) as [->|Hne].
  - rewrite Hm in Hp. by eapply Hwf.
  - rewrite Ho in Hp by done. by eapply H.
Qed.

Lemma wf_insert w c k (p : Policy) :
  statuses_wf w → status_wf (p_Status p) →
  ∀ k' p', <[k := p]> (policies w c) !! k' = Some p' → status_wf (p_Status p').
Proof.
  intros H Hp k' p' [[_ <-]|[_ Hin]]%lookup_insert_Some; [done|by eapply H].
Qed.

(** A call of a tame run keeps the statuses well formed, and is answered honestly. *)
Lemma wf_call w o w' x :
  statuses_wf w → writes_wf o → h w o = (w', x) → statuses_wf w' ∧ honest o x.
Proof.
  intros Hw Ho E. destruct (is_policy_op o) eqn:Hop.
  2:{ split; [|by destruct o]. eapply statuses_wf_same; [|exact Hw]. by eapply policy_frame. }
  destruct o; try discriminate Hop; cbn [honest writes_wf] in *.
  - apply policy_get in E as [Hsame E]. split; [by eapply statuses_wf_same|].
    destruct x; [by eapply Hw|done].
  - apply policy_create in E. destruct x as [p'|e]; [|split; [by eapply statuses_wf_same|done]].
    destruct E as (_ & Hs & E). assert (status_wf (p_Status p')) as Hp by (rewrite Hs; apply no_status_wf).
    split; [|done]. eapply statuses_wf_on; [exact E|by apply wf_insert|done].
  - apply policy_update in E. destruct x as [p'|e]; [|split; [by eapply statuses_wf_same|done]].
    destruct E as (_ & (q & Hq & Hs) & E & Hoff).
    assert (status_wf (p_Status p')) as Hp by (rewrite Hs; by eapply Hw).
    split; [|done]. eapply statuses_wf_on; [by split| |done].
    destruct E as [->|(_ & _ & _ & _ & ->)]; [by apply wf_insert|].
    intros k' p2 [_ Hin]%lookup_delete_Some. by eapply Hw.
  - apply policy_status_update in E. destruct x as [p'|e]; [|split; [by eapply statuses_wf_same|done]].
    destruct E as ((q & _ & _ & Hs) & E). rewrite <- Hs in Ho.
    split; [|done]. eapply statuses_wf_on; [exact E|by apply wf_insert|done].
  - apply policy_delete in E. destruct x as [e|]; [split; [by eapply statuses_wf_same; [apply E|]|done]|].
    destruct E as [Hd Hoff]. split; [|done]. eapply statuses_wf_on; [by split| |done].
    destruct Hd as [->|(q & q' & Hq & -> & _ & _ & Hs)].
    + intros k' p2 [_ Hin]%lookup_delete_Some. by eapply Hw.
    + apply wf_insert; [done|]. rewrite Hs. by eapply Hw.
Qed.

(** What the hub keeps of its policies and Secrets when only statuses are written. *)
Definition content (p : Policy) : NamespacedName * gmap string string * gmap string string * PolicySpec :=
  (p_key p, p_Annotations p, p_Labels p, p_Spec p).

Definition hub_kept `{!SecretServer h} (w w' : W) : Prop :=
  (∀ k, content <$> policies w' Hub !! k = content <$> policies w Hub !! k) ∧
  secrets w' Hub = secrets w Hub.

Lemma hub_kept_refl `{!SecretServer h} w : hub_kept w w.
Proof. done. Qed.

Lemma hub_secrets_kept `{!SecretServer h} w o w' x :
  off_hub o → h w o = (w', x) → secrets w' Hub = secrets w Hub.
Proof.
  intros Ho E. destruct (is_secret_op o) eqn:Hop; [|by eapply secret_frame].
  destruct o; try discriminate Hop.
  - by apply secret_get in E as [Hs _].
  - destruct c; [done|]. apply secret_create in E. destruct x as [s'|e]; [|by apply E].
    destruct E as (_ & _ & Hoff). by apply Hoff.
  - destruct c; [done|]. apply secret_update in E. destruct x as [s'|e]; [|by apply E].
    destruct E as (_ & _ & Hoff). by apply Hoff.
  - destruct c; [done|]. apply secret_delete in E. destruct x as [e|]; [by apply E|].
    destruct E as [_ Hoff]. by apply Hoff.
Qed.

(** Calls that leave everything of the policies but the status. *)
Definition off_content (o : op) : Prop :=
  match o with OPolicyCreate _ _ | OPolicyUpdate _ _ | OPolicyDelete _ _ => False | _ => True end.

Lemma content_call w o w' x :
  off_content o → h w o = (w', x) → ∀ c k, content <$> policies w' c !! k = content <$> policies w c !! k.
Proof.
  intros Ho E c0 k0. destruct (is_policy_op o) eqn:Hop; [|by rewrite (policy_frame _ _ _ _ Hop E)].
  destruct o; try discriminate Hop; try done.
  - apply policy_get in E as [Hs _]. by rewrite Hs.
  - apply policy_status_update in E. destruct x as [p'|e]; [|by rewrite E].
    destruct E as ((q & Hq & (Hk & Ha & Hl & Hs) & _) & Hon & Hoff).
    destruct (decide (c0 = c)) as [->|Hne]; [|by rewrite Hoff].
    rewrite Hon. destruct (decide (k0 = p_key p)) as [->|Hne].
    + rewrite lookup_insert_eq, Hq. cbn. unfold content. by rewrite Hk, Ha, Hl, Hs.
    + by rewrite lookup_insert_ne.
Qed.

Lemma content_run {A} (p : prg A) w :
  all_ops off_content p →
  ∀ c k, content <$> policies (state_of (run h w p)) c !! k = content <$> policies w c !! k.
Proof.
  revert w. induction p as [a| |o k IH]; intros w Hp c k0; simpl in *; [done..|].
  destruct Hp as [Ho Hk]. destruct (h w o) as [w1 x] eqn:E.
  specialize (IH x w1 (Hk x) c k0). destruct (run h w1 (k x)) as [[w2 t] r]. cbn in *.
  rewrite IH. by eapply content_call.
Qed.

Lemma hub_policies_kept w o w' x :
  off_hub o → h w o = (w', x) → ∀ k, content <$> policies w' Hub !! k = content <$> policies w Hub !! k.
Proof.
  intros Ho E k0. destruct o; try exact (content_call w _ w' x I E Hub k0); destruct c; try done.
  - apply policy_create in E. destruct x as [p'|e]; [|by rewrite E].
    destruct E as (_ & _ & _ & Hoff). by rewrite Hoff.
  - apply policy_update in E. destruct x as [p'|e]; [|by rewrite E].
    destruct E as (_ & _ & _ & Hoff). by rewrite Hoff.
  - apply policy_delete in E. destruct x as [e|]; [by rewrite (proj1 E)|].
    destruct E as [_ Hoff]. by rewrite Hoff.
Qed.

(** ** Properties *)

(** C4: however the reconciles of all controllers are interleaved, with each other and with other
    parties, no step of the addon changes what the hub says about its policies (annotations, labels
    and spec) or its Secrets: of the policies on the hub only the status is written. *)
Theorem system_keeps_hub `{!SecretServer h} (others : W → W → Prop) w0 s s' :
  sys_reachable h others w0 s → addon_step h s s' → hub_kept s.1 s'.1.
Proof.
  intros Hs Hstep.
  destruct (system_invariant h others (λ _, True) (λ _, all_ops off_hub) w0 s) as [_ Hruns]; try done.
  { apply start_off_hub. }
  { intros j o k w _ [_ Hk]. split; [done|]. apply Hk. }
  destruct Hstep as [w rs j|w rs i j o k Hi|w rs i j a Hi|w rs i j Hi]; try done.
  apply list_elem_of_lookup_2, Hruns in Hi as [Ho _]. cbn.
  destruct (h w o) as [w' x] eqn:E. split; [by eapply hub_policies_kept|by eapply hub_secrets_kept].
Qed.

(** C3: the statuses of the system are typed.  When all stored statuses are well formed (at most ten
    events per template, newest first, the compliance of the newest one, and the overall compliance
    that follows from the entries) and no other party spoils them, they stay well formed on both
    clusters in every interleaving; and then neither status-sync, whose handler dereferences the
    entries, nor spec-sync, secret-sync or the uninstall watcher ever panics. *)
Theorem system_statuses_typed `{!TimeLaws T} (others : W → W → Prop) w0 s :
  statuses_wf w0 → (∀ w w', others w w' → statuses_wf w → statuses_wf w') →
  sys_reachable h others w0 s →
  statuses_wf s.1 ∧ ∀ j, (j, Panic) ∈ s.2 → may_panic j.
Proof.
  intros H0 Hothers Hs.
  destruct (system_invariant h others statuses_wf (λ j, tame (may_panic j) (λ _, True)) w0 s)
    as [Hwf Hruns]; try done.
  - apply start_tame.
  - intros j o k w Hw [Ho Hk]. destruct (h w o) as [w' x] eqn:E.
    destruct (wf_call w o w' x Hw Ho E). cbn. auto.
  - split; [done|]. intros j Hj. exact (Hruns j Panic Hj).
Qed.

End world.

(** ** One round of spec-sync and status-sync *)

Section round.
Context {W : Type} (h : env W) `{!PolicyServer h} `{!TimeLaws T}.
Variables (r : SpecSync.PolicyReconciler) (rs : StatusSync.PolicyReconciler) (realloc : nat → bool).
Variable request : NamespacedName.
Hypothesis Hmch : OnMulticlusterhub rs = false.
Hypothesis Hns : ClusterNamespaceOnHub rs = nn_Namespace request.

(** The policy of the hub and the replicated one say the same and have the same status, with one
    well-formed entry per template. *)
Definition settled (w : W) : Prop :=
  ∃ p m, policies w Hub !! request = Some p ∧ policies w Managed !! managed_key r request = Some m ∧
    p_Annotations m = p_Annotations p ∧ p_Spec m = p_Spec p ∧ p_Status m = p_Status p ∧
    Forall2 details_for (enumerate (ps_PolicyTemplates (p_Spec p)))
      (st_Details (p_Status p)).

Lemma hub_key_managed : hub_key rs (nn_Name (managed_key r request)) = request.
Proof. unfold hub_key, managed_key. rewrite Hns. by destruct request. Qed.

(** Spec-sync first: the copies agree. *)
Lemma spec_sync_agrees w p w1 t1 :
  policies w Hub !! request = Some p →
  run h w (SpecSync.Reconcile r request) = (w1, t1, Returned done_ok) →
  Forall (λ e, failed_update e = false) t1 →
  policies w1 Hub !! request = Some p ∧
  ∃ m, policies w1 Managed !! managed_key r request = Some m ∧
    p_Annotations m = p_Annotations p ∧ p_Spec m = p_Spec p.
Proof.
  intros Hp Hrun Hok. pose proof (SpecSync.Reconcile_syncs h r w request) as Hs.
  rewrite Hrun, Hp in Hs. destruct Hs as [[Hhub _] Hs].
  destruct (Hs Hok) as (out & Hout & Hin). injection Hout as <-.
  rewrite Hhub. split; [done|]. exact (Hin eq_refl).
Qed.

(** Status-sync then: the statuses agree, and nothing else has changed. *)
Lemma status_sync_settles w p m w' t :
  policies w Hub !! request = Some p → policies w Managed !! managed_key r request = Some m →
  p_Annotations m = p_Annotations p → p_Spec m = p_Spec p →
  run h w (StatusSync.Reconcile realloc rs (managed_key r request)) = (w', t, Returned done_ok) →
  settled w'.
Proof.
  intros Hp Hm Ha Hs Hrun.
  assert (EquivalentReplicatedPolicies m p = true) as Heq by by apply EquivalentReplicatedPolicies_spec.
  pose proof (Reconcile_status h realloc rs w (managed_key r request) m p Hmch Hm) as Ho.
  rewrite hub_key_managed in Ho. specialize (Ho Hp Heq). rewrite Hrun in Ho.
  destruct Ho as [[_ [=]]|[_ (d & st & Hd & _ & Hb)]].
  destruct Hb as (m' & p' & Hm' & Hp' & Hsm & Hsp). rewrite hub_key_managed in Hp'.
  assert (all_ops off_content (StatusSync.Reconcile realloc rs (managed_key r request))) as Hoff
    by (apply status_sync_all; by intros []).
  pose proof (content_run h _ w Hoff Hub request) as Hc.
  pose proof (content_run h _ w Hoff Managed (managed_key r request)) as Hc'.
  rewrite Hrun in Hc, Hc'. cbn in Hc, Hc'. rewrite Hp, Hp' in Hc. rewrite Hm, Hm' in Hc'.
  injection Hc as _ _ Ha1 _ Hs1. injection Hc' as _ _ Ha2 _ Hs2.
  exists p', m'. split_and!; try done; try congruence.
  rewrite Hsp. cbn. by replace (p_Spec p') with (p_Spec m) by congruence.
Qed.

(** Nothing is asked of spec-sync. *)
Definition off_ask (o : op) : Prop := match o with OSendSpecSync _ => False | _ => True end.

Lemma status_sync_asks_nothing w p m :
  policies w Hub !! request = Some p → policies w Managed !! managed_key r request = Some m →
  EquivalentReplicatedPolicies m p = true →
  Forall off_ask (ops (trace_of (run h w (StatusSync.Reconcile realloc rs (managed_key r request))))).
Proof.
  intros Hp Hm Heq. rewrite StatusSync.Reconcile_run; cbv zeta.
  policy_frame_step h w1 b Hw1. destruct b; [by repeat constructor|].
  policy_frame_step h w2 x Hw2. destruct x as [e|]; [by repeat constructor|].
  assert (Forall off_ask (ops (trace_of
    (run h w2 (reconcile_batch realloc rs (managed_key r request)))))) as Hb.
  2:{ destruct (run h w2 _) as [[w3 t3] r3]. destruct (h w3 _) as [w4 y]. cbn in Hb |- *.
      repeat (constructor; [done|]). rewrite map_app. apply Forall_app. by repeat constructor. }
  assert (∀ a, all_ops off_ask (match a : result (option (Policy * option Policy)) with
    | Err err => Ret (done_err err) | Ok None => Ret done_ok
    | Ok (Some (instance, hubInstance)) =>
        if (negb (OnMulticlusterhub rs) && (hubInstance ==? None))%bool then Ret done_ok
        else
          let! details := getDetails realloc instance in
          match details with
          | Err err => Ret (done_err err)
          | Ok details =>
              let! err := updateStatuses rs
                (set_details details (st_ComplianceState (p_Status instance)) instance)
                hubInstance (p_Status instance) in
              match err with Some err => Ret (done_err err) | None => Ret done_ok end
          end
    end)) as Hrest.
  { intros [[[instance hub]|]|e]; [|done..]. case_match; [done|].
    apply all_ops_bind; [by apply getDetails_calls|]. intros [details|e]; [|done].
    apply all_ops_bind; [by apply updateStatuses_all|]. by intros [e|]. }
  unfold reconcile_batch. rewrite run_bind.
  assert (Forall off_ask (ops (trace_of (run h w2 (getInstances rs (managed_key r request)))))) as Hg.
  { unfold getInstances; cbn -[hub_key managed_key]. destruct (h w2 _) as [w3 x] eqn:E3. apply policy_get in E3 as [Hw3 E3].
    rewrite Hw2, Hw1, Hm in E3. destruct x as [m'|e]; [|by destruct (IsNotFound e); [specialize (E3 eq_refl)|repeat constructor]].
    injection E3 as <-. rewrite Hmch. cbn -[hub_key managed_key].
    rewrite hub_key_managed. destruct (h w3 _) as [w4 x] eqn:E4. apply policy_get in E4 as [Hw4 E4].
    rewrite Hw3, Hw2, Hw1, Hp in E4. destruct x as [p'|e].
    - injection E4 as <-. rewrite Heq. by repeat constructor.
    - by destruct (IsNotFound e); [specialize (E4 eq_refl)|repeat constructor]. }
  destruct (run h w2 (getInstances rs _)) as [[w3 t3] [a|]]; [|exact Hg].
  pose proof (all_ops_run h w3 _ _ (Hrest a)) as Ha. fold (@run) in Ha.
  destruct (run h w3 _) as [[w4 t4] r4] in Ha |- *. cbn in *. unfold ops in *. rewrite map_app. by apply Forall_app.
Qed.

(** C5: one round of spec-sync and status-sync brings the clusters together.  When the hub has a
    policy, the two reconciles return no error and no update of the replicated policy failed in the
    first (spec-sync does not return that error), the replicated policy has the annotations and the
    spec of the hub's, both have the same status, and the status has one well-formed entry per
    template. *)
Theorem sync_round_settles w p :
  policies w Hub !! request = Some p →
  let '(w1, t1, res1) := run h w (SpecSync.Reconcile r request) in
  let '(w2, _, res2) := run h w1 (StatusSync.Reconcile realloc rs (managed_key r request)) in
  res1 = Returned done_ok → Forall (λ e, failed_update e = false) t1 → res2 = Returned done_ok →
  settled w2.
Proof.
  intros Hp. destruct (run h w _) as [[w1 t1] res1] eqn:E1.
  destruct (run h w1 _) as [[w2 t2] res2] eqn:E2. intros -> Hok ->.
  destruct (spec_sync_agrees w p w1 t1 Hp E1 Hok) as (Hp1 & m & Hm1 & Ha & Hs).
  by eapply status_sync_settles.
Qed.

(** C6: clusters that were brought together come to rest.  Spec-sync writes nothing, status-sync does
    not ask for another sync of the spec, so neither wakes the other; and a status-sync that returns
    no error, whatever events it finds, leaves the clusters together. *)
Theorem settled_rests w :
  settled w →
  Forall (λ o, is_write o = false) (ops (trace_of (run h w (SpecSync.Reconcile r request)))) ∧
  let '(w', t, res) := run h w (StatusSync.Reconcile realloc rs (managed_key r request)) in
  (∀ k, OSendSpecSync k ∉ ops t) ∧ (res = Returned done_ok → settled w').
Proof.
  intros (p & m & Hp & Hm & Ha & Hs & Hst & _). split.
  - eapply Forall_impl; [apply (SpecSync.Reconcile_in_sync h r w request p m Hp Hm)|].
    + by apply EquivalentReplicatedPolicies_spec.
    + intros o Ho. destruct (is_write o) eqn:Ew; [|done]. destruct (Ho Ew) as [Hne _]. by rewrite Hst in Hne.
  - pose proof (status_sync_asks_nothing w p m Hp Hm) as Hq.
    destruct (run h w (StatusSync.Reconcile _ _ _)) as [[w' t] res] eqn:E. split.
    + intros k Hk. rewrite Forall_forall in Hq. apply (Hq ltac:(by apply EquivalentReplicatedPolicies_spec) _ Hk).
    + intros ->. by eapply status_sync_settles.
Qed.

End round.

End system.

(** ** Concrete runs *)

Definition demo_spec_sync : SpecSync.PolicyReconciler := SpecSync.MkReconciler "managed".
Definition demo_request : NamespacedName := NN "hub-ns" "p".
(** The hub has a policy with two templates; the managed cluster has nothing yet. *)
Definition demo_fresh : world :=
  World false {[demo_request := StatusSync.demo_policy "hub-ns" "" demo_templates]} ∅ ∅ ∅.

#[local] Instance demo_U : UnstructuredLib := unstructured_ref.
#[local] Instance demo_T : TimeLib := time_ref.
#[local] Instance demo_D : DecodeLib := demo_decode.

Definition demo_spec_run : world * trace * outcome reconciled :=
  run store_env demo_fresh (SpecSync.Reconcile demo_spec_sync demo_request).
Definition demo_status_run (w : world) : world * trace * outcome reconciled :=
  run store_env w (StatusSync.Reconcile (λ _, false) StatusSync.demo_reconciler
    (managed_key demo_spec_sync demo_request)).

Lemma sync_round_settles_witness :
  let w := state_of (demo_status_run (state_of demo_spec_run)) in
  settled store_env demo_spec_sync demo_request w ∧
  p_Status <$> (w_managed w !! NN "managed" "p") =
    Some (Status "" [Some (Details (new_meta "t1" "") "" []);
                     Some (Details (new_meta "template-1" "") "" [])] "").
Proof.
  split; [|vm_compute; reflexivity].
  assert (result_of demo_spec_run = Returned done_ok) as F1 by (vm_compute; reflexivity).
  assert (existsb failed_update (trace_of demo_spec_run) = false) as F2
    by (vm_compute; reflexivity).
  assert (result_of (demo_status_run (state_of demo_spec_run)) = Returned done_ok) as F3
    by (vm_compute; reflexivity).
  pose proof (sync_round_settles store_env demo_spec_sync StatusSync.demo_reconciler (λ _, false)
    demo_request eq_refl eq_refl demo_fresh
    (StatusSync.demo_policy "hub-ns" "" demo_templates) eq_refl) as H.
  fold demo_spec_run in H. destruct demo_spec_run as [[w1 t1] res1]. cbn [state_of fst snd] in *.
  fold (demo_status_run w1) in H. destruct (demo_status_run w1) as [[w2 t2] res2].
  apply H; [exact F1| |exact F3]. apply existsb_false. exact F2.
Defined.

(** The world at the end of the round. *)
Definition demo_settled : world := state_of (demo_status_run (state_of demo_spec_run)).

Lemma demo_settled_settled : settled store_env demo_spec_sync demo_request demo_settled.
Proof.
  eexists _, _. split; [vm_compute; reflexivity|]. split; [vm_compute; reflexivity|].
  split; [reflexivity|]. split; [reflexivity|]. split; [reflexivity|].
  assert (∀ n, good_details (Details (new_meta n "") "" [])) as Hg
    by (intros n; split; [cbn; lia|]; split; [constructor|exact I]).
  constructor; [eexists; split; [reflexivity|]; split; [reflexivity|apply (Hg "t1")]|].
  constructor; [eexists; split; [reflexivity|]; split; [reflexivity|apply (Hg "template-1")]|].
  constructor.
Qed.

Lemma settled_rests_witness :
  ops (trace_of (run store_env demo_settled (SpecSync.Reconcile demo_spec_sync demo_request))) ≠ [] ∧
  Forall (λ o, is_write o = false)
    (ops (trace_of (run store_env demo_settled (SpecSync.Reconcile demo_spec_sync demo_request)))).
Proof.
  split; [vm_compute; discriminate|].
  pose proof (settled_rests (U := demo_U) (T := demo_T) (D := demo_D) store_env demo_spec_sync
    StatusSync.demo_reconciler (λ _, false) demo_request eq_refl eq_refl demo_settled) as H.
  destruct (H demo_settled_settled) as [Hquiet _]. exact Hquiet.
Defined.

(** Spec-sync alone, then two runs of status-sync whose calls take turns. *)
#[local] Instance demo_L : GatekeeperLib := demo_gk_lib.
#[local] Instance demo_R : MapRange := range_ref.
#[local] Instance demo_F : FmtLib := fmt_ref.
#[local] Instance demo_S : SchemeLib := empty_scheme.
#[local] Instance demo_O : OwnerLib := owner_ref.

Definition demo_status_job : job :=
  StatusSyncJob (λ _, false) StatusSync.demo_reconciler (managed_key demo_spec_sync demo_request).
Definition demo_schedule : list (job + nat) :=
  [inl (SpecSyncJob demo_spec_sync demo_request)] ++ replicate 6 (inr 0) ++
  [inl demo_status_job; inl demo_status_job] ++ concat (replicate 12 [inr 0; inr 1]) ++
  [inr 0; inr 0].
Definition demo_system (n : nat) : world * list (job * prg reconciled) :=
  default (demo_fresh, []) (schedule store_env (demo_fresh, []) (take n demo_schedule)).

Lemma demo_system_reachable n :
  is_Some (schedule store_env (demo_fresh, []) (take n demo_schedule)) →
  sys_reachable store_env (λ _ _, False) demo_fresh (demo_system n).
Proof.
  intros [s Hs]. apply (schedule_reachable store_env _ demo_fresh (take n demo_schedule)).
  unfold demo_system. by rewrite Hs.
Qed.

Lemma demo_fresh_wf : statuses_wf store_env demo_fresh.
Proof.
  intros c k p Hp. apply map_lookup_filter_Some in Hp as [Hp _].
  destruct c; [|by destruct (lookup_empty_Some k p Hp)].
  change (({[demo_request := StatusSync.demo_policy "hub-ns" "" demo_templates]} : gmap _ _) !! k = Some p) in Hp.
  apply lookup_singleton_Some in Hp as [_ <-].
  split; [constructor|by left].
Qed.

Lemma system_statuses_typed_witness :
  let s := demo_system 35 in
  statuses_wf store_env s.1 ∧ length s.2 = 0 ∧
  p_Status <$> (w_hub s.1 !! demo_request) =
    Some (Status "" [Some (Details (new_meta "t1" "") "" []);
                     Some (Details (new_meta "template-1" "") "" [])] "").
Proof.
  split; [|vm_compute; split; reflexivity].
  destruct (system_statuses_typed store_env (λ _ _, False) demo_fresh (demo_system 35) demo_fresh_wf)
    as [Hwf _]; [intros w w' []| |exact Hwf].
  apply demo_system_reachable. vm_compute. by eexists.
Defined.

(** A step writes a status to the hub, and its policies say what they did. *)
Lemma system_keeps_hub_witness :
  let s := demo_system 27 in
  ∃ s', sys_turn store_env s (inr 0) = Some s' ∧ hub_kept store_env s.1 s'.1 ∧
    w_hub s'.1 !! demo_request ≠ w_hub s.1 !! demo_request.
Proof.
  intros s. destruct (sys_turn store_env s (inr 0)) as [s'|] eqn:E.
  2:{ exfalso. revert E. vm_compute. discriminate. }
  exists s'. split; [reflexivity|]. split.
  - apply (system_keeps_hub store_env (λ _ _, False) demo_fresh s s').
    + apply demo_system_reachable. vm_compute. by eexists.
    + exact (sys_turn_step store_env s (inr 0) s' E).
  - assert (option_map (λ s', bool_decide (w_hub s'.1 !! demo_request = w_hub s.1 !! demo_request))
      (sys_turn store_env s (inr 0)) = Some false) as H by (vm_compute; reflexivity).
    rewrite E in H. cbn in H. injection H as H. by apply bool_decide_eq_false in H.
Defined.
